(** * Sesame API: access control and resource mutation over a relational store

    A shallow embedding of the CRUD layer of the list-sharing backend
    ([app/crud/crud_list.py], [app/crud/crud_place.py], [app/crud/crud_user.py])
    and of the endpoint code that sits directly above it.

    The Python code is a sequence of SQL statements sent over one
    connection, glued together with [if], [try]/[except] and [raise].  It is
    embedded as a program tree ([Prog]) whose nodes are the statements; every
    statement carries its SQL text and its meaning as a function on the
    tables.  Running a program threads the tables, a clock (for [now()]) and
    the log of statements that were sent. *)

From Stdlib Require Import ZArith List String Ascii Bool Lia Permutation Sorted.
From Stdlib Require Import DecimalString DecimalNat.
Import ListNotations.
Local Open Scope string_scope.
Local Open Scope list_scope.
Local Open Scope Z_scope.


Infix "+++" := String.append (at level 60, right associativity).

(* ------------------------------------------------------------------------- *)
(** ** Exceptions                                                             *)
(* ------------------------------------------------------------------------- *)

(** Everything [raise] can throw in the modelled code: the driver's
    [asyncpg] errors, the custom error classes of the three CRUD modules
    (each module declares its own [DatabaseInteractionError]), Python's
    [ValueError] and FastAPI's [HTTPException]. *)
Inductive exn : Type :=
| UniqueViolationError (message : string)
| ForeignKeyViolationError (message : string)
| CheckViolationError (constraint_name : string)
| InvalidRowCountError (message : string)
| ListNotFoundError (args : list Z)
| ListAccessDeniedError (args : list Z)
| CollaboratorAlreadyExistsError (message : string)
| List_DatabaseInteractionError (message : string)
| PlaceNotFoundError (message : string)
| PlaceAlreadyExistsError (message : string)
| InvalidPlaceDataError (message : string)
| Place_DatabaseInteractionError (message : string)
| UserNotFoundError (message : string)
| UsernameAlreadyExistsError (message : string)
| User_DatabaseInteractionError (message : string)
| ValueError (message : string)
| HTTPException (status_code : Z) (detail : string).

(** [str(e)] for the driver's errors. *)
Definition str_exn (e : exn) : string :=
  match e with
  | UniqueViolationError m | ForeignKeyViolationError m
  | InvalidRowCountError m => m
  | CheckViolationError c => "new row violates check constraint " +++ c
  | CollaboratorAlreadyExistsError m | List_DatabaseInteractionError m
  | PlaceNotFoundError m | PlaceAlreadyExistsError m | InvalidPlaceDataError m
  | Place_DatabaseInteractionError m | UserNotFoundError m
  | UsernameAlreadyExistsError m | User_DatabaseInteractionError m
  | ValueError m => m
  | HTTPException _ d => d
  | ListNotFoundError _ | ListAccessDeniedError _ => ""
  end.

(* ------------------------------------------------------------------------- *)
(** ** Strings                                                                *)
(* ------------------------------------------------------------------------- *)

Fixpoint prefixb (p s : string) : bool :=
  match p, s with
  | EmptyString, _ => true
  | String a p', String b s' => Ascii.eqb a b && prefixb p' s'
  | String _ _, EmptyString => false
  end.

(** Python's [needle in haystack] on strings. *)
Fixpoint str_in (needle haystack : string) : bool :=
  prefixb needle haystack ||
  match haystack with
  | EmptyString => false
  | String _ rest => str_in needle rest
  end.

(** [s.split(" ")]: cut at every single space. *)
Fixpoint split_space (s : string) : list string :=
  match s with
  | EmptyString => [EmptyString]
  | String c rest =>
      if Ascii.eqb c " "%char then EmptyString :: split_space rest
      else match split_space rest with
           | [] => [String c EmptyString]
           | w :: ws => String c w :: ws
           end
  end.

(** [str(n)] and [int(s)] for a row count. [int] fails (Python raises
    [ValueError]) on text that is not a digit string. *)
Definition str_nat (n : nat) : string := NilZero.string_of_uint (Nat.to_uint n).

Definition int_of_str (s : string) : option Z :=
  match NilZero.uint_of_string s with
  | Some d => Some (Z.of_nat (Nat.of_uint d))
  | None => None
  end.

Definition lower_ascii (c : ascii) : ascii :=
  let n := nat_of_ascii c in
  if (Nat.leb 65 n && Nat.leb n 90)%bool then ascii_of_nat (n + 32) else c.

(** [str.lower()] and SQL [LOWER] on text of ASCII characters: the letters
    [A] to [Z] are mapped, every other character is kept.  On other text
    Python lowers by the Unicode tables; what is proved about text that the
    code lowers with [str.lower()] is stated for ASCII text ([ascii_only]). *)
Fixpoint lower (s : string) : string :=
  match s with
  | EmptyString => EmptyString
  | String c rest => String (lower_ascii c) (lower rest)
  end.

(** The text holds ASCII characters only. *)
Fixpoint ascii_only (s : string) : bool :=
  match s with
  | EmptyString => true
  | String c rest => Nat.ltb (nat_of_ascii c) 128 && ascii_only rest
  end.

(** SQL [text LIKE pattern]: [%] matches any run of characters, [_] any
    single character. *)
Fixpoint sql_like (pattern : string) : string -> bool :=
  match pattern with
  | EmptyString => fun s => match s with EmptyString => true | _ => false end
  | String c pattern' =>
      if Ascii.eqb c "%"%char then
        fix any (s : string) : bool :=
          sql_like pattern' s ||
          match s with
          | EmptyString => false
          | String _ s' => any s'
          end
      else
        fun s =>
          match s with
          | EmptyString => false
          | String d s' =>
              (Ascii.eqb c "_"%char || Ascii.eqb c d) && sql_like pattern' s'
          end
  end.

(** A comparison against a nullable column is not true when the column is
    [NULL]. *)
Definition null_or {A} (f : A -> bool) (o : option A) : bool :=
  match o with Some a => f a | None => false end.

Definition opt_eqb {A} (eqb : A -> A -> bool) (x y : option A) : bool :=
  match x, y with
  | Some a, Some b => eqb a b
  | None, None => true
  | _, _ => false
  end.

(* ------------------------------------------------------------------------- *)
(** ** Tables                                                                 *)
(* ------------------------------------------------------------------------- *)

(** Rows carry the columns the CRUD code reads or writes.  Timestamps are
    integers (ticks of the clock); coordinates are kept as integers too, the
    code only passes them through. *)

Record UserRow := mkUser {
  u_id : Z;
  u_email : string;
  u_firebase_uid : option string;
  u_username : option string;
  u_display_name : option string;
  u_profile_picture : option string;
  u_created_at : Z;
  u_updated_at : Z
}.

Record ListRow := mkList {
  l_id : Z;
  l_name : option string;
  l_description : option string;
  l_owner_id : Z;
  l_is_private : option bool;
  l_created_at : Z;
  l_updated_at : option Z
}.

Record CollaboratorRow := mkCollab {
  lc_list_id : Z;
  lc_user_id : Z
}.

Record PlaceRow := mkPlace {
  p_id : Z;
  p_list_id : Z;
  p_place_id : string;
  p_name : string;
  p_address : string;
  p_latitude : Z;
  p_longitude : Z;
  p_rating : option string;
  p_notes : option string;
  p_visit_status : option string;
  p_created_at : Z;
  p_updated_at : Z
}.

Record FollowRow := mkFollow {
  f_follower_id : Z;
  f_followed_id : Z;
  f_created_at : Z
}.

Record NotificationRow := mkNotification {
  n_id : Z;
  n_user_id : Z;
  n_title : string;
  n_message : string;
  n_is_read : bool;
  n_timestamp : Z
}.

(** Modelled from the spec: the migrations that create [users], [lists],
    [list_collaborators], [places], [user_follows] and [notifications] are
    not part of the sources.  The store enforces what the specification's
    external-interface section lists: unique e-mail, unique external
    identity, unique (list, user) membership, unique (list, external place
    reference), foreign keys from memberships, places and follow edges to
    their parents, and check constraints on a place's enumerated fields.
    The name under which the (list, external place reference) constraint is
    reported and the check predicate are data of the schema. *)
Record Schema := mkSchema {
  places_unique_name : string;
  places_check : PlaceRow -> option string
}.

Record DB := mkDB {
  schema : Schema;
  users : list UserRow;
  lists : list ListRow;
  list_collaborators : list CollaboratorRow;
  places : list PlaceRow;
  user_follows : list FollowRow;
  notifications : list NotificationRow;
  users_id_seq : Z;
  lists_id_seq : Z;
  places_id_seq : Z
}.

Definition set_users (d : DB) (us : list UserRow) (seq : Z) : DB :=
  mkDB (schema d) us (lists d) (list_collaborators d) (places d)
       (user_follows d) (notifications d) seq (lists_id_seq d) (places_id_seq d).

Definition set_lists (d : DB) (ls : list ListRow) (seq : Z) : DB :=
  mkDB (schema d) (users d) ls (list_collaborators d) (places d)
       (user_follows d) (notifications d) (users_id_seq d) seq (places_id_seq d).

Definition set_list_collaborators (d : DB) (cs : list CollaboratorRow) : DB :=
  mkDB (schema d) (users d) (lists d) cs (places d)
       (user_follows d) (notifications d)
       (users_id_seq d) (lists_id_seq d) (places_id_seq d).

Definition set_places (d : DB) (ps : list PlaceRow) (seq : Z) : DB :=
  mkDB (schema d) (users d) (lists d) (list_collaborators d) ps
       (user_follows d) (notifications d) (users_id_seq d) (lists_id_seq d) seq.

Definition set_user_follows (d : DB) (fs : list FollowRow) : DB :=
  mkDB (schema d) (users d) (lists d) (list_collaborators d) (places d)
       fs (notifications d)
       (users_id_seq d) (lists_id_seq d) (places_id_seq d).

(* ------------------------------------------------------------------------- *)
(** ** SQL building blocks                                                    *)
(* ------------------------------------------------------------------------- *)

(** A statement maps the tables and the current time to a result, or a
    driver error, and the tables afterwards.  A statement that fails leaves
    the tables as they were. *)
Definition Stmt (X : Type) : Type := DB -> Z -> (exn + X) * DB.

Definition query {X} (f : DB -> X) : Stmt X := fun d _ => (inr (f d), d).

(** [fetchrow]/[fetchval] keep the first row of a result. *)
Definition first_row {A} (rows : list A) : option A := hd_error rows.

Definition count {A} (rows : list A) : Z := Z.of_nat (List.length rows).

Fixpoint insert_sorted {A} (le : A -> A -> bool) (x : A) (l : list A) : list A :=
  match l with
  | [] => [x]
  | y :: l' => if le x y then x :: l else y :: insert_sorted le x l'
  end.

(** [ORDER BY]: rows sorted by the comparison [le].  The sort is stable:
    rows that tie under [le] keep the order they come in. *)
Fixpoint order_by {A} (le : A -> A -> bool) (l : list A) : list A :=
  match l with
  | [] => []
  | x :: l' => insert_sorted le x (order_by le l')
  end.

(** SQL leaves the order of rows that tie on the [ORDER BY] keys open, and
    the store may order them differently in each [LIMIT]/[OFFSET] query.  A
    query whose keys can tie takes, as a parameter, the order in which
    the store hands the selected rows to the sort -- any order, as long as
    it hands over the rows it is given.  The listings that sort by a unique
    key need none: their result does not depend on it. *)
Definition scans {A} (scan : list A -> list A) : Prop :=
  forall rows, Permutation (scan rows) rows.

(** [LIMIT n OFFSET m]; the engine rejects a negative count. *)
Definition limit_offset {A} (n m : Z) (rows : list A) : exn + list A :=
  if n <? 0 then inl (InvalidRowCountError "LIMIT must not be negative")
  else if m <? 0 then inl (InvalidRowCountError "OFFSET must not be negative")
  else inr (firstn (Z.to_nat n) (skipn (Z.to_nat m) rows)).

(** [a LEFT JOIN b ON on]: every left row, paired with each matching right
    row, or with [NULL]s when none matches. *)
Definition left_join {A B} (on : A -> B -> bool) (la : list A) (lb : list B)
  : list (A * option B) :=
  flat_map (fun a =>
              match filter (on a) lb with
              | [] => [(a, None)]
              | bs => map (fun b => (a, Some b)) bs
              end) la.

(** [a JOIN b ON on]. *)
Definition inner_join {A B} (on : A -> B -> bool) (la : list A) (lb : list B)
  : list (A * B) :=
  flat_map (fun a => map (fun b => (a, b)) (filter (on a) lb)) la.

(** The command tag the driver returns from [execute]. *)
Definition command_tag (verb : string) (rows : nat) : string :=
  verb +++ " " +++ str_nat rows.

(** [int(status.split(" ")[1])]. *)
Definition tag_count (status : string) : option Z :=
  match nth_error (split_space status) 1 with
  | Some w => int_of_str w
  | None => None
  end.

Definition dquote : string := String (ascii_of_nat 34) EmptyString.

Definition unique_violation (constraint : string) : exn :=
  UniqueViolationError
    ("duplicate key value violates unique constraint " +++ dquote +++ constraint +++ dquote).

Definition foreign_key_violation (constraint : string) : exn :=
  ForeignKeyViolationError
    ("insert or update violates foreign key constraint " +++ dquote +++ constraint +++ dquote).

(* ------------------------------------------------------------------------- *)
(** ** Programs                                                               *)
(* ------------------------------------------------------------------------- *)

(** A CRUD or endpoint function is a tree: it returns, raises, sends a
    statement and continues with the driver's answer, or opens and closes a
    transaction. *)
Inductive Prog (A : Type) : Type :=
| Ret (a : A)
| Raise (e : exn)
| Exec (X : Type) (sql : string) (s : Stmt X) (k : exn + X -> Prog A)
| TxBegin (k : Prog A)
| TxCommit (k : Prog A)
| TxRollback (k : Prog A).

Arguments Ret {A} a.
Arguments Raise {A} e.
Arguments Exec {A X} sql s k.
Arguments TxBegin {A} k.
Arguments TxCommit {A} k.
Arguments TxRollback {A} k.

Fixpoint bind {A B} (p : Prog A) (f : A -> Prog B) : Prog B :=
  match p with
  | Ret a => f a
  | Raise e => Raise e
  | Exec sql s k => Exec sql s (fun r => bind (k r) f)
  | TxBegin k => TxBegin (bind k f)
  | TxCommit k => TxCommit (bind k f)
  | TxRollback k => TxRollback (bind k f)
  end.

Notation "x <- p ;; q" := (bind p (fun x => q))
  (at level 61, p at next level, right associativity).
Notation "p ;; q" := (bind p (fun _ => q))
  (at level 61, right associativity).

(** [try: p except e: h e].  An exception raised by the handler itself is
    not caught again. *)
Fixpoint try_except {A} (p : Prog A) (h : exn -> Prog A) : Prog A :=
  match p with
  | Ret a => Ret a
  | Raise e => h e
  | Exec sql s k => Exec sql s (fun r => try_except (k r) h)
  | TxBegin k => TxBegin (try_except k h)
  | TxCommit k => TxCommit (try_except k h)
  | TxRollback k => TxRollback (try_except k h)
  end.

(** [await db.fetchval(...)], [db.fetchrow], [db.fetch], [db.execute]: send
    the statement; a driver error is raised at the call. *)
Definition db_call {X} (sql : string) (s : Stmt X) : Prog X :=
  Exec sql s (fun r => match r with inl e => Raise e | inr x => Ret x end).

Definition fetchval {X} := @db_call X.
Definition fetchrow {X} := @db_call X.
Definition fetch {X} := @db_call X.
Definition execute {X} := @db_call X.

(** [async with db.transaction(): body] *)
Definition transaction {A} (body : Prog A) : Prog A :=
  TxBegin
    (try_except (a <- body ;; TxCommit (Ret a))
                (fun e => TxRollback (Raise e))).

(** The connection: tables, clock, the tables as they were when the open
    transaction began, and the statements sent so far (latest first). *)
Record World := mkWorld {
  db : DB;
  clock : Z;
  saved : option DB;
  log : list string
}.

Definition sent (sql : string) (d : DB) (sv : option DB) (w : World) : World :=
  mkWorld d (clock w + 1) sv (sql :: log w).

(** One request running alone on the store. *)
Fixpoint run {A} (p : Prog A) (w : World) : (exn + A) * World :=
  match p with
  | Ret a => (inr a, w)
  | Raise e => (inl e, w)
  | Exec sql s k =>
      let '(r, d) := s (db w) (clock w) in
      run (k r) (sent sql d (saved w) w)
  | TxBegin k => run k (sent "BEGIN" (db w) (Some (db w)) w)
  | TxCommit k => run k (sent "COMMIT" (db w) None w)
  | TxRollback k =>
      run k (sent "ROLLBACK"
                  (match saved w with Some d => d | None => db w end) None w)
  end.

(** The same request with other clients committing in between: before the
    [n]-th statement is executed, [env n] is applied to the store (and to
    the tables a rollback would restore, which are not the other clients'
    to lose). *)
Definition interfere (env : nat -> DB -> DB) (w : World) : World :=
  let f := env (List.length (log w)) in
  mkWorld (f (db w)) (clock w) (option_map f (saved w)) (log w).

Fixpoint run_env {A} (env : nat -> DB -> DB) (p : Prog A) (w : World)
  : (exn + A) * World :=
  match p with
  | Ret a => (inr a, w)
  | Raise e => (inl e, w)
  | Exec sql s k =>
      let w0 := interfere env w in
      let '(r, d) := s (db w0) (clock w0) in
      run_env env (k r) (sent sql d (saved w0) w0)
  | TxBegin k =>
      let w0 := interfere env w in
      run_env env k (sent "BEGIN" (db w0) (Some (db w0)) w0)
  | TxCommit k =>
      let w0 := interfere env w in
      run_env env k (sent "COMMIT" (db w0) None w0)
  | TxRollback k =>
      let w0 := interfere env w in
      run_env env k
        (sent "ROLLBACK"
              (match saved w0 with Some d => d | None => db w0 end) None w0)
  end.

Definition result {A} (r : (exn + A) * World) : exn + A := fst r.
Definition after {A} (r : (exn + A) * World) : World := snd r.

(* ------------------------------------------------------------------------- *)
(** ** Python values                                                          *)
(* ------------------------------------------------------------------------- *)

(** A field of a request model: left out of the payload, or given (possibly
    as an explicit [null]).  [model_dump(exclude_unset=True)] keeps exactly
    the given ones. *)
Inductive field (A : Type) : Type :=
| unset
| given (v : A).

Arguments unset {A}.
Arguments given {A} v.

Definition is_given {A} (f : field A) : bool :=
  match f with unset => false | given _ => true end.

(** [sep.join(parts)] *)
Fixpoint join (sep : string) (parts : list string) : string :=
  match parts with
  | [] => ""
  | [p] => p
  | p :: rest => p +++ sep +++ join sep rest
  end.

(** [f"${idx}"] *)
Definition dollar (idx : nat) : string := "$" +++ str_nat idx.

(** [math.ceil(total_items / page_size) if page_size > 0 else 0], for
    counts small enough that the float quotient is exact. *)
Definition total_pages_of (total_items page_size : Z) : Z :=
  if 0 <? page_size then (total_items + page_size - 1) / page_size else 0.

(** [str(n)] for an [int]. *)
Definition str_int (n : Z) : string :=
  if n <? 0 then "-" +++ str_nat (Z.to_nat (- n)) else str_nat (Z.to_nat n).

(** [s.split(" ", 1)]: cut at the first space only. *)
Fixpoint split_first_space (s : string) : list string :=
  match s with
  | EmptyString => [EmptyString]
  | String c rest =>
      if Ascii.eqb c " "%char then [EmptyString; rest]
      else match split_first_space rest with
           | [] => [String c EmptyString]
           | w :: ws => String c w :: ws
           end
  end.

(** [bool(v)] for what [fetchval] hands back from a [SELECT 1 ...]: [None]
    when there is no row. *)
Definition bool_of_fetchval (v : option Z) : bool :=
  match v with
  | None | Some 0 => false
  | Some _ => true
  end.

(** [str(exc)] for an exception built from integer arguments: nothing, the
    one argument, or the tuple. *)
Definition str_args (args : list Z) : string :=
  match args with
  | [] => ""
  | [a] => str_int a
  | _ => "(" +++ join ", " (map str_int args) +++ ")"
  end.

(* ------------------------------------------------------------------------- *)
(** ** [app/crud/crud_list.py]                                               *)
(* ------------------------------------------------------------------------- *)

Module crud_list.

(** What [get_list_details] and [update_list] return: the list's columns
    plus the collaborator e-mails. *)
Record ListDetails := mkDetails {
  d_id : Z;
  d_name : option string;
  d_description : option string;
  d_is_private : option bool;
  d_collaborators : list string
}.

(** A row of the paginated listings. *)
Record ListView := mkView {
  v_id : Z;
  v_name : option string;
  v_description : option string;
  v_is_private : option bool;
  v_place_count : Z
}.

(** [schemas.list.ListUpdate] *)
Record ListUpdate := mkListUpdate {
  name : field (option string);
  isPrivate : field (option bool)
}.

Definition DatabaseInteractionError := List_DatabaseInteractionError.

(** *** Statements *)

Definition sql_collaborator_emails :=
  "SELECT u.email FROM list_collaborators lc JOIN users u ON lc.user_id = u.id WHERE lc.list_id = $1".

Definition collaborator_emails (list_id : Z) (d : DB) : list string :=
  map (fun r => u_email (snd r))
      (filter (fun r => lc_list_id (fst r) =? list_id)
              (inner_join (fun lc u => lc_user_id lc =? u_id u)
                          (list_collaborators d) (users d))).

Definition select_collaborator_emails (list_id : Z) : Stmt (list string) :=
  query (collaborator_emails list_id).

Definition sql_list_by_id :=
  "SELECT id, owner_id, name, description, is_private FROM lists WHERE id = $1".

Definition sql_list_details :=
  "SELECT id, name, description, is_private FROM lists WHERE id = $1".

Definition select_list_by_id (list_id : Z) : Stmt (option ListRow) :=
  query (fun d => first_row (filter (fun l => l_id l =? list_id) (lists d))).

(** [ORDER BY l.created_at DESC, l.id DESC]: [a] is listed before [b]. *)
Definition _ORDER_BY (a b : ListRow) : bool :=
  (l_created_at b <? l_created_at a) ||
  ((l_created_at a =? l_created_at b) && (l_id b <=? l_id a)).

(** [(SELECT COUNT( * ) FROM places p WHERE p.list_id = l.id) AS place_count] *)
Definition list_view (d : DB) (l : ListRow) : ListView :=
  mkView (l_id l) (l_name l) (l_description l) (l_is_private l)
         (count (filter (fun p => p_list_id p =? l_id l) (places d))).

(** The rows a listing ranges over, in listing order. *)
Definition listed (where_ : ListRow -> bool) (d : DB) : list ListView :=
  map (list_view d) (order_by _ORDER_BY (filter where_ (lists d))).

Definition select_count_lists (where_ : ListRow -> bool) : Stmt Z :=
  query (fun d => count (filter where_ (lists d))).

Definition select_lists_page (where_ : ListRow -> bool) (page_size offset : Z)
  : Stmt (list ListView) :=
  fun d _ => (limit_offset page_size offset (listed where_ d), d).

Definition owned_by (owner_id : Z) (l : ListRow) : bool := l_owner_id l =? owner_id.

Definition is_public (l : ListRow) : bool := null_or negb (l_is_private l).

Definition public_or_owned (user_id : Z) (l : ListRow) : bool :=
  is_public l || (l_owner_id l =? user_id).

Definition matches (q_like : string) (user_id : option Z) (l : ListRow) : bool :=
  (null_or (fun n => sql_like q_like (lower n)) (l_name l) ||
   null_or (fun t => sql_like q_like (lower t)) (l_description l)) &&
  match user_id with
  | None => is_public l
  | Some u => public_or_owned u l
  end.

(** [SET name = .., is_private = .., updated_at = now()] on one row, for the
    columns the payload gives. *)
Definition set_list (name : field (option string)) (is_private : field (option bool))
  (now : Z) (l : ListRow) : ListRow :=
  mkList (l_id l)
         (match name with given v => v | unset => l_name l end)
         (l_description l) (l_owner_id l)
         (match is_private with given v => v | unset => l_is_private l end)
         (l_created_at l) (Some now).

Definition update_lists (name : field (option string))
  (is_private : field (option bool)) (list_id : Z)
  : Stmt (option ListRow) :=
  fun d now =>
    let ls := map (fun l => if l_id l =? list_id
                            then set_list name is_private now l else l)
                  (lists d) in
    (inr (first_row (filter (fun l => l_id l =? list_id) ls)),
     set_lists d ls (lists_id_seq d)).

Definition sql_user_id_by_email := "SELECT id FROM users WHERE email = $1".

Definition select_user_id_by_email (email : string) : Stmt (option Z) :=
  query (fun d =>
    first_row (map u_id (filter (fun u => String.eqb (u_email u) email) (users d)))).

Definition sql_insert_placeholder :=
  "INSERT INTO users (email, created_at, updated_at) VALUES ($1, now(), now()) ON CONFLICT (email) DO UPDATE SET updated_at = now() RETURNING id".

Definition insert_placeholder_user (email : string) : Stmt Z :=
  fun d now =>
    match first_row (filter (fun u => String.eqb (u_email u) email) (users d)) with
    | Some u =>
        (inr (u_id u),
         set_users d
           (map (fun u' =>
                   if String.eqb (u_email u') email then
                     mkUser (u_id u') (u_email u') (u_firebase_uid u')
                            (u_username u') (u_display_name u')
                            (u_profile_picture u') (u_created_at u') now
                   else u') (users d))
           (users_id_seq d))
    | None =>
        let id := users_id_seq d in
        (inr id,
         set_users d (users d ++ [mkUser id email None None None None now now])
                   (id + 1))
    end.

Definition sql_owner_of := "SELECT owner_id FROM lists WHERE id = $1".

Definition select_owner_of (list_id : Z) : Stmt (option Z) :=
  query (fun d =>
    first_row (map l_owner_id (filter (fun l => l_id l =? list_id) (lists d)))).

Definition sql_collaborator_exists :=
  "SELECT EXISTS ( SELECT 1 FROM list_collaborators WHERE list_id = $1 AND user_id = $2 )".

Definition is_collaborator_row (list_id user_id : Z) (lc : CollaboratorRow) : bool :=
  (lc_list_id lc =? list_id) && (lc_user_id lc =? user_id).

Definition select_collaborator_exists (list_id user_id : Z) : Stmt bool :=
  query (fun d => existsb (is_collaborator_row list_id user_id) (list_collaborators d)).

Definition sql_insert_collaborator :=
  "INSERT INTO list_collaborators (list_id, user_id) VALUES ($1, $2)".

Definition insert_collaborator (list_id user_id : Z) : Stmt string :=
  fun d _ =>
    if existsb (is_collaborator_row list_id user_id) (list_collaborators d) then
      (inl (unique_violation "list_collaborators_pkey"), d)
    else if negb (existsb (fun l => l_id l =? list_id) (lists d)) then
      (inl (foreign_key_violation "list_collaborators_list_id_fkey"), d)
    else if negb (existsb (fun u => u_id u =? user_id) (users d)) then
      (inl (foreign_key_violation "list_collaborators_user_id_fkey"), d)
    else
      (inr (command_tag "INSERT 0" 1),
       set_list_collaborators d (list_collaborators d ++ [mkCollab list_id user_id])).

Definition sql_owner_match :=
  "SELECT EXISTS (SELECT 1 FROM lists WHERE id = $1 AND owner_id = $2)".

Definition select_owner_match (list_id user_id : Z) : Stmt bool :=
  query (fun d =>
    existsb (fun l => (l_id l =? list_id) && (l_owner_id l =? user_id)) (lists d)).

Definition sql_list_exists := "SELECT EXISTS (SELECT 1 FROM lists WHERE id = $1)".

Definition select_list_exists (list_id : Z) : Stmt bool :=
  query (fun d => existsb (fun l => l_id l =? list_id) (lists d)).

Definition sql_access :=
  "SELECT 1 FROM lists l LEFT JOIN list_collaborators lc ON lc.list_id = l.id AND lc.user_id = $2 WHERE l.id = $1 AND (l.owner_id = $2 OR lc.user_id IS NOT NULL)".

Definition select_access (list_id user_id : Z) : Stmt (option Z) :=
  query (fun d =>
    first_row
      (map (fun _ => 1)
         (filter (fun r =>
                    (l_id (fst r) =? list_id) &&
                    ((l_owner_id (fst r) =? user_id) ||
                     match snd r with Some _ => true | None => false end))
                 (left_join (fun l lc =>
                               (lc_list_id lc =? l_id l) && (lc_user_id lc =? user_id))
                            (lists d) (list_collaborators d))))).

Definition sql_one_list := "SELECT 1 FROM lists WHERE id = $1".

Definition select_one_list (list_id : Z) : Stmt (option Z) :=
  query (fun d =>
    first_row (map (fun _ => 1) (filter (fun l => l_id l =? list_id) (lists d)))).

(** *** Functions *)

Definition _get_collaborator_emails (list_id : Z) : Prog (list string) :=
  try_except
    (rows <- fetch sql_collaborator_emails (select_collaborator_emails list_id) ;;
     Ret rows)
    (fun exc => Raise (DatabaseInteractionError "Database error fetching collaborators.")).

Definition get_list_by_id (list_id : Z) : Prog (option ListRow) :=
  try_except
    (fetchrow sql_list_by_id (select_list_by_id list_id))
    (fun exc => Raise (DatabaseInteractionError "Database error fetching list by ID.")).

Definition get_list_details (list_id : Z) : Prog (option ListDetails) :=
  try_except
    (rec <- fetchrow sql_list_details (select_list_by_id list_id) ;;
     match rec with
     | None => Ret None
     | Some l =>
         collaborators <- _get_collaborator_emails list_id ;;
         Ret (Some (mkDetails (l_id l) (l_name l) (l_description l)
                              (l_is_private l) collaborators))
     end)
    (fun exc =>
       match exc with
       | List_DatabaseInteractionError _ => Raise exc
       | _ => Raise (DatabaseInteractionError "Database error fetching list details.")
       end).

Definition sql_page (where_sql : string) (limit_idx : nat) : string :=
  "SELECT l.id, l.name, l.description, l.is_private, (SELECT COUNT(*) FROM places p WHERE p.list_id = l.id) AS place_count FROM lists l WHERE "
  +++ where_sql +++ " ORDER BY l.created_at DESC, l.id DESC LIMIT "
  +++ dollar limit_idx +++ " OFFSET " +++ dollar (S limit_idx).

Definition get_user_lists_paginated (owner_id page page_size : Z)
  : Prog (list ListView * Z) :=
  let offset := (page - 1) * page_size in
  try_except
    (total <- fetchval "SELECT COUNT(*) FROM lists WHERE owner_id = $1"
                       (select_count_lists (owned_by owner_id)) ;;
     if total =? 0 then Ret ([], 0)
     else
       rows <- fetch (sql_page "l.owner_id = $1" 2)
                     (select_lists_page (owned_by owner_id) page_size offset) ;;
       Ret (rows, total))
    (fun exc => Raise (DatabaseInteractionError "Database error fetching user lists.")).

Definition get_public_lists_paginated (page page_size : Z)
  : Prog (list ListView * Z) :=
  let offset := (page - 1) * page_size in
  try_except
    (total <- fetchval "SELECT COUNT(*) FROM lists WHERE is_private = FALSE"
                       (select_count_lists is_public) ;;
     if total =? 0 then Ret ([], 0)
     else
       rows <- fetch (sql_page "l.is_private = FALSE" 1)
                     (select_lists_page is_public page_size offset) ;;
       Ret (rows, total))
    (fun exc => Raise (DatabaseInteractionError "Database error fetching public lists.")).

Definition search_lists_paginated (query : string) (user_id : option Z)
  (page page_size : Z) : Prog (list ListView * Z) :=
  let offset := (page - 1) * page_size in
  let q_like := "%" +++ lower query +++ "%" in
  let where_parts :=
    ["(LOWER(l.name) LIKE $1 OR LOWER(l.description) LIKE $1)"] ++
    match user_id with
    | None => ["l.is_private = FALSE"]
    | Some _ => ["(l.is_private = FALSE OR l.owner_id = $2)"]
    end in
  let params := match user_id with None => 1%nat | Some _ => 2%nat end in
  let where_sql := join " AND " where_parts in
  try_except
    (total <- fetchval ("SELECT COUNT(*) FROM lists l WHERE " +++ where_sql)
                       (select_count_lists (matches q_like user_id)) ;;
     if total =? 0 then Ret ([], 0)
     else
       rows <- fetch (sql_page where_sql (S params))
                     (select_lists_page (matches q_like user_id) page_size offset) ;;
       Ret (rows, total))
    (fun exc => Raise (DatabaseInteractionError "Database error searching lists.")).

Definition get_recent_lists_paginated (user_id page page_size : Z)
  : Prog (list ListView * Z) :=
  let offset := (page - 1) * page_size in
  try_except
    (total <- fetchval "SELECT COUNT(*) FROM lists l WHERE l.is_private = FALSE OR l.owner_id = $1"
                       (select_count_lists (public_or_owned user_id)) ;;
     if total =? 0 then Ret ([], 0)
     else
       rows <- fetch (sql_page "l.is_private = FALSE OR l.owner_id = $1" 2)
                     (select_lists_page (public_or_owned user_id) page_size offset) ;;
       Ret (rows, total))
    (fun exc => Raise (DatabaseInteractionError "Database error fetching recent lists.")).

Definition update_list (list_id : Z) (list_in : ListUpdate)
  : Prog (option ListDetails) :=
  if negb (is_given (name list_in) || is_given (isPrivate list_in)) then
    get_list_details list_id
  else
    let sets0 := [] in
    let idx0 := 1%nat in
    let '(sets1, idx1) :=
      if is_given (name list_in)
      then (sets0 ++ ["name = " +++ dollar idx0], S idx0) else (sets0, idx0) in
    let '(sets, idx) :=
      if is_given (isPrivate list_in)
      then (sets1 ++ ["is_private = " +++ dollar idx1], S idx1) else (sets1, idx1) in
    try_except
      (rec <- fetchrow
                ("UPDATE lists SET " +++ join ", " sets
                 +++ ", updated_at = now() WHERE id = " +++ dollar idx
                 +++ " RETURNING id, name, description, is_private")
                (update_lists (name list_in) (isPrivate list_in) list_id) ;;
       match rec with
       | None => Ret None
       | Some l =>
           collaborators <- _get_collaborator_emails list_id ;;
           Ret (Some (mkDetails (l_id l) (l_name l) (l_description l)
                                (l_is_private l) collaborators))
       end)
      (fun exc => Raise (DatabaseInteractionError "Database error updating list.")).

Definition add_collaborator_to_list (list_id : Z) (collaborator_email : string)
  : Prog unit :=
  try_except
    (found <- fetchval sql_user_id_by_email
                       (select_user_id_by_email collaborator_email) ;;
     user_id <- match found with
                | Some id => Ret id
                | None => fetchval sql_insert_placeholder
                                   (insert_placeholder_user collaborator_email)
                end ;;
     owner_id <- fetchval sql_owner_of (select_owner_of list_id) ;;
     if opt_eqb Z.eqb owner_id (Some user_id) then
       Raise (CollaboratorAlreadyExistsError "Owner is already a collaborator.")
     else
       exists_ <- fetchval sql_collaborator_exists
                           (select_collaborator_exists list_id user_id) ;;
       if (exists_ : bool) then
         Raise (CollaboratorAlreadyExistsError "User is already a collaborator.")
       else
         execute sql_insert_collaborator (insert_collaborator list_id user_id) ;;
         Ret tt)
    (fun exc =>
       match exc with
       | CollaboratorAlreadyExistsError _ => Raise exc
       | _ => Raise (DatabaseInteractionError "Database error adding collaborator.")
       end).

Definition check_list_ownership (list_id user_id : Z) : Prog unit :=
  try_except
    (owner_match <- fetchval sql_owner_match (select_owner_match list_id user_id) ;;
     if (owner_match : bool) then Ret tt
     else
       list_exists <- fetchval sql_list_exists (select_list_exists list_id) ;;
       Raise (if (list_exists : bool) then ListAccessDeniedError []
              else ListNotFoundError []))
    (fun exc =>
       match exc with
       | ListNotFoundError _ | ListAccessDeniedError _ => Raise exc
       | _ => Raise (DatabaseInteractionError "Database error during ownership check.")
       end).

Definition check_list_access (list_id user_id : Z) : Prog unit :=
  rec <- fetchrow sql_access (select_access list_id user_id) ;;
  match rec with
  | Some _ => Ret tt
  | None =>
      exists_ <- fetchval sql_one_list (select_one_list list_id) ;;
      match exists_ with
      | None | Some 0 => Raise (ListNotFoundError [list_id])
      | Some _ => Raise (ListAccessDeniedError [list_id; user_id])
      end
  end.

(** *** Creating and deleting lists, removing collaborators *)

(** [schemas.list.ListCreate] *)
Record ListCreate := mkListCreate {
  create_name : string;
  create_description : option string;
  create_isPrivate : bool
}.

(** The columns [RETURNING id, name, description, is_private] hands back. *)
Record ListRecord := mkListRecord {
  r_id : Z;
  r_name : option string;
  r_description : option string;
  r_is_private : option bool
}.

Definition returning (l : ListRow) : ListRecord :=
  mkListRecord (l_id l) (l_name l) (l_description l) (l_is_private l).

Definition sql_insert_list :=
  "INSERT INTO lists (name, description, owner_id, created_at, is_private) VALUES ($1, $2, $3, now(), $4) RETURNING id, name, description, is_private".

(** The new row takes the next value of the id sequence; the primary key
    and the foreign key to the owner are checked.  [updated_at] is not
    among the inserted columns and is left [NULL]. *)
Definition insert_list (list_in : ListCreate) (owner_id : Z)
  : Stmt (option ListRecord) :=
  fun d now =>
    let row := mkList (lists_id_seq d) (Some (create_name list_in))
                      (create_description list_in) owner_id
                      (Some (create_isPrivate list_in)) now None in
    if existsb (fun l => l_id l =? lists_id_seq d) (lists d) then
      (inl (unique_violation "lists_pkey"), d)
    else if negb (existsb (fun u => u_id u =? owner_id) (users d)) then
      (inl (foreign_key_violation "lists_owner_id_fkey"), d)
    else
      (inr (Some (returning row)), set_lists d (lists d ++ [row]) (lists_id_seq d + 1)).

(** [except asyncpg.PostgresError]: the errors the driver raises. *)
Definition is_PostgresError (e : exn) : bool :=
  match e with
  | UniqueViolationError _ | ForeignKeyViolationError _ | CheckViolationError _
  | InvalidRowCountError _ => true
  | _ => false
  end.

Definition create_list (list_in : ListCreate) (owner_id : Z) : Prog ListRecord :=
  try_except
    (rec <- fetchrow sql_insert_list (insert_list list_in owner_id) ;;
     match rec with
     | None => Raise (DatabaseInteractionError "Insert returned no row.")
     | Some r => Ret r
     end)
    (fun exc =>
       if is_PostgresError exc
       then Raise (DatabaseInteractionError "Database error creating list.")
       else Raise (DatabaseInteractionError "Unexpected error creating list.")).

Definition sql_delete_list := "DELETE FROM lists WHERE id = $1".

(** The places and the membership rows of a deleted list go with it: their
    foreign keys are [ON DELETE CASCADE].  The tables' DDL is not among the
    sources; the list API tests delete a list with a place in it and find
    its places gone, and the membership rows, which refer to the list by
    the same kind of key, are taken to cascade alike. *)
Definition delete_lists (list_id : Z) : Stmt string :=
  fun d _ =>
    let hit := filter (fun l => l_id l =? list_id) (lists d) in
    (inr (command_tag "DELETE" (List.length hit)),
     match hit with
     | [] => d
     | _ :: _ =>
         mkDB (schema d) (users d)
              (filter (fun l => negb (l_id l =? list_id)) (lists d))
              (filter (fun c => negb (lc_list_id c =? list_id)) (list_collaborators d))
              (filter (fun p => negb (p_list_id p =? list_id)) (places d))
              (user_follows d) (notifications d)
              (users_id_seq d) (lists_id_seq d) (places_id_seq d)
     end).

Definition delete_list (list_id : Z) : Prog bool :=
  try_except
    (status <- execute sql_delete_list (delete_lists list_id) ;;
     match tag_count status with
     | None => Raise (ValueError "invalid literal for int()")
     | Some deleted_count => Ret (0 <? deleted_count)
     end)
    (fun exc => Raise (DatabaseInteractionError "Database error deleting list.")).

Definition sql_delete_collaborator :=
  "DELETE FROM list_collaborators WHERE list_id = $1 AND user_id = $2".

Definition delete_collaborators (list_id user_id : Z) : Stmt string :=
  fun d _ =>
    (inr (command_tag "DELETE"
            (List.length (filter (is_collaborator_row list_id user_id)
                                 (list_collaborators d)))),
     set_list_collaborators d
       (filter (fun lc => negb (is_collaborator_row list_id user_id lc))
               (list_collaborators d))).

Definition delete_collaborator_from_list (list_id collaborator_user_id : Z)
  : Prog bool :=
  try_except
    (owner_id <- fetchval sql_owner_of (select_owner_of list_id) ;;
     if opt_eqb Z.eqb owner_id (Some collaborator_user_id) then Ret false
     else
       status <- execute sql_delete_collaborator
                         (delete_collaborators list_id collaborator_user_id) ;;
       match tag_count status with
       | None => Raise (ValueError "invalid literal for int()")
       | Some deleted_count => Ret (0 <? deleted_count)
       end)
    (fun exc => Raise (DatabaseInteractionError "Database error removing collaborator.")).

(** *** Collaboration helpers *)

Definition sql_is_owner := "SELECT 1 FROM lists WHERE id=$1 AND owner_id=$2".

Definition select_is_owner (list_id user_id : Z) : Stmt (option Z) :=
  query (fun d =>
    first_row
      (map (fun _ => 1)
           (filter (fun l => (l_id l =? list_id) && (l_owner_id l =? user_id))
                   (lists d)))).

Definition is_owner (list_id user_id : Z) : Prog bool :=
  v <- fetchval sql_is_owner (select_is_owner list_id user_id) ;;
  Ret (bool_of_fetchval v).

Definition sql_is_member :=
  "SELECT 1 FROM lists WHERE id=$1 AND owner_id=$2 UNION ALL SELECT 1 FROM list_collaborators WHERE list_id=$1 AND user_id=$2 LIMIT 1".

Definition select_is_member (list_id user_id : Z) : Stmt (option Z) :=
  query (fun d =>
    first_row
      (firstn 1
         (map (fun _ => 1)
              (filter (fun l => (l_id l =? list_id) && (l_owner_id l =? user_id))
                      (lists d))
          ++ map (fun _ => 1)
                 (filter (is_collaborator_row list_id user_id)
                         (list_collaborators d))))).

Definition is_member (list_id user_id : Z) : Prog bool :=
  v <- fetchval sql_is_member (select_is_member list_id user_id) ;;
  Ret (bool_of_fetchval v).

End crud_list.

(* ------------------------------------------------------------------------- *)
(** ** [app/crud/crud_place.py]                                              *)
(* ------------------------------------------------------------------------- *)

Module crud_place.

(** [schemas.place.PlaceCreate] *)
Record PlaceCreate := mkPlaceCreate {
  placeId : string;
  name : string;
  address : string;
  latitude : Z;
  longitude : Z;
  rating : option string;
  notes : option string;
  visitStatus : option string
}.

(** [schemas.place.PlaceUpdate]: [notes] is its only field. *)
Record PlaceUpdate := mkPlaceUpdate {
  upd_notes : field (option string)
}.

(** The columns an update payload can name.  [PlaceUpdate] declares
    [notes]; the schema file lists [rating] and [visitStatus] as the fields
    to add next, and [update_place] is written for any of them. *)
Inductive column : Type := col_notes | col_rating | col_visit_status.

Definition column_name (c : column) : string :=
  match c with
  | col_notes => "notes"
  | col_rating => "rating"
  | col_visit_status => "visit_status"
  end.

(** [place_update_in.model_dump(exclude_unset=True, by_alias=True)] *)
Definition model_dump (u : PlaceUpdate) : list (column * option string) :=
  match upd_notes u with
  | given v => [(col_notes, v)]
  | unset => []
  end.

(** The columns [RETURNING id, name, address, latitude, longitude, rating,
    notes, visit_status] hands back. *)
Record PlaceItem := mkItem {
  i_id : Z;
  i_name : string;
  i_address : string;
  i_latitude : Z;
  i_longitude : Z;
  i_rating : option string;
  i_notes : option string;
  i_visit_status : option string
}.

Definition place_item (p : PlaceRow) : PlaceItem :=
  mkItem (p_id p) (p_name p) (p_address p) (p_latitude p) (p_longitude p)
         (p_rating p) (p_notes p) (p_visit_status p).

Definition DatabaseInteractionError := Place_DatabaseInteractionError.

(** *** Statements *)

Definition in_list (list_id : Z) (p : PlaceRow) : bool := p_list_id p =? list_id.

(** [ORDER BY created_at DESC, id DESC] *)
Definition newest_first (a b : PlaceRow) : bool :=
  (p_created_at b <? p_created_at a) ||
  ((p_created_at a =? p_created_at b) && (p_id b <=? p_id a)).

Definition listed (list_id : Z) (d : DB) : list (PlaceItem * string) :=
  map (fun p => (place_item p, p_place_id p))
      (order_by newest_first (filter (in_list list_id) (places d))).

Definition select_count_places (list_id : Z) : Stmt Z :=
  query (fun d => count (filter (in_list list_id) (places d))).

Definition select_places_page (list_id page_size offset : Z)
  : Stmt (list (PlaceItem * string)) :=
  fun d _ => (limit_offset page_size offset (listed list_id d), d).

Definition same_place (list_id : Z) (place_id : string) (p : PlaceRow) : bool :=
  (p_list_id p =? list_id) && String.eqb (p_place_id p) place_id.

Definition sql_insert_place :=
  "INSERT INTO places (list_id, place_id, name, address, latitude, longitude, rating, notes, visit_status, created_at, updated_at) VALUES ($1, $2, $3, $4, $5, $6, $7, $8, $9, NOW(), NOW()) RETURNING id, name, address, latitude, longitude, rating, notes, visit_status".

(** The engine evaluates the row's check constraints, then the unique
    index, then the foreign key. *)
Definition new_place (id list_id : Z) (place_in : PlaceCreate) (now : Z) : PlaceRow :=
  mkPlace id list_id (placeId place_in) (name place_in) (address place_in)
          (latitude place_in) (longitude place_in)
          (rating place_in) (notes place_in) (visitStatus place_in) now now.

Definition insert_place (list_id : Z) (place_in : PlaceCreate)
  : Stmt (option PlaceItem) :=
  fun d now =>
    let row := new_place (places_id_seq d) list_id place_in now in
    match places_check (schema d) row with
    | Some c => (inl (CheckViolationError c), d)
    | None =>
        if existsb (same_place list_id (placeId place_in)) (places d) then
          (inl (unique_violation (places_unique_name (schema d))), d)
        else if negb (existsb (fun l => l_id l =? list_id) (lists d)) then
          (inl (foreign_key_violation "places_list_id_fkey"), d)
        else
          (inr (Some (place_item row)),
           set_places d (places d ++ [row]) (places_id_seq d + 1))
    end.

Definition is_place (place_id list_id : Z) (p : PlaceRow) : bool :=
  (p_id p =? place_id) && (p_list_id p =? list_id).

Definition sql_place_in_list :=
  "SELECT id, name, address, latitude, longitude, rating, notes, visit_status FROM places WHERE id = $1 AND list_id = $2".

Definition select_place (place_id list_id : Z) : Stmt (option PlaceItem) :=
  query (fun d => first_row (map place_item (filter (is_place place_id list_id) (places d)))).

(** [SET column = value] on one row. *)
Definition assign (p : PlaceRow) (kv : column * option string) : PlaceRow :=
  match fst kv with
  | col_notes =>
      mkPlace (p_id p) (p_list_id p) (p_place_id p) (p_name p) (p_address p)
              (p_latitude p) (p_longitude p) (p_rating p) (snd kv)
              (p_visit_status p) (p_created_at p) (p_updated_at p)
  | col_rating =>
      mkPlace (p_id p) (p_list_id p) (p_place_id p) (p_name p) (p_address p)
              (p_latitude p) (p_longitude p) (snd kv) (p_notes p)
              (p_visit_status p) (p_created_at p) (p_updated_at p)
  | col_visit_status =>
      mkPlace (p_id p) (p_list_id p) (p_place_id p) (p_name p) (p_address p)
              (p_latitude p) (p_longitude p) (p_rating p) (p_notes p)
              (snd kv) (p_created_at p) (p_updated_at p)
  end.

Definition touch (now : Z) (p : PlaceRow) : PlaceRow :=
  mkPlace (p_id p) (p_list_id p) (p_place_id p) (p_name p) (p_address p)
          (p_latitude p) (p_longitude p) (p_rating p) (p_notes p)
          (p_visit_status p) (p_created_at p) now.

(** [UPDATE places SET ..., updated_at = NOW() WHERE id = .. AND list_id = ..
    RETURNING ...].  The new version of every row that is hit must pass the
    check constraints. *)
Definition update_places (update_fields : list (column * option string))
  (place_id list_id : Z) : Stmt (option PlaceItem) :=
  fun d now =>
    let upd p :=
      if is_place place_id list_id p
      then touch now (fold_left assign update_fields p) else p in
    let ps := map upd (places d) in
    let failed :=
      flat_map (fun p => match places_check (schema d) p with
                         | Some c => [c]
                         | None => []
                         end)
               (filter (is_place place_id list_id) ps) in
    match failed with
    | c :: _ => (inl (CheckViolationError c), d)
    | [] =>
        (inr (first_row (map place_item (filter (is_place place_id list_id) ps))),
         set_places d ps (places_id_seq d))
    end.

Definition sql_delete_place := "DELETE FROM places WHERE id = $1 AND list_id = $2".

Definition delete_places (place_id list_id : Z) : Stmt string :=
  fun d _ =>
    (inr (command_tag "DELETE"
            (List.length (filter (is_place place_id list_id) (places d)))),
     set_places d
       (filter (fun p => negb (is_place place_id list_id p)) (places d))
       (places_id_seq d)).

(** *** Functions *)

Definition get_places_by_list_id_paginated (list_id page page_size : Z)
  : Prog (list (PlaceItem * string) * Z) :=
  let offset := (page - 1) * page_size in
  try_except
    (total_items <- fetchval "SELECT COUNT(*) FROM places WHERE list_id = $1"
                             (select_count_places list_id) ;;
     if total_items =? 0 then Ret ([], 0)
     else
       places <- fetch "SELECT id, name, address, latitude, longitude, rating, notes, visit_status, place_id FROM places WHERE list_id = $1 ORDER BY created_at DESC, id DESC LIMIT $2 OFFSET $3"
                       (select_places_page list_id page_size offset) ;;
       Ret (places, total_items))
    (fun e => Raise (DatabaseInteractionError "Database error fetching places.")).

Definition add_place_to_list (list_id : Z) (place_in : PlaceCreate)
  : Prog PlaceItem :=
  try_except
    (created_place_record <- fetchrow sql_insert_place (insert_place list_id place_in) ;;
     match created_place_record with
     | None => Raise (DatabaseInteractionError
                        "Failed to add place (no record returned from DB)")
     | Some rec => Ret rec
     end)
    (fun e =>
       match e with
       | UniqueViolationError _ =>
           if str_in "places_list_id_place_id_key" (str_exn e)
              || str_in "places_list_id_place_id_idx" (str_exn e)
           then Raise (PlaceAlreadyExistsError "Place already exists in this list")
           else Raise (DatabaseInteractionError
                         "Database constraint violation adding place.")
       | CheckViolationError constraint_name =>
           Raise (InvalidPlaceDataError
                    ("Invalid data for place (" +++ constraint_name +++ ")."))
       | _ => Raise (DatabaseInteractionError "Database error adding place.")
       end).

(** The body of [update_place] from the computed [update_fields] on. *)
Definition update_place_fields (place_id list_id : Z)
  (update_fields : list (column * option string)) : Prog PlaceItem :=
  if negb (existsb (fun kv => match snd kv with Some _ => true | None => false end)
                   update_fields) then
    current_place <- fetchrow sql_place_in_list (select_place place_id list_id) ;;
    match current_place with
    | None => Raise (PlaceNotFoundError "Place not found in this list.")
    | Some rec => Ret rec
    end
  else
    let set_clauses :=
      map (fun ikv => column_name (fst (snd ikv)) +++ " = " +++ dollar (fst ikv))
          (combine (seq 1 (List.length update_fields)) update_fields) in
    let param_index := S (List.length update_fields) in
    let sql :=
      "UPDATE places SET " +++ join ", " set_clauses
      +++ ", updated_at = NOW() WHERE id = " +++ dollar param_index
      +++ " AND list_id = " +++ dollar (S param_index)
      +++ " RETURNING id, name, address, latitude, longitude, rating, notes, visit_status" in
    updated_place_record <-
      try_except
        (fetchrow sql (update_places update_fields place_id list_id))
        (fun e =>
           match e with
           | CheckViolationError constraint_name =>
               Raise (InvalidPlaceDataError
                        ("Invalid data provided for update (" +++ constraint_name +++ ")."))
           | _ => Raise (DatabaseInteractionError "Database error updating place.")
           end) ;;
    match updated_place_record with
    | None => Raise (PlaceNotFoundError "Place not found in this list for update.")
    | Some rec => Ret rec
    end.

Definition update_place (place_id list_id : Z) (place_update_in : PlaceUpdate)
  : Prog PlaceItem :=
  update_place_fields place_id list_id (model_dump place_update_in).

Definition delete_place_from_list (place_id list_id : Z) : Prog bool :=
  try_except
    (status <- execute sql_delete_place (delete_places place_id list_id) ;;
     match tag_count status with
     | None => Raise (ValueError "invalid literal for int()")
     | Some deleted_count => Ret (0 <? deleted_count)
     end)
    (fun e => Raise (DatabaseInteractionError "Database error deleting place.")).

End crud_place.

(* ------------------------------------------------------------------------- *)
(** ** [app/crud/crud_user.py]                                               *)
(* ------------------------------------------------------------------------- *)

Module crud_user.

(** [schemas.token.FirebaseTokenData] *)
Record FirebaseTokenData := mkToken {
  uid : string;
  email : option string;
  name : option string;
  picture : option string
}.

(** The user columns the follow listings select. *)
Record UserInfo := mkInfo {
  i_id : Z;
  i_email : string;
  i_username : option string;
  i_display_name : option string;
  i_profile_picture : option string
}.

Definition user_info (u : UserRow) : UserInfo :=
  mkInfo (u_id u) (u_email u) (u_username u) (u_display_name u) (u_profile_picture u).

Definition DatabaseInteractionError := User_DatabaseInteractionError.

(** *** Statements *)

Definition select_user (where_ : UserRow -> bool) : Stmt (option UserRow) :=
  query (fun d => first_row (filter where_ (users d))).

Definition has_id (user_id : Z) (u : UserRow) : bool := u_id u =? user_id.

Definition has_firebase_uid (firebase_uid : string) (u : UserRow) : bool :=
  null_or (String.eqb firebase_uid) (u_firebase_uid u).

Definition has_email (email : string) (u : UserRow) : bool :=
  String.eqb (u_email u) email.

Definition sql_user_by_id :=
  "SELECT id, email, username, display_name, profile_picture, profile_is_public, lists_are_public, allow_analytics FROM users WHERE id = $1".

Definition sql_user_by_firebase_uid := "SELECT * FROM users WHERE firebase_uid = $1".

Definition sql_user_by_email :=
  "SELECT id, email, username, firebase_uid FROM users WHERE email = $1".

Definition sql_user_exists := "SELECT EXISTS (SELECT 1 FROM users WHERE id = $1)".

Definition select_user_exists (user_id : Z) : Stmt bool :=
  query (fun d => existsb (has_id user_id) (users d)).

Definition sql_insert_user :=
  "INSERT INTO users (email, firebase_uid, display_name, profile_picture, created_at, updated_at) VALUES ($1, $2, $3, $4, NOW(), NOW()) RETURNING id".

Definition insert_user (email firebase_uid : string)
  (display_name profile_picture : option string) : Stmt Z :=
  fun d now =>
    if existsb (has_email email) (users d) then
      (inl (unique_violation "users_email_key"), d)
    else if existsb (has_firebase_uid firebase_uid) (users d) then
      (inl (unique_violation "users_firebase_uid_key"), d)
    else
      let id := users_id_seq d in
      (inr id,
       set_users d
         (users d ++ [mkUser id email (Some firebase_uid) None
                             display_name profile_picture now now])
         (id + 1)).

Definition sql_update_firebase_uid :=
  "UPDATE users SET firebase_uid = $1, updated_at = NOW() WHERE id = $2".

Definition update_firebase_uid (firebase_uid : string) (user_id : Z) : Stmt string :=
  fun d now =>
    if existsb (has_id user_id) (users d)
       && existsb (fun u => has_firebase_uid firebase_uid u && negb (has_id user_id u))
                  (users d)
    then (inl (unique_violation "users_firebase_uid_key"), d)
    else
      (inr (command_tag "UPDATE" (List.length (filter (has_id user_id) (users d)))),
       set_users d
         (map (fun u =>
                 if has_id user_id u then
                   mkUser (u_id u) (u_email u) (Some firebase_uid) (u_username u)
                          (u_display_name u) (u_profile_picture u)
                          (u_created_at u) now
                 else u) (users d))
         (users_id_seq d)).

Definition is_edge (follower_id followed_id : Z) (f : FollowRow) : bool :=
  (f_follower_id f =? follower_id) && (f_followed_id f =? followed_id).

Definition sql_insert_follow :=
  "INSERT INTO user_follows (follower_id, followed_id, created_at) VALUES ($1, $2, NOW()) ON CONFLICT (follower_id, followed_id) DO NOTHING RETURNING created_at".

Definition insert_follow (follower_id followed_id : Z) : Stmt (option Z) :=
  fun d now =>
    if existsb (is_edge follower_id followed_id) (user_follows d) then (inr None, d)
    else if negb (existsb (has_id follower_id) (users d)) then
      (inl (foreign_key_violation "user_follows_follower_id_fkey"), d)
    else if negb (existsb (has_id followed_id) (users d)) then
      (inl (foreign_key_violation "user_follows_followed_id_fkey"), d)
    else
      (inr (Some now),
       set_user_follows d (user_follows d ++ [mkFollow follower_id followed_id now])).

(** [NULLS LAST] comparison of a nullable text column. *)
Definition compare_nulls_last (a b : option string) : comparison :=
  match a, b with
  | Some x, Some y => String.compare x y
  | Some _, None => Lt
  | None, Some _ => Gt
  | None, None => Eq
  end.

(** [ORDER BY u.username ASC NULLS LAST, u.display_name ASC NULLS LAST] *)
Definition by_username (a b : UserRow) : bool :=
  match compare_nulls_last (u_username a) (u_username b) with
  | Lt => true
  | Gt => false
  | Eq => match compare_nulls_last (u_display_name a) (u_display_name b) with
          | Gt => false
          | _ => true
          end
  end.

(** [... , u.email ASC] *)
Definition by_username_email (a b : UserRow) : bool :=
  match compare_nulls_last (u_username a) (u_username b) with
  | Lt => true
  | Gt => false
  | Eq => match compare_nulls_last (u_display_name a) (u_display_name b) with
          | Lt => true
          | Gt => false
          | Eq => String.leb (u_email a) (u_email b)
          end
  end.

Definition follows_of (user_id : Z) (f : FollowRow) : bool := f_follower_id f =? user_id.

Definition followers_of (user_id : Z) (f : FollowRow) : bool := f_followed_id f =? user_id.

(** [FROM user_follows uf JOIN users u ON uf.followed_id = u.id
    WHERE uf.follower_id = $1 ORDER BY ...]: user name and display name
    are no unique key, so the order of tied users is the store's
    ([scan]). *)
Definition following (scan : list UserRow -> list UserRow) (user_id : Z) (d : DB)
  : list UserInfo :=
  map user_info
      (order_by by_username
         (scan
            (map snd
               (filter (fun r => follows_of user_id (fst r))
                       (inner_join (fun uf u => f_followed_id uf =? u_id u)
                                   (user_follows d) (users d)))))).

Definition is_following (d : DB) (user_id : Z) (u : UserRow) : bool :=
  existsb (is_edge user_id (u_id u)) (user_follows d).

Definition followers (scan : list UserRow -> list UserRow) (user_id : Z) (d : DB)
  : list (UserInfo * bool) :=
  map (fun u => (user_info u, is_following d user_id u))
      (order_by by_username
         (scan
            (map snd
               (filter (fun r => followers_of user_id (fst r))
                       (inner_join (fun uf u => f_follower_id uf =? u_id u)
                                   (user_follows d) (users d)))))).

Definition found_by (current_user_id : Z) (search_term_lower : string) (u : UserRow)
  : bool :=
  (sql_like search_term_lower (lower (u_email u)) ||
   null_or (fun n => sql_like search_term_lower (lower n)) (u_username u)) &&
  negb (u_id u =? current_user_id).

Definition searched (current_user_id : Z) (search_term_lower : string) (d : DB)
  : list (UserInfo * bool) :=
  map (fun u => (user_info u, is_following d current_user_id u))
      (order_by by_username_email
         (filter (found_by current_user_id search_term_lower) (users d))).

Definition notified (user_id : Z) (n : NotificationRow) : bool := n_user_id n =? user_id.

(** [ORDER BY timestamp DESC] *)
Definition latest_first (a b : NotificationRow) : bool := n_timestamp b <=? n_timestamp a.

(** The timestamp is no unique key either. *)
Definition notifications_of (scan : list NotificationRow -> list NotificationRow)
  (user_id : Z) (d : DB) : list NotificationRow :=
  order_by latest_first (scan (filter (notified user_id) (notifications d))).

Definition select_page {R} (rows : DB -> list R) (page_size offset : Z) : Stmt (list R) :=
  fun d _ => (limit_offset page_size offset (rows d), d).

(** *** Functions *)

Definition get_user_by_id (user_id : Z) : Prog (option UserRow) :=
  try_except
    (user <- fetchrow sql_user_by_id (select_user (has_id user_id)) ;; Ret user)
    (fun e => Raise (DatabaseInteractionError "Database error fetching user by ID.")).

Definition get_user_by_firebase_uid (firebase_uid : string) : Prog (option UserRow) :=
  try_except
    (fetchrow sql_user_by_firebase_uid (select_user (has_firebase_uid firebase_uid)))
    (fun e => Raise (DatabaseInteractionError
                       "Database error fetching user by Firebase UID.")).

Definition get_user_by_email (email : string) : Prog (option UserRow) :=
  try_except
    (fetchrow sql_user_by_email (select_user (has_email email)))
    (fun e => Raise (DatabaseInteractionError "Database error fetching user by email.")).

Definition check_user_exists (user_id : Z) : Prog bool :=
  try_except
    (exists_ <- fetchval sql_user_exists (select_user_exists user_id) ;;
     Ret (exists_ || false))
    (fun e => Raise (DatabaseInteractionError "Database error checking user existence.")).

Definition create_user (email firebase_uid : string)
  (display_name profile_picture : option string) : Prog Z :=
  try_except
    (user_id <- fetchval sql_insert_user
                         (insert_user email firebase_uid display_name profile_picture) ;;
     if user_id =? 0 then
       Raise (DatabaseInteractionError "Database insert failed to return new user ID")
     else Ret user_id)
    (fun e =>
       match e with
       | UniqueViolationError _ =>
           Raise (UsernameAlreadyExistsError
                    ("User with email " +++ email +++ " already exists."))
       | _ => Raise (DatabaseInteractionError "Failed to create user record.")
       end).

Definition update_user_firebase_uid (user_id : Z) (firebase_uid : string) : Prog unit :=
  try_except
    (status <- execute sql_update_firebase_uid
                       (update_firebase_uid firebase_uid user_id) ;;
     if String.eqb status "UPDATE 0" then Ret tt else Ret tt)
    (fun e => Raise (DatabaseInteractionError "Database error updating firebase UID.")).

(** [full_record['username'] is None if full_record else True] *)
Definition needs_username_of (full_record : option UserRow) : bool :=
  match full_record with
  | Some r => match u_username r with None => true | Some _ => false end
  | None => true
  end.

Definition get_or_create_user_by_firebase (token_data : FirebaseTokenData)
  : Prog (Z * bool) :=
  let firebase_uid := uid token_data in
  match email token_data with
  | None | Some EmptyString => Raise (ValueError "Email missing from Firebase token data")
  | Some email =>
      if String.eqb firebase_uid "" then
        Raise (ValueError "UID missing from Firebase token data")
      else
        transaction
          (try_except
             (user_record_by_uid <- get_user_by_firebase_uid firebase_uid ;;
              match user_record_by_uid with
              | Some r =>
                  let user_id := u_id r in
                  full_record <- get_user_by_id user_id ;;
                  Ret (user_id, needs_username_of full_record)
              | None =>
                  user_record_by_email <- get_user_by_email email ;;
                  match user_record_by_email with
                  | Some r =>
                      let user_id := u_id r in
                      let existing_firebase_uid := u_firebase_uid r in
                      full_record <- get_user_by_id user_id ;;
                      let needs_username := needs_username_of full_record in
                      (if negb (opt_eqb String.eqb existing_firebase_uid
                                        (Some firebase_uid))
                       then update_user_firebase_uid user_id firebase_uid
                       else Ret tt) ;;
                      Ret (user_id, needs_username)
                  | None =>
                      let display_name := name token_data in
                      let profile_picture := picture token_data in
                      user_id <- create_user email firebase_uid
                                             display_name profile_picture ;;
                      Ret (user_id, true)
                  end
              end)
             (fun e =>
                match e with
                | ValueError _ | UserNotFoundError _ | UsernameAlreadyExistsError _
                | User_DatabaseInteractionError _ => Raise e
                | _ => Raise (DatabaseInteractionError
                                "Database error during user lookup or creation.")
                end))
  end.

Definition get_following (scan : list UserRow -> list UserRow)
  (user_id page page_size : Z) : Prog (list UserInfo * Z) :=
  let offset := (page - 1) * page_size in
  try_except
    (total_items <- fetchval "SELECT COUNT(*) FROM user_follows WHERE follower_id = $1"
                             (query (fun d => count (filter (follows_of user_id)
                                                            (user_follows d)))) ;;
     if total_items =? 0 then Ret ([], 0)
     else
       following_records <-
         fetch "SELECT u.id, u.email, u.username, u.display_name, u.profile_picture FROM user_follows uf JOIN users u ON uf.followed_id = u.id WHERE uf.follower_id = $1 ORDER BY u.username ASC NULLS LAST, u.display_name ASC NULLS LAST LIMIT $2 OFFSET $3"
               (select_page (following scan user_id) page_size offset) ;;
       Ret (following_records, total_items))
    (fun e => Raise (DatabaseInteractionError "Database error fetching following list.")).

Definition get_followers (scan : list UserRow -> list UserRow)
  (user_id page page_size : Z) : Prog (list (UserInfo * bool) * Z) :=
  let offset := (page - 1) * page_size in
  try_except
    (total_items <- fetchval "SELECT COUNT(*) FROM user_follows WHERE followed_id = $1"
                             (query (fun d => count (filter (followers_of user_id)
                                                            (user_follows d)))) ;;
     if total_items =? 0 then Ret ([], 0)
     else
       follower_records <-
         fetch "SELECT u.id, u.email, u.username, u.display_name, u.profile_picture, EXISTS ( SELECT 1 FROM user_follows f_back WHERE f_back.follower_id = $1 AND f_back.followed_id = u.id ) AS is_following FROM user_follows uf JOIN users u ON uf.follower_id = u.id WHERE uf.followed_id = $1 ORDER BY u.username ASC NULLS LAST, u.display_name ASC NULLS LAST LIMIT $2 OFFSET $3"
               (select_page (followers scan user_id) page_size offset) ;;
       Ret (follower_records, total_items))
    (fun e => Raise (DatabaseInteractionError "Database error fetching followers list.")).

Definition search_users (current_user_id : Z) (query_ : string) (page page_size : Z)
  : Prog (list (UserInfo * bool) * Z) :=
  let offset := (page - 1) * page_size in
  let search_term_lower := "%" +++ lower query_ +++ "%" in
  let param_idx := 3%nat in
  try_except
    (total_items <-
       fetchval "SELECT COUNT(*) FROM users u WHERE (LOWER(u.email) LIKE $2 OR LOWER(u.username) LIKE $2) AND u.id != $1"
                (query (fun d => count (filter (found_by current_user_id search_term_lower)
                                               (users d)))) ;;
     if total_items =? 0 then Ret ([], 0)
     else
       users_found <-
         fetch ("SELECT u.id, u.email, u.username, u.display_name, u.profile_picture, EXISTS ( SELECT 1 FROM user_follows uf_check WHERE uf_check.follower_id = $1 AND uf_check.followed_id = u.id ) AS is_following FROM users u WHERE (LOWER(u.email) LIKE $2 OR LOWER(u.username) LIKE $2) AND u.id != $1 ORDER BY u.username ASC NULLS LAST, u.display_name ASC NULLS LAST, u.email ASC LIMIT "
                +++ dollar param_idx +++ " OFFSET " +++ dollar (S param_idx))
               (select_page (searched current_user_id search_term_lower)
                            page_size offset) ;;
       Ret (users_found, total_items))
    (fun e => Raise (DatabaseInteractionError "Database error searching users.")).

Definition follow_user (follower_id followed_id : Z) : Prog bool :=
  try_except
    (target_exists <- check_user_exists followed_id ;;
     if negb target_exists then Raise (UserNotFoundError "User to follow not found")
     else
       created_at <- fetchval sql_insert_follow (insert_follow follower_id followed_id) ;;
       match created_at with
       | Some _ => Ret false
       | None => Ret true
       end)
    (fun e =>
       match e with
       | UserNotFoundError _ => Raise e
       | _ => Raise (DatabaseInteractionError "Database error during follow operation.")
       end).

Definition get_user_notifications (scan : list NotificationRow -> list NotificationRow)
  (user_id page page_size : Z) : Prog (list NotificationRow * Z) :=
  let offset := (page - 1) * page_size in
  try_except
    (total_items <- fetchval "SELECT COUNT(*) FROM notifications WHERE user_id = $1"
                             (query (fun d => count (filter (notified user_id)
                                                            (notifications d)))) ;;
     if total_items =? 0 then Ret ([], 0)
     else
       notifications <-
         fetch "SELECT id, title, message, is_read, timestamp FROM notifications WHERE user_id = $1 ORDER BY timestamp DESC LIMIT $2 OFFSET $3"
               (select_page (notifications_of scan user_id) page_size offset) ;;
       Ret (notifications, total_items))
    (fun e => Raise (DatabaseInteractionError "Database error fetching notifications.")).

(** *** Usernames *)

Definition sql_username_taken :=
  "SELECT id FROM users WHERE LOWER(username) = LOWER($1) AND id != $2".

(** [LOWER(username) = LOWER($1)] *)
Definition same_username (username : string) (u : UserRow) : bool :=
  null_or (fun n => String.eqb (lower n) (lower username)) (u_username u).

Definition taken_by_other (username : string) (user_id : Z) (u : UserRow) : bool :=
  same_username username u && negb (u_id u =? user_id).

Definition select_username_taken (username : string) (user_id : Z) : Stmt (option Z) :=
  query (fun d =>
    first_row (map u_id (filter (taken_by_other username user_id) (users d)))).

Definition sql_update_username :=
  "UPDATE users SET username = $1, updated_at = NOW() WHERE id = $2".

Definition with_username (username : string) (now : Z) (u : UserRow) : UserRow :=
  mkUser (u_id u) (u_email u) (u_firebase_uid u) (Some username)
         (u_display_name u) (u_profile_picture u) (u_created_at u) now.

(** The unique index on usernames that the [UniqueViolationError] handler
    of [set_user_username] expects, taken without regard to letter case
    like the function's own check: the update is refused when the row it
    hits would share its name with another row.  A request that runs alone
    never meets it, its own check comes first. *)
Definition update_username (username : string) (user_id : Z) : Stmt string :=
  fun d now =>
    if existsb (has_id user_id) (users d)
       && existsb (taken_by_other username user_id) (users d)
    then (inl (unique_violation "users_username_key"), d)
    else
      (inr (command_tag "UPDATE" (List.length (filter (has_id user_id) (users d)))),
       set_users d
         (map (fun u => if has_id user_id u then with_username username now u else u)
              (users d))
         (users_id_seq d)).

Definition set_user_username (user_id : Z) (username : string) : Prog unit :=
  try_except
    (existing_user <- fetchrow sql_username_taken
                               (select_username_taken username user_id) ;;
     match existing_user with
     | Some _ =>
         Raise (UsernameAlreadyExistsError
                  ("Username '" +++ username +++ "' is already taken."))
     | None =>
         status <- execute sql_update_username (update_username username user_id) ;;
         if String.eqb status "UPDATE 0" then
           user_exists <- check_user_exists user_id ;;
           if negb user_exists then
             Raise (UserNotFoundError
                      ("User with ID " +++ str_int user_id +++ " not found."))
           else
             Raise (DatabaseInteractionError
                      "Failed to update username for existing user.")
         else Ret tt
     end)
    (fun e =>
       match e with
       | UniqueViolationError _ =>
           Raise (UsernameAlreadyExistsError
                    ("Username '" +++ username +++ "' became taken during update."))
       | UsernameAlreadyExistsError _ | UserNotFoundError _ => Raise e
       | _ => Raise (DatabaseInteractionError "Database error setting username.")
       end).

(** *** Unfollowing *)

Definition sql_delete_follow :=
  "DELETE FROM user_follows WHERE follower_id = $1 AND followed_id = $2".

Definition delete_follow (follower_id followed_id : Z) : Stmt string :=
  fun d _ =>
    (inr (command_tag "DELETE"
            (List.length (filter (is_edge follower_id followed_id) (user_follows d)))),
     set_user_follows d
       (filter (fun f => negb (is_edge follower_id followed_id f)) (user_follows d))).

Definition unfollow_user (follower_id followed_id : Z) : Prog bool :=
  try_except
    (status <- execute sql_delete_follow (delete_follow follower_id followed_id) ;;
     match tag_count status with
     | None => Raise (ValueError "invalid literal for int()")
     | Some deleted_count =>
         if 0 <? deleted_count then Ret true else Ret false
     end)
    (fun e => Raise (DatabaseInteractionError "Database error during unfollow operation.")).

(** *** Profile *)

Definition sql_user_profile :=
  "SELECT id, email, username, display_name, profile_picture FROM users WHERE id = $1".

Definition select_user_profile (user_id : Z) : Stmt (option UserInfo) :=
  query (fun d => first_row (map user_info (filter (has_id user_id) (users d)))).

Definition get_current_user_profile (user_id : Z) : Prog UserInfo :=
  try_except
    (user <- fetchrow sql_user_profile (select_user_profile user_id) ;;
     match user with
     | None =>
         Raise (UserNotFoundError ("User with ID " +++ str_int user_id +++ " not found."))
     | Some u => Ret u
     end)
    (fun e =>
       match e with
       | UserNotFoundError _ => Raise e
       | _ => Raise (DatabaseInteractionError "Database error fetching user profile.")
       end).

(** [schemas.user.UserProfileUpdate]: the attributes [display_name] and
    [profile_picture], with the aliases [displayName] and [profilePicture]
    for the request body. *)
Record UserProfileUpdate := mkProfileUpdate {
  display_name : field (option string);
  profile_picture : field (option string)
}.

(** [profile_in.model_dump(exclude_unset=True)]: the fields that were set,
    under their attribute names (the aliases are used only when
    [by_alias=True] is passed, as [crud_place.update_place] does). *)
Definition model_dump (profile_in : UserProfileUpdate) : list (string * option string) :=
  match display_name profile_in with
  | given v => [("display_name", v)]
  | unset => []
  end ++
  match profile_picture profile_in with
  | given v => [("profile_picture", v)]
  | unset => []
  end.

(** [key in update_fields] and [update_fields[key]] *)
Definition has_key (key : string) (update_fields : list (string * option string)) : bool :=
  existsb (fun kv => String.eqb (fst kv) key) update_fields.

Definition value_of (key : string) (update_fields : list (string * option string))
  : option (option string) :=
  option_map snd (find (fun kv => String.eqb (fst kv) key) update_fields).

(** [UPDATE users SET display_name = .., profile_picture = .., updated_at =
    NOW() WHERE id = .. RETURNING ...], with the columns whose payload keys
    are present. *)
Definition update_profile (update_fields : list (string * option string)) (user_id : Z)
  : Stmt (option UserInfo) :=
  fun d now =>
    let upd u :=
      if has_id user_id u then
        mkUser (u_id u) (u_email u) (u_firebase_uid u) (u_username u)
               (match value_of "displayName" update_fields with
                | Some v => v
                | None => u_display_name u
                end)
               (match value_of "profilePicture" update_fields with
                | Some v => v
                | None => u_profile_picture u
                end)
               (u_created_at u) now
      else u in
    let us := map upd (users d) in
    (inr (first_row (map user_info (filter (has_id user_id) us))),
     set_users d us (users_id_seq d)).

Definition update_user_profile (user_id : Z) (profile_in : UserProfileUpdate)
  : Prog UserInfo :=
  let update_fields := model_dump profile_in in
  match update_fields with
  | [] => get_current_user_profile user_id
  | _ :: _ =>
      let set_clauses0 := [] in
      let param_index0 := 1%nat in
      let '(set_clauses1, param_index1) :=
        if has_key "displayName" update_fields
        then (set_clauses0 ++ ["display_name = " +++ dollar param_index0], S param_index0)
        else (set_clauses0, param_index0) in
      let '(set_clauses, param_index) :=
        if has_key "profilePicture" update_fields
        then (set_clauses1 ++ ["profile_picture = " +++ dollar param_index1],
              S param_index1)
        else (set_clauses1, param_index1) in
      match set_clauses with
      | [] => get_current_user_profile user_id
      | _ :: _ =>
          let sql :=
            "UPDATE users SET " +++ join ", " set_clauses
            +++ ", updated_at = NOW() WHERE id = " +++ dollar param_index
            +++ " RETURNING id, email, username, display_name, profile_picture" in
          try_except
            (updated_record <- fetchrow sql (update_profile update_fields user_id) ;;
             match updated_record with
             | None =>
                 exists_ <- check_user_exists user_id ;;
                 if negb exists_ then
                   Raise (UserNotFoundError
                            ("User " +++ str_int user_id
                             +++ " not found for profile update."))
                 else Raise (DatabaseInteractionError "Failed to update profile.")
             | Some r => Ret r
             end)
            (fun e =>
               match e with
               | UserNotFoundError _ => Raise e
               | _ => Raise (DatabaseInteractionError "Database error updating profile.")
               end)
      end
  end.

End crud_user.

(* ------------------------------------------------------------------------- *)
(** ** Request validation                                                     *)
(* ------------------------------------------------------------------------- *)

(** What the framework answers when a path, query or body parameter does
    not pass the model the route declares for it: status 422.  The list of
    validation errors that the response carries is not kept.  A route's
    dependencies are resolved before its own parameters are checked, so an
    error that a dependency raises comes first. *)
Definition RequestValidationError : exn :=
  HTTPException 422 "Unprocessable Entity".

(* ------------------------------------------------------------------------- *)
(** ** [app/api/endpoints/users.py]                                          *)
(* ------------------------------------------------------------------------- *)

Module endpoints_users.

(** [schemas.user.UserFollowInfo] *)
Record UserFollowInfo := mkFollowInfo {
  info : crud_user.UserInfo;
  is_following : option bool
}.

(** [schemas.user.PaginatedUserResponse] *)
Record PaginatedUserResponse := mkPaginated {
  items : list UserFollowInfo;
  page : Z;
  page_size : Z;
  total_items : Z;
  total_pages : Z
}.

(** A response that carries a status code and a message. *)
Record MessageResponse := mkMessage {
  status_code : Z;
  message : string
}.

(** [GET /users/following], once the dependency has produced the caller's
    id; [page] is declared [ge=1] and [page_size] [ge=1, le=100]. *)
Definition get_following (scan : list UserRow -> list UserRow)
  (current_user_id page page_size : Z) : Prog PaginatedUserResponse :=
  if negb ((1 <=? page) && (1 <=? page_size) && (page_size <=? 100)) then
    Raise RequestValidationError
  else
  try_except
    (r <- crud_user.get_following scan current_user_id page page_size ;;
     let '(following_records, total_items) := r in
     let total_pages := total_pages_of total_items page_size in
     let items := map (fun record => mkFollowInfo record (Some true))
                      following_records in
     Ret (mkPaginated items page page_size total_items total_pages))
    (fun e =>
       match e with
       | User_DatabaseInteractionError _ =>
           Raise (HTTPException 500 "Database error fetching following list.")
       | _ => Raise (HTTPException 500 "Internal server error fetching following list")
       end).

(** [POST /users/{user_id}/follow] *)
Definition follow_user (user_id current_user_id : Z) : Prog MessageResponse :=
  if current_user_id =? user_id then
    Raise (HTTPException 400 "Cannot follow yourself")
  else
    try_except
      (already_following <- crud_user.follow_user current_user_id user_id ;;
       if (already_following : bool) then
         Ret (mkMessage 200 "Already following this user")
       else Ret (mkMessage 201 "User followed"))
      (fun e =>
         match e with
         | UserNotFoundError _ => Raise (HTTPException 404 (str_exn e))
         | User_DatabaseInteractionError _ =>
             Raise (HTTPException 500 "Database error processing follow request")
         | HTTPException _ _ => Raise e
         | _ => Raise (HTTPException 500
                         "Internal server error processing follow request")
         end).

(** [DELETE /users/{user_id}/follow] *)
Definition unfollow_user (user_id current_user_id : Z) : Prog MessageResponse :=
  try_except
    (deleted <- crud_user.unfollow_user current_user_id user_id ;;
     if negb deleted then
       target_exists <- crud_user.check_user_exists user_id ;;
       if negb target_exists then
         Raise (HTTPException 404 "User to unfollow not found")
       else Ret (mkMessage 200 "Not following this user")
     else Ret (mkMessage 200 "User unfollowed"))
    (fun e =>
       match e with
       | HTTPException _ _ => Raise e
       | User_DatabaseInteractionError _ =>
           Raise (HTTPException 500 "Database error during unfollow operation")
       | _ => Raise (HTTPException 500 "Internal server error unfollowing user")
       end).

End endpoints_users.

(* ------------------------------------------------------------------------- *)
(** ** [app/api/deps.py]                                                     *)
(* ------------------------------------------------------------------------- *)

Module deps.

Definition UNAUTH_TEXT := "Could not validate credentials".

(** What the call to the identity provider's SDK in [firebase_verify_token]
    comes back with: the token's claims as [FirebaseTokenData], the
    [InvalidTokenError] into which every failure of the SDK is turned, or
    another exception. *)
Inductive verification : Type :=
| verified (decoded : crud_user.FirebaseTokenData)
| InvalidTokenError (message : string)
| other_error (e : exn).

(** [get_verified_token_data], given the request's [Authorization] header
    ([None] when it is absent).  The [WWW-Authenticate] header that the 401
    responses carry is not kept. *)
Definition get_verified_token_data (firebase_verify_token : string -> verification)
  (auth_header : option string) : Prog crud_user.FirebaseTokenData :=
  match auth_header with
  | None | Some EmptyString => Raise (HTTPException 401 UNAUTH_TEXT)
  | Some auth_header =>
      match split_first_space auth_header with
      | [scheme; token] =>
          if negb (str_in "." token) then
            Ret (crud_user.mkToken token None None None)
          else if negb (String.eqb (lower scheme) "bearer") || String.eqb token "" then
            Raise (HTTPException 401 UNAUTH_TEXT)
          else
            match firebase_verify_token token with
            | verified decoded => Ret decoded
            | InvalidTokenError _ => Raise (HTTPException 401 "Invalid Firebase token")
            | other_error e => Raise e
            end
      | _ => Raise (HTTPException 401 UNAUTH_TEXT)
      end
  end.

Definition get_current_user_record (token_data : crud_user.FirebaseTokenData)
  : Prog UserRow :=
  try_except
    (user_record <- crud_user.get_user_by_firebase_uid (crud_user.uid token_data) ;;
     match user_record with
     | None => Raise (HTTPException 403 "User no longer exists")
     | Some r => Ret r
     end)
    (fun e =>
       match e with
       | HTTPException _ _ => Raise e
       | _ => Raise (HTTPException 500 "Error retrieving user information.")
       end).

Definition get_current_user_id (user_record : UserRow) : Prog Z :=
  Ret (u_id user_record).

Definition get_list_and_verify_ownership (list_id current_user_id : Z) : Prog ListRow :=
  try_except
    (list_record <- crud_list.get_list_by_id list_id ;;
     match list_record with
     | None => Raise (HTTPException 404 "List not found")
     | Some r =>
         if negb (l_owner_id r =? current_user_id) then
           Raise (HTTPException 403 "Not authorized for this list")
         else Ret r
     end)
    (fun e =>
       match e with
       | HTTPException _ _ => Raise e
       | _ => Raise (HTTPException 500 "Internal server error checking list ownership")
       end).

Definition get_list_and_verify_access (list_id current_user_id : Z) : Prog ListRow :=
  try_except
    (crud_list.check_list_access list_id current_user_id ;;
     list_record <- crud_list.get_list_by_id list_id ;;
     match list_record with
     | None => Raise (HTTPException 404 "List not found")
     | Some r => Ret r
     end)
    (fun e =>
       match e with
       | ListNotFoundError _ => Raise (HTTPException 404 "List not found")
       | ListAccessDeniedError _ => Raise (HTTPException 403 "Access denied to this list")
       | HTTPException _ _ => Raise e
       | _ => Raise (HTTPException 500 "Internal server error checking list access")
       end).

Definition verify_list_ownership (list_id current_user_id : Z) : Prog unit :=
  try_except
    (crud_list.check_list_ownership list_id current_user_id)
    (fun e =>
       match e with
       | ListNotFoundError _ => Raise (HTTPException 404 "List not found")
       | ListAccessDeniedError _ => Raise (HTTPException 403 "Not authorized for this list")
       | HTTPException _ _ => Raise e
       | _ => Raise (HTTPException 500 "Internal server error checking list ownership")
       end).

End deps.

(* ------------------------------------------------------------------------- *)
(** ** [app/api/endpoints/collaborators.py]                                  *)
(* ------------------------------------------------------------------------- *)

(** The endpoints are given with their dependencies in front: the caller's
    id comes from [deps.get_current_user_id], the list check is the
    dependency the route declares.  Then the route's own path and body
    parameters are checked against the models it declares for them, and
    the function body runs when they pass. *)
Module endpoints_collaborators.

(** The request body of the invitation as it arrives: the text of [email]
    and, when the body gives it, the text of [role]. *)
Record CollaboratorBody := mkCollaboratorBody {
  body_email : string;
  body_role : option string
}.

(** [CollaboratorAdd], the validated payload. *)
Record CollaboratorAdd := mkCollaboratorAdd {
  email : string;
  role : string
}.

(** Validation of the body against [CollaboratorAdd].  [EmailStr] stands
    for the validator of the field type of that name, code of the
    validation library: it answers [None] for text that is no e-mail
    address, and otherwise the address in the form in which the model
    holds it.  [role] is one of the two literals and ["viewer"] when the
    body leaves it out. *)
Definition CollaboratorAdd_validate (EmailStr : string -> option string)
  (body : CollaboratorBody) : option CollaboratorAdd :=
  match EmailStr (body_email body) with
  | None => None
  | Some address =>
      match body_role body with
      | None => Some (mkCollaboratorAdd address "viewer")
      | Some r =>
          if String.eqb r "viewer" || String.eqb r "editor"
          then Some (mkCollaboratorAdd address r)
          else None
      end
  end.

(** [POST /lists/{list_id}/collaborators] *)
Definition add_collaborator (EmailStr : string -> option string)
  (list_id current_user_id : Z) (body : CollaboratorBody)
  : Prog endpoints_users.MessageResponse :=
  list_record <- deps.get_list_and_verify_ownership list_id current_user_id ;;
  match CollaboratorAdd_validate EmailStr body with
  | None => Raise RequestValidationError
  | Some collaborator =>
      let list_id := l_id list_record in
      try_except
        (crud_list.add_collaborator_to_list list_id (email collaborator) ;;
         Ret (endpoints_users.mkMessage 201 "Collaborator added"))
        (fun exc =>
           match exc with
           | CollaboratorAlreadyExistsError _ => Raise (HTTPException 409 (str_exn exc))
           | List_DatabaseInteractionError _ => Raise (HTTPException 500 "Database error")
           | _ => Raise exc
           end)
  end.

(** [DELETE /lists/{list_id}/collaborators/{user_id}], with [list_id] and
    [user_id] declared [Path(..., gt=0)]; the answer is the status code of
    the empty response. *)
Definition remove_collaborator (list_id user_id current_user_id : Z) : Prog Z :=
  deps.verify_list_ownership list_id current_user_id ;;
  if negb ((0 <? list_id) && (0 <? user_id)) then Raise RequestValidationError
  else
  try_except
    (removed <- crud_list.delete_collaborator_from_list list_id user_id ;;
     if negb removed then
       list_row <- crud_list.get_list_by_id list_id ;;
       if match list_row with
          | Some r => l_owner_id r =? user_id
          | None => false
          end
       then Raise (HTTPException 400 "Cannot remove the list owner as a collaborator.")
       else
         exists_ <- crud_user.check_user_exists user_id ;;
         if negb exists_ then Raise (HTTPException 404 "Collaborator user not found.")
         else Raise (HTTPException 404 "User is not a collaborator on this list.")
     else Ret 204)
    (fun exc =>
       match exc with
       | ListNotFoundError args => Raise (HTTPException 404 (str_args args))
       | ListAccessDeniedError args => Raise (HTTPException 403 (str_args args))
       | List_DatabaseInteractionError _ => Raise (HTTPException 500 "Database error")
       | _ => Raise exc
       end).

End endpoints_collaborators.

(* ------------------------------------------------------------------------- *)
(** ** [app/api/endpoints/lists.py]: the places of a list                    *)
(* ------------------------------------------------------------------------- *)

Module endpoints_lists.

(** [schemas.place.PlaceItem( **record )]: the response model checks the
    bounds it declares (coordinates are whole numbers here, lengths are
    counted in characters of the string type). *)
Definition PlaceItem_valid (p : crud_place.PlaceItem) : bool :=
  (Nat.leb (String.length (crud_place.i_name p)) 200)
  && (Nat.leb (String.length (crud_place.i_address p)) 300)
  && (-90 <=? crud_place.i_latitude p) && (crud_place.i_latitude p <=? 90)
  && (-180 <=? crud_place.i_longitude p) && (crud_place.i_longitude p <=? 180)
  && match crud_place.i_notes p with
     | Some n => Nat.leb (String.length n) 1000
     | None => true
     end.

(** The bounds that [schemas.place.PlaceCreate] declares for the request
    body, counted like those of the response model. *)
Definition PlaceCreate_valid (p : crud_place.PlaceCreate) : bool :=
  (Nat.leb (String.length (crud_place.name p)) 200)
  && (Nat.leb (String.length (crud_place.address p)) 300)
  && (-90 <=? crud_place.latitude p) && (crud_place.latitude p <=? 90)
  && (-180 <=? crud_place.longitude p) && (crud_place.longitude p <=? 180)
  && match crud_place.notes p with
     | Some n => Nat.leb (String.length n) 1000
     | None => true
     end.

(** [schemas.place.PlaceUpdate]: [notes] holds at most 1000 characters. *)
Definition PlaceUpdate_valid (u : crud_place.PlaceUpdate) : bool :=
  match crud_place.upd_notes u with
  | given (Some n) => Nat.leb (String.length n) 1000
  | _ => true
  end.

(** [POST /lists/{list_id}/places] *)
Definition add_place_to_list (list_id current_user_id : Z)
  (place : crud_place.PlaceCreate) : Prog crud_place.PlaceItem :=
  list_record <- deps.get_list_and_verify_ownership list_id current_user_id ;;
  if negb (PlaceCreate_valid place) then Raise RequestValidationError
  else
  let list_id := l_id list_record in
  try_except
    (created_place_record <- crud_place.add_place_to_list list_id place ;;
     if PlaceItem_valid created_place_record then Ret created_place_record
     else Raise (ValueError "validation error for PlaceItem"))
    (fun e =>
       match e with
       | PlaceAlreadyExistsError _ => Raise (HTTPException 409 (str_exn e))
       | InvalidPlaceDataError _ =>
           Raise (HTTPException 400 ("Invalid data provided for place: " +++ str_exn e))
       | Place_DatabaseInteractionError _ =>
           Raise (HTTPException 500 "Database error adding place")
       | HTTPException _ _ => Raise e
       | _ => Raise (HTTPException 500 "Internal server error adding place")
       end).

(** [PATCH /lists/{list_id}/places/{place_id}] *)
Definition update_place_in_list (list_id place_id current_user_id : Z)
  (place_update : crud_place.PlaceUpdate) : Prog crud_place.PlaceItem :=
  list_record <- deps.get_list_and_verify_access list_id current_user_id ;;
  if negb (PlaceUpdate_valid place_update) then Raise RequestValidationError
  else
  let list_id := l_id list_record in
  try_except
    (updated_place_record <- crud_place.update_place place_id list_id place_update ;;
     if PlaceItem_valid updated_place_record then Ret updated_place_record
     else Raise (ValueError "validation error for PlaceItem"))
    (fun e =>
       match e with
       | PlaceNotFoundError _ => Raise (HTTPException 404 (str_exn e))
       | InvalidPlaceDataError _ =>
           Raise (HTTPException 400 ("Invalid data provided for update: " +++ str_exn e))
       | Place_DatabaseInteractionError _ =>
           Raise (HTTPException 500 "Database error updating place")
       | HTTPException _ _ => Raise e
       | _ => Raise (HTTPException 500 "Internal server error updating place")
       end).

(** [DELETE /lists/{list_id}/places/{place_id}]; the answer is the status
    code of the empty response. *)
Definition delete_place_from_list_endpoint (list_id place_id current_user_id : Z)
  : Prog Z :=
  list_record <- deps.get_list_and_verify_access list_id current_user_id ;;
  let list_id := l_id list_record in
  try_except
    (deleted <- crud_place.delete_place_from_list place_id list_id ;;
     if negb deleted then Raise (HTTPException 404 "Place not found in this list")
     else Ret 204)
    (fun e =>
       match e with
       | HTTPException _ _ => Raise e
       | Place_DatabaseInteractionError _ =>
           Raise (HTTPException 500 "Database error deleting place")
       | _ => Raise (HTTPException 500 "Internal server error deleting place")
       end).

End endpoints_lists.

(* ------------------------------------------------------------------------- *)
(** ** [app/utils/list_helpers.py]                                           *)
(* ------------------------------------------------------------------------- *)

Module list_helpers.

(** The values a list record holds. *)
Inductive value : Type :=
| v_none
| v_int (n : Z)
| v_bool (b : bool)
| v_str (s : string)
| v_list (l : list string).

(** A mapping from column names to values: a row, or the [dict] made from
    one. *)
Definition mapping := list (string * value).

Definition get (key : string) (data : mapping) : option value :=
  option_map snd (find (fun kv => String.eqb (fst kv) key) data).

(** [data[key] = v] *)
Fixpoint set (key : string) (v : value) (data : mapping) : mapping :=
  match data with
  | [] => [(key, v)]
  | kv :: rest =>
      if String.eqb (fst kv) key then (key, v) :: rest else kv :: set key v rest
  end.

Definition setdefault (key : string) (v : value) (data : mapping) : mapping :=
  match get key data with
  | Some _ => data
  | None => data ++ [(key, v)]
  end.

(** [bool(v)] *)
Definition truth (v : value) : bool :=
  match v with
  | v_none => false
  | v_int n => negb (n =? 0)
  | v_bool b => b
  | v_str s => negb (String.eqb s "")
  | v_list l => match l with [] => false | _ => true end
  end.

(** [requester_id == v] for an integer [requester_id] *)
Definition int_eq (requester_id : Z) (v : value) : bool :=
  match v with
  | v_int n => requester_id =? n
  | v_bool b => requester_id =? (if b then 1 else 0)
  | _ => false
  end.

Definition of_option {A} (f : A -> value) (o : option A) : value :=
  match o with Some a => f a | None => v_none end.

(** [dict(rec)] for the row [get_list_by_id] selects. *)
Definition of_list_row (l : ListRow) : mapping :=
  [("id", v_int (l_id l)); ("owner_id", v_int (l_owner_id l));
   ("name", of_option v_str (l_name l));
   ("description", of_option v_str (l_description l));
   ("is_private", of_option v_bool (l_is_private l))].

(** The [dict] that [get_list_details] and [update_list] build: the
    selected columns and the [collaborators] entry. *)
Definition of_list_details (d : crud_list.ListDetails) : mapping :=
  [("id", v_int (crud_list.d_id d));
   ("name", of_option v_str (crud_list.d_name d));
   ("description", of_option v_str (crud_list.d_description d));
   ("is_private", of_option v_bool (crud_list.d_is_private d));
   ("collaborators", v_list (crud_list.d_collaborators d))].

Definition _ensure_mutable (record : mapping) : mapping := record.

Definition _compute_is_owner (data : mapping) (requester_id : Z) : bool :=
  match get "is_owner" data with
  | Some v => truth v
  | None =>
      match get "isOwner" data with
      | Some v => truth v
      | None =>
          match get "owner_id" data with
          | Some v => int_eq requester_id v
          | None => true
          end
      end
  end.

(** [build_list_detail] up to the call of the response model: the mapping
    that is handed to [ListDetailResponse]. *)
Definition build_list_detail_data (record : mapping) (requester_id : Z) : mapping :=
  let data := _ensure_mutable record in
  let data := set "is_owner" (v_bool (_compute_is_owner data requester_id)) data in
  setdefault "collaborators" (v_list []) data.

End list_helpers.

(* ------------------------------------------------------------------------- *)
(** ** The store's constraints as invariants                                  *)
(* ------------------------------------------------------------------------- *)

(** No two rows carry the same key. *)
Fixpoint distinct {A} (eqb : A -> A -> bool) (l : list A) : bool :=
  match l with
  | [] => true
  | x :: l' => negb (existsb (eqb x) l') && distinct eqb l'
  end.

Definition pair_eqb (a b : Z * Z) : bool := (fst a =? fst b) && (snd a =? snd b).

Definition place_key_eqb (a b : Z * string) : bool :=
  (fst a =? fst b) && String.eqb (snd a) (snd b).

(** Primary keys. *)
Definition users_pk (d : DB) : bool := distinct Z.eqb (map u_id (users d)).
Definition lists_pk (d : DB) : bool := distinct Z.eqb (map l_id (lists d)).
Definition places_pk (d : DB) : bool := distinct Z.eqb (map p_id (places d)).

(** Unique (list, external place reference). *)
Definition places_unique (d : DB) : bool :=
  distinct place_key_eqb (map (fun p => (p_list_id p, p_place_id p)) (places d)).

(** Unique (list, user) membership. *)
Definition collaborators_unique (d : DB) : bool :=
  distinct pair_eqb (map (fun c => (lc_list_id c, lc_user_id c)) (list_collaborators d)).

(** Unique (follower, followed). *)
Definition follows_unique (d : DB) : bool :=
  distinct pair_eqb (map (fun f => (f_follower_id f, f_followed_id f)) (user_follows d)).

(** Every membership row points to a list that exists. *)
Definition collaborators_fk (d : DB) : bool :=
  forallb (fun c => existsb (fun l => l_id l =? lc_list_id c) (lists d))
          (list_collaborators d).

(** Every follow edge points to users that exist. *)
Definition follows_fk (d : DB) : bool :=
  forallb (fun f => existsb (fun u => u_id u =? f_follower_id f) (users d)
                    && existsb (fun u => u_id u =? f_followed_id f) (users d))
          (user_follows d).

(** The owner of a list is not stored as one of its collaborators. *)
Definition owner_not_collaborator (d : DB) : bool :=
  forallb (fun l =>
             negb (existsb (crud_list.is_collaborator_row (l_id l) (l_owner_id l))
                           (list_collaborators d)))
          (lists d).

Definition fresh_world (d : DB) : World := mkWorld d 0 None [].

(** Existence of rows, as propositions. *)
Definition list_exists (d : DB) (list_id : Z) : Prop :=
  exists l, In l (lists d) /\ l_id l = list_id.

Definition owns (d : DB) (user_id list_id : Z) : Prop :=
  exists l, In l (lists d) /\ l_id l = list_id /\ l_owner_id l = user_id.

Definition collaborates (d : DB) (user_id list_id : Z) : Prop :=
  exists c, In c (list_collaborators d) /\ lc_list_id c = list_id /\ lc_user_id c = user_id.

Definition user_exists (d : DB) (user_id : Z) : Prop :=
  exists u, In u (users d) /\ u_id u = user_id.


(** Owner, or collaborator of a list that exists. *)
Definition has_access (d : DB) (user_id list_id : Z) : Prop :=
  owns d user_id list_id \/ (list_exists d list_id /\ collaborates d user_id list_id).

(** The user an e-mail resolves to in [add_collaborator_to_list]: the first
    user row with that e-mail or, when there is none, the placeholder, which
    gets the next id of the sequence. *)
Definition resolved_user (d : DB) (email : string) : Z :=
  match filter (fun u => String.eqb (u_email u) email) (users d) with
  | u :: _ => u_id u
  | [] => users_id_seq d
  end.

(** The statements that resolution sends (latest first). *)
Definition resolution (d : DB) (email : string) : list string :=
  match filter (fun u => String.eqb (u_email u) email) (users d) with
  | _ :: _ => [crud_list.sql_user_id_by_email]
  | [] => [crud_list.sql_insert_placeholder; crud_list.sql_user_id_by_email]
  end.

(** *** A small store for examples *)

Definition plain_schema : Schema :=
  mkSchema "places_list_id_place_id_key" (fun _ => None).

Definition alice : UserRow :=
  mkUser 1 "alice@example.com" (Some "fb-alice") (Some "alice") None None 0 0.

Definition bob : UserRow :=
  mkUser 2 "bob@example.com" (Some "fb-bob") None None None 0 0.

Definition trip : ListRow := mkList 10 (Some "Trip") None 1 (Some true) 0 None.

Definition food : ListRow := mkList 11 (Some "Food") None 2 (Some false) 0 None.

Definition cafe : PlaceRow :=
  mkPlace 100 10 "X1" "Cafe" "1 Main St" 0 0 (Some "MUST_VISIT") (Some "try it")
          None 0 0.

Definition example_db : DB :=
  mkDB plain_schema [alice; bob] [trip; food] [] [cafe] [] [] 3 12 101.

(** A store with one list and no users yet, and another client who adds
    the membership row (10, 1) just before the fifth statement of the
    request is executed. *)
Definition race_db : DB :=
  mkDB plain_schema [alice] [mkList 10 (Some "Trip") None 1 (Some true) 0 None]
       [] [] [] [] 2 11 100.

Definition race_env (n : nat) (d : DB) : DB :=
  if Nat.eqb n 4 then set_list_collaborators d (list_collaborators d ++ [mkCollab 10 2])
  else d.

(** The constraint name under which the store reports a (list, external
    place reference) collision is one [add_place_to_list] looks for. *)
Definition places_unique_recognised (d : DB) : bool :=
  str_in "places_list_id_place_id_key" (places_unique_name (schema d))
  || str_in "places_list_id_place_id_idx" (places_unique_name (schema d)).

(** The errors [add_place_to_list] raises on purpose. *)
Definition typed_place_error (e : exn) : bool :=
  match e with
  | PlaceAlreadyExistsError _ | InvalidPlaceDataError _
  | Place_DatabaseInteractionError _ => true
  | _ => false
  end.

(** The place belongs to the list. *)
Definition place_in_list (d : DB) (place_id list_id : Z) : Prop :=
  exists p, In p (places d) /\ p_id p = place_id /\ p_list_id p = list_id.

(** A nullable text column of a place row. *)
Definition column_value (c : crud_place.column) (p : PlaceRow) : option string :=
  match c with
  | crud_place.col_notes => p_notes p
  | crud_place.col_rating => p_rating p
  | crud_place.col_visit_status => p_visit_status p
  end.

Definition column_eqb (a b : crud_place.column) : bool :=
  match a, b with
  | crud_place.col_notes, crud_place.col_notes
  | crud_place.col_rating, crud_place.col_rating
  | crud_place.col_visit_status, crud_place.col_visit_status => true
  | _, _ => false
  end.

(** What an effective update makes of the row it hits: the given columns
    assigned, the update timestamp set. *)
Definition updated_place (now : Z) (update_fields : list (crud_place.column * option string))
  (p : PlaceRow) : PlaceRow :=
  crud_place.touch now (fold_left crud_place.assign update_fields p).

(** What the no-op path of [update_place] answers. *)
Definition current_place (d : DB) (place_id list_id : Z) : exn + crud_place.PlaceItem :=
  match filter (crud_place.is_place place_id list_id) (places d) with
  | p :: _ => inr (crud_place.place_item p)
  | [] => inl (PlaceNotFoundError "Place not found in this list.")
  end.

(** What [get_list_details] answers. *)
Definition list_details (d : DB) (list_id : Z) : option crud_list.ListDetails :=
  match filter (fun l => l_id l =? list_id) (lists d) with
  | l :: _ =>
      Some (crud_list.mkDetails (l_id l) (l_name l) (l_description l) (l_is_private l)
                                (crud_list.collaborator_emails list_id d))
  | [] => None
  end.

(** The last clause of the update contract as the specification words it,
    read on places: a field that the payload supplies is applied and the
    update timestamp is bumped. *)
Definition supplied_place_fields_applied : Prop :=
  forall (w : World) (p : PlaceRow) (v : option string),
    places_pk (db w) = true -> In p (places (db w)) ->
    places_check (schema (db w))
      (updated_place (clock w) [(crud_place.col_notes, v)] p) = None ->
    exists p',
      In p' (places (db (after (run (crud_place.update_place (p_id p) (p_list_id p)
                                       (crud_place.mkPlaceUpdate (given v))) w)))) /\
      p_id p' = p_id p /\ p_notes p' = v /\ p_updated_at p' = clock w.

(** A follow edge from [follower_id] to [followed_id] is stored. *)
Definition follows (d : DB) (follower_id followed_id : Z) : Prop :=
  exists f, In f (user_follows d) /\ f_follower_id f = follower_id
            /\ f_followed_id f = followed_id.

(** Another client commits the row [winner] just before statement [n0] of
    the request is executed. *)
Definition commit_before (n0 : nat) (winner : UserRow) (n : nat) (d : DB) : DB :=
  if Nat.eqb n n0 then
    set_users d (users d ++ [winner]) (Z.max (users_id_seq d) (u_id winner + 1))
  else d.

(** The race clause of identity resolution as the specification words it:
    when the insert of the create step collides with a row that another
    client has just committed, the resolver answers with that row. *)
Definition race_answered_with_winner : Prop :=
  forall (w : World) (token_data : crud_user.FirebaseTokenData) (e : string)
         (winner : UserRow),
    crud_user.email token_data = Some e -> e <> "" -> crud_user.uid token_data <> "" ->
    existsb (crud_user.has_firebase_uid (crud_user.uid token_data)) (users (db w)) = false ->
    existsb (crud_user.has_email e) (users (db w)) = false ->
    crud_user.has_email e winner = true ->
    result (run_env (commit_before (3 + List.length (log w)) winner)
                    (crud_user.get_or_create_user_by_firebase token_data) w)
    = inr (u_id winner, crud_user.needs_username_of (Some winner)).

Definition carol_token : crud_user.FirebaseTokenData :=
  crud_user.mkToken "fb-carol" (Some "carol@example.com") (Some "Carol") None.

Definition carol : UserRow :=
  mkUser 3 "carol@example.com" (Some "fb-carol") None (Some "Carol") None 2 2.

(** Alice follows Bob and Dave.  Neither has picked a user name yet -- an
    account is created without one -- and neither has a display name: the
    two tie on the keys by which the follow listings are ordered. *)
Definition dave : UserRow :=
  mkUser 3 "dave@example.com" (Some "fb-dave") None None None 0 0.

Definition tied_db : DB :=
  mkDB plain_schema [alice; bob; dave] [] [] []
       [mkFollow 1 2 0; mkFollow 1 3 0] [] 4 1 1.

(* ------------------------------------------------------------------------- *)
(** ** The paging contract                                                    *)
(* ------------------------------------------------------------------------- *)

(** The rows of page [page] at [page_size] of a listing whose full result
    is [rows]. *)
Definition page_slice {R} (rows : list R) (page page_size : Z) : list R :=
  firstn (Z.to_nat page_size) (skipn (Z.to_nat ((page - 1) * page_size)) rows).

(** The items a page request answered with. *)
Definition items_of {R} (r : (exn + (list R * Z)) * World) : list R :=
  match fst r with
  | inr (items, _) => items
  | inl _ => []
  end.

(** The items of pages [1 .. total_pages], one after the other. *)
Definition all_pages {R} (f : Z -> Z -> Prog (list R * Z)) (w : World)
  (page_size total_items : Z) : list R :=
  List.concat (map (fun p => items_of (run (f (Z.of_nat p) page_size) w))
              (seq 1 (Z.to_nat (total_pages_of total_items page_size)))).

(** A listing [f] (a function of page and page size) pages the result
    [rows] on [w]: every page request answers its slice together with the
    number of rows, the pages put together are the result, and no row id
    occurs twice in it. *)
Definition pages {R} (f : Z -> Z -> Prog (list R * Z)) (w : World)
  (rows : list R) (key : R -> Z) : Prop :=
  forall page_size, 1 <= page_size ->
    (forall page, 1 <= page ->
       result (run (f page page_size) w)
         = inr (page_slice rows page page_size, count rows)) /\
    all_pages f w page_size (count rows) = rows /\
    NoDup (map key rows).

Definition notifications_pk (d : DB) : bool :=
  distinct Z.eqb (map n_id (notifications d)).

(** The constraints of the store that the listings rely on. *)
Definition store_ok (d : DB) : bool :=
  users_pk d && lists_pk d && places_pk d && notifications_pk d
  && follows_unique d && follows_fk d.

(** [a] and [b] are listed in this order by [ORDER BY created_at DESC,
    id DESC]. *)
Definition newest_first (a b : ListRow) : Prop := crud_list._ORDER_BY a b = true.

(** The same order on places. *)
Definition newest_place_first (a b : PlaceRow) : Prop := crud_place.newest_first a b = true.

(* ------------------------------------------------------------------------- *)
(** ** Further stores for examples                                            *)
(* ------------------------------------------------------------------------- *)

(** The example store with Bob as a collaborator of Alice's list, and Bob
    following Alice. *)
Definition shared_db : DB :=
  mkDB plain_schema [alice; bob] [trip; food] [mkCollab 10 2] [cafe]
       [mkFollow 2 1 0] [] 3 12 101.

(** The next value of the places id sequence is not the id of a stored
    place. *)
Definition places_id_fresh (d : DB) : bool :=
  negb (existsb (fun p => p_id p =? places_id_seq d) (places d)).

(** What [add_place_to_list] answers for a new row: the payload's fields
    under the new id. *)
Definition created_item (id : Z) (place_in : crud_place.PlaceCreate) : crud_place.PlaceItem :=
  crud_place.mkItem id (crud_place.name place_in) (crud_place.address place_in)
    (crud_place.latitude place_in) (crud_place.longitude place_in)
    (crud_place.rating place_in) (crud_place.notes place_in)
    (crud_place.visitStatus place_in).

(** Another user holds [username], letter case put aside. *)
Definition username_taken (d : DB) (username : string) (user_id : Z) : Prop :=
  exists u n, In u (users d) /\ u_id u <> user_id /\ u_username u = Some n
              /\ lower n = lower username.

(** Two rows hold the same username, letter case put aside. *)
Definition shares_username (u v : UserRow) : bool :=
  match u_username u, u_username v with
  | Some n, Some m => String.eqb (lower n) (lower m)
  | _, _ => false
  end.

(** No two users hold the same username, letter case put aside. *)
Definition usernames_unique (d : DB) : bool :=
  forallb (fun u => forallb (fun v => implb (shares_username u v) (u_id u =? u_id v))
                            (users d))
          (users d).

(** The next value of the users id sequence is not the id of a stored
    user. *)
Definition users_id_fresh (d : DB) : bool :=
  negb (existsb (crud_user.has_id (users_id_seq d)) (users d)).

(** The row of a user after the sign-in that links an external identity to
    it. *)
Definition linked (firebase_uid : string) (now : Z) (u : UserRow) : UserRow :=
  mkUser (u_id u) (u_email u) (Some firebase_uid) (u_username u)
         (u_display_name u) (u_profile_picture u) (u_created_at u) now.

(** [Depends(deps.get_current_user_id)] resolved for a request: the chain
    of dependencies that the three functions declare, from the
    [Authorization] header to the caller's id. *)
Definition current_user_id (firebase_verify_token : string -> deps.verification)
  (auth_header : option string) : Prog Z :=
  token_data <- deps.get_verified_token_data firebase_verify_token auth_header ;;
  user_record <- deps.get_current_user_record token_data ;;
  deps.get_current_user_id user_record.

(** A user whose stored external identity is [firebase_uid]. *)
Definition has_identity (d : DB) (firebase_uid : string) (user_id : Z) : Prop :=
  exists u, In u (users d) /\ u_firebase_uid u = Some firebase_uid /\ u_id u = user_id.

(** The next value of the lists id sequence is not the id of a stored
    list. *)
Definition lists_id_fresh (d : DB) : bool :=
  negb (existsb (fun l => l_id l =? lists_id_seq d) (lists d)).

(** The row [create_list] inserts. *)
Definition created_list (d : DB) (list_in : crud_list.ListCreate) (owner_id now : Z)
  : ListRow :=
  mkList (lists_id_seq d) (Some (crud_list.create_name list_in))
         (crud_list.create_description list_in) owner_id
         (Some (crud_list.create_isPrivate list_in)) now None.

(** Every place belongs to a list that exists. *)
Definition places_fk (d : DB) : bool :=
  forallb (fun p => existsb (fun l => l_id l =? p_list_id p) (lists d)) (places d).

(* ------------------------------------------------------------------------- *)
(** ** Running programs                                                       *)
(* ------------------------------------------------------------------------- *)

Lemma run_bind {A B} (p : Prog A) (f : A -> Prog B) (w : World) :
  run (bind p f) w =
  match run p w with
  | (inr a, w') => run (f a) w'
  | (inl e, w') => (inl e, w')
  end.
Proof.
  revert w.
  induction p as [a | e | X sql s k IH | k IH | k IH | k IH]; intro w; simpl;
    try reflexivity; try apply IH.
  destruct (s (db w) (clock w)) as [r d]. apply IH.
Qed.

Lemma run_try_except {A} (p : Prog A) (h : exn -> Prog A) (w : World) :
  run (try_except p h) w =
  match run p w with
  | (inr a, w') => (inr a, w')
  | (inl e, w') => run (h e) w'
  end.
Proof.
  revert w.
  induction p as [a | e | X sql s k IH | k IH | k IH | k IH]; intro w; simpl;
    try reflexivity; try apply IH.
  destruct (s (db w) (clock w)) as [r d]. apply IH.
Qed.

Lemma run_db_call {X} (sql : string) (s : Stmt X) (w : World) :
  run (db_call sql s) w =
  (fst (s (db w) (clock w)), sent sql (snd (s (db w) (clock w))) (saved w) w).
Proof.
  unfold db_call. simpl. destruct (s (db w) (clock w)) as [[e | x] d]; reflexivity.
Qed.

Lemma run_query {X} (sql : string) (f : DB -> X) (w : World) :
  run (db_call sql (query f)) w = (inr (f (db w)), sent sql (db w) (saved w) w).
Proof. reflexivity. Qed.

Lemma list_exists_iff d list_id :
  existsb (fun l => l_id l =? list_id) (lists d) = true <-> list_exists d list_id.
Proof.
  rewrite existsb_exists. unfold list_exists.
  split; intros [l [Hin H]]; exists l; split; auto; lia.
Qed.

Lemma owns_iff d user_id list_id :
  existsb (fun l => (l_id l =? list_id) && (l_owner_id l =? user_id)) (lists d) = true
  <-> owns d user_id list_id.
Proof.
  rewrite existsb_exists. unfold owns.
  split.
  - intros [l [Hin H]]. apply andb_true_iff in H. exists l. repeat split; auto; lia.
  - intros [l [Hin [H1 H2]]]. exists l. split; auto.
    apply andb_true_iff. split; lia.
Qed.

Lemma collaborates_iff d user_id list_id :
  existsb (crud_list.is_collaborator_row list_id user_id) (list_collaborators d) = true
  <-> collaborates d user_id list_id.
Proof.
  rewrite existsb_exists. unfold collaborates, crud_list.is_collaborator_row.
  split.
  - intros [c [Hin H]]. apply andb_true_iff in H. exists c. repeat split; auto; lia.
  - intros [c [Hin [H1 H2]]]. exists c. split; auto.
    apply andb_true_iff. split; lia.
Qed.

Lemma owns_exists d user_id list_id : owns d user_id list_id -> list_exists d list_id.
Proof. intros [l [Hin [H _]]]. exists l. auto. Qed.

Lemma check_list_ownership_run (w : World) (list_id user_id : Z) :
  run (crud_list.check_list_ownership list_id user_id) w =
  if existsb (fun l => (l_id l =? list_id) && (l_owner_id l =? user_id)) (lists (db w))
  then (inr tt, sent crud_list.sql_owner_match (db w) (saved w) w)
  else
    (inl (if existsb (fun l => l_id l =? list_id) (lists (db w))
          then ListAccessDeniedError [] else ListNotFoundError []),
     sent crud_list.sql_list_exists (db w) (saved w)
          (sent crud_list.sql_owner_match (db w) (saved w) w)).
Proof.
  unfold crud_list.check_list_ownership. cbn.
  destruct (existsb _ (lists (db w))); cbn; [reflexivity|].
  destruct (existsb _ (lists (db w))); reflexivity.
Qed.

Lemma in_left_join {A B} (on : A -> B -> bool) (la : list A) (lb : list B) a ob :
  In (a, ob) (left_join on la lb) <->
  In a la /\
  match ob with
  | Some b => In b lb /\ on a b = true
  | None => forall b, In b lb -> on a b = false
  end.
Proof.
  unfold left_join. rewrite in_flat_map. split.
  - intros [a' [Ha' Hin]].
    destruct (filter (on a') lb) as [| b0 bs] eqn:E.
    + destruct Hin as [Heq | []]. inversion Heq; subst. split; auto.
      intros b Hb. destruct (on a b) eqn:Eb; auto.
      assert (In b (filter (on a) lb)) by (apply filter_In; auto).
      rewrite E in H. destruct H.
    + apply in_map_iff in Hin. destruct Hin as [b [Heq Hb]].
      inversion Heq; subst. split; auto.
      rewrite <- E in Hb. apply filter_In in Hb. exact Hb.
  - intros [Ha H]. exists a. split; auto.
    destruct ob as [b |].
    + destruct H as [Hb Hon].
      assert (Hf : In b (filter (on a) lb)) by (apply filter_In; auto).
      destruct (filter (on a) lb) as [| b0 bs] eqn:E; [destruct Hf|].
      apply in_map_iff. exists b. auto.
    + destruct (filter (on a) lb) as [| b0 bs] eqn:E; [left; reflexivity|].
      assert (Hf : In b0 (filter (on a) lb)) by (rewrite E; left; reflexivity).
      apply filter_In in Hf. destruct Hf as [Hb0 Hon]. rewrite (H _ Hb0) in Hon.
      discriminate.
Qed.

Lemma first_row_none {A} (l : list A) : first_row l = None <-> l = [].
Proof. destruct l; simpl; split; intro H; auto; discriminate. Qed.

Lemma first_row_map_const {A} (l : list A) (c : Z) :
  first_row (map (fun _ => c) l) = match l with [] => None | _ => Some c end.
Proof. destruct l; reflexivity. Qed.

Lemma filter_nonempty {A} (f : A -> bool) (l : list A) :
  filter f l <> [] <-> exists x, In x l /\ f x = true.
Proof.
  split.
  - destruct (filter f l) as [| x xs] eqn:E; [intros H; destruct H; reflexivity|].
    intros _. exists x. apply filter_In. rewrite E. left. reflexivity.
  - intros [x Hx] E. apply filter_In in Hx. rewrite E in Hx. destruct Hx.
Qed.

(** The combined existence-and-permission query of [check_list_access]
    returns a row exactly for an owner or a collaborator of an existing
    list. *)
Lemma select_access_iff (d : DB) (list_id user_id : Z) :
  fst (crud_list.select_access list_id user_id d 0) <> inr None <->
  has_access d user_id list_id.
Proof.
  unfold crud_list.select_access, query. simpl.
  rewrite first_row_map_const.
  match goal with |- context [filter ?f ?l] => set (rows := filter f l) end.
  assert (Hrows : rows <> [] <-> has_access d user_id list_id).
  { subst rows. rewrite filter_nonempty. split.
    - intros [[l oc] [Hin Hf]]. apply in_left_join in Hin. destruct Hin as [Hl Hoc].
      simpl in Hf. apply andb_true_iff in Hf. destruct Hf as [Hid Hrel].
      apply orb_true_iff in Hrel. destruct Hrel as [Ho | Hc].
      + left. exists l. repeat split; auto; lia.
      + destruct oc as [c |]; [| discriminate]. destruct Hoc as [Hc' Hon].
        apply andb_true_iff in Hon. right. split.
        * exists l. split; auto. lia.
        * exists c. repeat split; auto; lia.
    - intros [[l [Hl [Hid Ho]]] | [[l [Hl Hid]] [c [Hc [Hc1 Hc2]]]]].
      + destruct (filter (fun lc => (lc_list_id lc =? l_id l) && (lc_user_id lc =? user_id))
                         (list_collaborators d)) as [| c cs] eqn:E.
        * exists (l, None). split.
          -- apply in_left_join. split; auto. intros b Hb.
             destruct ((lc_list_id b =? l_id l) && (lc_user_id b =? user_id)) eqn:Eb; auto.
             assert (In b []) by (rewrite <- E; apply filter_In; auto).
             contradiction.
          -- simpl. apply andb_true_iff. split; [lia|].
             apply orb_true_iff. left. lia.
        * assert (Hc : In c (c :: cs)) by (left; reflexivity).
          rewrite <- E in Hc. apply filter_In in Hc.
          exists (l, Some c). split.
          -- apply in_left_join. split; auto.
          -- simpl. apply andb_true_iff. split; [lia|].
             apply orb_true_iff. right. reflexivity.
      + exists (l, Some c). split.
        * apply in_left_join. split; auto. split; auto.
          apply andb_true_iff. split; lia.
        * simpl. apply andb_true_iff. split; [lia|].
          apply orb_true_iff. right. reflexivity. }
  destruct rows as [| r rs].
  - split; [intro H; exfalso; apply H; reflexivity|].
    intro H. apply Hrows in H. exfalso. apply H. reflexivity.
  - split; [intros _; apply Hrows; discriminate | intros _; discriminate].
Qed.

Lemma select_one_list_spec (d : DB) (list_id : Z) :
  first_row (map (fun _ => 1) (filter (fun l => l_id l =? list_id) (lists d))) =
  if existsb (fun l => l_id l =? list_id) (lists d) then Some 1 else None.
Proof.
  rewrite first_row_map_const.
  induction (lists d) as [| l ls IH]; simpl; [reflexivity|].
  destruct (l_id l =? list_id); simpl; [reflexivity|]. exact IH.
Qed.

Lemma check_list_access_run (w : World) (list_id user_id : Z) :
  run (crud_list.check_list_access list_id user_id) w =
  match fst (crud_list.select_access list_id user_id (db w) 0) with
  | inr None =>
      (inl (if existsb (fun l => l_id l =? list_id) (lists (db w))
            then ListAccessDeniedError [list_id; user_id]
            else ListNotFoundError [list_id]),
       sent crud_list.sql_one_list (db w) (saved w)
            (sent crud_list.sql_access (db w) (saved w) w))
  | _ => (inr tt, sent crud_list.sql_access (db w) (saved w) w)
  end.
Proof.
  unfold crud_list.check_list_access. cbn.
  rewrite first_row_map_const.
  match goal with |- context [filter ?f ?l] => destruct (filter f l) end; cbn.
  - rewrite select_one_list_spec.
    destruct (existsb _ (lists (db w))); reflexivity.
  - reflexivity.
Qed.

(** C1. [check_list_ownership] and [check_list_access] raise the not-found
    error exactly when no list row has the id, the access-denied error
    exactly when the list exists and the user is not its owner
    (respectively neither owner nor collaborator), and return otherwise.
    They first send the combined existence-and-permission query and send
    the existence-only query only when the first finds nothing; neither
    changes the tables. *)
Theorem access_checks_classify (w : World) (list_id user_id : Z) :
  (result (run (crud_list.check_list_ownership list_id user_id) w)
     = inl (ListNotFoundError []) <-> ~ list_exists (db w) list_id) /\
  (result (run (crud_list.check_list_ownership list_id user_id) w)
     = inl (ListAccessDeniedError [])
   <-> list_exists (db w) list_id /\ ~ owns (db w) user_id list_id) /\
  (result (run (crud_list.check_list_ownership list_id user_id) w) = inr tt
   <-> owns (db w) user_id list_id) /\
  (result (run (crud_list.check_list_access list_id user_id) w)
     = inl (ListNotFoundError [list_id]) <-> ~ list_exists (db w) list_id) /\
  (result (run (crud_list.check_list_access list_id user_id) w)
     = inl (ListAccessDeniedError [list_id; user_id])
   <-> list_exists (db w) list_id /\ ~ owns (db w) user_id list_id
       /\ ~ collaborates (db w) user_id list_id) /\
  (result (run (crud_list.check_list_access list_id user_id) w) = inr tt
   <-> has_access (db w) user_id list_id) /\
  log (after (run (crud_list.check_list_ownership list_id user_id) w))
    = (match result (run (crud_list.check_list_ownership list_id user_id) w) with
       | inr _ => [crud_list.sql_owner_match]
       | inl _ => [crud_list.sql_list_exists; crud_list.sql_owner_match]
       end) ++ log w /\
  log (after (run (crud_list.check_list_access list_id user_id) w))
    = (match result (run (crud_list.check_list_access list_id user_id) w) with
       | inr _ => [crud_list.sql_access]
       | inl _ => [crud_list.sql_one_list; crud_list.sql_access]
       end) ++ log w /\
  db (after (run (crud_list.check_list_ownership list_id user_id) w)) = db w /\
  db (after (run (crud_list.check_list_access list_id user_id) w)) = db w.
Proof.
  rewrite check_list_ownership_run, check_list_access_run.
  pose proof (owns_iff (db w) user_id list_id) as Ho.
  pose proof (list_exists_iff (db w) list_id) as He.
  pose proof (select_access_iff (db w) list_id user_id) as Ha.
  pose proof (@owns_exists (db w) user_id list_id) as Hoe.
  unfold result, after, has_access in *.
  destruct (existsb (fun l => (l_id l =? list_id) && (l_owner_id l =? user_id))
                    (lists (db w))) eqn:Eo;
  destruct (existsb (fun l => l_id l =? list_id) (lists (db w))) eqn:Ee;
  destruct (fst (crud_list.select_access list_id user_id (db w) 0))
    as [e | [z |]] eqn:Ea; simpl;
  repeat split; try reflexivity; try discriminate; intros;
  repeat match goal with
         | H : _ /\ _ |- _ => destruct H
         | H : inl _ = inl _ |- _ => inversion H; clear H
         | H : inl _ = inr _ |- _ => discriminate H
         | H : inr _ = inl _ |- _ => discriminate H
         end;
  try solve [ intuition (try discriminate; try congruence; eauto) ].
Qed.

Section Distinct.
Context {K : Type} (eqb : K -> K -> bool).
Hypothesis eqb_refl : forall a, eqb a a = true.
Hypothesis eqb_sym : forall a b, eqb a b = eqb b a.

Lemma distinct_filter {A} (key : A -> K) (l : list A) (x : A) :
  distinct eqb (map key l) = true -> In x l ->
  filter (fun y => eqb (key y) (key x)) l = [x].
Proof.
  induction l as [| y l IH]; simpl; [intros _ []|].
  intros Hd Hin. apply andb_true_iff in Hd. destruct Hd as [Hy Hd].
  apply negb_true_iff in Hy.
  assert (Hno : forall z, In z l -> eqb (key y) (key z) = false).
  { intros z Hz. destruct (eqb (key y) (key z)) eqn:E; auto.
    assert (existsb (eqb (key y)) (map key l) = true).
    { apply existsb_exists. exists (key z). split; auto. apply in_map; auto. }
    congruence. }
  destruct Hin as [-> | Hin].
  - rewrite eqb_refl. f_equal.
    clear IH Hy Hd. induction l as [| z l IHl]; simpl; auto.
    rewrite eqb_sym, (Hno z (or_introl eq_refl)). apply IHl.
    intros z' Hz'. apply Hno. right; auto.
  - rewrite (Hno x Hin). apply IH; auto.
Qed.

Lemma distinct_app_new (ks : list K) (k : K) :
  distinct eqb ks = true -> existsb (fun k' => eqb k' k) ks = false ->
  distinct eqb (ks ++ [k]) = true.
Proof.
  induction ks as [| a ks IH]; simpl; [reflexivity|].
  intros Hd Hn. apply andb_true_iff in Hd. destruct Hd as [Ha Hd].
  apply orb_false_iff in Hn. destruct Hn as [Hak Hn].
  apply andb_true_iff. split; [| apply IH; auto].
  rewrite existsb_app. simpl. rewrite Hak.
  apply negb_true_iff in Ha. rewrite Ha. reflexivity.
Qed.
End Distinct.

Lemma distinct_first {A} (key : A -> Z) (l : list A) (x : A) :
  distinct Z.eqb (map key l) = true -> In x l ->
  filter (fun y => key y =? key x) l = [x].
Proof. apply distinct_filter; [apply Z.eqb_refl | apply Z.eqb_sym]. Qed.

Lemma existsb_In_id {A} (key : A -> Z) (l : list A) (x : A) :
  In x l -> existsb (fun y => key y =? key x) l = true.
Proof.
  intro H. apply existsb_exists. exists x. split; auto. apply Z.eqb_refl.
Qed.

Lemma not_collaborates_iff d user_id list_id :
  existsb (crud_list.is_collaborator_row list_id user_id) (list_collaborators d) = false
  <-> ~ collaborates d user_id list_id.
Proof.
  rewrite <- collaborates_iff. destruct (existsb _ _); split; intro H; auto;
    try discriminate. exfalso. apply H. reflexivity.
Qed.

(** [add_collaborator_to_list] on a list that exists: the world [w1] after
    resolving the e-mail and reading the owner, then the three outcomes. *)
Lemma add_collaborator_run (w : World) (l : ListRow) (email : string) :
  lists_pk (db w) = true -> In l (lists (db w)) ->
  exists w1,
    list_collaborators (db w1) = list_collaborators (db w) /\
    log w1 = crud_list.sql_owner_of :: resolution (db w) email ++ log w /\
    run (crud_list.add_collaborator_to_list (l_id l) email) w =
    if l_owner_id l =? resolved_user (db w) email then
      (inl (CollaboratorAlreadyExistsError "Owner is already a collaborator."), w1)
    else if existsb (crud_list.is_collaborator_row (l_id l) (resolved_user (db w) email))
                    (list_collaborators (db w)) then
      (inl (CollaboratorAlreadyExistsError "User is already a collaborator."),
       sent crud_list.sql_collaborator_exists (db w1) (saved w1) w1)
    else
      (inr tt,
       sent crud_list.sql_insert_collaborator
            (set_list_collaborators (db w1)
               (list_collaborators (db w)
                ++ [mkCollab (l_id l) (resolved_user (db w) email)]))
            (saved w1)
            (sent crud_list.sql_collaborator_exists (db w1) (saved w1) w1)).
Proof.
  intros Hpk Hin.
  pose proof (distinct_first l_id (lists (db w)) l Hpk Hin) as Hl.
  pose proof (existsb_In_id l_id (lists (db w)) l Hin) as Hex.
  unfold resolved_user, resolution.
  unfold crud_list.add_collaborator_to_list, crud_list.insert_placeholder_user,
    crud_list.select_owner_of, crud_list.select_collaborator_exists,
    crud_list.insert_collaborator.
  cbn.
  destruct (filter (fun u => (u_email u =? email)%string) (users (db w)))
    as [| u us] eqn:Eu.
  - eexists. split; [| split]; cycle 2.
    + repeat (cbn; rewrite ?Eu, ?Hl, ?Hex).
      destruct (l_owner_id l =? _) eqn:Eo; cbn; [reflexivity|].
      destruct (existsb (crud_list.is_collaborator_row _ _) _) eqn:Ec; cbn;
        [reflexivity|].
      repeat (cbn; rewrite ?Ec, ?Hex, ?existsb_app, ?Z.eqb_refl, ?orb_true_r).
      reflexivity.
    + reflexivity.
    + reflexivity.
  - assert (Hu : existsb (fun u0 => u_id u0 =? u_id u) (users (db w)) = true).
    { apply existsb_In_id.
      assert (H : In u (u :: us)) by (left; reflexivity).
      rewrite <- Eu in H. apply filter_In in H. apply H. }
    eexists. split; [| split]; cycle 2.
    + repeat (cbn; rewrite ?Eu, ?Hl, ?Hex).
      destruct (l_owner_id l =? _) eqn:Eo; cbn; [reflexivity|].
      destruct (existsb (crud_list.is_collaborator_row _ _) _) eqn:Ec; cbn;
        [reflexivity|].
      repeat (cbn; rewrite ?Ec, ?Hex, ?Hu).
      reflexivity.
    + reflexivity.
    + reflexivity.
Qed.

(** C2. For a list with owner [O], [add_collaborator_to_list] resolves the
    e-mail to a user (creating a placeholder when it is unknown), then
    reads the owner and raises [CollaboratorAlreadyExistsError] when the
    user is [O], then checks for a membership row and raises the same error
    when there is one, and only then inserts the row.  Adding the owner is
    answered with the conflict and no row is written, so a list whose owner
    is not among its collaborator rows stays so. *)
Theorem add_collaborator_rejects_owner (w : World) (l : ListRow) (email : string) :
  lists_pk (db w) = true -> In l (lists (db w)) ->
  (resolved_user (db w) email = l_owner_id l ->
   result (run (crud_list.add_collaborator_to_list (l_id l) email) w)
     = inl (CollaboratorAlreadyExistsError "Owner is already a collaborator.")
   /\ list_collaborators (db (after (run (crud_list.add_collaborator_to_list (l_id l) email) w)))
      = list_collaborators (db w)
   /\ log (after (run (crud_list.add_collaborator_to_list (l_id l) email) w))
      = crud_list.sql_owner_of :: resolution (db w) email ++ log w) /\
  (resolved_user (db w) email <> l_owner_id l ->
   collaborates (db w) (resolved_user (db w) email) (l_id l) ->
   result (run (crud_list.add_collaborator_to_list (l_id l) email) w)
     = inl (CollaboratorAlreadyExistsError "User is already a collaborator.")
   /\ list_collaborators (db (after (run (crud_list.add_collaborator_to_list (l_id l) email) w)))
      = list_collaborators (db w)
   /\ log (after (run (crud_list.add_collaborator_to_list (l_id l) email) w))
      = crud_list.sql_collaborator_exists :: crud_list.sql_owner_of
        :: resolution (db w) email ++ log w) /\
  (resolved_user (db w) email <> l_owner_id l ->
   ~ collaborates (db w) (resolved_user (db w) email) (l_id l) ->
   result (run (crud_list.add_collaborator_to_list (l_id l) email) w) = inr tt
   /\ list_collaborators (db (after (run (crud_list.add_collaborator_to_list (l_id l) email) w)))
      = list_collaborators (db w) ++ [mkCollab (l_id l) (resolved_user (db w) email)]
   /\ log (after (run (crud_list.add_collaborator_to_list (l_id l) email) w))
      = crud_list.sql_insert_collaborator :: crud_list.sql_collaborator_exists
        :: crud_list.sql_owner_of :: resolution (db w) email ++ log w) /\
  (~ collaborates (db w) (l_owner_id l) (l_id l) ->
   ~ collaborates (db (after (run (crud_list.add_collaborator_to_list (l_id l) email) w)))
       (l_owner_id l) (l_id l)).
Proof.
  intros Hpk Hin.
  destruct (add_collaborator_run w l email Hpk Hin) as [w1 [Hc1 [Hlog Hrun]]].
  pose proof (collaborates_iff (db w) (resolved_user (db w) email) (l_id l)) as Hc.
  rewrite Hrun. unfold result, after.
  assert (Hkeep : forall w2 : World,
             list_collaborators (db w2) = list_collaborators (db w) ->
             ~ collaborates (db w) (l_owner_id l) (l_id l) ->
             ~ collaborates (db w2) (l_owner_id l) (l_id l)).
  { intros w2 E H [c [Hcin Hcc]]. apply H. exists c. rewrite <- E. auto. }
  destruct (l_owner_id l =? resolved_user (db w) email) eqn:Eo.
  - apply Z.eqb_eq in Eo. simpl.
    split; [| split; [| split]].
    + intros _. auto.
    + intros H. congruence.
    + intros H. congruence.
    + apply Hkeep. exact Hc1.
  - apply Z.eqb_neq in Eo.
    destruct (existsb (crud_list.is_collaborator_row (l_id l) (resolved_user (db w) email))
                      (list_collaborators (db w))) eqn:Ec; simpl.
    + split; [| split; [| split]].
      * intros H. congruence.
      * intros _ _. rewrite Hlog. auto.
      * intros _ H. exfalso. apply H. apply Hc. reflexivity.
      * apply Hkeep. exact Hc1.
    + split; [| split; [| split]].
      * intros H. congruence.
      * intros _ H. apply Hc in H. congruence.
      * intros _ _. rewrite Hlog. auto.
      * intros H [c [Hcin [Hc2 Hc3]]]. apply in_app_iff in Hcin.
        destruct Hcin as [Hcin | [<- | []]].
        -- apply H. exists c. auto.
        -- simpl in Hc3. congruence.
Qed.

Lemma add_collaborator_rejects_owner_witness :
  result (run (crud_list.add_collaborator_to_list 10 "alice@example.com")
              (fresh_world example_db))
  = inl (CollaboratorAlreadyExistsError "Owner is already a collaborator.").
Proof.
  apply (add_collaborator_rejects_owner (fresh_world example_db) trip "alice@example.com");
    [reflexivity | simpl; auto | reflexivity].
Defined.

Lemma no_list_filter (d : DB) (list_id : Z) :
  ~ list_exists d list_id ->
  filter (fun l => l_id l =? list_id) (lists d) = [] /\
  existsb (fun l => l_id l =? list_id) (lists d) = false.
Proof.
  intro H. split.
  - destruct (filter _ (lists d)) as [| l ls] eqn:E; auto.
    exfalso. apply H. exists l.
    assert (Hin : In l (l :: ls)) by (left; reflexivity).
    rewrite <- E in Hin. apply filter_In in Hin. split; [apply Hin | lia].
  - destruct (existsb _ (lists d)) eqn:E; auto.
    exfalso. apply H. apply list_exists_iff. exact E.
Qed.

Lemma no_list_no_collaborator (d : DB) (list_id user_id : Z) :
  collaborators_fk d = true -> ~ list_exists d list_id ->
  existsb (crud_list.is_collaborator_row list_id user_id) (list_collaborators d) = false.
Proof.
  intros Hfk Hno. apply not_collaborates_iff. intros [c [Hin [Hl Hu]]].
  unfold collaborators_fk in Hfk. rewrite forallb_forall in Hfk.
  apply Hno. apply list_exists_iff. rewrite <- Hl. apply Hfk. exact Hin.
Qed.

(** C9. With a list id that no list row has, [add_collaborator_to_list]
    raises neither the not-found nor the access-denied error: the owner
    lookup finds no owner, both conflict checks pass, the membership insert
    is sent and fails on the foreign key, and the failure reaches the caller
    as the module's generic [DatabaseInteractionError] -- the very error a
    different storage fault on an existing list produces (last conjunct: a
    concurrent insert of the same membership row). *)
Theorem add_collaborator_missing_list (w : World) (list_id : Z) (email : string) :
  collaborators_fk (db w) = true -> ~ list_exists (db w) list_id ->
  result (run (crud_list.add_collaborator_to_list list_id email) w)
    = inl (List_DatabaseInteractionError "Database error adding collaborator.") /\
  log (after (run (crud_list.add_collaborator_to_list list_id email) w))
    = crud_list.sql_insert_collaborator :: crud_list.sql_collaborator_exists
      :: crud_list.sql_owner_of :: resolution (db w) email ++ log w /\
  list_collaborators (db (after (run (crud_list.add_collaborator_to_list list_id email) w)))
    = list_collaborators (db w) /\
  lists (db (after (run (crud_list.add_collaborator_to_list list_id email) w)))
    = lists (db w) /\
  (list_exists race_db 10 /\
   result (run_env race_env (crud_list.add_collaborator_to_list 10 "bob@example.com")
                   (fresh_world race_db))
   = inl (List_DatabaseInteractionError "Database error adding collaborator.")).
Proof.
  intros Hfk Hno.
  destruct (no_list_filter (db w) list_id Hno) as [Hf He].
  pose proof (fun u => no_list_no_collaborator (db w) list_id u Hfk Hno) as Hc.
  unfold resolution, result, after.
  unfold crud_list.add_collaborator_to_list, crud_list.insert_placeholder_user,
    crud_list.select_owner_of, crud_list.select_collaborator_exists,
    crud_list.insert_collaborator.
  split; [| split; [| split; [| split]]].
  5: { split; [| vm_compute; reflexivity].
       exists (mkList 10 (Some "Trip") None 1 (Some true) 0 None).
       split; [left; reflexivity | reflexivity]. }
  all: cbn;
    destruct (filter (fun u => (u_email u =? email)%string) (users (db w)))
      as [| u us] eqn:Eu;
    repeat (cbn; rewrite ?Eu, ?Hf, ?He, ?Hc); reflexivity.
Qed.

Lemma add_collaborator_missing_list_witness :
  result (run (crud_list.add_collaborator_to_list 999 "bob@example.com")
              (fresh_world example_db))
  = inl (List_DatabaseInteractionError "Database error adding collaborator.").
Proof.
  apply (add_collaborator_missing_list (fresh_world example_db) 999 "bob@example.com").
  - reflexivity.
  - intros [l [Hin Hid]]. simpl in Hin.
    destruct Hin as [<- | [<- | []]]; discriminate Hid.
Defined.

(* ------------------------------------------------------------------------- *)
(** ** Places                                                                 *)
(* ------------------------------------------------------------------------- *)

Lemma prefixb_app (n s t : string) :
  prefixb n s = true -> prefixb n (s +++ t) = true.
Proof.
  revert s. induction n as [| a n IH]; intros s H; [reflexivity|].
  destruct s as [| b s]; simpl in *; [discriminate|].
  apply andb_true_iff in H. destruct H as [Hab Hn].
  rewrite Hab. simpl. apply IH. exact Hn.
Qed.

Lemma str_in_app_r (n s t : string) : str_in n s = true -> str_in n (s +++ t) = true.
Proof.
  induction s as [| b s IH]; simpl; intro H.
  - rewrite orb_false_r in H. destruct n; [| discriminate].
    destruct t; reflexivity.
  - apply orb_true_iff in H. apply orb_true_iff. destruct H as [H | H].
    + left. apply (prefixb_app n (String b s) t). exact H.
    + right. apply IH. exact H.
Qed.

Lemma str_in_app_l (n s t : string) : str_in n s = true -> str_in n (t +++ s) = true.
Proof.
  intro H. induction t as [| b t IH]; simpl; [exact H|].
  rewrite IH. apply orb_true_r.
Qed.

Lemma unique_violation_names (n name : string) :
  str_in n name = true -> str_in n (str_exn (unique_violation name)) = true.
Proof.
  intro H. unfold unique_violation, str_exn.
  apply str_in_app_l, str_in_app_l, str_in_app_r. exact H.
Qed.

Lemma place_key_eqb_refl a : place_key_eqb a a = true.
Proof. unfold place_key_eqb. rewrite Z.eqb_refl, String.eqb_refl. reflexivity. Qed.

Lemma place_key_eqb_sym a b : place_key_eqb a b = place_key_eqb b a.
Proof. unfold place_key_eqb. rewrite Z.eqb_sym, String.eqb_sym. reflexivity. Qed.

Lemma existsb_map {A B} (f : A -> B) (g : B -> bool) (l : list A) :
  existsb g (map f l) = existsb (fun x => g (f x)) l.
Proof. induction l as [| x l IH]; simpl; [reflexivity|]. rewrite IH. reflexivity. Qed.

(** Under the uniqueness invariant, a pair that is present is present once. *)
Lemma one_row_per_pair (d : DB) (list_id : Z) (place_id : string) :
  places_unique d = true ->
  existsb (crud_place.same_place list_id place_id) (places d) = true ->
  List.length (filter (crud_place.same_place list_id place_id) (places d)) = 1%nat.
Proof.
  intros Hu He. apply existsb_exists in He. destruct He as [p [Hin Hp]].
  unfold crud_place.same_place in Hp. apply andb_true_iff in Hp.
  destruct Hp as [Hl Hs]. apply Z.eqb_eq in Hl. apply String.eqb_eq in Hs. subst.
  pose proof (distinct_filter place_key_eqb place_key_eqb_refl place_key_eqb_sym
                (fun q => (p_list_id q, p_place_id q)) (places d) p Hu Hin) as H.
  unfold place_key_eqb in H. simpl in H.
  unfold crud_place.same_place. rewrite H. reflexivity.
Qed.

(** C3. The (list, external place reference) pair stays unique across
    [add_place_to_list], the function never lets a driver error through,
    and an insert whose pair is already present is answered with
    [PlaceAlreadyExistsError], translated from the unique violation, with
    the table left as it was and exactly one row for the pair. *)
Theorem add_place_keeps_pair_unique (w : World) (list_id : Z)
  (place_in : crud_place.PlaceCreate) :
  places_unique (db w) = true ->
  places_unique (db (after (run (crud_place.add_place_to_list list_id place_in) w))) = true /\
  (forall e, result (run (crud_place.add_place_to_list list_id place_in) w) = inl e ->
             typed_place_error e = true) /\
  (existsb (crud_place.same_place list_id (crud_place.placeId place_in)) (places (db w)) = true ->
   places_unique_recognised (db w) = true ->
   places_check (schema (db w))
     (crud_place.new_place (places_id_seq (db w)) list_id place_in (clock w)) = None ->
   result (run (crud_place.add_place_to_list list_id place_in) w)
     = inl (PlaceAlreadyExistsError "Place already exists in this list") /\
   places (db (after (run (crud_place.add_place_to_list list_id place_in) w)))
     = places (db w) /\
   List.length (filter (crud_place.same_place list_id (crud_place.placeId place_in))
                  (places (db (after (run (crud_place.add_place_to_list list_id place_in) w)))))
     = 1%nat).
Proof.
  intro Hu.
  unfold crud_place.add_place_to_list, crud_place.insert_place, result, after.
  cbn.
  destruct (places_check (schema (db w)) _) as [c |] eqn:Echk; cbn.
  - split; [exact Hu | split].
    + intros e H. inversion H. reflexivity.
    + intros _ _ H. discriminate H.
  - destruct (existsb (crud_place.same_place list_id (crud_place.placeId place_in))
                      (places (db w))) eqn:Edup; cbn.
    + pose proof (unique_violation_names "places_list_id_place_id_key"
                    (places_unique_name (schema (db w)))) as Hkey.
      pose proof (unique_violation_names "places_list_id_place_id_idx"
                    (places_unique_name (schema (db w)))) as Hidx.
      unfold unique_violation in *. cbn in Hkey, Hidx |- *.
      match goal with
      | |- context [if ?b then _ else _] => destruct b eqn:Erec
      end; cbn.
      * split; [exact Hu | split].
        -- intros e H. inversion H. reflexivity.
        -- intros _ _ _. split; [reflexivity | split; [reflexivity|]].
           apply one_row_per_pair; assumption.
      * split; [exact Hu | split].
        -- intros e H. inversion H. reflexivity.
        -- intros _ Hrec _. exfalso.
           unfold places_unique_recognised in Hrec.
           apply orb_false_iff in Erec. destruct Erec as [E1 E2].
           apply orb_true_iff in Hrec. destruct Hrec as [H | H].
           ++ apply Hkey in H. congruence.
           ++ apply Hidx in H. congruence.
    + destruct (existsb (fun l => l_id l =? list_id) (lists (db w))) eqn:El; cbn.
      * split; [| split].
        -- unfold places_unique. cbn. rewrite map_app. cbn.
           apply distinct_app_new; [exact Hu|].
           rewrite existsb_map. exact Edup.
        -- intros e H. discriminate H.
        -- intro H. discriminate H.
      * split; [exact Hu | split].
        -- intros e H. inversion H. reflexivity.
        -- intro H. discriminate H.
Qed.

Lemma add_place_keeps_pair_unique_witness :
  result (run (crud_place.add_place_to_list 10
                 (crud_place.mkPlaceCreate "X1" "Cafe" "1 Main St" 0 0 None None None))
              (fresh_world example_db))
  = inl (PlaceAlreadyExistsError "Place already exists in this list").
Proof.
  apply (add_place_keeps_pair_unique (fresh_world example_db) 10
           (crud_place.mkPlaceCreate "X1" "Cafe" "1 Main St" 0 0 None None None));
    reflexivity.
Defined.

Lemma is_place_iff (d : DB) (place_id list_id : Z) :
  existsb (crud_place.is_place place_id list_id) (places d) = true
  <-> place_in_list d place_id list_id.
Proof.
  rewrite existsb_exists. unfold place_in_list, crud_place.is_place. split.
  - intros [p [Hin H]]. apply andb_true_iff in H. exists p. repeat split; auto; lia.
  - intros [p [Hin [H1 H2]]]. exists p. split; auto. apply andb_true_iff. split; lia.
Qed.

Lemma not_place_every_row (d : DB) (place_id list_id : Z) :
  ~ place_in_list d place_id list_id ->
  forall p, In p (places d) -> crud_place.is_place place_id list_id p = false.
Proof.
  intros H p Hin. destruct (crud_place.is_place place_id list_id p) eqn:E; auto.
  exfalso. apply H. apply is_place_iff. apply existsb_exists. exists p. auto.
Qed.

Lemma filter_none {A} (f : A -> bool) (l : list A) :
  (forall x, In x l -> f x = false) -> filter f l = [].
Proof.
  induction l as [| x l IH]; simpl; intro H; [reflexivity|].
  rewrite (H x (or_introl eq_refl)). apply IH. intros y Hy. apply H. right; auto.
Qed.

Lemma filter_all {A} (f : A -> bool) (l : list A) :
  (forall x, In x l -> f x = false) -> filter (fun x => negb (f x)) l = l.
Proof.
  induction l as [| x l IH]; simpl; intro H; [reflexivity|].
  rewrite (H x (or_introl eq_refl)). simpl. f_equal.
  apply IH. intros y Hy. apply H. right; auto.
Qed.

Lemma map_unhit {A} (f : A -> bool) (g : A -> A) (l : list A) :
  (forall x, In x l -> f x = false) -> map (fun x => if f x then g x else x) l = l.
Proof.
  induction l as [| x l IH]; simpl; intro H; [reflexivity|].
  rewrite (H x (or_introl eq_refl)). f_equal.
  apply IH. intros y Hy. apply H. right; auto.
Qed.

(** [update_place] and [delete_place_from_list] when no row matches the
    (place id, list id) pair. *)
Lemma update_place_fields_unmatched (w : World) (place_id list_id : Z)
  (update_fields : list (crud_place.column * option string)) :
  ~ place_in_list (db w) place_id list_id ->
  (exists m, result (run (crud_place.update_place_fields place_id list_id update_fields) w)
             = inl (PlaceNotFoundError m)) /\
  places (db (after (run (crud_place.update_place_fields place_id list_id update_fields) w)))
    = places (db w).
Proof.
  intro H. pose proof (not_place_every_row (db w) place_id list_id H) as Hrow.
  unfold crud_place.update_place_fields, crud_place.select_place,
    crud_place.update_places, result, after.
  destruct (negb (existsb _ update_fields)); cbn.
  - rewrite (filter_none _ _ Hrow). cbn. split; [eexists; reflexivity | reflexivity].
  - rewrite (map_unhit _ _ _ Hrow), (filter_none _ _ Hrow). cbn.
    split; [eexists; reflexivity | reflexivity].
Qed.

(** C4. When the place does not belong to the list -- whether it exists in
    another list or nowhere -- updating it under that list raises
    [PlaceNotFoundError], deleting it returns [False], and the rows of the
    places table are what they were. *)
Theorem cross_list_place_untouched (w : World) (place_id list_id : Z) :
  ~ place_in_list (db w) place_id list_id ->
  (forall place_update_in,
     (exists m, result (run (crud_place.update_place place_id list_id place_update_in) w)
                = inl (PlaceNotFoundError m)) /\
     places (db (after (run (crud_place.update_place place_id list_id place_update_in) w)))
       = places (db w)) /\
  (forall update_fields,
     (exists m, result (run (crud_place.update_place_fields place_id list_id update_fields) w)
                = inl (PlaceNotFoundError m)) /\
     places (db (after (run (crud_place.update_place_fields place_id list_id update_fields) w)))
       = places (db w)) /\
  result (run (crud_place.delete_place_from_list place_id list_id) w) = inr false /\
  places (db (after (run (crud_place.delete_place_from_list place_id list_id) w)))
    = places (db w).
Proof.
  intro H. split; [| split].
  - intro u. apply update_place_fields_unmatched. exact H.
  - intro fs. apply update_place_fields_unmatched. exact H.
  - pose proof (not_place_every_row (db w) place_id list_id H) as Hrow.
    unfold crud_place.delete_place_from_list, crud_place.delete_places, result, after.
    cbn. rewrite (filter_none _ _ Hrow), (filter_all _ _ Hrow). cbn.
    split; reflexivity.
Qed.

Lemma cross_list_place_untouched_witness :
  place_in_list example_db 100 10 /\
  result (run (crud_place.delete_place_from_list 100 11) (fresh_world example_db))
  = inr false.
Proof.
  split.
  - exists cafe. simpl. auto.
  - apply (cross_list_place_untouched (fresh_world example_db) 100 11).
    intros [p [Hin [Hid Hl]]]. simpl in Hin.
    destruct Hin as [<- | []]. discriminate Hl.
Defined.

Lemma all_null_existsb (update_fields : list (crud_place.column * option string)) :
  (forall kv, In kv update_fields -> snd kv = None) ->
  existsb (fun kv => match snd kv with Some _ => true | None => false end)
          update_fields = false.
Proof.
  intro H. destruct (existsb _ update_fields) eqn:E; auto.
  apply existsb_exists in E. destruct E as [kv [Hin Hkv]].
  rewrite (H kv Hin) in Hkv. discriminate.
Qed.

Lemma some_value_existsb (update_fields : list (crud_place.column * option string)) c s :
  In (c, Some s) update_fields ->
  existsb (fun kv => match snd kv with Some _ => true | None => false end)
          update_fields = true.
Proof. intro H. apply existsb_exists. exists (c, Some s). auto. Qed.

(** The no-op path: one scoped [SELECT], nothing written. *)
Lemma update_place_fields_noop (w : World) (place_id list_id : Z)
  (update_fields : list (crud_place.column * option string)) :
  (forall kv, In kv update_fields -> snd kv = None) ->
  run (crud_place.update_place_fields place_id list_id update_fields) w =
  (current_place (db w) place_id list_id,
   sent crud_place.sql_place_in_list (db w) (saved w) w).
Proof.
  intro H. unfold crud_place.update_place_fields, current_place.
  rewrite (all_null_existsb _ H). cbn.
  destruct (filter _ (places (db w))); reflexivity.
Qed.

Lemma assign_keeps_key (p : PlaceRow) kv :
  p_id (crud_place.assign p kv) = p_id p /\
  p_list_id (crud_place.assign p kv) = p_list_id p.
Proof. destruct kv as [[| |] v]; split; reflexivity. Qed.

Lemma fold_assign_keeps_key update_fields (p : PlaceRow) :
  p_id (fold_left crud_place.assign update_fields p) = p_id p /\
  p_list_id (fold_left crud_place.assign update_fields p) = p_list_id p.
Proof.
  revert p. induction update_fields as [| kv fs IH]; intro p; simpl; [auto|].
  destruct (IH (crud_place.assign p kv)) as [H1 H2].
  destruct (assign_keeps_key p kv) as [H3 H4]. split; congruence.
Qed.

Lemma fold_assign_other update_fields (c : crud_place.column) (p : PlaceRow) :
  ~ In c (map fst update_fields) ->
  column_value c (fold_left crud_place.assign update_fields p) = column_value c p.
Proof.
  revert p. induction update_fields as [| [c0 v0] fs IH]; intros p H; simpl; [auto|].
  rewrite IH by (intro Hc; apply H; right; exact Hc).
  assert (c0 <> c) by (intro; subst; apply H; left; reflexivity).
  destruct c0, c; try reflexivity; congruence.
Qed.

(** With distinct keys, every given column ends up with its given value,
    [None] included. *)
Lemma fold_assign_value update_fields (c : crud_place.column) (v : option string)
  (p : PlaceRow) :
  NoDup (map fst update_fields) -> In (c, v) update_fields ->
  column_value c (fold_left crud_place.assign update_fields p) = v.
Proof.
  revert p. induction update_fields as [| [c0 v0] fs IH]; intros p Hnd Hin; simpl;
    [destruct Hin|].
  inversion Hnd as [| ? ? Hnot Hnd']; subst.
  destruct Hin as [Heq | Hin].
  - inversion Heq; subst. rewrite fold_assign_other by exact Hnot.
    destruct c; reflexivity.
  - apply IH; assumption.
Qed.

Lemma touch_column now c p : column_value c (crud_place.touch now p) = column_value c p.
Proof. destruct c; reflexivity. Qed.

Lemma place_pk_filter (d : DB) (p : PlaceRow) :
  places_pk d = true -> In p (places d) ->
  filter (crud_place.is_place (p_id p) (p_list_id p)) (places d) = [p].
Proof.
  intros Hpk Hin.
  pose proof (distinct_first p_id (places d) p Hpk Hin) as H.
  assert (E : forall q, In q (places d) ->
                        crud_place.is_place (p_id p) (p_list_id p) q = (p_id q =? p_id p)).
  { intros q Hq. unfold crud_place.is_place.
    destruct (p_id q =? p_id p) eqn:Eq; [| reflexivity].
    assert (Hq' : In q (filter (fun y => p_id y =? p_id p) (places d)))
      by (apply filter_In; auto).
    rewrite H in Hq'. destruct Hq' as [<- | []]. simpl. apply Z.eqb_refl. }
  rewrite <- H. apply filter_ext_in. exact E.
Qed.

Lemma filter_map_hit {A} (f : A -> bool) (g : A -> A) (l : list A) :
  (forall x, f (g x) = f x) ->
  filter f (map (fun x => if f x then g x else x) l) = map g (filter f l).
Proof.
  intro H. induction l as [| x l IH]; simpl; [reflexivity|].
  destruct (f x) eqn:E.
  - rewrite H, E. simpl. f_equal. exact IH.
  - rewrite E. exact IH.
Qed.

(** The effective path: one [UPDATE] that rewrites the row it hits. *)
Lemma update_place_fields_applies (w : World) (p : PlaceRow)
  (update_fields : list (crud_place.column * option string)) c s :
  In (c, Some s) update_fields ->
  places_pk (db w) = true -> In p (places (db w)) ->
  places_check (schema (db w)) (updated_place (clock w) update_fields p) = None ->
  result (run (crud_place.update_place_fields (p_id p) (p_list_id p) update_fields) w)
    = inr (crud_place.place_item (updated_place (clock w) update_fields p)) /\
  places (db (after (run (crud_place.update_place_fields (p_id p) (p_list_id p)
                            update_fields) w)))
    = map (fun q => if crud_place.is_place (p_id p) (p_list_id p) q
                    then updated_place (clock w) update_fields q else q)
          (places (db w)).
Proof.
  intros Hsome Hpk Hin Hchk.
  unfold crud_place.update_place_fields, crud_place.update_places, result, after.
  rewrite (some_value_existsb _ _ _ Hsome). cbn.
  rewrite filter_map_hit.
  2: { intro q. unfold crud_place.is_place, crud_place.touch. cbn.
       destruct (fold_assign_keeps_key update_fields q) as [-> ->]. reflexivity. }
  rewrite (place_pk_filter _ _ Hpk Hin). cbn.
  unfold updated_place in Hchk. rewrite Hchk. cbn. split; reflexivity.
Qed.

Lemma updated_place_facts now update_fields (p : PlaceRow) :
  p_id (updated_place now update_fields p) = p_id p /\
  p_list_id (updated_place now update_fields p) = p_list_id p /\
  p_updated_at (updated_place now update_fields p) = now.
Proof.
  unfold updated_place, crud_place.touch. cbn.
  destruct (fold_assign_keeps_key update_fields p) as [-> ->]. auto.
Qed.

Lemma updated_place_in (d : DB) now update_fields (p : PlaceRow) :
  In p (places d) ->
  In (updated_place now update_fields p)
     (map (fun q => if crud_place.is_place (p_id p) (p_list_id p) q
                    then updated_place now update_fields q else q)
          (places d)).
Proof.
  intro Hin. apply in_map_iff. exists p. split; auto.
  unfold crud_place.is_place. rewrite !Z.eqb_refl. reflexivity.
Qed.

(** C10. In [update_place] the no-op path is taken whenever every provided
    field is [None]: such a payload is answered like the empty one, with the
    current record looked up under the list id (or [PlaceNotFoundError]),
    one [SELECT] sent and nothing written, so explicit nulls are not
    stored.  As soon as one provided field is not [None], the [UPDATE]
    assigns every provided field, the [None] ones as [NULL]. *)
Theorem update_place_null_payload (w : World) (place_id list_id : Z)
  (update_fields : list (crud_place.column * option string)) :
  ((forall kv, In kv update_fields -> snd kv = None) ->
   run (crud_place.update_place_fields place_id list_id update_fields) w
     = run (crud_place.update_place_fields place_id list_id []) w /\
   result (run (crud_place.update_place_fields place_id list_id update_fields) w)
     = current_place (db w) place_id list_id /\
   db (after (run (crud_place.update_place_fields place_id list_id update_fields) w))
     = db w /\
   log (after (run (crud_place.update_place_fields place_id list_id update_fields) w))
     = crud_place.sql_place_in_list :: log w) /\
  run (crud_place.update_place place_id list_id (crud_place.mkPlaceUpdate (given None))) w
    = run (crud_place.update_place place_id list_id (crud_place.mkPlaceUpdate unset)) w /\
  (forall p c s,
     In (c, Some s) update_fields -> NoDup (map fst update_fields) ->
     places_pk (db w) = true -> In p (places (db w)) ->
     p_id p = place_id -> p_list_id p = list_id ->
     places_check (schema (db w)) (updated_place (clock w) update_fields p) = None ->
     exists p',
       result (run (crud_place.update_place_fields place_id list_id update_fields) w)
         = inr (crud_place.place_item p') /\
       In p' (places (db (after (run (crud_place.update_place_fields place_id list_id
                                        update_fields) w)))) /\
       p_id p' = place_id /\ p_updated_at p' = clock w /\
       forall c', In (c', None) update_fields -> column_value c' p' = None).
Proof.
  split; [| split].
  - intro H. rewrite (update_place_fields_noop w place_id list_id update_fields H).
    rewrite (update_place_fields_noop w place_id list_id []) by (intros kv []).
    unfold result, after. simpl. auto.
  - unfold crud_place.update_place, crud_place.model_dump.
    cbn [crud_place.upd_notes].
    rewrite (update_place_fields_noop w place_id list_id [(crud_place.col_notes, None)]).
    + rewrite (update_place_fields_noop w place_id list_id []) by (intros kv []).
      reflexivity.
    + intros kv [<- | []]. reflexivity.
  - intros p c s Hsome Hnd Hpk Hin Hid Hl Hchk. subst place_id list_id.
    destruct (update_place_fields_applies w p update_fields c s Hsome Hpk Hin Hchk)
      as [Hres Hrows].
    destruct (updated_place_facts (clock w) update_fields p) as [H1 [H2 H3]].
    exists (updated_place (clock w) update_fields p).
    split; [exact Hres | split; [| split; [exact H1 | split; [exact H3 |]]]].
    + rewrite Hrows. apply updated_place_in. exact Hin.
    + intros c' Hc'. unfold updated_place. rewrite touch_column.
      apply fold_assign_value; assumption.
Qed.

(** With [rating] given and [notes] given as null, the stored notes become
    [NULL]; with [notes] given as null alone they stay. *)
Example null_notes_with_rating :
  map p_notes
      (places (db (after (run (crud_place.update_place_fields 100 10
                                 [(crud_place.col_notes, None);
                                  (crud_place.col_rating, Some "WORTH_VISITING")])
                              (fresh_world example_db)))))
  = [None] /\
  map p_notes
      (places (db (after (run (crud_place.update_place_fields 100 10
                                 [(crud_place.col_notes, None)])
                              (fresh_world example_db)))))
  = [Some "try it"].
Proof. split; reflexivity. Qed.

(* ------------------------------------------------------------------------- *)
(** ** Updates with a partial payload                                         *)
(* ------------------------------------------------------------------------- *)

Lemma get_list_details_run (w : World) (list_id : Z) :
  run (crud_list.get_list_details list_id) w =
  (inr (list_details (db w) list_id),
   match filter (fun l => l_id l =? list_id) (lists (db w)) with
   | _ :: _ => sent crud_list.sql_collaborator_emails (db w) (saved w)
                    (sent crud_list.sql_list_details (db w) (saved w) w)
   | [] => sent crud_list.sql_list_details (db w) (saved w) w
   end).
Proof.
  unfold crud_list.get_list_details, list_details. cbn.
  destruct (filter _ (lists (db w))); reflexivity.
Qed.

Lemma get_list_details_db (w : World) (list_id : Z) :
  db (after (run (crud_list.get_list_details list_id) w)) = db w.
Proof.
  rewrite get_list_details_run. unfold after. simpl.
  destruct (filter _ (lists (db w))); reflexivity.
Qed.

Lemma set_list_keeps_id nm ip now l : l_id (crud_list.set_list nm ip now l) = l_id l.
Proof. reflexivity. Qed.

(** [update_list] with at least one field given, on a list that exists. *)
Lemma update_list_applies (w : World) (l : ListRow) (list_in : crud_list.ListUpdate) :
  is_given (crud_list.name list_in) || is_given (crud_list.isPrivate list_in) = true ->
  lists_pk (db w) = true -> In l (lists (db w)) ->
  lists (db (after (run (crud_list.update_list (l_id l) list_in) w)))
    = map (fun q => if l_id q =? l_id l
                    then crud_list.set_list (crud_list.name list_in)
                                            (crud_list.isPrivate list_in) (clock w) q
                    else q) (lists (db w)) /\
  result (run (crud_list.update_list (l_id l) list_in) w)
    = inr (Some (crud_list.mkDetails
                   (l_id l)
                   (match crud_list.name list_in with given v => v | unset => l_name l end)
                   (l_description l)
                   (match crud_list.isPrivate list_in with
                    | given v => v | unset => l_is_private l end)
                   (crud_list.collaborator_emails (l_id l) (db w)))).
Proof.
  intros Hgiven Hpk Hin.
  unfold crud_list.update_list, crud_list.update_lists, result, after.
  rewrite Hgiven. cbn [negb].
  destruct (is_given (crud_list.name list_in));
    destruct (is_given (crud_list.isPrivate list_in)); try discriminate Hgiven;
    cbn; rewrite (filter_map_hit (fun q => l_id q =? l_id l));
    try (intro; reflexivity);
    rewrite (distinct_first l_id (lists (db w)) l Hpk Hin); cbn;
    split; reflexivity.
Qed.

Lemma in_map_unhit {A} (f : A -> bool) (g : A -> A) (l : list A) (x : A) :
  In x l -> f x = false -> In x (map (fun y => if f y then g y else y) l).
Proof.
  intros Hin Hf. apply in_map_iff. exists x. rewrite Hf. auto.
Qed.

Lemma update_place_empty_run (w : World) (place_id list_id : Z) :
  run (crud_place.update_place place_id list_id (crud_place.mkPlaceUpdate unset)) w =
  (current_place (db w) place_id list_id,
   sent crud_place.sql_place_in_list (db w) (saved w) w).
Proof.
  unfold crud_place.update_place, crud_place.model_dump. cbn [crud_place.upd_notes].
  apply update_place_fields_noop. intros kv [].
Qed.

(** C6, as the code has it.  With an empty payload, [update_list] and
    [update_place] answer with the current record, write nothing, and answer
    the same when called again; for a list (place) that exists the answer is
    the record and not an error.  With fields given -- for a place: at
    least one of them not null, and the new row passing the check
    constraints -- the row gets exactly the given columns, its other columns
    and the other rows are kept, and its update timestamp is the time of the
    statement; so it is for [update_place] called with notes that are not
    null.  A place payload whose given fields are all null -- for
    [update_place]: notes given as null -- runs as the empty payload does:
    the current record is the answer and nothing is written. *)
Theorem update_partial_payload (w : World) :
  (forall list_id,
     run (crud_list.update_list list_id (crud_list.mkListUpdate unset unset)) w
       = run (crud_list.get_list_details list_id) w /\
     result (run (crud_list.update_list list_id (crud_list.mkListUpdate unset unset)) w)
       = inr (list_details (db w) list_id) /\
     db (after (run (crud_list.update_list list_id (crud_list.mkListUpdate unset unset)) w))
       = db w /\
     result (run (crud_list.update_list list_id (crud_list.mkListUpdate unset unset))
                 (after (run (crud_list.update_list list_id
                                (crud_list.mkListUpdate unset unset)) w)))
       = result (run (crud_list.update_list list_id (crud_list.mkListUpdate unset unset)) w)) /\
  (forall l, lists_pk (db w) = true -> In l (lists (db w)) ->
     list_details (db w) (l_id l)
       = Some (crud_list.mkDetails (l_id l) (l_name l) (l_description l) (l_is_private l)
                                   (crud_list.collaborator_emails (l_id l) (db w)))) /\
  (forall place_id list_id,
     result (run (crud_place.update_place place_id list_id (crud_place.mkPlaceUpdate unset)) w)
       = current_place (db w) place_id list_id /\
     db (after (run (crud_place.update_place place_id list_id
                       (crud_place.mkPlaceUpdate unset)) w)) = db w /\
     result (run (crud_place.update_place place_id list_id (crud_place.mkPlaceUpdate unset))
                 (after (run (crud_place.update_place place_id list_id
                                (crud_place.mkPlaceUpdate unset)) w)))
       = result (run (crud_place.update_place place_id list_id
                        (crud_place.mkPlaceUpdate unset)) w)) /\
  (forall p, places_pk (db w) = true -> In p (places (db w)) ->
     current_place (db w) (p_id p) (p_list_id p) = inr (crud_place.place_item p)) /\
  (forall l list_in,
     is_given (crud_list.name list_in) || is_given (crud_list.isPrivate list_in) = true ->
     lists_pk (db w) = true -> In l (lists (db w)) ->
     exists l',
       In l' (lists (db (after (run (crud_list.update_list (l_id l) list_in) w)))) /\
       l_id l' = l_id l /\
       l_name l' = match crud_list.name list_in with given v => v | unset => l_name l end /\
       l_is_private l' = match crud_list.isPrivate list_in with
                         | given v => v | unset => l_is_private l end /\
       l_description l' = l_description l /\ l_owner_id l' = l_owner_id l /\
       l_created_at l' = l_created_at l /\ l_updated_at l' = Some (clock w) /\
       result (run (crud_list.update_list (l_id l) list_in) w)
         = inr (Some (crud_list.mkDetails (l_id l') (l_name l') (l_description l')
                        (l_is_private l')
                        (crud_list.collaborator_emails (l_id l) (db w)))) /\
       (forall q, In q (lists (db w)) -> l_id q <> l_id l ->
                  In q (lists (db (after (run (crud_list.update_list (l_id l) list_in) w)))))) /\
  (forall p update_fields c s,
     In (c, Some s) update_fields -> NoDup (map fst update_fields) ->
     places_pk (db w) = true -> In p (places (db w)) ->
     places_check (schema (db w)) (updated_place (clock w) update_fields p) = None ->
     exists p',
       In p' (places (db (after (run (crud_place.update_place_fields (p_id p) (p_list_id p)
                                        update_fields) w)))) /\
       result (run (crud_place.update_place_fields (p_id p) (p_list_id p) update_fields) w)
         = inr (crud_place.place_item p') /\
       p_id p' = p_id p /\ p_list_id p' = p_list_id p /\
       (forall c' v, In (c', v) update_fields -> column_value c' p' = v) /\
       (forall c', ~ In c' (map fst update_fields) -> column_value c' p' = column_value c' p) /\
       p_place_id p' = p_place_id p /\ p_name p' = p_name p /\ p_address p' = p_address p /\
       p_created_at p' = p_created_at p /\ p_updated_at p' = clock w /\
       (forall q, In q (places (db w)) -> p_id q <> p_id p ->
                  In q (places (db (after (run (crud_place.update_place_fields
                                                  (p_id p) (p_list_id p) update_fields) w)))))) /\
  (forall place_id list_id,
     run (crud_place.update_place place_id list_id
            (crud_place.mkPlaceUpdate (given None))) w
       = run (crud_place.update_place place_id list_id (crud_place.mkPlaceUpdate unset)) w /\
     result (run (crud_place.update_place place_id list_id
                    (crud_place.mkPlaceUpdate (given None))) w)
       = current_place (db w) place_id list_id /\
     db (after (run (crud_place.update_place place_id list_id
                       (crud_place.mkPlaceUpdate (given None))) w)) = db w) /\
  (forall place_id list_id update_fields,
     (forall kv, In kv update_fields -> snd kv = None) ->
     run (crud_place.update_place_fields place_id list_id update_fields) w
       = run (crud_place.update_place_fields place_id list_id []) w) /\
  (forall p s,
     places_pk (db w) = true -> In p (places (db w)) ->
     places_check (schema (db w))
       (updated_place (clock w) [(crud_place.col_notes, Some s)] p) = None ->
     exists p',
       In p' (places (db (after (run (crud_place.update_place (p_id p) (p_list_id p)
                                        (crud_place.mkPlaceUpdate (given (Some s)))) w)))) /\
       result (run (crud_place.update_place (p_id p) (p_list_id p)
                      (crud_place.mkPlaceUpdate (given (Some s)))) w)
         = inr (crud_place.place_item p') /\
       p_id p' = p_id p /\ p_list_id p' = p_list_id p /\
       p_notes p' = Some s /\
       p_rating p' = p_rating p /\ p_visit_status p' = p_visit_status p /\
       p_place_id p' = p_place_id p /\ p_name p' = p_name p /\ p_address p' = p_address p /\
       p_latitude p' = p_latitude p /\ p_longitude p' = p_longitude p /\
       p_created_at p' = p_created_at p /\ p_updated_at p' = clock w /\
       (forall q, In q (places (db w)) -> p_id q <> p_id p ->
                  In q (places (db (after (run (crud_place.update_place
                                                  (p_id p) (p_list_id p)
                                                  (crud_place.mkPlaceUpdate
                                                     (given (Some s)))) w)))))).
Proof.
  split; [| split; [| split; [| split; [| split; [| split; [| split; [| split]]]]]]].
  - intro list_id.
    assert (E : crud_list.update_list list_id (crud_list.mkListUpdate unset unset)
                = crud_list.get_list_details list_id) by reflexivity.
    rewrite E. split; [reflexivity|].
    split; [rewrite get_list_details_run; reflexivity|].
    split; [apply get_list_details_db|].
    rewrite !get_list_details_run. unfold result, after. simpl.
    destruct (filter _ (lists (db w))); reflexivity.
  - intros l Hpk Hin. unfold list_details.
    rewrite (distinct_first l_id (lists (db w)) l Hpk Hin). reflexivity.
  - intros place_id list_id. rewrite !update_place_empty_run.
    unfold result, after. simpl. auto.
  - intros p Hpk Hin. unfold current_place.
    rewrite (place_pk_filter _ _ Hpk Hin). reflexivity.
  - intros l list_in Hgiven Hpk Hin.
    destruct (update_list_applies w l list_in Hgiven Hpk Hin) as [Hrows Hres].
    exists (crud_list.set_list (crud_list.name list_in) (crud_list.isPrivate list_in)
                               (clock w) l).
    rewrite Hrows, Hres. cbn.
    repeat split; try reflexivity.
    + apply in_map_iff. exists l. rewrite Z.eqb_refl. auto.
    + intros q Hq Hne. apply (in_map_unhit (fun y => l_id y =? l_id l)); auto.
      apply Z.eqb_neq. exact Hne.
  - intros p update_fields c s Hsome Hnd Hpk Hin Hchk.
    destruct (update_place_fields_applies w p update_fields c s Hsome Hpk Hin Hchk)
      as [Hres Hrows].
    destruct (updated_place_facts (clock w) update_fields p) as [H1 [H2 H3]].
    exists (updated_place (clock w) update_fields p).
    rewrite Hrows, Hres.
    split; [apply updated_place_in; exact Hin|].
    split; [reflexivity|].
    split; [exact H1|]. split; [exact H2|].
    split; [intros c' v Hc'; unfold updated_place; rewrite touch_column;
            apply fold_assign_value; assumption|].
    split; [intros c' Hc'; unfold updated_place; rewrite touch_column;
            apply fold_assign_other; assumption|].
    assert (Hrest : forall fs q,
               p_place_id (fold_left crud_place.assign fs q) = p_place_id q /\
               p_name (fold_left crud_place.assign fs q) = p_name q /\
               p_address (fold_left crud_place.assign fs q) = p_address q /\
               p_created_at (fold_left crud_place.assign fs q) = p_created_at q).
    { induction fs as [| [k v] fs IH]; intro q; simpl; [auto|].
      destruct (IH (crud_place.assign q (k, v))) as [E1 [E2 [E3 E4]]].
      rewrite E1, E2, E3, E4. destruct k; auto. }
    destruct (Hrest update_fields p) as [E1 [E2 [E3 E4]]].
    unfold updated_place, crud_place.touch. cbn.
    repeat split; auto.
    intros q Hq Hne.
    apply (in_map_unhit (crud_place.is_place (p_id p) (p_list_id p))); auto.
    unfold crud_place.is_place. apply andb_false_iff. left. apply Z.eqb_neq. exact Hne.
  - intros place_id list_id.
    assert (E : run (crud_place.update_place place_id list_id
                       (crud_place.mkPlaceUpdate (given None))) w
                = run (crud_place.update_place place_id list_id
                         (crud_place.mkPlaceUpdate unset)) w).
    { unfold crud_place.update_place, crud_place.model_dump.
      cbn [crud_place.upd_notes].
      rewrite (update_place_fields_noop w place_id list_id [(crud_place.col_notes, None)])
        by (intros kv [<- | []]; reflexivity).
      rewrite (update_place_fields_noop w place_id list_id []) by (intros kv []).
      reflexivity. }
    rewrite E, update_place_empty_run. unfold result, after. simpl. auto.
  - intros place_id list_id update_fields Hnull.
    rewrite (update_place_fields_noop w place_id list_id update_fields Hnull).
    rewrite (update_place_fields_noop w place_id list_id []) by (intros kv []).
    reflexivity.
  - intros p s Hpk Hin Hchk.
    assert (Hsome : In (crud_place.col_notes, Some s) [(crud_place.col_notes, Some s)])
      by (left; reflexivity).
    destruct (update_place_fields_applies w p [(crud_place.col_notes, Some s)]
                crud_place.col_notes s Hsome Hpk Hin Hchk) as [Hres Hrows].
    unfold crud_place.update_place, crud_place.model_dump.
    cbn [crud_place.upd_notes].
    exists (updated_place (clock w) [(crud_place.col_notes, Some s)] p).
    rewrite Hrows, Hres.
    split; [apply updated_place_in; exact Hin|].
    split; [reflexivity|].
    unfold updated_place, crud_place.touch. cbn.
    repeat split; auto.
    intros q Hq Hne.
    apply (in_map_unhit (crud_place.is_place (p_id p) (p_list_id p))); auto.
    unfold crud_place.is_place. apply andb_false_iff. left. apply Z.eqb_neq. exact Hne.
Qed.

(** The clause as worded fails at a payload that supplies [notes] as
    null: the row keeps its notes and its update timestamp. *)
Lemma supplied_null_notes_not_applied : ~ supplied_place_fields_applied.
Proof.
  intro H.
  destruct (H (mkWorld example_db 5 None []) cafe None eq_refl (or_introl eq_refl) eq_refl)
    as [p' [Hin [_ [Hnotes _]]]].
  simpl in Hin. destruct Hin as [<- | []]. discriminate Hnotes.
Qed.

(* ------------------------------------------------------------------------- *)
(** ** Following                                                              *)
(* ------------------------------------------------------------------------- *)

Lemma user_exists_iff (d : DB) (user_id : Z) :
  existsb (crud_user.has_id user_id) (users d) = true <-> user_exists d user_id.
Proof.
  rewrite existsb_exists. unfold user_exists, crud_user.has_id.
  split; intros [u [Hin H]]; exists u; split; auto; lia.
Qed.

Lemma follows_iff (d : DB) (follower_id followed_id : Z) :
  existsb (crud_user.is_edge follower_id followed_id) (user_follows d) = true
  <-> follows d follower_id followed_id.
Proof.
  rewrite existsb_exists. unfold follows, crud_user.is_edge. split.
  - intros [f [Hin H]]. apply andb_true_iff in H. exists f. repeat split; auto; lia.
  - intros [f [Hin [H1 H2]]]. exists f. split; auto. apply andb_true_iff. split; lia.
Qed.

Lemma pair_eqb_refl a : pair_eqb a a = true.
Proof. unfold pair_eqb. rewrite !Z.eqb_refl. reflexivity. Qed.

Lemma pair_eqb_sym a b : pair_eqb a b = pair_eqb b a.
Proof. unfold pair_eqb. rewrite (Z.eqb_sym (fst a)), (Z.eqb_sym (snd a)). reflexivity. Qed.

(** Under the uniqueness invariant a stored edge is stored once. *)
Lemma one_edge_per_pair (d : DB) (follower_id followed_id : Z) :
  follows_unique d = true ->
  existsb (crud_user.is_edge follower_id followed_id) (user_follows d) = true ->
  List.length (filter (crud_user.is_edge follower_id followed_id) (user_follows d)) = 1%nat.
Proof.
  intros Hu He. apply existsb_exists in He. destruct He as [f [Hin Hf]].
  unfold crud_user.is_edge in Hf. apply andb_true_iff in Hf.
  destruct Hf as [H1 H2]. apply Z.eqb_eq in H1. apply Z.eqb_eq in H2. subst.
  pose proof (distinct_filter pair_eqb pair_eqb_refl pair_eqb_sym
                (fun g => (f_follower_id g, f_followed_id g)) (user_follows d) f Hu Hin) as H.
  unfold pair_eqb in H. simpl in H. unfold crud_user.is_edge. rewrite H. reflexivity.
Qed.

(** [follow_user] in closed form. *)
Lemma follow_user_run (w : World) (follower_id followed_id : Z) :
  run (crud_user.follow_user follower_id followed_id) w =
  let w1 := sent crud_user.sql_user_exists (db w) (saved w) w in
  if negb (existsb (crud_user.has_id followed_id) (users (db w))) then
    (inl (UserNotFoundError "User to follow not found"), w1)
  else if existsb (crud_user.is_edge follower_id followed_id) (user_follows (db w)) then
    (inr true, sent crud_user.sql_insert_follow (db w) (saved w) w1)
  else if negb (existsb (crud_user.has_id follower_id) (users (db w))) then
    (inl (User_DatabaseInteractionError "Database error during follow operation."),
     sent crud_user.sql_insert_follow (db w) (saved w) w1)
  else
    (inr false,
     sent crud_user.sql_insert_follow
          (set_user_follows (db w)
             (user_follows (db w) ++ [mkFollow follower_id followed_id (clock w + 1)]))
          (saved w) w1).
Proof.
  unfold crud_user.follow_user, crud_user.check_user_exists, crud_user.insert_follow.
  cbn.
  destruct (existsb (crud_user.has_id followed_id) (users (db w))) eqn:Et; cbn;
    [| reflexivity].
  destruct (existsb (crud_user.is_edge follower_id followed_id) (user_follows (db w)));
    cbn; [reflexivity|].
  destruct (existsb (crud_user.has_id follower_id) (users (db w))); cbn;
    [| reflexivity].
  rewrite Et. cbn. reflexivity.
Qed.

Lemma is_edge_refl (follower_id followed_id t : Z) :
  crud_user.is_edge follower_id followed_id (mkFollow follower_id followed_id t) = true.
Proof. unfold crud_user.is_edge. simpl. rewrite !Z.eqb_refl. reflexivity. Qed.

(** C7. For users [F] and [T] that exist, [follow_user F T] returns [False]
    when no edge from [F] to [T] is stored and [True] when one is; a second
    call right after returns [True], and after the two calls exactly one
    edge from [F] to [T] is stored.  When [T] does not exist it raises
    [UserNotFoundError].  The endpoint answers a self-follow with 400 before
    anything is sent to the store, whatever the store holds; for distinct
    users it answers 201 for a new edge and 200 for one already there. *)
Theorem follow_user_idempotent (w : World) (F T : Z) :
  (~ user_exists (db w) T ->
   result (run (crud_user.follow_user F T) w)
     = inl (UserNotFoundError "User to follow not found") /\
   db (after (run (crud_user.follow_user F T) w)) = db w) /\
  (user_exists (db w) F -> user_exists (db w) T ->
   (~ follows (db w) F T -> result (run (crud_user.follow_user F T) w) = inr false) /\
   (follows (db w) F T -> result (run (crud_user.follow_user F T) w) = inr true) /\
   result (run (crud_user.follow_user F T) (after (run (crud_user.follow_user F T) w)))
     = inr true /\
   (follows_unique (db w) = true ->
    List.length
      (filter (crud_user.is_edge F T)
         (user_follows
            (db (after (run (crud_user.follow_user F T)
                            (after (run (crud_user.follow_user F T) w)))))))
    = 1%nat)) /\
  (forall U, run (endpoints_users.follow_user U U) w
             = (inl (HTTPException 400 "Cannot follow yourself"), w)) /\
  (F <> T -> user_exists (db w) F -> user_exists (db w) T ->
   (~ follows (db w) F T ->
    result (run (endpoints_users.follow_user T F) w)
      = inr (endpoints_users.mkMessage 201 "User followed")) /\
   (follows (db w) F T ->
    result (run (endpoints_users.follow_user T F) w)
      = inr (endpoints_users.mkMessage 200 "Already following this user"))) /\
  (F <> T -> ~ user_exists (db w) T ->
   result (run (endpoints_users.follow_user T F) w)
     = inl (HTTPException 404 "User to follow not found")).
Proof.
  pose proof (user_exists_iff (db w) T) as HT.
  pose proof (user_exists_iff (db w) F) as HF.
  pose proof (follows_iff (db w) F T) as HE.
  assert (Hend : F <> T ->
            run (endpoints_users.follow_user T F) w =
            match run (crud_user.follow_user F T) w with
            | (inr true, w') => (inr (endpoints_users.mkMessage 200 "Already following this user"), w')
            | (inr false, w') => (inr (endpoints_users.mkMessage 201 "User followed"), w')
            | (inl (UserNotFoundError m), w') => (inl (HTTPException 404 m), w')
            | (inl (User_DatabaseInteractionError _), w') =>
                (inl (HTTPException 500 "Database error processing follow request"), w')
            | (inl (HTTPException s d), w') => (inl (HTTPException s d), w')
            | (inl _, w') =>
                (inl (HTTPException 500 "Internal server error processing follow request"), w')
            end).
  { intro Hne. unfold endpoints_users.follow_user.
    apply Z.eqb_neq in Hne. rewrite Hne.
    rewrite run_try_except, run_bind.
    destruct (run (crud_user.follow_user F T) w) as [[e | b] w'].
    - destruct e; reflexivity.
    - destruct b; reflexivity. }
  split; [| split; [| split; [| split]]].
  - intro Hno. rewrite follow_user_run. unfold result, after. cbn zeta.
    destruct (existsb (crud_user.has_id T) (users (db w))) eqn:Et.
    + exfalso. apply Hno. apply HT. reflexivity.
    + simpl. auto.
  - intros HFe HTe. apply HT in HTe. apply HF in HFe.
    rewrite !follow_user_run. unfold result, after. cbn zeta.
    rewrite HTe, HFe. cbn [negb].
    destruct (existsb (crud_user.is_edge F T) (user_follows (db w))) eqn:Ee.
    + cbn. rewrite HTe, Ee. cbn.
      repeat split; auto.
      * intro H. exfalso. apply H. apply HE. reflexivity.
      * intro Hu. apply one_edge_per_pair; assumption.
    + cbn. rewrite HTe. rewrite existsb_app. cbn. rewrite is_edge_refl.
      rewrite orb_true_r. cbn.
      repeat split; auto.
      * intro H. apply HE in H. discriminate.
      * intros _. rewrite filter_app. cbn. rewrite is_edge_refl.
        rewrite filter_none; [reflexivity|].
        intros f Hf. destruct (crud_user.is_edge F T f) eqn:E; auto.
        assert (existsb (crud_user.is_edge F T) (user_follows (db w)) = true)
          by (apply existsb_exists; exists f; auto).
        congruence.
  - intro U. unfold endpoints_users.follow_user. rewrite Z.eqb_refl. reflexivity.
  - intros Hne HFe HTe. apply HT in HTe. apply HF in HFe.
    rewrite (Hend Hne), follow_user_run. unfold result. cbn zeta.
    rewrite HTe, HFe. cbn [negb].
    destruct (existsb (crud_user.is_edge F T) (user_follows (db w))) eqn:Ee; cbn.
    + split; auto. intro H. exfalso. apply H. apply HE. reflexivity.
    + split; auto. intro H. apply HE in H. discriminate.
  - intros Hne Hno. rewrite (Hend Hne), follow_user_run. unfold result. cbn zeta.
    destruct (existsb (crud_user.has_id T) (users (db w))) eqn:Et.
    + exfalso. apply Hno. apply HT. reflexivity.
    + reflexivity.
Qed.

(* ------------------------------------------------------------------------- *)
(** ** Identity resolution                                                    *)
(* ------------------------------------------------------------------------- *)

Lemma before_third (n : nat) :
  Nat.eqb n (S (S (S n))) = false /\ Nat.eqb (S n) (S (S (S n))) = false /\
  Nat.eqb (S (S n)) (S (S (S n))) = false /\
  Nat.eqb (S (S (S (S n)))) (S (S (S n))) = false.
Proof. repeat split; apply Nat.eqb_neq; lia. Qed.

Lemma first_row_filter_none {A} (f : A -> bool) (l : list A) :
  existsb f l = false -> first_row (filter f l) = None.
Proof.
  intro H. rewrite filter_none; [reflexivity|].
  intros x Hx. destruct (f x) eqn:E; auto.
  assert (existsb f l = true) by (apply existsb_exists; exists x; auto). congruence.
Qed.

(** C5, as the code has it.  When neither lookup finds the user and the
    insert of the create step collides with a row another client has just
    committed, [create_user] catches the unique violation and raises
    [UsernameAlreadyExistsError]; [get_or_create_user_by_firebase] re-raises
    it to the caller.  After the failed insert only the rollback is sent:
    there is no second lookup, and the winning row is not returned. *)
Theorem create_conflict_is_reraised (w : World) (token_data : crud_user.FirebaseTokenData) (e : string)
  (winner : UserRow) :
  crud_user.email token_data = Some e -> e <> "" -> crud_user.uid token_data <> "" ->
  existsb (crud_user.has_firebase_uid (crud_user.uid token_data)) (users (db w)) = false ->
  existsb (crud_user.has_email e) (users (db w)) = false ->
  crud_user.has_email e winner = true
  \/ crud_user.has_firebase_uid (crud_user.uid token_data) winner = true ->
  exists w',
    run_env (commit_before (3 + List.length (log w)) winner)
            (crud_user.get_or_create_user_by_firebase token_data) w
    = (inl (UsernameAlreadyExistsError ("User with email " +++ e +++ " already exists.")), w')
    /\ log w' = ["ROLLBACK"; crud_user.sql_insert_user; crud_user.sql_user_by_email;
                 crud_user.sql_user_by_firebase_uid; "BEGIN"] ++ log w
    /\ users (db w') = users (db w) ++ [winner].
Proof.
  intros He Hne Hu Hnu Hnm Hwin.
  unfold crud_user.get_or_create_user_by_firebase. rewrite He.
  destruct e as [| a e']; [congruence|].
  destruct (String.eqb (crud_user.uid token_data) "") eqn:Eu;
    [apply String.eqb_eq in Eu; congruence|].
  unfold transaction, crud_user.get_user_by_firebase_uid, crud_user.get_user_by_email,
    crud_user.create_user, crud_user.insert_user, crud_user.select_user, result.
  destruct (before_third (List.length (log w))) as [N0 [N1 [N2 N4]]].
  unfold commit_before.
  repeat (cbn -[Nat.eqb]; rewrite ?N0, ?N1, ?N2, ?N4, ?Nat.eqb_refl,
            ?(first_row_filter_none _ _ Hnu), ?(first_row_filter_none _ _ Hnm),
            ?existsb_app, ?Hnu, ?Hnm).
  destruct (crud_user.has_email (String a e') winner) eqn:E1.
  - repeat (cbn -[Nat.eqb]; rewrite ?N0, ?N1, ?N2, ?N4, ?Nat.eqb_refl).
    eexists. split; [reflexivity|]. split; reflexivity.
  - destruct Hwin as [Hwin | Hwin]; [discriminate|]. rewrite Hwin.
    repeat (cbn -[Nat.eqb]; rewrite ?N0, ?N1, ?N2, ?N4, ?Nat.eqb_refl).
    eexists. split; [reflexivity|]. split; reflexivity.
Qed.

Lemma create_conflict_is_reraised_witness :
  exists w',
    run_env (commit_before (3 + List.length (log (fresh_world example_db))) carol)
            (crud_user.get_or_create_user_by_firebase carol_token)
            (fresh_world example_db)
    = (inl (UsernameAlreadyExistsError
              ("User with email " +++ "carol@example.com" +++ " already exists.")), w')
    /\ log w' = ["ROLLBACK"; crud_user.sql_insert_user; crud_user.sql_user_by_email;
                 crud_user.sql_user_by_firebase_uid; "BEGIN"]
                ++ log (fresh_world example_db)
    /\ users (db w') = users (db (fresh_world example_db)) ++ [carol].
Proof.
  apply (create_conflict_is_reraised (fresh_world example_db) carol_token
           "carol@example.com" carol);
    [reflexivity | discriminate | discriminate | reflexivity | reflexivity
    | left; reflexivity].
Defined.

(** The clause as worded fails: carol's first request loses the race and is
    answered with the conflict, not with the row that won. *)
Lemma race_not_answered_with_winner : ~ race_answered_with_winner.
Proof.
  intro H.
  specialize (H (fresh_world example_db) carol_token "carol@example.com" carol
                eq_refl ltac:(discriminate) ltac:(discriminate)
                eq_refl eq_refl eq_refl).
  vm_compute in H. discriminate H.
Qed.

(* ------------------------------------------------------------------------- *)
(** ** Pagination                                                             *)
(* ------------------------------------------------------------------------- *)

Lemma firstn_then_next {R} (n m : nat) (l : list R) :
  firstn n l ++ firstn m (skipn n l) = firstn (n + m) l.
Proof.
  revert l. induction n as [| n IH]; intro l; simpl; [reflexivity|].
  destruct l as [| x l]; simpl.
  - rewrite firstn_nil. reflexivity.
  - f_equal. apply IH.
Qed.

(** The first [k] slices of width [ps] are the first [k * ps] rows. *)
Lemma slices_concat {R} (ps k : nat) (rows : list R) :
  List.concat (map (fun i => firstn ps (skipn (i * ps) rows)) (seq 0 k))
  = firstn (k * ps) rows.
Proof.
  induction k as [| k IH]; [reflexivity|].
  rewrite seq_S, map_app, concat_app, IH. simpl.
  rewrite app_nil_r, firstn_then_next. f_equal. lia.
Qed.

Lemma page_slice_nat {R} (rows : list R) (p : nat) (page_size : Z) :
  1 <= page_size ->
  page_slice rows (Z.of_nat (S p)) page_size
  = firstn (Z.to_nat page_size) (skipn (p * Z.to_nat page_size) rows).
Proof.
  intro H. unfold page_slice. f_equal. f_equal.
  rewrite Nat2Z.inj_succ. replace (Z.succ (Z.of_nat p) - 1) with (Z.of_nat p) by lia.
  rewrite Z2Nat.inj_mul by lia. rewrite Nat2Z.id. reflexivity.
Qed.

(** [total_pages_of] is the ceiling of [total_items / page_size]. *)
Lemma total_pages_ceil (total_items page_size : Z) :
  0 <= total_items -> 1 <= page_size ->
  total_items <= total_pages_of total_items page_size * page_size /\
  (total_pages_of total_items page_size - 1) * page_size < total_items.
Proof.
  intros Ht Hp. unfold total_pages_of.
  destruct (0 <? page_size) eqn:E; [| apply Z.ltb_ge in E; lia].
  pose proof (Z.div_mod (total_items + page_size - 1) page_size ltac:(lia)) as Hd.
  pose proof (Z.mod_pos_bound (total_items + page_size - 1) page_size ltac:(lia)) as Hm.
  split; nia.
Qed.

(** Pages [1 .. total_pages] of a result, put together, are the result. *)
Lemma page_slices_cover {R} (rows : list R) (page_size : Z) :
  1 <= page_size ->
  List.concat (map (fun p => page_slice rows (Z.of_nat p) page_size)
              (seq 1 (Z.to_nat (total_pages_of (count rows) page_size))))
  = rows.
Proof.
  intro Hp.
  set (k := Z.to_nat (total_pages_of (count rows) page_size)).
  rewrite <- seq_shift, map_map.
  rewrite (map_ext _ (fun i => firstn (Z.to_nat page_size)
                                      (skipn (i * Z.to_nat page_size) rows)))
    by (intro p; apply page_slice_nat; exact Hp).
  rewrite slices_concat. apply firstn_all2.
  destruct (total_pages_ceil (count rows) page_size) as [Hc _];
    [unfold count; lia | exact Hp |].
  unfold count in Hc. subst k.
  assert (0 <= total_pages_of (count rows) page_size).
  { unfold total_pages_of. destruct (0 <? page_size); [| lia].
    apply Z.div_pos; unfold count; lia. }
  unfold count in *. nia.
Qed.

Lemma limit_offset_page {R} (rows : list R) (page page_size : Z) :
  1 <= page -> 1 <= page_size ->
  limit_offset page_size ((page - 1) * page_size) rows
  = inr (page_slice rows page page_size).
Proof.
  intros H1 H2. unfold limit_offset.
  destruct (page_size <? 0) eqn:E1; [apply Z.ltb_lt in E1; lia|].
  destruct ((page - 1) * page_size <? 0) eqn:E2; [apply Z.ltb_lt in E2; nia|].
  reflexivity.
Qed.

Lemma page_slice_nil {R} (page page_size : Z) : @page_slice R [] page page_size = [].
Proof. unfold page_slice. rewrite skipn_nil, firstn_nil. reflexivity. Qed.

(** From the answers of the single pages to the contract. *)
Lemma pages_intro {R} (f : Z -> Z -> Prog (list R * Z)) (w : World)
  (rows : list R) (key : R -> Z) :
  (forall page page_size, 1 <= page -> 1 <= page_size ->
     result (run (f page page_size) w)
       = inr (page_slice rows page page_size, count rows)) ->
  NoDup (map key rows) ->
  pages f w rows key.
Proof.
  intros Hpage Hnd page_size Hp. split; [| split]; auto.
  unfold all_pages.
  rewrite <- (page_slices_cover rows page_size Hp) at 2.
  f_equal. apply map_ext_in. intros p Hin. apply in_seq in Hin.
  unfold items_of. unfold result in Hpage. rewrite Hpage by lia. reflexivity.
Qed.

Section Ordering.
Context {A : Type} (le : A -> A -> bool).

Lemma insert_sorted_perm (x : A) (l : list A) :
  Permutation (insert_sorted le x l) (x :: l).
Proof.
  induction l as [| y l IH]; simpl; [apply Permutation_refl|].
  destruct (le x y); [apply Permutation_refl|].
  apply perm_trans with (y :: x :: l); [apply perm_skip; exact IH | apply perm_swap].
Qed.

Lemma order_by_perm (l : list A) : Permutation (order_by le l) l.
Proof.
  induction l as [| x l IH]; simpl; [apply perm_nil|].
  apply perm_trans with (x :: order_by le l);
    [apply insert_sorted_perm | apply perm_skip; exact IH].
Qed.

Lemma order_by_length (l : list A) : List.length (order_by le l) = List.length l.
Proof. apply Permutation_length, order_by_perm. Qed.

Hypothesis le_total : forall a b, le a b = false -> le b a = true.
Hypothesis le_trans : forall a b c, le a b = true -> le b c = true -> le a c = true.

Lemma insert_sorted_sorted (x : A) (l : list A) :
  StronglySorted (fun a b => le a b = true) l ->
  StronglySorted (fun a b => le a b = true) (insert_sorted le x l).
Proof.
  induction 1 as [| y l Hs IH Hy]; simpl.
  - constructor; constructor.
  - destruct (le x y) eqn:E.
    + constructor; [constructor; assumption|].
      constructor; [exact E|].
      rewrite Forall_forall in *. intros z Hz. apply le_trans with y; auto.
    + constructor; [exact IH|].
      rewrite Forall_forall in *. intros z Hz.
      apply (Permutation_in _ (insert_sorted_perm x l)) in Hz.
      destruct Hz as [<- | Hz]; [apply le_total; exact E | apply Hy; exact Hz].
Qed.

Lemma order_by_sorted (l : list A) :
  StronglySorted (fun a b => le a b = true) (order_by le l).
Proof.
  induction l as [| x l IH]; simpl; [constructor|].
  apply insert_sorted_sorted. exact IH.
Qed.

(** Two sorted arrangements of the same rows coincide when no two distinct
    rows tie. *)
Lemma sorted_unique (l1 l2 : list A) :
  StronglySorted (fun a b => le a b = true) l1 ->
  StronglySorted (fun a b => le a b = true) l2 ->
  Permutation l1 l2 ->
  (forall a b, In a l1 -> In b l1 -> le a b = true -> le b a = true -> a = b) ->
  l1 = l2.
Proof.
  intros H1. revert l2. induction H1 as [| x l1 Hs IH Hx]; intros l2 H2 Hp Hanti.
  - apply Permutation_nil in Hp. subst. reflexivity.
  - destruct l2 as [| y l2]; [apply Permutation_sym, Permutation_nil in Hp; discriminate|].
    inversion H2 as [| ? ? Hs2 Hy]; subst.
    assert (x = y).
    { assert (Hyin : In y (x :: l1))
        by (apply (Permutation_in _ (Permutation_sym Hp)); left; reflexivity).
      assert (Hxin : In x (y :: l2))
        by (apply (Permutation_in _ Hp); left; reflexivity).
      destruct Hyin as [-> | Hyin]; [reflexivity|].
      destruct Hxin as [-> | Hxin]; [reflexivity|].
      rewrite Forall_forall in Hx, Hy.
      apply Hanti; [left; reflexivity | right; exact Hyin | apply Hx; exact Hyin
                   | apply Hy; exact Hxin]. }
    subst y. f_equal. apply IH; [exact Hs2 | apply (Permutation_cons_inv Hp) |].
    intros a b Ha Hb. apply Hanti; right; assumption.
Qed.
End Ordering.

Lemma distinct_NoDup (l : list Z) : distinct Z.eqb l = true -> NoDup l.
Proof.
  induction l as [| x l IH]; simpl; intro H; [constructor|].
  apply andb_true_iff in H. destruct H as [Hx Hd]. constructor; [| apply IH; exact Hd].
  intro Hin. apply negb_true_iff in Hx.
  assert (existsb (Z.eqb x) l = true)
    by (apply existsb_exists; exists x; split; [exact Hin | apply Z.eqb_refl]).
  congruence.
Qed.

Lemma NoDup_map_filter {A} (key : A -> Z) (f : A -> bool) (l : list A) :
  NoDup (map key l) -> NoDup (map key (filter f l)).
Proof.
  induction l as [| x l IH]; simpl; intro H; [constructor|].
  inversion H as [| ? ? Hx Hnd]; subst.
  destruct (f x); simpl; [| apply IH; exact Hnd].
  constructor; [| apply IH; exact Hnd].
  intro Hin. apply Hx. apply in_map_iff in Hin. destruct Hin as [y [Hy Hin]].
  apply filter_In in Hin. apply in_map_iff. exists y. split; [exact Hy | apply Hin].
Qed.

Lemma NoDup_map_order_by {A} (key : A -> Z) (le : A -> A -> bool) (l : list A) :
  NoDup (map key l) -> NoDup (map key (order_by le l)).
Proof.
  intro H. apply (Permutation_NoDup (l := map key l)); [| exact H].
  apply Permutation_map, Permutation_sym, order_by_perm.
Qed.

Lemma filter_perm {A} (f : A -> bool) (l1 l2 : list A) :
  Permutation l1 l2 -> Permutation (filter f l1) (filter f l2).
Proof.
  induction 1 as [| x l1 l2 Hp IH | x y l | l1 l2 l3 H1 IH1 H2 IH2]; simpl.
  - apply perm_nil.
  - destruct (f x); [apply perm_skip|]; exact IH.
  - destruct (f x), (f y); try apply Permutation_refl. apply perm_swap.
  - apply perm_trans with (filter f l2); assumption.
Qed.

Lemma count_zero {R} (rows : list R) : (count rows =? 0) = true -> rows = [].
Proof.
  unfold count. intro H. apply Z.eqb_eq in H. destruct rows; [reflexivity | discriminate].
Qed.

Lemma count_listed (where_ : ListRow -> bool) (d : DB) :
  count (crud_list.listed where_ d) = count (filter where_ (lists d)).
Proof.
  unfold count, crud_list.listed. rewrite length_map, order_by_length. reflexivity.
Qed.

Lemma listed_ids (where_ : ListRow -> bool) (d : DB) :
  map crud_list.v_id (crud_list.listed where_ d)
  = map l_id (order_by crud_list._ORDER_BY (filter where_ (lists d))).
Proof. unfold crud_list.listed. rewrite map_map. reflexivity. Qed.

Lemma listed_NoDup (where_ : ListRow -> bool) (d : DB) :
  lists_pk d = true -> NoDup (map crud_list.v_id (crud_list.listed where_ d)).
Proof.
  intro H. rewrite listed_ids.
  apply NoDup_map_order_by, NoDup_map_filter, distinct_NoDup. exact H.
Qed.

(** One page of a listing over [lists]: the count, then the slice. *)
Ltac page_of_listing rows :=
  intros;
  unfold result; cbn -[String.append];
  match goal with
  | |- context [count ?l =? 0] =>
      replace (count l) with (count rows)
        by (unfold count, crud_list.listed, crud_place.listed, crud_user.searched;
            repeat rewrite ?length_map, ?order_by_length; reflexivity)
  end;
  destruct (count rows =? 0) eqn:Ezero; cbn -[String.append];
  [ rewrite (count_zero _ Ezero), page_slice_nil; reflexivity
  | rewrite limit_offset_page by assumption; reflexivity ].

Lemma get_user_lists_page (w : World) (owner_id page page_size : Z) :
  1 <= page -> 1 <= page_size ->
  result (run (crud_list.get_user_lists_paginated owner_id page page_size) w)
  = inr (page_slice (crud_list.listed (crud_list.owned_by owner_id) (db w)) page page_size,
         count (crud_list.listed (crud_list.owned_by owner_id) (db w))).
Proof.
  unfold crud_list.get_user_lists_paginated, crud_list.select_count_lists,
    crud_list.select_lists_page.
  page_of_listing (crud_list.listed (crud_list.owned_by owner_id) (db w)).
Qed.

Lemma get_public_lists_page (w : World) (page page_size : Z) :
  1 <= page -> 1 <= page_size ->
  result (run (crud_list.get_public_lists_paginated page page_size) w)
  = inr (page_slice (crud_list.listed crud_list.is_public (db w)) page page_size,
         count (crud_list.listed crud_list.is_public (db w))).
Proof.
  unfold crud_list.get_public_lists_paginated, crud_list.select_count_lists,
    crud_list.select_lists_page.
  page_of_listing (crud_list.listed crud_list.is_public (db w)).
Qed.

Lemma search_lists_page (w : World) (query : string) (user_id : option Z)
  (page page_size : Z) :
  1 <= page -> 1 <= page_size ->
  result (run (crud_list.search_lists_paginated query user_id page page_size) w)
  = inr (page_slice (crud_list.listed
                       (crud_list.matches ("%" +++ lower query +++ "%") user_id) (db w))
                    page page_size,
         count (crud_list.listed
                  (crud_list.matches ("%" +++ lower query +++ "%") user_id) (db w))).
Proof.
  unfold crud_list.search_lists_paginated, crud_list.select_count_lists,
    crud_list.select_lists_page.
  page_of_listing (crud_list.listed
                     (crud_list.matches ("%" +++ lower query +++ "%") user_id) (db w)).
Qed.

Lemma get_recent_lists_page (w : World) (user_id page page_size : Z) :
  1 <= page -> 1 <= page_size ->
  result (run (crud_list.get_recent_lists_paginated user_id page page_size) w)
  = inr (page_slice (crud_list.listed (crud_list.public_or_owned user_id) (db w))
                    page page_size,
         count (crud_list.listed (crud_list.public_or_owned user_id) (db w))).
Proof.
  unfold crud_list.get_recent_lists_paginated, crud_list.select_count_lists,
    crud_list.select_lists_page.
  page_of_listing (crud_list.listed (crud_list.public_or_owned user_id) (db w)).
Qed.

Lemma get_places_page (w : World) (list_id page page_size : Z) :
  1 <= page -> 1 <= page_size ->
  result (run (crud_place.get_places_by_list_id_paginated list_id page page_size) w)
  = inr (page_slice (crud_place.listed list_id (db w)) page page_size,
         count (crud_place.listed list_id (db w))).
Proof.
  unfold crud_place.get_places_by_list_id_paginated, crud_place.select_count_places,
    crud_place.select_places_page.
  page_of_listing (crud_place.listed list_id (db w)).
Qed.

Lemma search_users_page (w : World) (current_user_id : Z) (query_ : string)
  (page page_size : Z) :
  1 <= page -> 1 <= page_size ->
  result (run (crud_user.search_users current_user_id query_ page page_size) w)
  = inr (page_slice (crud_user.searched current_user_id ("%" +++ lower query_ +++ "%")
                                        (db w)) page page_size,
         count (crud_user.searched current_user_id ("%" +++ lower query_ +++ "%") (db w))).
Proof.
  unfold crud_user.search_users, crud_user.select_page.
  page_of_listing (crud_user.searched current_user_id ("%" +++ lower query_ +++ "%")
                                      (db w)).
Qed.

Lemma get_notifications_page (scan : list NotificationRow -> list NotificationRow)
  (w : World) (user_id page page_size : Z) :
  scans scan -> 1 <= page -> 1 <= page_size ->
  result (run (crud_user.get_user_notifications scan user_id page page_size) w)
  = inr (page_slice (crud_user.notifications_of scan user_id (db w)) page page_size,
         count (crud_user.notifications_of scan user_id (db w))).
Proof.
  intros Hscan Hp Hs.
  assert (Hc : count (filter (crud_user.notified user_id) (notifications (db w)))
               = count (crud_user.notifications_of scan user_id (db w))).
  { unfold count, crud_user.notifications_of. f_equal.
    rewrite order_by_length. symmetry. apply Permutation_length, Hscan. }
  unfold crud_user.get_user_notifications, crud_user.select_page, result.
  cbn. rewrite Hc.
  destruct (count (crud_user.notifications_of scan user_id (db w)) =? 0) eqn:Ezero; cbn.
  - rewrite (count_zero _ Ezero), page_slice_nil. reflexivity.
  - rewrite limit_offset_page by assumption. reflexivity.
Qed.

(** A join in which every left row has exactly one partner keeps the left
    rows, each paired with its partner. *)
Lemma inner_join_one {A B} (on : A -> B -> bool) (la : list A) (lb : list B) :
  (forall a, In a la -> exists b, filter (on a) lb = [b]) ->
  map fst (inner_join on la lb) = la /\
  forall r, In r (inner_join on la lb) -> on (fst r) (snd r) = true.
Proof.
  intro H. unfold inner_join. split.
  - induction la as [| a la IH]; simpl; [reflexivity|].
    destruct (H a (or_introl eq_refl)) as [b Hb]. rewrite Hb. simpl. f_equal.
    apply IH. intros a' Ha'. apply H. right; exact Ha'.
  - intros r Hr. apply in_flat_map in Hr. destruct Hr as [a [Ha Hr]].
    apply in_map_iff in Hr. destruct Hr as [b [<- Hb]].
    apply filter_In in Hb. apply Hb.
Qed.

Lemma filter_map_fst {A B} (P : A -> bool) (l : list (A * B)) :
  map fst (filter (fun r => P (fst r)) l) = filter P (map fst l).
Proof.
  induction l as [| r l IH]; simpl; [reflexivity|].
  destruct (P (fst r)); simpl; rewrite IH; reflexivity.
Qed.

Lemma distinct_NoDup_with {K} (eqb : K -> K -> bool) (l : list K) :
  (forall a, eqb a a = true) -> distinct eqb l = true -> NoDup l.
Proof.
  intro Hrefl. induction l as [| x l IH]; simpl; intro H; [constructor|].
  apply andb_true_iff in H. destruct H as [Hx Hd]. constructor; [| apply IH; exact Hd].
  intro Hin. apply negb_true_iff in Hx.
  assert (existsb (eqb x) l = true)
    by (apply existsb_exists; exists x; split; [exact Hin | apply Hrefl]).
  congruence.
Qed.

Lemma NoDup_filter_keys {A K} (key : A -> K) (f : A -> bool) (l : list A) :
  NoDup (map key l) -> NoDup (map key (filter f l)).
Proof.
  induction l as [| x l IH]; simpl; intro H; [constructor|].
  inversion H as [| ? ? Hx Hnd]; subst.
  destruct (f x); simpl; [| apply IH; exact Hnd].
  constructor; [| apply IH; exact Hnd].
  intro Hin. apply Hx. apply in_map_iff in Hin. destruct Hin as [y [Hy Hin]].
  apply filter_In in Hin. apply in_map_iff. exists y. split; [exact Hy | apply Hin].
Qed.

(** Every follow edge has exactly one user row at either end. *)
Lemma follow_ends (d : DB) (f : FollowRow) :
  users_pk d = true -> follows_fk d = true -> In f (user_follows d) ->
  (exists u, filter (fun u => f_followed_id f =? u_id u) (users d) = [u]) /\
  (exists u, filter (fun u => f_follower_id f =? u_id u) (users d) = [u]).
Proof.
  intros Hpk Hfk Hin. unfold follows_fk in Hfk. rewrite forallb_forall in Hfk.
  specialize (Hfk f Hin). apply andb_true_iff in Hfk. destruct Hfk as [H1 H2].
  apply existsb_exists in H1. destruct H1 as [u1 [Hu1 E1]].
  apply existsb_exists in H2. destruct H2 as [u2 [Hu2 E2]].
  apply Z.eqb_eq in E1. apply Z.eqb_eq in E2.
  split.
  - exists u2. rewrite <- E2, <- (distinct_first u_id (users d) u2 Hpk Hu2).
    apply filter_ext. intro u. apply Z.eqb_sym.
  - exists u1. rewrite <- E1, <- (distinct_first u_id (users d) u1 Hpk Hu1).
    apply filter_ext. intro u. apply Z.eqb_sym.
Qed.

(** The ids listed by [following] are the followed ids of the caller's
    edges, and those of [followers] the follower ids of the edges that
    point to the caller. *)
Lemma following_ids (scan : list UserRow -> list UserRow) (d : DB) (user_id : Z) :
  scans scan -> users_pk d = true -> follows_fk d = true ->
  Permutation (map crud_user.i_id (crud_user.following scan user_id d))
              (map f_followed_id (filter (crud_user.follows_of user_id) (user_follows d))).
Proof.
  intros Hscan Hpk Hfk. unfold crud_user.following.
  rewrite map_map. cbn [crud_user.user_info crud_user.i_id].
  eapply perm_trans; [apply Permutation_map, order_by_perm|].
  eapply perm_trans; [apply Permutation_map, Hscan|].
  destruct (inner_join_one (fun uf u => f_followed_id uf =? u_id u)
              (user_follows d) (users d)) as [Hfst Hon].
  { intros f Hf. apply (follow_ends d f Hpk Hfk Hf). }
  rewrite map_map.
  rewrite <- Hfst at 2. rewrite <- filter_map_fst, map_map.
  rewrite (map_ext_in (fun r => u_id (snd r)) (fun r => f_followed_id (fst r)));
    [apply Permutation_refl|].
  intros r Hr. apply filter_In in Hr. destruct Hr as [Hr _].
  apply Hon in Hr. apply Z.eqb_eq in Hr. symmetry. exact Hr.
Qed.

Lemma followers_ids (scan : list UserRow -> list UserRow) (d : DB) (user_id : Z) :
  scans scan -> users_pk d = true -> follows_fk d = true ->
  Permutation (map (fun r => crud_user.i_id (fst r)) (crud_user.followers scan user_id d))
              (map f_follower_id (filter (crud_user.followers_of user_id) (user_follows d))).
Proof.
  intros Hscan Hpk Hfk. unfold crud_user.followers.
  rewrite map_map. cbn [crud_user.user_info crud_user.i_id fst].
  eapply perm_trans; [apply Permutation_map, order_by_perm|].
  eapply perm_trans; [apply Permutation_map, Hscan|].
  destruct (inner_join_one (fun uf u => f_follower_id uf =? u_id u)
              (user_follows d) (users d)) as [Hfst Hon].
  { intros f Hf. apply (follow_ends d f Hpk Hfk Hf). }
  rewrite map_map.
  rewrite <- Hfst at 2. rewrite <- filter_map_fst, map_map.
  rewrite (map_ext_in (fun r => u_id (snd r)) (fun r => f_follower_id (fst r)));
    [apply Permutation_refl|].
  intros r Hr. apply filter_In in Hr. destruct Hr as [Hr _].
  apply Hon in Hr. apply Z.eqb_eq in Hr. symmetry. exact Hr.
Qed.

Lemma edges_NoDup (d : DB) :
  follows_unique d = true ->
  NoDup (map (fun f => (f_follower_id f, f_followed_id f)) (user_follows d)).
Proof. apply distinct_NoDup_with. apply pair_eqb_refl. Qed.

Lemma followed_NoDup (d : DB) (user_id : Z) :
  follows_unique d = true ->
  NoDup (map f_followed_id (filter (crud_user.follows_of user_id) (user_follows d))).
Proof.
  intro Hu.
  pose proof (NoDup_filter_keys (fun f => (f_follower_id f, f_followed_id f))
                (crud_user.follows_of user_id) (user_follows d) (edges_NoDup d Hu)) as H.
  rewrite (map_ext_in _ (fun f => (user_id, f_followed_id f))) in H.
  - rewrite <- (map_map f_followed_id (pair user_id)) in H.
    apply NoDup_map_inv in H. exact H.
  - intros f Hf. apply filter_In in Hf. destruct Hf as [_ Hf].
    unfold crud_user.follows_of in Hf. apply Z.eqb_eq in Hf. rewrite Hf. reflexivity.
Qed.

Lemma follower_NoDup (d : DB) (user_id : Z) :
  follows_unique d = true ->
  NoDup (map f_follower_id (filter (crud_user.followers_of user_id) (user_follows d))).
Proof.
  intro Hu.
  pose proof (NoDup_filter_keys (fun f => (f_follower_id f, f_followed_id f))
                (crud_user.followers_of user_id) (user_follows d) (edges_NoDup d Hu)) as H.
  rewrite (map_ext_in _ (fun f => (f_follower_id f, user_id))) in H.
  - rewrite <- (map_map f_follower_id (fun a => (a, user_id))) in H.
    apply NoDup_map_inv in H. exact H.
  - intros f Hf. apply filter_In in Hf. destruct Hf as [_ Hf].
    unfold crud_user.followers_of in Hf. apply Z.eqb_eq in Hf. rewrite Hf. reflexivity.
Qed.

Lemma get_following_page (scan : list UserRow -> list UserRow) (w : World)
  (user_id page page_size : Z) :
  scans scan -> users_pk (db w) = true -> follows_fk (db w) = true ->
  1 <= page -> 1 <= page_size ->
  result (run (crud_user.get_following scan user_id page page_size) w)
  = inr (page_slice (crud_user.following scan user_id (db w)) page page_size,
         count (crud_user.following scan user_id (db w))).
Proof.
  intros Hscan Hpk Hfk Hp Hs.
  assert (Hc : count (filter (crud_user.follows_of user_id) (user_follows (db w)))
               = count (crud_user.following scan user_id (db w))).
  { unfold count. f_equal.
    rewrite <- (length_map f_followed_id), <- (length_map crud_user.i_id).
    symmetry. apply Permutation_length, following_ids; assumption. }
  unfold crud_user.get_following, crud_user.select_page, result.
  cbn. rewrite Hc.
  destruct (count (crud_user.following scan user_id (db w)) =? 0) eqn:Ezero; cbn.
  - rewrite (count_zero _ Ezero), page_slice_nil. reflexivity.
  - rewrite limit_offset_page by assumption. reflexivity.
Qed.

Lemma get_followers_page (scan : list UserRow -> list UserRow) (w : World)
  (user_id page page_size : Z) :
  scans scan -> users_pk (db w) = true -> follows_fk (db w) = true ->
  1 <= page -> 1 <= page_size ->
  result (run (crud_user.get_followers scan user_id page page_size) w)
  = inr (page_slice (crud_user.followers scan user_id (db w)) page page_size,
         count (crud_user.followers scan user_id (db w))).
Proof.
  intros Hscan Hpk Hfk Hp Hs.
  assert (Hc : count (filter (crud_user.followers_of user_id) (user_follows (db w)))
               = count (crud_user.followers scan user_id (db w))).
  { unfold count. f_equal.
    rewrite <- (length_map f_follower_id),
      <- (length_map (fun r => crud_user.i_id (fst r))).
    symmetry. apply Permutation_length, followers_ids; assumption. }
  unfold crud_user.get_followers, crud_user.select_page, result.
  cbn. rewrite Hc.
  destruct (count (crud_user.followers scan user_id (db w)) =? 0) eqn:Ezero; cbn.
  - rewrite (count_zero _ Ezero), page_slice_nil. reflexivity.
  - rewrite limit_offset_page by assumption. reflexivity.
Qed.

Lemma order_by_spec (a b : ListRow) :
  newest_first a b <->
  l_created_at b < l_created_at a \/
  (l_created_at a = l_created_at b /\ l_id b <= l_id a).
Proof.
  unfold newest_first, crud_list._ORDER_BY.
  rewrite orb_true_iff, andb_true_iff, Z.ltb_lt, Z.eqb_eq, Z.leb_le. reflexivity.
Qed.

Lemma order_by_total (a b : ListRow) :
  crud_list._ORDER_BY a b = false -> crud_list._ORDER_BY b a = true.
Proof.
  intro H. apply order_by_spec.
  assert (Hn : ~ newest_first a b) by (unfold newest_first; congruence).
  rewrite order_by_spec in Hn. lia.
Qed.

Lemma order_by_trans (a b c : ListRow) :
  crud_list._ORDER_BY a b = true -> crud_list._ORDER_BY b c = true ->
  crud_list._ORDER_BY a c = true.
Proof.
  intros H1 H2. apply order_by_spec. apply order_by_spec in H1, H2. lia.
Qed.

Lemma same_id_same_row {A} (key : A -> Z) (l : list A) (a b : A) :
  distinct Z.eqb (map key l) = true -> In a l -> In b l -> key a = key b -> a = b.
Proof.
  intros Hd Ha Hb E.
  pose proof (distinct_first key l a Hd Ha) as H.
  assert (Hin : In b (filter (fun y => key y =? key a) l))
    by (apply filter_In; split; [exact Hb | apply Z.eqb_eq; congruence]).
  rewrite H in Hin. destruct Hin as [-> | []]. reflexivity.
Qed.

(** With unique ids the listing order of the rows of [lists] does not depend
    on the order in which the table holds them. *)
Lemma list_order_deterministic (d : DB) (where_ : ListRow -> bool) (ls' : list ListRow) :
  lists_pk d = true -> Permutation (lists d) ls' ->
  order_by crud_list._ORDER_BY (filter where_ ls')
  = order_by crud_list._ORDER_BY (filter where_ (lists d)).
Proof.
  intros Hpk Hperm. symmetry.
  apply (sorted_unique crud_list._ORDER_BY).
  - apply order_by_sorted; [exact order_by_total | exact order_by_trans].
  - apply order_by_sorted; [exact order_by_total | exact order_by_trans].
  - eapply perm_trans; [apply order_by_perm|].
    eapply perm_trans; [apply filter_perm; exact Hperm|].
    apply Permutation_sym, order_by_perm.
  - intros a b Ha Hb Hab Hba.
    apply (Permutation_in _ (order_by_perm _ _)) in Ha, Hb.
    apply filter_In in Ha, Hb.
    apply (same_id_same_row l_id (lists d)); [exact Hpk | apply Ha | apply Hb |].
    apply order_by_spec in Hab, Hba. lia.
Qed.

Lemma endpoint_get_following_run (scan : list UserRow -> list UserRow) (w : World)
  (current_user_id page page_size : Z) :
  scans scan -> users_pk (db w) = true -> follows_fk (db w) = true ->
  1 <= page -> 1 <= page_size <= 100 ->
  result (run (endpoints_users.get_following scan current_user_id page page_size) w)
  = inr (endpoints_users.mkPaginated
           (map (fun record => endpoints_users.mkFollowInfo record (Some true))
                (page_slice (crud_user.following scan current_user_id (db w))
                            page page_size))
           page page_size
           (count (crud_user.following scan current_user_id (db w)))
           (total_pages_of (count (crud_user.following scan current_user_id (db w)))
                           page_size)).
Proof.
  intros Hscan Hpk Hfk Hp [Hs Hmax].
  pose proof (get_following_page scan w current_user_id page page_size
                Hscan Hpk Hfk Hp Hs) as H.
  unfold endpoints_users.get_following, result in *.
  replace ((1 <=? page) && (1 <=? page_size) && (page_size <=? 100)) with true
    by (symmetry; rewrite !andb_true_iff; repeat split; apply Z.leb_le; lia).
  cbn [negb].
  rewrite run_try_except, run_bind.
  destruct (run (crud_user.get_following scan current_user_id page page_size) w)
    as [r w'].
  simpl in H. subst r. reflexivity.
Qed.

Lemma store_ok_parts (d : DB) :
  store_ok d = true ->
  users_pk d = true /\ lists_pk d = true /\ places_pk d = true /\
  notifications_pk d = true /\ follows_unique d = true /\ follows_fk d = true.
Proof.
  unfold store_ok. intro H. repeat (apply andb_true_iff in H; destruct H as [H ?]).
  repeat split; assumption.
Qed.

Lemma place_order_spec (a b : PlaceRow) :
  newest_place_first a b <->
  p_created_at b < p_created_at a \/
  (p_created_at a = p_created_at b /\ p_id b <= p_id a).
Proof.
  unfold newest_place_first, crud_place.newest_first.
  rewrite orb_true_iff, andb_true_iff, Z.ltb_lt, Z.eqb_eq, Z.leb_le. reflexivity.
Qed.

Lemma place_order_total (a b : PlaceRow) :
  crud_place.newest_first a b = false -> crud_place.newest_first b a = true.
Proof.
  intro H. apply place_order_spec.
  assert (Hn : ~ newest_place_first a b) by (unfold newest_place_first; congruence).
  rewrite place_order_spec in Hn. lia.
Qed.

Lemma place_order_trans (a b c : PlaceRow) :
  crud_place.newest_first a b = true -> crud_place.newest_first b c = true ->
  crud_place.newest_first a c = true.
Proof.
  intros H1 H2. apply place_order_spec. apply place_order_spec in H1, H2. lia.
Qed.

Lemma place_order_deterministic (d : DB) (list_id : Z) (ps' : list PlaceRow) :
  places_pk d = true -> Permutation (places d) ps' ->
  order_by crud_place.newest_first (filter (crud_place.in_list list_id) ps')
  = order_by crud_place.newest_first (filter (crud_place.in_list list_id) (places d)).
Proof.
  intros Hpk Hperm. symmetry.
  apply (sorted_unique crud_place.newest_first).
  - apply order_by_sorted; [exact place_order_total | exact place_order_trans].
  - apply order_by_sorted; [exact place_order_total | exact place_order_trans].
  - eapply perm_trans; [apply order_by_perm|].
    eapply perm_trans; [apply filter_perm; exact Hperm|].
    apply Permutation_sym, order_by_perm.
  - intros a b Ha Hb Hab Hba.
    apply (Permutation_in _ (order_by_perm _ _)) in Ha, Hb.
    apply filter_In in Ha, Hb.
    apply (same_id_same_row p_id (places d)); [exact Hpk | apply Ha | apply Hb |].
    apply place_order_spec in Hab, Hba. lia.
Qed.

(** C8.  The follow listings do not page completely: user name and display
    name, by which they are ordered, are no unique key, and nothing else
    fixes the order of users that tie.  On the store [tied_db] Alice
    follows Bob and Dave, who tie.  When the store hands the tied rows to
    the query of page 1 in one order and to the query of page 2 in the
    other, [get_following], read at one user per page, answers Bob on
    page 1 and Bob again on page 2, each time with a total of 2: over the
    pages [1 .. total_pages] Bob is listed twice and Dave, whom Alice
    follows, never.  The endpoint hands both pages on with
    [total_pages = 2]. *)
Theorem follow_pages_repeat_and_omit :
  let w := fresh_world tied_db in
  let first := fun rows : list UserRow => rows in
  let second := @rev UserRow in
  let listing := fun page page_size =>
    crud_user.get_following (if page =? 1 then first else second) 1 page page_size in
  scans first /\ scans second /\ store_ok tied_db = true /\
  follows tied_db 1 (u_id bob) /\ follows tied_db 1 (u_id dave) /\
  result (run (crud_user.get_following first 1 1 1) w)
    = inr ([crud_user.user_info bob], 2) /\
  result (run (crud_user.get_following second 1 2 1) w)
    = inr ([crud_user.user_info bob], 2) /\
  total_pages_of 2 1 = 2 /\
  all_pages listing w 1 2 = [crud_user.user_info bob; crud_user.user_info bob] /\
  ~ NoDup (all_pages listing w 1 2) /\
  ~ In (crud_user.user_info dave) (all_pages listing w 1 2) /\
  (forall page, page = 1 \/ page = 2 ->
     exists r,
       result (run (endpoints_users.get_following (if page =? 1 then first else second)
                      1 page 1) w) = inr r /\
       map endpoints_users.info (endpoints_users.items r) = [crud_user.user_info bob] /\
       endpoints_users.total_items r = 2 /\ endpoints_users.total_pages r = 2).
Proof.
  cbv zeta.
  split; [intro rows; apply Permutation_refl|].
  split; [intro rows; apply Permutation_sym, Permutation_rev|].
  split; [reflexivity|].
  split; [exists (mkFollow 1 2 0); simpl; auto|].
  split; [exists (mkFollow 1 3 0); simpl; auto|].
  split; [reflexivity|]. split; [reflexivity|]. split; [reflexivity|].
  assert (E : all_pages
                (fun page page_size =>
                   crud_user.get_following
                     (if page =? 1 then fun rows : list UserRow => rows
                      else @rev UserRow) 1 page page_size)
                (fresh_world tied_db) 1 2
              = [crud_user.user_info bob; crud_user.user_info bob]) by reflexivity.
  split; [exact E|]. rewrite E.
  split; [intro H; inversion H as [| x l Hnin Hnd]; apply Hnin; left; reflexivity|].
  split; [intros [H | [H | []]]; discriminate H|].
  intros page [-> | ->]; eexists; (split; [reflexivity|]); repeat split.
Qed.

(** X29. The listings that sort by creation time and then by id -- the
    lists of a user, the public lists, the list search (for a query of
    ASCII characters), the recent lists, the places of a list -- page
    completely.  On a store with unique list and place
    ids, with the filter arguments fixed and at any page size of at least
    one, each page request answers its slice of the listing's result
    together with the number of rows; the pages [1 .. total_pages] put
    together are that result, in which no row occurs twice; [total_pages]
    is the ceiling of [total_items / page_size].  The order is creation
    time descending, then id descending, which fixes the order of the
    result whatever order the table holds its rows in. *)
Theorem keyed_listings_page_completely (w : World) :
  lists_pk (db w) = true -> places_pk (db w) = true ->
  (forall owner_id,
     pages (crud_list.get_user_lists_paginated owner_id) w
           (crud_list.listed (crud_list.owned_by owner_id) (db w)) crud_list.v_id) /\
  pages crud_list.get_public_lists_paginated w
        (crud_list.listed crud_list.is_public (db w)) crud_list.v_id /\
  (forall query user_id, ascii_only query = true ->
     pages (crud_list.search_lists_paginated query user_id) w
           (crud_list.listed (crud_list.matches ("%" +++ lower query +++ "%") user_id) (db w))
           crud_list.v_id) /\
  (forall user_id,
     pages (crud_list.get_recent_lists_paginated user_id) w
           (crud_list.listed (crud_list.public_or_owned user_id) (db w)) crud_list.v_id) /\
  (forall list_id,
     pages (crud_place.get_places_by_list_id_paginated list_id) w
           (crud_place.listed list_id (db w)) (fun r => crud_place.i_id (fst r))) /\
  (forall total_items page_size, 0 <= total_items -> 1 <= page_size ->
     total_items <= total_pages_of total_items page_size * page_size /\
     (total_pages_of total_items page_size - 1) * page_size < total_items) /\
  (forall where_,
     StronglySorted newest_first
       (order_by crud_list._ORDER_BY (filter where_ (lists (db w)))) /\
     crud_list.listed where_ (db w)
       = map (crud_list.list_view (db w))
             (order_by crud_list._ORDER_BY (filter where_ (lists (db w)))) /\
     forall ls', Permutation (lists (db w)) ls' ->
       order_by crud_list._ORDER_BY (filter where_ ls')
       = order_by crud_list._ORDER_BY (filter where_ (lists (db w)))) /\
  (forall a b, newest_first a b <->
     l_created_at b < l_created_at a \/
     (l_created_at a = l_created_at b /\ l_id b <= l_id a)) /\
  (forall list_id,
     StronglySorted newest_place_first
       (order_by crud_place.newest_first
                 (filter (crud_place.in_list list_id) (places (db w)))) /\
     forall ps', Permutation (places (db w)) ps' ->
       order_by crud_place.newest_first (filter (crud_place.in_list list_id) ps')
       = order_by crud_place.newest_first
                  (filter (crud_place.in_list list_id) (places (db w)))) /\
  (forall a b, newest_place_first a b <->
     p_created_at b < p_created_at a \/
     (p_created_at a = p_created_at b /\ p_id b <= p_id a)).
Proof.
  intros Hl Hp.
  repeat match goal with |- _ /\ _ => split end.
  - intro owner_id. apply pages_intro; [| apply listed_NoDup; exact Hl].
    intros. apply get_user_lists_page; assumption.
  - apply pages_intro; [| apply listed_NoDup; exact Hl].
    intros. apply get_public_lists_page; assumption.
  - intros query user_id _. apply pages_intro; [| apply listed_NoDup; exact Hl].
    intros. apply search_lists_page; assumption.
  - intro user_id. apply pages_intro; [| apply listed_NoDup; exact Hl].
    intros. apply get_recent_lists_page; assumption.
  - intro list_id. apply pages_intro.
    + intros. apply get_places_page; assumption.
    + unfold crud_place.listed. rewrite map_map. cbn.
      apply NoDup_map_order_by, NoDup_map_filter, distinct_NoDup. exact Hp.
  - intros total_items page_size Ht Hs. apply total_pages_ceil; assumption.
  - intro where_. split; [| split].
    + apply order_by_sorted; [exact order_by_total | exact order_by_trans].
    + reflexivity.
    + intros ls' Hperm. apply list_order_deterministic; assumption.
  - apply order_by_spec.
  - intro list_id. split.
    + apply order_by_sorted; [exact place_order_total | exact place_order_trans].
    + intros ps' Hperm. apply place_order_deterministic; assumption.
  - apply place_order_spec.
Qed.

Lemma keyed_listings_page_completely_witness :
  all_pages (crud_list.get_user_lists_paginated 1) (fresh_world example_db) 1
            (count (crud_list.listed (crud_list.owned_by 1) example_db))
  = crud_list.listed (crud_list.owned_by 1) example_db.
Proof.
  apply (keyed_listings_page_completely (fresh_world example_db));
    [reflexivity | reflexivity | lia].
Defined.

(** Bob follows Alice twice: newly followed, then already following, and one
    edge is stored. *)
Example follow_twice :
  result (run (crud_user.follow_user 2 1) (fresh_world example_db)) = inr false /\
  result (run (crud_user.follow_user 2 1)
              (after (run (crud_user.follow_user 2 1) (fresh_world example_db))))
  = inr true /\
  user_follows (db (after (run (crud_user.follow_user 2 1)
                     (after (run (crud_user.follow_user 2 1) (fresh_world example_db))))))
  = [mkFollow 2 1 1].
Proof. repeat split. Qed.

(** Renaming a list touches its name and its update timestamp only. *)
Example rename_trip :
  lists (db (after (run (crud_list.update_list 10
                           (crud_list.mkListUpdate (given (Some "Road trip")) unset))
                        (mkWorld example_db 7 None []))))
  = [mkList 10 (Some "Road trip") None 1 (Some true) 0 (Some 7); food].
Proof. reflexivity. Qed.

(** Carol signs in with nobody in her way: the row is created and the
    transaction commits. *)
Example first_sign_in :
  result (run (crud_user.get_or_create_user_by_firebase carol_token)
              (fresh_world example_db)) = inr (3, true) /\
  log (after (run (crud_user.get_or_create_user_by_firebase carol_token)
                  (fresh_world example_db)))
  = ["COMMIT"; crud_user.sql_insert_user; crud_user.sql_user_by_email;
     crud_user.sql_user_by_firebase_uid; "BEGIN"].
Proof. split; reflexivity. Qed.

(** Two of Alice's three lists per page: two pages, newest first. *)
Example two_pages :
  let d := mkDB plain_schema [alice]
                [mkList 1 (Some "a") None 1 (Some false) 5 None;
                 mkList 2 (Some "b") None 1 (Some false) 5 None;
                 mkList 3 (Some "c") None 1 (Some false) 4 None]
                [] [] [] [] 2 4 1 in
  map crud_list.v_id (items_of (run (crud_list.get_user_lists_paginated 1 1 2)
                                    (fresh_world d))) = [2; 1] /\
  map crud_list.v_id (items_of (run (crud_list.get_user_lists_paginated 1 2 2)
                                    (fresh_world d))) = [3] /\
  total_pages_of 3 2 = 2.
Proof. repeat split. Qed.

(* ------------------------------------------------------------------------- *)
(** ** Command tags                                                           *)
(* ------------------------------------------------------------------------- *)

Lemma to_uint_not_nil (n : nat) : Nat.to_uint n <> Decimal.Nil.
Proof.
  intro H. pose proof (Unsigned.of_to n) as E. rewrite H in E. simpl in E.
  subst n. discriminate H.
Qed.

Lemma int_of_str_nat (n : nat) : int_of_str (str_nat n) = Some (Z.of_nat n).
Proof.
  unfold int_of_str, str_nat.
  rewrite (NilZero.usu _ (to_uint_not_nil n)), Unsigned.of_to. reflexivity.
Qed.

Lemma split_space_uint (d : Decimal.uint) :
  split_space (NilEmpty.string_of_uint d) = [NilEmpty.string_of_uint d].
Proof.
  induction d; simpl; try reflexivity; rewrite IHd; reflexivity.
Qed.

Lemma split_space_str_nat (n : nat) : split_space (str_nat n) = [str_nat n].
Proof.
  unfold str_nat, NilZero.string_of_uint.
  destruct (Nat.to_uint n); try reflexivity; apply split_space_uint.
Qed.

(** [int(status.split(" ")[1])] reads back the row count of the command tag
    of a [DELETE]. *)
Lemma tag_count_delete (n : nat) :
  tag_count (command_tag "DELETE" n) = Some (Z.of_nat n).
Proof.
  unfold tag_count, command_tag. cbn -[str_nat].
  rewrite split_space_str_nat. cbn -[str_nat]. apply int_of_str_nat.
Qed.

Lemma str_nat_inj (n m : nat) : str_nat n = str_nat m -> n = m.
Proof.
  intro H. pose proof (int_of_str_nat n) as Hn. rewrite H, int_of_str_nat in Hn.
  inversion Hn. lia.
Qed.

(** [status == 'UPDATE 0'] *)
Lemma update_tag_zero (n : nat) :
  String.eqb (command_tag "UPDATE" n) "UPDATE 0" = Nat.eqb n 0.
Proof.
  destruct (Nat.eqb n 0) eqn:E.
  - apply Nat.eqb_eq in E. subst n. reflexivity.
  - apply String.eqb_neq. intro H. apply Nat.eqb_neq in E. apply E.
    unfold command_tag in H. cbn -[str_nat] in H.
    apply str_nat_inj. inversion H as [H1]. rewrite H1. reflexivity.
Qed.

(* ------------------------------------------------------------------------- *)
(** ** Removing collaborators                                                 *)
(* ------------------------------------------------------------------------- *)

(** A [DELETE] reports a positive count exactly when a row matched. *)
Lemma some_deleted {A} (f : A -> bool) (l : list A) :
  (0 <? Z.of_nat (List.length (filter f l))) = existsb f l.
Proof.
  induction l as [| x l IH]; [reflexivity|].
  simpl. destruct (f x); simpl; [| exact IH].
  destruct (List.length (filter f l)); reflexivity.
Qed.

Lemma owner_of_owns (d : DB) (list_id user_id : Z) :
  lists_pk d = true ->
  opt_eqb Z.eqb
    (first_row (map l_owner_id (filter (fun l => l_id l =? list_id) (lists d))))
    (Some user_id) = true
  <-> owns d user_id list_id.
Proof.
  intro Hpk. split.
  - destruct (filter (fun l => l_id l =? list_id) (lists d)) as [| l ls] eqn:E;
      simpl; [discriminate|].
    intro H. apply Z.eqb_eq in H.
    assert (Hin : In l (filter (fun l => l_id l =? list_id) (lists d)))
      by (rewrite E; left; reflexivity).
    apply filter_In in Hin. destruct Hin as [Hin Hid]. apply Z.eqb_eq in Hid.
    exists l. auto.
  - intros [l [Hin [Hid Ho]]]. subst list_id.
    rewrite (distinct_first l_id (lists d) l Hpk Hin). simpl.
    apply Z.eqb_eq. exact Ho.
Qed.

Lemma delete_collaborator_run (w : World) (list_id user_id : Z) :
  run (crud_list.delete_collaborator_from_list list_id user_id) w =
  if opt_eqb Z.eqb
       (first_row (map l_owner_id (filter (fun l => l_id l =? list_id) (lists (db w)))))
       (Some user_id)
  then (inr false, sent crud_list.sql_owner_of (db w) (saved w) w)
  else
    (inr (existsb (crud_list.is_collaborator_row list_id user_id)
                  (list_collaborators (db w))),
     sent crud_list.sql_delete_collaborator
          (set_list_collaborators (db w)
             (filter (fun lc => negb (crud_list.is_collaborator_row list_id user_id lc))
                     (list_collaborators (db w))))
          (saved w)
          (sent crud_list.sql_owner_of (db w) (saved w) w)).
Proof.
  unfold crud_list.delete_collaborator_from_list, crud_list.select_owner_of,
    crud_list.delete_collaborators.
  rewrite run_try_except, run_bind, run_query.
  destruct (opt_eqb Z.eqb _ (Some user_id)); [reflexivity|].
  rewrite run_bind, run_db_call. cbn -[tag_count command_tag].
  rewrite tag_count_delete. cbn.
  rewrite some_deleted. reflexivity.
Qed.

Lemma in_filter_not_row (list_id user_id : Z) (cs : list CollaboratorRow) (c : CollaboratorRow) :
  In c (filter (fun lc => negb (crud_list.is_collaborator_row list_id user_id lc)) cs)
  <-> In c cs /\ ~ (lc_list_id c = list_id /\ lc_user_id c = user_id).
Proof.
  rewrite filter_In. unfold crud_list.is_collaborator_row.
  split; intros [Hin H]; split; auto.
  - intros [H1 H2]. subst. rewrite !Z.eqb_refl in H. discriminate.
  - apply negb_true_iff. apply andb_false_iff.
    destruct (lc_list_id c =? list_id) eqn:E1; [| left; reflexivity].
    destruct (lc_user_id c =? user_id) eqn:E2; [| right; reflexivity].
    exfalso. apply H. split; lia.
Qed.

(** X1. [delete_collaborator_from_list] protects the owner and removes
    exactly one membership: for the owner of the list it returns [False]
    and leaves the store as it is; for anyone else it returns [True]
    exactly when a membership row for (list, user) was stored, afterwards
    none is stored, every other membership row is kept, and users, lists
    and places are untouched. *)
Theorem delete_collaborator_removes_membership (w : World) (list_id user_id : Z) :
  lists_pk (db w) = true ->
  (owns (db w) user_id list_id ->
   result (run (crud_list.delete_collaborator_from_list list_id user_id) w) = inr false /\
   db (after (run (crud_list.delete_collaborator_from_list list_id user_id) w)) = db w) /\
  (~ owns (db w) user_id list_id ->
   (result (run (crud_list.delete_collaborator_from_list list_id user_id) w) = inr true
    <-> collaborates (db w) user_id list_id) /\
   (result (run (crud_list.delete_collaborator_from_list list_id user_id) w) = inr false
    <-> ~ collaborates (db w) user_id list_id) /\
   ~ collaborates
       (db (after (run (crud_list.delete_collaborator_from_list list_id user_id) w)))
       user_id list_id /\
   (forall c,
      In c (list_collaborators
              (db (after (run (crud_list.delete_collaborator_from_list list_id user_id) w))))
      <-> In c (list_collaborators (db w))
          /\ ~ (lc_list_id c = list_id /\ lc_user_id c = user_id)) /\
   users (db (after (run (crud_list.delete_collaborator_from_list list_id user_id) w)))
     = users (db w) /\
   lists (db (after (run (crud_list.delete_collaborator_from_list list_id user_id) w)))
     = lists (db w) /\
   places (db (after (run (crud_list.delete_collaborator_from_list list_id user_id) w)))
     = places (db w)).
Proof.
  intro Hpk. rewrite delete_collaborator_run.
  pose proof (owner_of_owns (db w) list_id user_id Hpk) as Ho.
  pose proof (collaborates_iff (db w) user_id list_id) as Hc.
  unfold result, after.
  destruct (opt_eqb Z.eqb _ (Some user_id)) eqn:E; simpl.
  - split; [auto|]. intro H. exfalso. apply H. apply Ho. reflexivity.
  - split; [intro H; apply Ho in H; discriminate|]. intros _.
    split; [| split; [| split; [| split; [| split; [| split]]]]];
      try reflexivity.
    + rewrite <- Hc. split; intro H; [inversion H; reflexivity | rewrite H; reflexivity].
    + rewrite <- Hc. destruct (existsb _ _); split; intro H; try discriminate;
        try reflexivity; try congruence.
    + intros [c [Hin [H1 H2]]]. apply in_filter_not_row in Hin. tauto.
    + intro c. apply in_filter_not_row.
Qed.

Lemma delete_collaborator_removes_membership_witness :
  result (run (crud_list.delete_collaborator_from_list 10 2) (fresh_world shared_db))
    = inr true
  /\ result (run (crud_list.delete_collaborator_from_list 10 1) (fresh_world shared_db))
    = inr false.
Proof.
  split.
  - apply (proj2 (delete_collaborator_removes_membership
                    (fresh_world shared_db) 10 2 eq_refl)).
    + intros [l [Hin [Hid Ho]]]. simpl in Hin.
      destruct Hin as [<- | [<- | []]]; discriminate.
    + exists (mkCollab 10 2). simpl. auto.
  - apply (proj1 (delete_collaborator_removes_membership
                    (fresh_world shared_db) 10 1 eq_refl)).
    exists trip. simpl. auto.
Defined.

(** [add_collaborator_to_list] on a list that exists, with what resolving
    the e-mail leaves in the users table. *)
Lemma add_collaborator_state (w : World) (l : ListRow) (email : string) :
  lists_pk (db w) = true -> In l (lists (db w)) ->
  exists w1,
    list_collaborators (db w1) = list_collaborators (db w) /\
    lists (db w1) = lists (db w) /\
    places (db w1) = places (db w) /\
    (exists u, In u (users (db w1)) /\ u_id u = resolved_user (db w) email
               /\ u_email u = email) /\
    (forall u, In u (users (db w)) -> exists u', In u' (users (db w1)) /\ u_id u' = u_id u) /\
    run (crud_list.add_collaborator_to_list (l_id l) email) w =
    if l_owner_id l =? resolved_user (db w) email then
      (inl (CollaboratorAlreadyExistsError "Owner is already a collaborator."), w1)
    else if existsb (crud_list.is_collaborator_row (l_id l) (resolved_user (db w) email))
                    (list_collaborators (db w)) then
      (inl (CollaboratorAlreadyExistsError "User is already a collaborator."),
       sent crud_list.sql_collaborator_exists (db w1) (saved w1) w1)
    else
      (inr tt,
       sent crud_list.sql_insert_collaborator
            (set_list_collaborators (db w1)
               (list_collaborators (db w)
                ++ [mkCollab (l_id l) (resolved_user (db w) email)]))
            (saved w1)
            (sent crud_list.sql_collaborator_exists (db w1) (saved w1) w1)).
Proof.
  intros Hpk Hin.
  pose proof (distinct_first l_id (lists (db w)) l Hpk Hin) as Hl.
  pose proof (existsb_In_id l_id (lists (db w)) l Hin) as Hex.
  unfold resolved_user.
  unfold crud_list.add_collaborator_to_list, crud_list.insert_placeholder_user,
    crud_list.select_owner_of, crud_list.select_collaborator_exists,
    crud_list.insert_collaborator.
  cbn.
  destruct (filter (fun u => (u_email u =? email)%string) (users (db w)))
    as [| u us] eqn:Eu.
  - eexists. split; [| split; [| split; [| split; [| split]]]]; cycle 5.
    + repeat (cbn; rewrite ?Eu, ?Hl, ?Hex).
      destruct (l_owner_id l =? _) eqn:Eo; cbn; [reflexivity|].
      destruct (existsb (crud_list.is_collaborator_row _ _) _) eqn:Ec; cbn;
        [reflexivity|].
      repeat (cbn; rewrite ?Ec, ?Hex, ?existsb_app, ?Z.eqb_refl, ?orb_true_r).
      reflexivity.
    + reflexivity.
    + reflexivity.
    + reflexivity.
    + cbn. eexists. split; [apply in_or_app; right; left; reflexivity|].
      split; reflexivity.
    + cbn. intros u Hu. exists u. split; [apply in_or_app; left; exact Hu | reflexivity].
  - assert (Hu0 : In u (users (db w)) /\ (u_email u =? email)%string = true).
    { apply (proj1 (filter_In (fun u => (u_email u =? email)%string) u (users (db w)))).
      rewrite Eu. left. reflexivity. }
    assert (Hu : existsb (fun u0 => u_id u0 =? u_id u) (users (db w)) = true).
    { apply existsb_In_id. apply Hu0. }
    eexists. split; [| split; [| split; [| split; [| split]]]]; cycle 5.
    + repeat (cbn; rewrite ?Eu, ?Hl, ?Hex).
      destruct (l_owner_id l =? _) eqn:Eo; cbn; [reflexivity|].
      destruct (existsb (crud_list.is_collaborator_row _ _) _) eqn:Ec; cbn;
        [reflexivity|].
      repeat (cbn; rewrite ?Ec, ?Hex, ?Hu).
      reflexivity.
    + reflexivity.
    + reflexivity.
    + reflexivity.
    + cbn. exists u. split; [apply Hu0|]. split; [reflexivity|].
      apply String.eqb_eq. apply Hu0.
    + cbn. intros u' Hu'. exists u'. auto.
Qed.

Lemma not_owner_lookup (d : DB) (l : ListRow) (user_id : Z) :
  lists_pk d = true -> In l (lists d) -> user_id <> l_owner_id l ->
  opt_eqb Z.eqb
    (first_row (map l_owner_id (filter (fun l0 => l_id l0 =? l_id l) (lists d))))
    (Some user_id) = false.
Proof.
  intros Hpk Hin Hne.
  rewrite (distinct_first l_id (lists d) l Hpk Hin). simpl.
  apply Z.eqb_neq. auto.
Qed.

Lemma filter_app_new {A} (f : A -> bool) (l : list A) (x : A) :
  (forall y, In y l -> f y = false) -> f x = true ->
  filter (fun y => negb (f y)) (l ++ [x]) = l /\ existsb f (l ++ [x]) = true.
Proof.
  intros Hl Hx. split.
  - rewrite filter_app. simpl. rewrite Hx. simpl. rewrite app_nil_r.
    apply filter_all. exact Hl.
  - rewrite existsb_app. simpl. rewrite Hx. apply orb_true_iff. right. reflexivity.
Qed.

Lemma no_row_every (d : DB) (user_id list_id : Z) :
  ~ collaborates d user_id list_id ->
  forall c, In c (list_collaborators d) ->
            crud_list.is_collaborator_row list_id user_id c = false.
Proof.
  intros H c Hin. destruct (crud_list.is_collaborator_row list_id user_id c) eqn:E; auto.
  exfalso. apply H. apply collaborates_iff. apply existsb_exists. exists c. auto.
Qed.

Lemma is_collaborator_row_refl (list_id user_id : Z) :
  crud_list.is_collaborator_row list_id user_id (mkCollab list_id user_id) = true.
Proof. unfold crud_list.is_collaborator_row. simpl. rewrite !Z.eqb_refl. reflexivity. Qed.

(** X2. Inviting by e-mail and removing again is a round trip on the
    memberships: when the user the e-mail resolves to is neither the owner
    nor yet a collaborator, [add_collaborator_to_list] succeeds, removing
    that user with [delete_collaborator_from_list] right after returns
    [True], and the membership rows are then exactly those from before the
    invitation. *)
Theorem add_then_remove_collaborator (w : World) (l : ListRow) (email : string) :
  lists_pk (db w) = true -> In l (lists (db w)) ->
  resolved_user (db w) email <> l_owner_id l ->
  ~ collaborates (db w) (resolved_user (db w) email) (l_id l) ->
  result (run (crud_list.add_collaborator_to_list (l_id l) email) w) = inr tt /\
  result (run (crud_list.delete_collaborator_from_list (l_id l)
                 (resolved_user (db w) email))
              (after (run (crud_list.add_collaborator_to_list (l_id l) email) w)))
    = inr true /\
  list_collaborators
    (db (after (run (crud_list.delete_collaborator_from_list (l_id l)
                       (resolved_user (db w) email))
                    (after (run (crud_list.add_collaborator_to_list (l_id l) email) w)))))
    = list_collaborators (db w).
Proof.
  intros Hpk Hin Hne Hnc.
  destruct (add_collaborator_state w l email Hpk Hin)
    as [w1 [Hc1 [Hl1 [_ [_ [_ Hrun]]]]]].
  rewrite Hrun.
  assert (Eo : (l_owner_id l =? resolved_user (db w) email) = false)
    by (apply Z.eqb_neq; auto).
  assert (Ec : existsb (crud_list.is_collaborator_row (l_id l) (resolved_user (db w) email))
                       (list_collaborators (db w)) = false)
    by (apply not_collaborates_iff; exact Hnc).
  rewrite Eo, Ec. unfold result, after. cbn [fst snd].
  rewrite delete_collaborator_run. cbn [db sent set_list_collaborators lists
                                        list_collaborators saved].
  rewrite Hl1, (not_owner_lookup (db w) l _ Hpk Hin Hne).
  destruct (filter_app_new
              (crud_list.is_collaborator_row (l_id l) (resolved_user (db w) email))
              (list_collaborators (db w))
              (mkCollab (l_id l) (resolved_user (db w) email))
              (no_row_every (db w) _ _ Hnc)
              (is_collaborator_row_refl _ _)) as [Hf He].
  rewrite Hf, He. simpl. auto.
Qed.

Lemma add_then_remove_collaborator_witness :
  list_collaborators
    (db (after (run (crud_list.delete_collaborator_from_list 10
                       (resolved_user example_db "bob@example.com"))
                    (after (run (crud_list.add_collaborator_to_list 10 "bob@example.com")
                                (fresh_world example_db))))))
    = [].
Proof.
  apply (add_then_remove_collaborator (fresh_world example_db) trip "bob@example.com").
  - reflexivity.
  - simpl. auto.
  - discriminate.
  - intros [c [[] _]].
Defined.

(* ------------------------------------------------------------------------- *)
(** ** Invitations and access                                                 *)
(* ------------------------------------------------------------------------- *)

Lemma in_inner_join {A B} (on : A -> B -> bool) (la : list A) (lb : list B) a b :
  In (a, b) (inner_join on la lb) <-> In a la /\ In b lb /\ on a b = true.
Proof.
  unfold inner_join. rewrite in_flat_map. split.
  - intros [a' [Ha H]]. apply in_map_iff in H. destruct H as [b' [E Hb]].
    inversion E; subst. apply filter_In in Hb. tauto.
  - intros [Ha [Hb Hon]]. exists a. split; auto.
    apply in_map_iff. exists b. split; auto. apply filter_In. auto.
Qed.

Lemma not_owns_other (d : DB) (l : ListRow) (user_id : Z) :
  lists_pk d = true -> In l (lists d) -> user_id <> l_owner_id l ->
  ~ owns d user_id (l_id l).
Proof.
  intros Hpk Hin Hne Ho. apply (owner_of_owns d (l_id l) user_id Hpk) in Ho.
  rewrite (not_owner_lookup d l user_id Hpk Hin Hne) in Ho. discriminate.
Qed.

(** A successful invitation, by what it leaves in the tables. *)
Lemma add_collaborator_success (w : World) (l : ListRow) (email : string) :
  lists_pk (db w) = true -> In l (lists (db w)) ->
  resolved_user (db w) email <> l_owner_id l ->
  ~ collaborates (db w) (resolved_user (db w) email) (l_id l) ->
  result (run (crud_list.add_collaborator_to_list (l_id l) email) w) = inr tt /\
  lists (db (after (run (crud_list.add_collaborator_to_list (l_id l) email) w)))
    = lists (db w) /\
  list_collaborators (db (after (run (crud_list.add_collaborator_to_list (l_id l) email) w)))
    = list_collaborators (db w) ++ [mkCollab (l_id l) (resolved_user (db w) email)] /\
  places (db (after (run (crud_list.add_collaborator_to_list (l_id l) email) w)))
    = places (db w) /\
  (exists u,
     In u (users (db (after (run (crud_list.add_collaborator_to_list (l_id l) email) w))))
     /\ u_id u = resolved_user (db w) email /\ u_email u = email).
Proof.
  intros Hpk Hin Hne Hnc.
  destruct (add_collaborator_state w l email Hpk Hin)
    as [w1 [Hc1 [Hl1 [Hp1 [Hu1 [_ Hrun]]]]]].
  rewrite Hrun.
  assert (Eo : (l_owner_id l =? resolved_user (db w) email) = false)
    by (apply Z.eqb_neq; auto).
  assert (Ec : existsb (crud_list.is_collaborator_row (l_id l) (resolved_user (db w) email))
                       (list_collaborators (db w)) = false)
    by (apply not_collaborates_iff; exact Hnc).
  rewrite Eo, Ec. unfold result, after. cbn.
  repeat split; auto.
Qed.

Lemma access_granted (w : World) (list_id user_id : Z) :
  has_access (db w) user_id list_id ->
  result (run (crud_list.check_list_access list_id user_id) w) = inr tt.
Proof.
  intro H. rewrite check_list_access_run.
  apply select_access_iff in H.
  destruct (fst (crud_list.select_access list_id user_id (db w) 0)) as [e | [z |]];
    try reflexivity.
  exfalso. apply H. reflexivity.
Qed.

Lemma access_denied (w : World) (list_id user_id : Z) :
  list_exists (db w) list_id -> ~ has_access (db w) user_id list_id ->
  result (run (crud_list.check_list_access list_id user_id) w)
    = inl (ListAccessDeniedError [list_id; user_id]).
Proof.
  intros He H. rewrite check_list_access_run.
  rewrite <- select_access_iff in H.
  apply list_exists_iff in He.
  destruct (fst (crud_list.select_access list_id user_id (db w) 0)) as [e | [z |]] eqn:E.
  - exfalso. apply H. discriminate.
  - exfalso. apply H. discriminate.
  - unfold result. simpl. rewrite He. reflexivity.
Qed.

(** X3. An invitation grants access and nothing more, and a removal takes
    it back: after a successful [add_collaborator_to_list] the invited user
    passes [check_list_access] for the list but is still refused by
    [check_list_ownership], and [get_list_details] lists the e-mail among
    the collaborators; after [delete_collaborator_from_list] the access
    check refuses the user again. *)
Theorem invitation_grants_access (w : World) (l : ListRow) (email : string) :
  lists_pk (db w) = true -> In l (lists (db w)) ->
  resolved_user (db w) email <> l_owner_id l ->
  ~ collaborates (db w) (resolved_user (db w) email) (l_id l) ->
  result (run (crud_list.check_list_access (l_id l) (resolved_user (db w) email)) w)
    = inl (ListAccessDeniedError [l_id l; resolved_user (db w) email]) /\
  result (run (crud_list.check_list_access (l_id l) (resolved_user (db w) email))
              (after (run (crud_list.add_collaborator_to_list (l_id l) email) w)))
    = inr tt /\
  result (run (crud_list.check_list_ownership (l_id l) (resolved_user (db w) email))
              (after (run (crud_list.add_collaborator_to_list (l_id l) email) w)))
    = inl (ListAccessDeniedError []) /\
  (exists details,
     result (run (crud_list.get_list_details (l_id l))
                 (after (run (crud_list.add_collaborator_to_list (l_id l) email) w)))
       = inr (Some details)
     /\ In email (crud_list.d_collaborators details)) /\
  result (run (crud_list.check_list_access (l_id l) (resolved_user (db w) email))
              (after (run (crud_list.delete_collaborator_from_list (l_id l)
                             (resolved_user (db w) email))
                          (after (run (crud_list.add_collaborator_to_list (l_id l) email)
                                      w)))))
    = inl (ListAccessDeniedError [l_id l; resolved_user (db w) email]).
Proof.
  intros Hpk Hin Hne Hnc.
  destruct (add_collaborator_success w l email Hpk Hin Hne Hnc)
    as [_ [Hl [Hc [_ [u [Hu [Hid Hem]]]]]]].
  set (w' := after (run (crud_list.add_collaborator_to_list (l_id l) email) w)) in *.
  set (uid := resolved_user (db w) email) in *.
  assert (Hpk' : lists_pk (db w') = true) by (unfold lists_pk; rewrite Hl; exact Hpk).
  assert (Hin' : In l (lists (db w'))) by (rewrite Hl; exact Hin).
  assert (Hex : list_exists (db w) (l_id l)) by (exists l; auto).
  assert (Hex' : list_exists (db w') (l_id l)) by (exists l; auto).
  split; [| split; [| split; [| split]]].
  - apply access_denied; [exact Hex|].
    intros [Ho | [_ Hco]]; [| exact (Hnc Hco)].
    exact (not_owns_other (db w) l uid Hpk Hin Hne Ho).
  - apply access_granted. right. split; [exact Hex'|].
    exists (mkCollab (l_id l) uid). rewrite Hc. split; [| split; reflexivity].
    apply in_or_app. right. left. reflexivity.
  - rewrite check_list_ownership_run. unfold result.
    pose proof (owns_iff (db w') uid (l_id l)) as Ho.
    pose proof (not_owns_other (db w') l uid Hpk' Hin' Hne) as Hno.
    destruct (existsb _ (lists (db w'))) eqn:E1.
    + exfalso. apply Hno. apply Ho. reflexivity.
    + simpl. apply list_exists_iff in Hex'. rewrite Hex'. reflexivity.
  - rewrite get_list_details_run. unfold result, list_details. simpl fst.
    rewrite (distinct_first l_id (lists (db w')) l Hpk' Hin').
    eexists. split; [reflexivity|]. simpl.
    unfold crud_list.collaborator_emails. apply in_map_iff.
    exists (mkCollab (l_id l) uid, u). split; [exact Hem|].
    apply filter_In. split; [| simpl; apply Z.eqb_refl].
    apply in_inner_join. split; [| split].
    + rewrite Hc. apply in_or_app. right. left. reflexivity.
    + exact Hu.
    + simpl. rewrite Hid. apply Z.eqb_refl.
  - assert (Hd : db (after (run (crud_list.delete_collaborator_from_list (l_id l) uid) w'))
                 = set_list_collaborators (db w') (list_collaborators (db w))).
    { rewrite delete_collaborator_run.
      rewrite (not_owner_lookup (db w') l uid Hpk' Hin' Hne). unfold after. cbn [snd db sent].
      rewrite Hc.
      destruct (filter_app_new (crud_list.is_collaborator_row (l_id l) uid)
                  (list_collaborators (db w)) (mkCollab (l_id l) uid)
                  (no_row_every (db w) _ _ Hnc) (is_collaborator_row_refl _ _))
        as [Hf _].
      rewrite Hf. reflexivity. }
    apply access_denied.
    + rewrite Hd. exists l. auto.
    + rewrite Hd. intros [Ho | [_ Hco]].
      * apply (not_owns_other (db w') l uid Hpk' Hin' Hne).
        destruct Ho as [l0 H0]. exists l0. exact H0.
      * apply Hnc. destruct Hco as [c H0]. exists c. exact H0.
Qed.

Lemma invitation_grants_access_witness :
  result (run (crud_list.check_list_access 10 (resolved_user example_db "bob@example.com"))
              (after (run (crud_list.add_collaborator_to_list 10 "bob@example.com")
                          (fresh_world example_db))))
    = inr tt.
Proof.
  apply (invitation_grants_access (fresh_world example_db) trip "bob@example.com").
  - reflexivity.
  - simpl. auto.
  - discriminate.
  - intros [c [[] _]].
Defined.

(* ------------------------------------------------------------------------- *)
(** ** Unfollowing                                                            *)
(* ------------------------------------------------------------------------- *)

Lemma unfollow_user_run (w : World) (follower_id followed_id : Z) :
  run (crud_user.unfollow_user follower_id followed_id) w =
  (inr (existsb (crud_user.is_edge follower_id followed_id) (user_follows (db w))),
   sent crud_user.sql_delete_follow
        (set_user_follows (db w)
           (filter (fun f => negb (crud_user.is_edge follower_id followed_id f))
                   (user_follows (db w))))
        (saved w) w).
Proof.
  unfold crud_user.unfollow_user, crud_user.delete_follow.
  rewrite run_try_except, run_bind, run_db_call. cbn -[tag_count command_tag].
  rewrite tag_count_delete, some_deleted.
  destruct (existsb _ _); reflexivity.
Qed.

Lemma in_filter_not_edge (F T : Z) (fs : list FollowRow) (f : FollowRow) :
  In f (filter (fun g => negb (crud_user.is_edge F T g)) fs)
  <-> In f fs /\ ~ (f_follower_id f = F /\ f_followed_id f = T).
Proof.
  rewrite filter_In. unfold crud_user.is_edge.
  split; intros [Hin H]; split; auto.
  - intros [H1 H2]. subst. rewrite !Z.eqb_refl in H. discriminate.
  - apply negb_true_iff. apply andb_false_iff.
    destruct (f_follower_id f =? F) eqn:E1; [| left; reflexivity].
    destruct (f_followed_id f =? T) eqn:E2; [| right; reflexivity].
    exfalso. apply H. split; lia.
Qed.

Lemma no_edge_every (d : DB) (F T : Z) :
  ~ follows d F T ->
  forall f, In f (user_follows d) -> crud_user.is_edge F T f = false.
Proof.
  intros H f Hin. destruct (crud_user.is_edge F T f) eqn:E; auto.
  exfalso. apply H. apply follows_iff. apply existsb_exists. exists f. auto.
Qed.

Lemma not_follows_iff (d : DB) (F T : Z) :
  existsb (crud_user.is_edge F T) (user_follows d) = false <-> ~ follows d F T.
Proof.
  rewrite <- follows_iff. destruct (existsb _ _); split; intro H; auto;
    try discriminate. exfalso. apply H. reflexivity.
Qed.

(** X4. [unfollow_user F T] returns [True] exactly when an edge from [F] to
    [T] was stored and [False] otherwise -- also when [T] is no user at
    all, it never raises a not-found error.  Afterwards no edge from [F] to
    [T] is stored, every other edge is kept and the users are untouched; a
    second call returns [False] and changes nothing. *)
Theorem unfollow_user_removes_edge (w : World) (F T : Z) :
  (result (run (crud_user.unfollow_user F T) w) = inr true <-> follows (db w) F T) /\
  (result (run (crud_user.unfollow_user F T) w) = inr false <-> ~ follows (db w) F T) /\
  ~ follows (db (after (run (crud_user.unfollow_user F T) w))) F T /\
  (forall f,
     In f (user_follows (db (after (run (crud_user.unfollow_user F T) w))))
     <-> In f (user_follows (db w)) /\ ~ (f_follower_id f = F /\ f_followed_id f = T)) /\
  users (db (after (run (crud_user.unfollow_user F T) w))) = users (db w) /\
  result (run (crud_user.unfollow_user F T)
              (after (run (crud_user.unfollow_user F T) w))) = inr false /\
  db (after (run (crud_user.unfollow_user F T)
                 (after (run (crud_user.unfollow_user F T) w))))
    = db (after (run (crud_user.unfollow_user F T) w)).
Proof.
  rewrite !unfollow_user_run. unfold result, after. cbn [fst snd db sent].
  pose proof (follows_iff (db w) F T) as Hf.
  assert (Hgone : ~ follows (set_user_follows (db w)
                     (filter (fun f => negb (crud_user.is_edge F T f))
                             (user_follows (db w)))) F T).
  { intros [f [Hin [H1 H2]]]. cbn in Hin. apply in_filter_not_edge in Hin. tauto. }
  split; [| split; [| split; [| split; [| split; [| split]]]]].
  - rewrite <- Hf. split; intro H; [inversion H; reflexivity | rewrite H; reflexivity].
  - rewrite <- Hf. destruct (existsb _ _); split; intro H; try discriminate;
      try reflexivity; try congruence.
  - exact Hgone.
  - intro f. cbn. apply in_filter_not_edge.
  - reflexivity.
  - apply not_follows_iff in Hgone. rewrite Hgone. reflexivity.
  - pose proof (filter_all _ _ (no_edge_every _ F T Hgone)) as E.
    unfold set_user_follows in *. cbn in *. rewrite E. reflexivity.
Qed.

Lemma is_user_iff (d : DB) (user_id : Z) :
  existsb (crud_user.has_id user_id) (users d) = false <-> ~ user_exists d user_id.
Proof.
  rewrite <- user_exists_iff. destruct (existsb _ _); split; intro H; auto;
    try discriminate. exfalso. apply H. reflexivity.
Qed.

(** X5. Following and unfollowing is a round trip on the follow edges:
    when both users exist and no edge from [F] to [T] is stored,
    [follow_user F T] reports a new edge ([False]), [unfollow_user F T]
    right after returns [True], and the stored edges are then exactly those
    from before. *)
Theorem follow_then_unfollow (w : World) (F T : Z) :
  user_exists (db w) F -> user_exists (db w) T -> ~ follows (db w) F T ->
  result (run (crud_user.follow_user F T) w) = inr false /\
  result (run (crud_user.unfollow_user F T) (after (run (crud_user.follow_user F T) w)))
    = inr true /\
  user_follows (db (after (run (crud_user.unfollow_user F T)
                              (after (run (crud_user.follow_user F T) w)))))
    = user_follows (db w).
Proof.
  intros HF HT Hn.
  apply user_exists_iff in HF. apply user_exists_iff in HT.
  pose proof (proj2 (not_follows_iff (db w) F T) Hn) as He.
  rewrite follow_user_run. cbv zeta. rewrite HT, He, HF. cbn [negb].
  unfold result, after. cbn [fst snd].
  rewrite unfollow_user_run. cbn [fst snd db sent user_follows set_user_follows].
  destruct (filter_app_new (crud_user.is_edge F T) (user_follows (db w))
              (mkFollow F T (clock w + 1)) (no_edge_every (db w) F T Hn)
              (is_edge_refl F T _)) as [Hf Hx].
  rewrite Hf, Hx. auto.
Qed.

Lemma follow_then_unfollow_witness :
  user_follows (db (after (run (crud_user.unfollow_user 1 2)
                              (after (run (crud_user.follow_user 1 2)
                                          (fresh_world example_db))))))
    = [].
Proof.
  apply (follow_then_unfollow (fresh_world example_db) 1 2).
  - exists alice. simpl. auto.
  - exists bob. simpl. auto.
  - intros [f [[] _]].
Defined.

Lemma endpoint_unfollow_run (w : World) (user_id current_user_id : Z) :
  run (endpoints_users.unfollow_user user_id current_user_id) w =
  let w1 := sent crud_user.sql_delete_follow
                 (set_user_follows (db w)
                    (filter (fun f => negb (crud_user.is_edge current_user_id user_id f))
                            (user_follows (db w))))
                 (saved w) w in
  if existsb (crud_user.is_edge current_user_id user_id) (user_follows (db w)) then
    (inr (endpoints_users.mkMessage 200 "User unfollowed"), w1)
  else if existsb (crud_user.has_id user_id) (users (db w)) then
    (inr (endpoints_users.mkMessage 200 "Not following this user"),
     sent crud_user.sql_user_exists (db w1) (saved w) w1)
  else
    (inl (HTTPException 404 "User to unfollow not found"),
     sent crud_user.sql_user_exists (db w1) (saved w) w1).
Proof.
  unfold endpoints_users.unfollow_user.
  rewrite run_try_except, run_bind, unfollow_user_run.
  destruct (existsb (crud_user.is_edge _ _) _); cbn [negb]; [reflexivity|].
  unfold crud_user.check_user_exists. cbn.
  destruct (existsb (crud_user.has_id user_id) (users (db w))); reflexivity.
Qed.

(** X6. The unfollow endpoint has three answers: 200 "User unfollowed" when
    the caller followed the target (the edge is gone afterwards), 200 "Not
    following this user" when there was no edge and the target exists, and
    404 when there was no edge and the target is no user.  In the last two
    cases the follow edges are what they were.  Nothing singles out the
    caller's own id: unfollowing oneself is answered like any other
    target. *)
Theorem unfollow_endpoint_answers (w : World) (user_id current_user_id : Z) :
  (follows (db w) current_user_id user_id ->
   result (run (endpoints_users.unfollow_user user_id current_user_id) w)
     = inr (endpoints_users.mkMessage 200 "User unfollowed") /\
   ~ follows (db (after (run (endpoints_users.unfollow_user user_id current_user_id) w)))
       current_user_id user_id) /\
  (~ follows (db w) current_user_id user_id -> user_exists (db w) user_id ->
   result (run (endpoints_users.unfollow_user user_id current_user_id) w)
     = inr (endpoints_users.mkMessage 200 "Not following this user") /\
   user_follows (db (after (run (endpoints_users.unfollow_user user_id current_user_id) w)))
     = user_follows (db w)) /\
  (~ follows (db w) current_user_id user_id -> ~ user_exists (db w) user_id ->
   result (run (endpoints_users.unfollow_user user_id current_user_id) w)
     = inl (HTTPException 404 "User to unfollow not found") /\
   user_follows (db (after (run (endpoints_users.unfollow_user user_id current_user_id) w)))
     = user_follows (db w)).
Proof.
  rewrite endpoint_unfollow_run. cbv zeta. unfold result, after.
  pose proof (follows_iff (db w) current_user_id user_id) as Hf.
  pose proof (user_exists_iff (db w) user_id) as Hu.
  destruct (existsb (crud_user.is_edge _ _) _) eqn:Ee.
  - split; [| split]; try (intro H; exfalso; apply H; apply Hf; reflexivity).
    intros _. split; [reflexivity|].
    cbn. intros [f [Hin [H1 H2]]]. apply in_filter_not_edge in Hin. tauto.
  - assert (Hn : ~ follows (db w) current_user_id user_id)
      by (apply not_follows_iff; exact Ee).
    pose proof (filter_all _ _ (no_edge_every _ _ _ Hn)) as Hk.
    split; [intro H; exfalso; exact (Hn H)|].
    destruct (existsb (crud_user.has_id user_id) (users (db w))) eqn:Ex.
    + split; [| intros _ H; exfalso; apply H; apply Hu; reflexivity].
      intros _ _. cbn. rewrite Hk. auto.
    + split; [intros _ H; apply Hu in H; discriminate|].
      intros _ _. cbn. rewrite Hk. auto.
Qed.

(* ------------------------------------------------------------------------- *)
(** ** Adding and deleting places                                             *)
(* ------------------------------------------------------------------------- *)

Lemma delete_place_run (w : World) (place_id list_id : Z) :
  run (crud_place.delete_place_from_list place_id list_id) w =
  (inr (existsb (crud_place.is_place place_id list_id) (places (db w))),
   sent crud_place.sql_delete_place
        (set_places (db w)
           (filter (fun p => negb (crud_place.is_place place_id list_id p))
                   (places (db w)))
           (places_id_seq (db w)))
        (saved w) w).
Proof.
  unfold crud_place.delete_place_from_list, crud_place.delete_places.
  rewrite run_try_except, run_bind, run_db_call. cbn -[tag_count command_tag].
  rewrite tag_count_delete, some_deleted. reflexivity.
Qed.

Lemma in_filter_not_place (place_id list_id : Z) (ps : list PlaceRow) (p : PlaceRow) :
  In p (filter (fun q => negb (crud_place.is_place place_id list_id q)) ps)
  <-> In p ps /\ ~ (p_id p = place_id /\ p_list_id p = list_id).
Proof.
  rewrite filter_In. unfold crud_place.is_place.
  split; intros [Hin H]; split; auto.
  - intros [H1 H2]. subst. rewrite !Z.eqb_refl in H. discriminate.
  - apply negb_true_iff. apply andb_false_iff.
    destruct (p_id p =? place_id) eqn:E1; [| left; reflexivity].
    destruct (p_list_id p =? list_id) eqn:E2; [| right; reflexivity].
    exfalso. apply H. split; lia.
Qed.

(** X7. [delete_place_from_list] returns [True] exactly when a place with
    this id is stored under this list; afterwards none is, the rows that
    are gone are exactly those with this (id, list) pair, and lists and
    users are untouched.  Deleting again returns [False] and changes
    nothing. *)
Theorem delete_place_removes_exactly (w : World) (place_id list_id : Z) :
  (result (run (crud_place.delete_place_from_list place_id list_id) w) = inr true
   <-> place_in_list (db w) place_id list_id) /\
  ~ place_in_list (db (after (run (crud_place.delete_place_from_list place_id list_id) w)))
      place_id list_id /\
  (forall p,
     In p (places (db (after (run (crud_place.delete_place_from_list place_id list_id) w))))
     <-> In p (places (db w)) /\ ~ (p_id p = place_id /\ p_list_id p = list_id)) /\
  lists (db (after (run (crud_place.delete_place_from_list place_id list_id) w)))
    = lists (db w) /\
  result (run (crud_place.delete_place_from_list place_id list_id)
              (after (run (crud_place.delete_place_from_list place_id list_id) w)))
    = inr false /\
  db (after (run (crud_place.delete_place_from_list place_id list_id)
                 (after (run (crud_place.delete_place_from_list place_id list_id) w))))
    = db (after (run (crud_place.delete_place_from_list place_id list_id) w)).
Proof.
  rewrite !delete_place_run. unfold result, after. cbn [fst snd db sent].
  pose proof (is_place_iff (db w) place_id list_id) as Hp.
  assert (Hgone : ~ place_in_list
                      (set_places (db w)
                         (filter (fun p => negb (crud_place.is_place place_id list_id p))
                                 (places (db w)))
                         (places_id_seq (db w))) place_id list_id).
  { intros [p [Hin [H1 H2]]]. cbn in Hin. apply in_filter_not_place in Hin. tauto. }
  split; [| split; [| split; [| split; [| split]]]].
  - rewrite <- Hp. split; intro H; [inversion H; reflexivity | rewrite H; reflexivity].
  - exact Hgone.
  - intro p. cbn. apply in_filter_not_place.
  - reflexivity.
  - match goal with
    | |- inr (existsb ?f ?l) = _ => destruct (existsb f l) eqn:E
    end; [| reflexivity].
    exfalso. apply Hgone. apply is_place_iff. exact E.
  - pose proof (filter_all _ _ (not_place_every_row _ _ _ Hgone)) as E.
    unfold set_places in *. cbn in *. rewrite E. reflexivity.
Qed.

Lemma add_place_run_new (w : World) (list_id : Z) (place_in : crud_place.PlaceCreate) :
  places_check (schema (db w))
    (crud_place.new_place (places_id_seq (db w)) list_id place_in (clock w)) = None ->
  existsb (crud_place.same_place list_id (crud_place.placeId place_in)) (places (db w))
    = false ->
  run (crud_place.add_place_to_list list_id place_in) w =
  if existsb (fun l => l_id l =? list_id) (lists (db w)) then
    (inr (created_item (places_id_seq (db w)) place_in),
     sent crud_place.sql_insert_place
          (set_places (db w)
             (places (db w)
              ++ [crud_place.new_place (places_id_seq (db w)) list_id place_in (clock w)])
             (places_id_seq (db w) + 1))
          (saved w) w)
  else
    (inl (Place_DatabaseInteractionError "Database error adding place."),
     sent crud_place.sql_insert_place (db w) (saved w) w).
Proof.
  intros Hchk Hnew.
  unfold crud_place.add_place_to_list, crud_place.insert_place.
  cbn. rewrite Hchk, Hnew. cbn.
  destruct (existsb (fun l => l_id l =? list_id) (lists (db w))); reflexivity.
Qed.

(** X8. Adding a place and deleting it again is a round trip.  On a list
    that exists, with an external reference the list does not hold yet and
    a row that passes the check constraints, [add_place_to_list] answers
    with the payload's fields under the next id of the sequence;
    [update_place] with an empty payload, which looks the place up under
    (id, list), returns that item; and
    [delete_place_from_list] on (id, list) returns [True] and leaves the
    places as they were before the insert. *)
Theorem add_then_delete_place (w : World) (list_id : Z)
  (place_in : crud_place.PlaceCreate) :
  list_exists (db w) list_id ->
  places_id_fresh (db w) = true ->
  existsb (crud_place.same_place list_id (crud_place.placeId place_in)) (places (db w))
    = false ->
  places_check (schema (db w))
    (crud_place.new_place (places_id_seq (db w)) list_id place_in (clock w)) = None ->
  result (run (crud_place.add_place_to_list list_id place_in) w)
    = inr (created_item (places_id_seq (db w)) place_in) /\
  result (run (crud_place.update_place (places_id_seq (db w)) list_id
                 (crud_place.mkPlaceUpdate unset))
              (after (run (crud_place.add_place_to_list list_id place_in) w)))
    = inr (created_item (places_id_seq (db w)) place_in) /\
  result (run (crud_place.delete_place_from_list (places_id_seq (db w)) list_id)
              (after (run (crud_place.add_place_to_list list_id place_in) w)))
    = inr true /\
  places (db (after (run (crud_place.delete_place_from_list (places_id_seq (db w)) list_id)
                         (after (run (crud_place.add_place_to_list list_id place_in) w)))))
    = places (db w).
Proof.
  intros Hex Hfresh Hnew Hchk.
  apply list_exists_iff in Hex.
  rewrite (add_place_run_new w list_id place_in Hchk Hnew), Hex.
  unfold result, after. cbn [fst snd].
  rewrite update_place_empty_run, delete_place_run.
  cbn [fst snd db sent places set_places].
  set (row := crud_place.new_place (places_id_seq (db w)) list_id place_in (clock w)).
  assert (Hold : forall p, In p (places (db w)) ->
                   crud_place.is_place (places_id_seq (db w)) list_id p = false).
  { intros p Hin. unfold crud_place.is_place.
    unfold places_id_fresh in Hfresh. apply negb_true_iff in Hfresh.
    destruct (p_id p =? places_id_seq (db w)) eqn:E; [| reflexivity].
    exfalso. assert (H : existsb (fun p => p_id p =? places_id_seq (db w)) (places (db w))
                         = true) by (apply existsb_exists; exists p; auto).
    congruence. }
  assert (Hrow : crud_place.is_place (places_id_seq (db w)) list_id row = true).
  { unfold crud_place.is_place, row. simpl. rewrite !Z.eqb_refl. reflexivity. }
  destruct (filter_app_new (crud_place.is_place (places_id_seq (db w)) list_id)
              (places (db w)) row Hold Hrow) as [Hf He].
  split; [reflexivity|]. split; [| split].
  - unfold current_place. cbn [places set_places].
    rewrite filter_app, (filter_none _ _ Hold). cbn [filter app]. rewrite Hrow.
    reflexivity.
  - rewrite He. reflexivity.
  - exact Hf.
Qed.

Lemma add_then_delete_place_witness :
  places (db (after (run (crud_place.delete_place_from_list 101 10)
                         (after (run (crud_place.add_place_to_list 10
                                        (crud_place.mkPlaceCreate "X2" "Bar" "2 Main St"
                                           0 0 None None None))
                                     (fresh_world example_db))))))
    = [cafe].
Proof.
  apply (add_then_delete_place (fresh_world example_db) 10
           (crud_place.mkPlaceCreate "X2" "Bar" "2 Main St" 0 0 None None None)).
  - exists trip. simpl. auto.
  - reflexivity.
  - reflexivity.
  - reflexivity.
Defined.

(** X9. The failures of [add_place_to_list] other than a duplicate.  A row
    that breaks a check constraint is answered with [InvalidPlaceDataError]
    naming the constraint, whether or not the list exists or holds the
    place already.  A valid, new place for a list id that no list has is
    answered with the module's generic [DatabaseInteractionError], not with
    a not-found error.  Neither writes a row. *)
Theorem add_place_failures (w : World) (list_id : Z) (place_in : crud_place.PlaceCreate) :
  (forall c,
     places_check (schema (db w))
       (crud_place.new_place (places_id_seq (db w)) list_id place_in (clock w)) = Some c ->
     result (run (crud_place.add_place_to_list list_id place_in) w)
       = inl (InvalidPlaceDataError ("Invalid data for place (" +++ c +++ ")."))
     /\ db (after (run (crud_place.add_place_to_list list_id place_in) w)) = db w) /\
  (places_check (schema (db w))
     (crud_place.new_place (places_id_seq (db w)) list_id place_in (clock w)) = None ->
   existsb (crud_place.same_place list_id (crud_place.placeId place_in)) (places (db w))
     = false ->
   ~ list_exists (db w) list_id ->
   result (run (crud_place.add_place_to_list list_id place_in) w)
     = inl (Place_DatabaseInteractionError "Database error adding place.")
   /\ db (after (run (crud_place.add_place_to_list list_id place_in) w)) = db w).
Proof.
  split.
  - intros c Hc.
    unfold crud_place.add_place_to_list, crud_place.insert_place, result, after.
    cbn. rewrite Hc. cbn. split; reflexivity.
  - intros Hchk Hnew Hno.
    rewrite (add_place_run_new w list_id place_in Hchk Hnew).
    destruct (no_list_filter (db w) list_id Hno) as [_ He]. rewrite He.
    split; reflexivity.
Qed.

(* ------------------------------------------------------------------------- *)
(** ** Usernames                                                              *)
(* ------------------------------------------------------------------------- *)

Lemma taken_iff (d : DB) (username : string) (user_id : Z) :
  existsb (crud_user.taken_by_other username user_id) (users d) = true
  <-> username_taken d username user_id.
Proof.
  rewrite existsb_exists.
  unfold username_taken, crud_user.taken_by_other, crud_user.same_username, null_or.
  split.
  - intros [u [Hin H]]. apply andb_true_iff in H. destruct H as [Hn Hid].
    destruct (u_username u) as [n |] eqn:En; [| discriminate].
    exists u, n. apply String.eqb_eq in Hn. apply negb_true_iff in Hid.
    repeat split; auto. lia.
  - intros [u [n [Hin [Hid [En Hl]]]]]. exists u. split; auto. rewrite En.
    apply andb_true_iff. split; [apply String.eqb_eq; exact Hl|].
    apply negb_true_iff. lia.
Qed.

Lemma none_matched {A} (f : A -> bool) (l : list A) :
  Nat.eqb (List.length (filter f l)) 0 = negb (existsb f l).
Proof.
  induction l as [| x l IH]; [reflexivity|].
  simpl. destruct (f x); simpl; [reflexivity | exact IH].
Qed.

Lemma first_row_map_filter {A B} (g : A -> B) (f : A -> bool) (l : list A) :
  first_row (map g (filter f l)) = None <-> existsb f l = false.
Proof.
  induction l as [| x l IH]; simpl; [tauto|].
  destruct (f x); simpl; [split; discriminate | exact IH].
Qed.

(** [set_user_username] in closed form. *)
Lemma set_user_username_run (w : World) (user_id : Z) (username : string) :
  run (crud_user.set_user_username user_id username) w =
  let w1 := sent crud_user.sql_username_taken (db w) (saved w) w in
  let d2 := set_users (db w)
              (map (fun u => if crud_user.has_id user_id u
                             then crud_user.with_username username (clock w + 1) u
                             else u)
                   (users (db w)))
              (users_id_seq (db w)) in
  let w2 := sent crud_user.sql_update_username d2 (saved w) w1 in
  if existsb (crud_user.taken_by_other username user_id) (users (db w)) then
    (inl (UsernameAlreadyExistsError ("Username '" +++ username +++ "' is already taken.")),
     w1)
  else if existsb (crud_user.has_id user_id) (users (db w)) then (inr tt, w2)
  else
    (inl (UserNotFoundError ("User with ID " +++ str_int user_id +++ " not found.")),
     sent crud_user.sql_user_exists d2 (saved w) w2).
Proof.
  unfold crud_user.set_user_username, crud_user.select_username_taken,
    crud_user.update_username, crud_user.check_user_exists.
  rewrite run_try_except, run_bind, run_query. cbv zeta.
  destruct (existsb (crud_user.taken_by_other username user_id) (users (db w))) eqn:Et.
  - destruct (first_row _) eqn:Ef; [reflexivity|].
    apply first_row_map_filter in Ef. congruence.
  - rewrite (proj2 (first_row_map_filter _ _ _) Et).
    rewrite run_bind, run_db_call. cbn [db sent clock fst snd].
    rewrite Et, andb_false_r. cbn [fst snd].
    rewrite update_tag_zero, none_matched.
    destruct (existsb (crud_user.has_id user_id) (users (db w))) eqn:Ex; cbn [negb].
    + reflexivity.
    + cbn. rewrite existsb_map.
      assert (E : existsb (fun x => crud_user.has_id user_id
                             (if crud_user.has_id user_id x
                              then crud_user.with_username username (clock w + 1) x
                              else x)) (users (db w)) = false).
      { clear - Ex. induction (users (db w)) as [| u us IH]; [reflexivity|].
        simpl in *. apply orb_false_iff in Ex. destruct Ex as [E1 E2].
        rewrite E1, E1. simpl. apply IH. exact E2. }
      rewrite E. reflexivity.
Qed.

Lemma no_user_every (d : DB) (user_id : Z) :
  ~ user_exists d user_id ->
  forall u, In u (users d) -> crud_user.has_id user_id u = false.
Proof.
  intros H u Hin. destruct (crud_user.has_id user_id u) eqn:E; auto.
  exfalso. apply H. apply user_exists_iff. apply existsb_exists. exists u. auto.
Qed.

(** X10. [set_user_username] has three outcomes, decided in this order.
    When another user holds the name -- in any letter case -- it raises
    [UsernameAlreadyExistsError] and writes nothing, whether or not the
    user exists.  Otherwise, when no user has the id, it raises
    [UserNotFoundError] and the users are what they were.  Otherwise it
    succeeds: the rows with the id get the name as given and the time of
    the statement as update timestamp, and every other row is kept; a name
    that differs from the user's own only in letter case is accepted. *)
Theorem set_username_outcomes (w : World) (user_id : Z) (username : string) :
  (username_taken (db w) username user_id ->
   result (run (crud_user.set_user_username user_id username) w)
     = inl (UsernameAlreadyExistsError
              ("Username '" +++ username +++ "' is already taken."))
   /\ db (after (run (crud_user.set_user_username user_id username) w)) = db w) /\
  (~ username_taken (db w) username user_id -> ~ user_exists (db w) user_id ->
   result (run (crud_user.set_user_username user_id username) w)
     = inl (UserNotFoundError ("User with ID " +++ str_int user_id +++ " not found."))
   /\ users (db (after (run (crud_user.set_user_username user_id username) w)))
      = users (db w)) /\
  (~ username_taken (db w) username user_id -> user_exists (db w) user_id ->
   result (run (crud_user.set_user_username user_id username) w) = inr tt
   /\ users (db (after (run (crud_user.set_user_username user_id username) w)))
      = map (fun u => if u_id u =? user_id
                      then crud_user.with_username username (clock w + 1) u
                      else u)
            (users (db w))
   /\ lists (db (after (run (crud_user.set_user_username user_id username) w)))
      = lists (db w)
   /\ user_follows (db (after (run (crud_user.set_user_username user_id username) w)))
      = user_follows (db w)).
Proof.
  rewrite set_user_username_run. cbv zeta. unfold result, after.
  pose proof (taken_iff (db w) username user_id) as Ht.
  pose proof (user_exists_iff (db w) user_id) as Hu.
  destruct (existsb (crud_user.taken_by_other username user_id) (users (db w))) eqn:Et.
  - split; [| split]; try (intro H; exfalso; apply H; apply Ht; reflexivity).
    intros _. split; reflexivity.
  - split; [intro H; apply Ht in H; discriminate|].
    destruct (existsb (crud_user.has_id user_id) (users (db w))) eqn:Ex.
    + split; [intros _ H; exfalso; apply H; apply Hu; reflexivity|].
      intros _ _. cbn. repeat split; reflexivity.
    + split; [| intros _ H; apply Hu in H; discriminate].
      intros _ Hno. cbn. split; [reflexivity|].
      apply map_unhit. apply no_user_every. exact Hno.
Qed.

Lemma usernames_unique_spec (us : list UserRow) :
  forallb (fun u => forallb (fun v => implb (shares_username u v) (u_id u =? u_id v)) us) us
    = true
  <-> forall u v, In u us -> In v us -> shares_username u v = true -> u_id u = u_id v.
Proof.
  rewrite forallb_forall. split.
  - intros H u v Hu Hv Hs. specialize (H u Hu). rewrite forallb_forall in H.
    specialize (H v Hv). rewrite Hs in H. simpl in H. lia.
  - intros H u Hu. rewrite forallb_forall. intros v Hv.
    destruct (shares_username u v) eqn:Hs; [| reflexivity].
    simpl. apply Z.eqb_eq. apply H; auto.
Qed.

(** X11. [set_user_username] keeps usernames unique without regard to
    letter case: if no two users share a name before the call, none do
    after it, whatever its outcome. *)
Theorem set_username_keeps_names_unique (w : World) (user_id : Z) (username : string) :
  usernames_unique (db w) = true ->
  usernames_unique (db (after (run (crud_user.set_user_username user_id username) w)))
    = true.
Proof.
  intro Hinv. rewrite set_user_username_run. cbv zeta. unfold after.
  destruct (existsb (crud_user.taken_by_other username user_id) (users (db w))) eqn:Et;
    [exact Hinv|].
  assert (Hgoal : usernames_unique
                    (set_users (db w)
                       (map (fun u => if crud_user.has_id user_id u
                                      then crud_user.with_username username (clock w + 1) u
                                      else u)
                            (users (db w)))
                       (users_id_seq (db w))) = true).
  { unfold usernames_unique in *. cbn [users set_users].
    apply (proj2 (usernames_unique_spec _)).
    pose proof (proj1 (usernames_unique_spec _) Hinv) as Hall.
    assert (Hfree : forall v m, In v (users (db w)) -> crud_user.has_id user_id v = false ->
                      u_username v = Some m -> lower m = lower username -> False).
    { intros v m Hv Hid Hm Hl.
      assert (H : existsb (crud_user.taken_by_other username user_id) (users (db w)) = true).
      { apply existsb_exists. exists v. split; auto.
        unfold crud_user.taken_by_other, crud_user.same_username, null_or.
        rewrite Hm. unfold crud_user.has_id in Hid. rewrite Hid.
        apply andb_true_iff. split; [apply String.eqb_eq; exact Hl | reflexivity]. }
      congruence. }
    intros u' v' Hu' Hv' Hs.
    apply in_map_iff in Hu'. destruct Hu' as [u [<- Hu]].
    apply in_map_iff in Hv'. destruct Hv' as [v [<- Hv]].
    destruct (crud_user.has_id user_id u) eqn:Eu;
      destruct (crud_user.has_id user_id v) eqn:Ev.
    - unfold crud_user.has_id in *. simpl. lia.
    - exfalso. unfold shares_username in Hs. simpl in Hs.
      destruct (u_username v) as [m |] eqn:Em; [| discriminate].
      apply String.eqb_eq in Hs. apply (Hfree v m Hv Ev Em). auto.
    - exfalso. unfold shares_username in Hs. simpl in Hs.
      destruct (u_username u) as [m |] eqn:Em; [| discriminate].
      apply String.eqb_eq in Hs. apply (Hfree u m Hu Eu Em). auto.
    - apply Hall; auto. }
  destruct (existsb (crud_user.has_id user_id) (users (db w))); exact Hgoal.
Qed.

Lemma set_username_keeps_names_unique_witness :
  usernames_unique
    (db (after (run (crud_user.set_user_username 2 "Bob") (fresh_world example_db))))
    = true.
Proof.
  apply (set_username_keeps_names_unique (fresh_world example_db) 2 "Bob").
  reflexivity.
Defined.

(* ------------------------------------------------------------------------- *)
(** ** Profiles                                                               *)
(* ------------------------------------------------------------------------- *)

Lemma get_current_user_profile_run (w : World) (user_id : Z) :
  run (crud_user.get_current_user_profile user_id) w =
  (match filter (crud_user.has_id user_id) (users (db w)) with
   | u :: _ => inr (crud_user.user_info u)
   | [] => inl (UserNotFoundError ("User with ID " +++ str_int user_id +++ " not found."))
   end,
   sent crud_user.sql_user_profile (db w) (saved w) w).
Proof.
  unfold crud_user.get_current_user_profile, crud_user.select_user_profile.
  rewrite run_try_except, run_bind, run_query.
  destruct (filter (crud_user.has_id user_id) (users (db w))); reflexivity.
Qed.

(** X12. [update_user_profile] never changes a profile.  The payload is
    dumped under the attribute names [display_name] and [profile_picture],
    the function looks for the keys [displayName] and [profilePicture], so
    no [SET] clause is ever built: whatever the payload gives, the call
    behaves as [get_current_user_profile] -- it sends that one query,
    answers with the stored profile (or [UserNotFoundError]) and leaves the
    store as it is. *)
Theorem update_profile_changes_nothing (w : World) (user_id : Z)
  (profile_in : crud_user.UserProfileUpdate) :
  run (crud_user.update_user_profile user_id profile_in) w
    = run (crud_user.get_current_user_profile user_id) w /\
  db (after (run (crud_user.update_user_profile user_id profile_in) w)) = db w /\
  log (after (run (crud_user.update_user_profile user_id profile_in) w))
    = crud_user.sql_user_profile :: log w /\
  (forall u, In u (users (db w)) -> u_id u = user_id -> users_pk (db w) = true ->
     result (run (crud_user.update_user_profile user_id profile_in) w)
       = inr (crud_user.user_info u)).
Proof.
  assert (E : run (crud_user.update_user_profile user_id profile_in) w
              = run (crud_user.get_current_user_profile user_id) w).
  { unfold crud_user.update_user_profile, crud_user.model_dump.
    destruct (crud_user.display_name profile_in);
      destruct (crud_user.profile_picture profile_in); reflexivity. }
  rewrite E, get_current_user_profile_run. unfold result, after.
  split; [reflexivity | split; [reflexivity | split; [reflexivity|]]].
  intros u Hin Hid Hpk. subst user_id. cbn [fst].
  unfold crud_user.has_id. rewrite (distinct_first u_id (users (db w)) u Hpk Hin).
  reflexivity.
Qed.

(* ------------------------------------------------------------------------- *)
(** ** Signing in                                                             *)
(* ------------------------------------------------------------------------- *)

(** The three paths of [get_or_create_user_by_firebase]: the external
    identity is known, the e-mail is known, neither is. *)
Lemma goc_known_uid (w : World) (token_data : crud_user.FirebaseTokenData) (e : string)
  (r : UserRow) :
  crud_user.email token_data = Some e -> e <> "" -> crud_user.uid token_data <> "" ->
  first_row (filter (crud_user.has_firebase_uid (crud_user.uid token_data)) (users (db w)))
    = Some r ->
  result (run (crud_user.get_or_create_user_by_firebase token_data) w)
    = inr (u_id r,
           crud_user.needs_username_of
             (first_row (filter (crud_user.has_id (u_id r)) (users (db w))))) /\
  db (after (run (crud_user.get_or_create_user_by_firebase token_data) w)) = db w.
Proof.
  intros He Hne Hu Hr.
  unfold crud_user.get_or_create_user_by_firebase. rewrite He.
  destruct e as [| a e']; [congruence|].
  destruct (String.eqb (crud_user.uid token_data) "") eqn:Eu;
    [apply String.eqb_eq in Eu; congruence|].
  unfold transaction, crud_user.get_user_by_firebase_uid, crud_user.get_user_by_id,
    crud_user.select_user, result, after.
  cbn. rewrite Hr. cbn. split; reflexivity.
Qed.

Lemma nobody_else_has_uid (us : list UserRow) (firebase_uid : string) (user_id : Z) :
  existsb (crud_user.has_firebase_uid firebase_uid) us = false ->
  existsb (fun u => crud_user.has_firebase_uid firebase_uid u
                    && negb (crud_user.has_id user_id u)) us = false.
Proof.
  induction us as [| u us IH]; simpl; [reflexivity|].
  intro H. apply orb_false_iff in H. destruct H as [H1 H2].
  rewrite H1. simpl. apply IH. exact H2.
Qed.

Lemma not_linked_yet (us : list UserRow) (firebase_uid : string) (r : UserRow) :
  existsb (crud_user.has_firebase_uid firebase_uid) us = false -> In r us ->
  opt_eqb String.eqb (u_firebase_uid r) (Some firebase_uid) = false.
Proof.
  intros H Hin.
  assert (Hr : crud_user.has_firebase_uid firebase_uid r = false).
  { destruct (crud_user.has_firebase_uid firebase_uid r) eqn:E; auto.
    assert (existsb (crud_user.has_firebase_uid firebase_uid) us = true)
      by (apply existsb_exists; exists r; auto).
    congruence. }
  unfold crud_user.has_firebase_uid, null_or in Hr.
  destruct (u_firebase_uid r) as [x |]; simpl; [| reflexivity].
  rewrite String.eqb_sym. exact Hr.
Qed.

Lemma goc_known_email (w : World) (token_data : crud_user.FirebaseTokenData) (e : string)
  (r : UserRow) :
  crud_user.email token_data = Some e -> e <> "" -> crud_user.uid token_data <> "" ->
  existsb (crud_user.has_firebase_uid (crud_user.uid token_data)) (users (db w)) = false ->
  first_row (filter (crud_user.has_email e) (users (db w))) = Some r ->
  result (run (crud_user.get_or_create_user_by_firebase token_data) w)
    = inr (u_id r,
           crud_user.needs_username_of
             (first_row (filter (crud_user.has_id (u_id r)) (users (db w))))) /\
  users (db (after (run (crud_user.get_or_create_user_by_firebase token_data) w)))
    = map (fun u => if crud_user.has_id (u_id r) u
                    then linked (crud_user.uid token_data) (clock w + 4) u
                    else u)
          (users (db w)).
Proof.
  intros He Hne Hu Hnu Hr.
  assert (Hin : In r (users (db w))).
  { destruct (filter (crud_user.has_email e) (users (db w))) as [| r0 rs] eqn:E;
      [discriminate|].
    inversion Hr; subst r0.
    apply (proj1 (filter_In (crud_user.has_email e) r (users (db w)))).
    rewrite E. left. reflexivity. }
  pose proof (not_linked_yet _ _ r Hnu Hin) as Hneq.
  pose proof (nobody_else_has_uid _ _ (u_id r) Hnu) as Hfree.
  unfold crud_user.get_or_create_user_by_firebase. rewrite He.
  destruct e as [| a e']; [congruence|].
  destruct (String.eqb (crud_user.uid token_data) "") eqn:Eu;
    [apply String.eqb_eq in Eu; congruence|].
  unfold transaction, crud_user.get_user_by_firebase_uid, crud_user.get_user_by_id,
    crud_user.get_user_by_email, crud_user.update_user_firebase_uid,
    crud_user.update_firebase_uid, crud_user.select_user, result, after.
  repeat (cbn; rewrite ?(first_row_filter_none _ _ Hnu), ?Hr, ?Hneq, ?Hfree,
            ?andb_false_r).
  match goal with
  | |- context [String.eqb ?s "0"] => destruct (String.eqb s "0")
  end; cbn; (split; [reflexivity|]);
  apply map_ext; intro u; destruct (crud_user.has_id (u_id r) u); try reflexivity;
  unfold linked; f_equal; lia.
Qed.

Lemma goc_new (w : World) (token_data : crud_user.FirebaseTokenData) (e : string) :
  crud_user.email token_data = Some e -> e <> "" -> crud_user.uid token_data <> "" ->
  users_id_seq (db w) <> 0 ->
  existsb (crud_user.has_firebase_uid (crud_user.uid token_data)) (users (db w)) = false ->
  existsb (crud_user.has_email e) (users (db w)) = false ->
  result (run (crud_user.get_or_create_user_by_firebase token_data) w)
    = inr (users_id_seq (db w), true) /\
  users (db (after (run (crud_user.get_or_create_user_by_firebase token_data) w)))
    = users (db w)
      ++ [mkUser (users_id_seq (db w)) e (Some (crud_user.uid token_data)) None
                 (crud_user.name token_data) (crud_user.picture token_data)
                 (clock w + 3) (clock w + 3)].
Proof.
  intros He Hne Hu Hseq Hnu Hnm.
  apply Z.eqb_neq in Hseq.
  unfold crud_user.get_or_create_user_by_firebase. rewrite He.
  destruct e as [| a e']; [congruence|].
  destruct (String.eqb (crud_user.uid token_data) "") eqn:Eu;
    [apply String.eqb_eq in Eu; congruence|].
  unfold transaction, crud_user.get_user_by_firebase_uid, crud_user.get_user_by_email,
    crud_user.create_user, crud_user.insert_user, crud_user.select_user, result, after.
  repeat (cbn; rewrite ?(first_row_filter_none _ _ Hnu), ?(first_row_filter_none _ _ Hnm),
            ?Hnu, ?Hnm, ?Hseq).
  split; [reflexivity|]. do 2 f_equal. f_equal; lia.
Qed.

Lemma filter_nil_existsb {A} (f : A -> bool) (l : list A) :
  filter f l = [] -> existsb f l = false.
Proof.
  induction l as [| x l IH]; simpl; [reflexivity|].
  destruct (f x); [discriminate | exact IH].
Qed.

Lemma linked_rows (us : list UserRow) (firebase_uid : string) (user_id now : Z) :
  existsb (crud_user.has_firebase_uid firebase_uid) us = false ->
  filter (crud_user.has_firebase_uid firebase_uid)
         (map (fun u => if crud_user.has_id user_id u then linked firebase_uid now u else u)
              us)
  = map (linked firebase_uid now) (filter (crud_user.has_id user_id) us).
Proof.
  induction us as [| u us IH]; simpl; [reflexivity|].
  intro H. apply orb_false_iff in H. destruct H as [H1 H2].
  destruct (crud_user.has_id user_id u) eqn:E.
  - unfold crud_user.has_firebase_uid at 1. simpl. rewrite String.eqb_refl.
    f_equal. apply IH. exact H2.
  - rewrite H1. apply IH. exact H2.
Qed.

Lemma needs_username_linked (firebase_uid : string) (now : Z) (l : list UserRow) :
  crud_user.needs_username_of (first_row (map (linked firebase_uid now) l))
  = crud_user.needs_username_of (first_row l).
Proof. destruct l; reflexivity. Qed.

(** X13. Signing in is stable.  For a token with an e-mail and an external
    identity, on a store whose id sequence is ahead of the stored users,
    [get_or_create_user_by_firebase] succeeds; calling it again with the
    same token answers with the same user id and the same needs-username
    flag and changes nothing.  When the identity or the e-mail is already
    stored no user row is added: the caller is resolved to the existing
    account. *)
Theorem sign_in_is_stable (w : World) (token_data : crud_user.FirebaseTokenData)
  (e : string) :
  crud_user.email token_data = Some e -> e <> "" -> crud_user.uid token_data <> "" ->
  users_id_seq (db w) <> 0 -> users_id_fresh (db w) = true ->
  exists user_id needs_username,
    result (run (crud_user.get_or_create_user_by_firebase token_data) w)
      = inr (user_id, needs_username) /\
    result (run (crud_user.get_or_create_user_by_firebase token_data)
                (after (run (crud_user.get_or_create_user_by_firebase token_data) w)))
      = inr (user_id, needs_username) /\
    db (after (run (crud_user.get_or_create_user_by_firebase token_data)
                   (after (run (crud_user.get_or_create_user_by_firebase token_data) w))))
      = db (after (run (crud_user.get_or_create_user_by_firebase token_data) w)) /\
    (existsb (crud_user.has_firebase_uid (crud_user.uid token_data)) (users (db w))
     || existsb (crud_user.has_email e) (users (db w)) = true ->
     map u_id (users (db (after (run (crud_user.get_or_create_user_by_firebase token_data)
                                     w))))
       = map u_id (users (db w))).
Proof.
  intros He Hne Hu Hseq Hfresh.
  set (uid := crud_user.uid token_data) in *.
  set (w' := after (run (crud_user.get_or_create_user_by_firebase token_data) w)).
  destruct (filter (crud_user.has_firebase_uid uid) (users (db w))) as [| r rs] eqn:E1.
  - pose proof (filter_nil_existsb _ _ E1) as Hnu.
    destruct (filter (crud_user.has_email e) (users (db w))) as [| r rs] eqn:E2.
    + pose proof (filter_nil_existsb _ _ E2) as Hnm.
      destruct (goc_new w token_data e He Hne Hu Hseq Hnu Hnm) as [Hres Hus].
      fold w' in Hus. fold uid in Hus.
      set (new := mkUser (users_id_seq (db w)) e (Some uid) None
                         (crud_user.name token_data) (crud_user.picture token_data)
                         (clock w + 3) (clock w + 3)) in *.
      assert (Hfirst : first_row (filter (crud_user.has_firebase_uid uid) (users (db w')))
                       = Some new).
      { rewrite Hus, filter_app, E1. simpl.
        unfold crud_user.has_firebase_uid. simpl. rewrite String.eqb_refl. reflexivity. }
      destruct (goc_known_uid w' token_data e new He Hne Hu Hfirst) as [Hres2 Hdb2].
      exists (users_id_seq (db w)), true.
      split; [exact Hres|]. split; [| split; [exact Hdb2|]].
      * rewrite Hres2. simpl u_id. f_equal. f_equal.
        rewrite Hus, filter_app.
        unfold users_id_fresh in Hfresh. apply negb_true_iff in Hfresh.
        rewrite (filter_none (crud_user.has_id (users_id_seq (db w))) (users (db w))).
        -- simpl. unfold crud_user.has_id. simpl. rewrite Z.eqb_refl. reflexivity.
        -- intros x Hx. destruct (crud_user.has_id (users_id_seq (db w)) x) eqn:Ex; auto.
           assert (existsb (crud_user.has_id (users_id_seq (db w))) (users (db w)) = true)
             by (apply existsb_exists; exists x; auto).
           congruence.
      * rewrite Hnu, Hnm. discriminate.
    + assert (Hr : first_row (filter (crud_user.has_email e) (users (db w))) = Some r)
        by (rewrite E2; reflexivity).
      destruct (goc_known_email w token_data e r He Hne Hu Hnu Hr) as [Hres Hus].
      fold w' in Hus. fold uid in Hus.
      assert (Hin : In r (users (db w))).
      { apply (proj1 (filter_In (crud_user.has_email e) r (users (db w)))).
        rewrite E2. left. reflexivity. }
      destruct (filter (crud_user.has_id (u_id r)) (users (db w))) as [| r0 rs0] eqn:E3.
      { exfalso.
        assert (H : In r (filter (crud_user.has_id (u_id r)) (users (db w))))
          by (apply filter_In; split; [exact Hin | apply Z.eqb_refl]).
        rewrite E3 in H. destruct H. }
      assert (Hid0 : u_id r0 = u_id r).
      { assert (H : In r0 (filter (crud_user.has_id (u_id r)) (users (db w))))
          by (rewrite E3; left; reflexivity).
        apply filter_In in H. destruct H as [_ H]. unfold crud_user.has_id in H. lia. }
      assert (Hfirst : first_row (filter (crud_user.has_firebase_uid uid) (users (db w')))
                       = Some (linked uid (clock w + 4) r0)).
      { rewrite Hus, (linked_rows _ _ _ _ Hnu), E3. reflexivity. }
      destruct (goc_known_uid w' token_data e _ He Hne Hu Hfirst) as [Hres2 Hdb2].
      exists (u_id r), (crud_user.needs_username_of (first_row (r0 :: rs0))).
      split; [exact Hres|]. split; [| split; [exact Hdb2|]].
      * rewrite Hres2. simpl u_id. rewrite Hid0. f_equal. f_equal.
        rewrite Hus, (filter_map_hit (crud_user.has_id (u_id r))); [| intro; reflexivity].
        rewrite E3. apply needs_username_linked.
      * intros _. rewrite Hus, map_map. apply map_ext.
        intro u. destruct (crud_user.has_id (u_id r) u); reflexivity.
  - assert (Hr : first_row (filter (crud_user.has_firebase_uid uid) (users (db w))) = Some r)
      by (rewrite E1; reflexivity).
    destruct (goc_known_uid w token_data e r He Hne Hu Hr) as [Hres Hdb].
    fold w' in Hdb.
    assert (Hr' : first_row (filter (crud_user.has_firebase_uid uid) (users (db w')))
                  = Some r) by (rewrite Hdb; exact Hr).
    destruct (goc_known_uid w' token_data e r He Hne Hu Hr') as [Hres2 Hdb2].
    exists (u_id r),
      (crud_user.needs_username_of
         (first_row (filter (crud_user.has_id (u_id r)) (users (db w))))).
    split; [exact Hres|]. split; [| split; [exact Hdb2|]].
    + rewrite Hres2, Hdb. reflexivity.
    + intros _. rewrite Hdb. reflexivity.
Qed.

Lemma sign_in_is_stable_witness :
  exists user_id needs_username,
    result (run (crud_user.get_or_create_user_by_firebase carol_token)
                (fresh_world example_db))
      = inr (user_id, needs_username) /\
    result (run (crud_user.get_or_create_user_by_firebase carol_token)
                (after (run (crud_user.get_or_create_user_by_firebase carol_token)
                            (fresh_world example_db))))
      = inr (user_id, needs_username).
Proof.
  destruct (sign_in_is_stable (fresh_world example_db) carol_token "carol@example.com")
    as [user_id [needs_username [H1 [H2 _]]]];
    [reflexivity | discriminate | discriminate | discriminate | reflexivity |].
  exists user_id, needs_username. split; assumption.
Defined.

(* ------------------------------------------------------------------------- *)
(** ** The list dependencies                                                  *)
(* ------------------------------------------------------------------------- *)

Lemma get_list_by_id_run (w : World) (list_id : Z) :
  run (crud_list.get_list_by_id list_id) w =
  (inr (first_row (filter (fun l => l_id l =? list_id) (lists (db w)))),
   sent crud_list.sql_list_by_id (db w) (saved w) w).
Proof. reflexivity. Qed.

Lemma verify_list_ownership_run (w : World) (list_id user_id : Z) :
  run (deps.verify_list_ownership list_id user_id) w =
  if existsb (fun l => (l_id l =? list_id) && (l_owner_id l =? user_id)) (lists (db w))
  then (inr tt, sent crud_list.sql_owner_match (db w) (saved w) w)
  else
    (inl (if existsb (fun l => l_id l =? list_id) (lists (db w))
          then HTTPException 403 "Not authorized for this list"
          else HTTPException 404 "List not found"),
     sent crud_list.sql_list_exists (db w) (saved w)
          (sent crud_list.sql_owner_match (db w) (saved w) w)).
Proof.
  unfold deps.verify_list_ownership.
  rewrite run_try_except, check_list_ownership_run.
  destruct (existsb _ (lists (db w))); [reflexivity|].
  destruct (existsb _ (lists (db w))); reflexivity.
Qed.

Lemma get_list_and_verify_ownership_run (w : World) (list_id user_id : Z) :
  run (deps.get_list_and_verify_ownership list_id user_id) w =
  (match first_row (filter (fun l => l_id l =? list_id) (lists (db w))) with
   | None => inl (HTTPException 404 "List not found")
   | Some r => if l_owner_id r =? user_id then inr r
               else inl (HTTPException 403 "Not authorized for this list")
   end,
   sent crud_list.sql_list_by_id (db w) (saved w) w).
Proof.
  unfold deps.get_list_and_verify_ownership.
  rewrite run_try_except, run_bind, get_list_by_id_run.
  destruct (first_row _) as [r |]; [| reflexivity].
  destruct (l_owner_id r =? user_id); reflexivity.
Qed.

Lemma get_list_and_verify_access_run (w : World) (list_id user_id : Z) :
  run (deps.get_list_and_verify_access list_id user_id) w =
  match fst (crud_list.select_access list_id user_id (db w) 0) with
  | inr None =>
      (inl (if existsb (fun l => l_id l =? list_id) (lists (db w))
            then HTTPException 403 "Access denied to this list"
            else HTTPException 404 "List not found"),
       sent crud_list.sql_one_list (db w) (saved w)
            (sent crud_list.sql_access (db w) (saved w) w))
  | _ =>
      (match first_row (filter (fun l => l_id l =? list_id) (lists (db w))) with
       | None => inl (HTTPException 404 "List not found")
       | Some r => inr r
       end,
       sent crud_list.sql_list_by_id (db w) (saved w)
            (sent crud_list.sql_access (db w) (saved w) w))
  end.
Proof.
  unfold deps.get_list_and_verify_access.
  rewrite run_try_except, run_bind, check_list_access_run.
  destruct (fst (crud_list.select_access list_id user_id (db w) 0)) as [e | [z |]].
  - rewrite run_bind, get_list_by_id_run. cbn [db sent].
    destruct (first_row _); reflexivity.
  - rewrite run_bind, get_list_by_id_run. cbn [db sent].
    destruct (first_row _); reflexivity.
  - destruct (existsb _ (lists (db w))); reflexivity.
Qed.

Lemma first_list_row (d : DB) (list_id : Z) :
  list_exists d list_id ->
  exists r, first_row (filter (fun l => l_id l =? list_id) (lists d)) = Some r
            /\ In r (lists d) /\ l_id r = list_id.
Proof.
  intros [l [Hin Hid]].
  destruct (filter (fun l => l_id l =? list_id) (lists d)) as [| r rs] eqn:E.
  - assert (H : In l (filter (fun l => l_id l =? list_id) (lists d)))
      by (apply filter_In; split; [exact Hin | lia]).
    rewrite E in H. destruct H.
  - exists r. split; [reflexivity|].
    assert (H : In r (filter (fun l => l_id l =? list_id) (lists d)))
      by (rewrite E; left; reflexivity).
    apply filter_In in H. destruct H as [H1 H2]. split; [exact H1 | lia].
Qed.

(** X14. The two ownership dependencies decide alike.  With unique list
    ids, [verify_list_ownership] (one [EXISTS] query on id and owner) and
    [get_list_and_verify_ownership] (fetch the row, compare the owner in
    Python) both pass for the owner -- the second handing back the list's
    row --, both answer 403 "Not authorized for this list" when the list
    exists and the user is not its owner, and both answer 404 "List not
    found" when it does not exist.  Neither writes. *)
Theorem ownership_dependencies_agree (w : World) (list_id user_id : Z) :
  lists_pk (db w) = true ->
  (owns (db w) user_id list_id ->
   result (run (deps.verify_list_ownership list_id user_id) w) = inr tt /\
   exists r, result (run (deps.get_list_and_verify_ownership list_id user_id) w) = inr r
             /\ In r (lists (db w)) /\ l_id r = list_id /\ l_owner_id r = user_id) /\
  (list_exists (db w) list_id -> ~ owns (db w) user_id list_id ->
   result (run (deps.verify_list_ownership list_id user_id) w)
     = inl (HTTPException 403 "Not authorized for this list") /\
   result (run (deps.get_list_and_verify_ownership list_id user_id) w)
     = inl (HTTPException 403 "Not authorized for this list")) /\
  (~ list_exists (db w) list_id ->
   result (run (deps.verify_list_ownership list_id user_id) w)
     = inl (HTTPException 404 "List not found") /\
   result (run (deps.get_list_and_verify_ownership list_id user_id) w)
     = inl (HTTPException 404 "List not found")) /\
  db (after (run (deps.verify_list_ownership list_id user_id) w)) = db w /\
  db (after (run (deps.get_list_and_verify_ownership list_id user_id) w)) = db w.
Proof.
  intro Hpk.
  rewrite verify_list_ownership_run, get_list_and_verify_ownership_run.
  pose proof (owns_iff (db w) user_id list_id) as Ho.
  pose proof (list_exists_iff (db w) list_id) as He.
  unfold result, after.
  split; [| split; [| split; [| split]]].
  - intros Hown. rewrite (proj2 Ho Hown). split; [reflexivity|].
    destruct Hown as [l [Hin [Hid Hou]]]. subst list_id.
    rewrite (distinct_first l_id (lists (db w)) l Hpk Hin). simpl.
    rewrite (proj2 (Z.eqb_eq _ _) Hou). exists l. auto.
  - intros Hex Hno.
    destruct (existsb (fun l => (l_id l =? list_id) && (l_owner_id l =? user_id))
                      (lists (db w))) eqn:E; [exfalso; apply Hno; apply Ho; reflexivity|].
    rewrite (proj2 He Hex). split; [reflexivity|].
    destruct (first_list_row (db w) list_id Hex) as [r [Hr [Hin Hid]]].
    rewrite Hr. simpl.
    destruct (l_owner_id r =? user_id) eqn:Eo; [| reflexivity].
    exfalso. apply Hno. exists r. repeat split; auto. lia.
  - intros Hno. destruct (no_list_filter (db w) list_id Hno) as [Hf Hx].
    rewrite Hf, Hx.
    destruct (existsb (fun l => (l_id l =? list_id) && (l_owner_id l =? user_id))
                      (lists (db w))) eqn:E.
    + exfalso. apply Hno. apply (owns_exists (db w) user_id list_id). apply Ho.
      reflexivity.
    + split; reflexivity.
  - destruct (existsb _ (lists (db w))); reflexivity.
  - reflexivity.
Qed.

Lemma ownership_dependencies_agree_witness :
  result (run (deps.verify_list_ownership 10 2) (fresh_world example_db))
    = inl (HTTPException 403 "Not authorized for this list") /\
  result (run (deps.get_list_and_verify_ownership 10 2) (fresh_world example_db))
    = inl (HTTPException 403 "Not authorized for this list").
Proof.
  apply (ownership_dependencies_agree (fresh_world example_db) 10 2).
  - reflexivity.
  - exists trip. simpl. auto.
  - intros [l [Hin [Hid Ho]]]. simpl in Hin.
    destruct Hin as [<- | [<- | []]]; discriminate.
Defined.

(** X15. [get_list_and_verify_access] hands back the list's row exactly
    to the owner and the collaborators of a list that exists; it answers
    403 "Access denied to this list" to anyone else when the list exists
    and 404 "List not found" when it does not.  It never writes. *)
Theorem access_dependency_classifies (w : World) (list_id user_id : Z) :
  (has_access (db w) user_id list_id ->
   exists r, result (run (deps.get_list_and_verify_access list_id user_id) w) = inr r
             /\ In r (lists (db w)) /\ l_id r = list_id) /\
  (list_exists (db w) list_id -> ~ has_access (db w) user_id list_id ->
   result (run (deps.get_list_and_verify_access list_id user_id) w)
     = inl (HTTPException 403 "Access denied to this list")) /\
  (~ list_exists (db w) list_id ->
   result (run (deps.get_list_and_verify_access list_id user_id) w)
     = inl (HTTPException 404 "List not found")) /\
  db (after (run (deps.get_list_and_verify_access list_id user_id) w)) = db w.
Proof.
  rewrite get_list_and_verify_access_run.
  pose proof (select_access_iff (db w) list_id user_id) as Ha.
  pose proof (list_exists_iff (db w) list_id) as He.
  assert (Hae : has_access (db w) user_id list_id -> list_exists (db w) list_id).
  { intros [Ho | [Hx _]]; [exact (owns_exists _ _ _ Ho) | exact Hx]. }
  unfold result, after.
  destruct (fst (crud_list.select_access list_id user_id (db w) 0)) as [e | [z |]] eqn:E.
  - assert (Hacc : has_access (db w) user_id list_id) by (apply Ha; discriminate).
    destruct (first_list_row (db w) list_id (Hae Hacc)) as [r [Hr [Hin Hid]]].
    rewrite Hr. simpl. split; [| split; [| split]].
    + intros _. exists r. auto.
    + intros _ H. exfalso. exact (H Hacc).
    + intros H. exfalso. exact (H (Hae Hacc)).
    + reflexivity.
  - assert (Hacc : has_access (db w) user_id list_id) by (apply Ha; discriminate).
    destruct (first_list_row (db w) list_id (Hae Hacc)) as [r [Hr [Hin Hid]]].
    rewrite Hr. simpl. split; [| split; [| split]].
    + intros _. exists r. auto.
    + intros _ H. exfalso. exact (H Hacc).
    + intros H. exfalso. exact (H (Hae Hacc)).
    + reflexivity.
  - assert (Hno : ~ has_access (db w) user_id list_id).
    { intro H. apply Ha in H. apply H. reflexivity. }
    simpl. split; [| split; [| split]].
    + intro H. exfalso. exact (Hno H).
    + intros Hx _. rewrite (proj2 He Hx). reflexivity.
    + intros Hx. destruct (no_list_filter (db w) list_id Hx) as [_ Hf].
      rewrite Hf. reflexivity.
    + reflexivity.
Qed.

(* ------------------------------------------------------------------------- *)
(** ** The token dependency                                                   *)
(* ------------------------------------------------------------------------- *)

Lemma str_in_space (c : ascii) (s : string) :
  str_in " " (String c s) = Ascii.eqb c " "%char || str_in " " s.
Proof.
  cbn [str_in prefixb]. rewrite (Ascii.eqb_sym " "%char c).
  destruct (Ascii.eqb c " "%char); cbn [andb orb]; [destruct s; reflexivity|].
  reflexivity.
Qed.

Lemma split_no_space (s : string) :
  str_in " " s = false -> split_first_space s = [s].
Proof.
  induction s as [| c s IH]; [reflexivity|].
  rewrite str_in_space. intro H. apply orb_false_iff in H. destruct H as [H1 H2].
  simpl. rewrite H1, (IH H2). reflexivity.
Qed.

Lemma split_at_space (scheme token : string) :
  str_in " " scheme = false ->
  split_first_space (scheme +++ " " +++ token) = [scheme; token].
Proof.
  induction scheme as [| c s IH]; [reflexivity|].
  rewrite str_in_space. intro H. apply orb_false_iff in H. destruct H as [H1 H2].
  simpl. rewrite H1. simpl in IH. rewrite (IH H2). reflexivity.
Qed.

Lemma header_not_empty (scheme token : string) :
  exists c s, scheme +++ " " +++ token = String c s.
Proof. destruct scheme as [| c s]; simpl; eexists; eexists; reflexivity. Qed.

(** X16. What [get_verified_token_data] makes of the [Authorization]
    header.  A missing or empty header and a header without a space are
    answered with 401.  For a header [scheme token] (cut at the first
    space): when the token holds no dot it is accepted as it stands -- its
    text becomes the uid, with no e-mail -- whatever the scheme is and
    without the verifier being asked; when it holds a dot, a scheme other
    than [bearer] (in any letter case) is answered with 401, and otherwise
    the verifier decides: its claims are returned, its [InvalidTokenError]
    becomes 401 "Invalid Firebase token". *)
Theorem token_dependency_outcomes (verify : string -> deps.verification) (w : World) :
  result (run (deps.get_verified_token_data verify None) w)
    = inl (HTTPException 401 deps.UNAUTH_TEXT) /\
  result (run (deps.get_verified_token_data verify (Some "")) w)
    = inl (HTTPException 401 deps.UNAUTH_TEXT) /\
  (forall header, str_in " " header = false ->
     result (run (deps.get_verified_token_data verify (Some header)) w)
       = inl (HTTPException 401 deps.UNAUTH_TEXT)) /\
  (forall scheme token, str_in " " scheme = false -> str_in "." token = false ->
     result (run (deps.get_verified_token_data verify (Some (scheme +++ " " +++ token))) w)
       = inr (crud_user.mkToken token None None None)) /\
  (forall scheme token, str_in " " scheme = false -> str_in "." token = true ->
     lower scheme <> "bearer" ->
     result (run (deps.get_verified_token_data verify (Some (scheme +++ " " +++ token))) w)
       = inl (HTTPException 401 deps.UNAUTH_TEXT)) /\
  (forall scheme token, str_in " " scheme = false -> str_in "." token = true ->
     lower scheme = "bearer" ->
     result (run (deps.get_verified_token_data verify (Some (scheme +++ " " +++ token))) w)
       = match verify token with
         | deps.verified decoded => inr decoded
         | deps.InvalidTokenError _ => inl (HTTPException 401 "Invalid Firebase token")
         | deps.other_error e => inl e
         end).
Proof.
  split; [reflexivity|]. split; [reflexivity|].
  split; [| split; [| split]].
  - intros header H. unfold deps.get_verified_token_data.
    destruct header as [| c s]; [reflexivity|].
    rewrite (split_no_space _ H). reflexivity.
  - intros scheme token Hs Ht. unfold deps.get_verified_token_data.
    destruct (header_not_empty scheme token) as [c [s E]].
    rewrite (split_at_space scheme token Hs). rewrite E, Ht. reflexivity.
  - intros scheme token Hs Ht Hb. unfold deps.get_verified_token_data.
    destruct (header_not_empty scheme token) as [c [s E]].
    rewrite (split_at_space scheme token Hs). rewrite E, Ht.
    apply String.eqb_neq in Hb. rewrite Hb. reflexivity.
  - intros scheme token Hs Ht Hb. unfold deps.get_verified_token_data.
    destruct (header_not_empty scheme token) as [c [s E]].
    rewrite (split_at_space scheme token Hs). rewrite E, Ht.
    apply String.eqb_eq in Hb. rewrite Hb.
    destruct token as [| a t]; [discriminate Ht|].
    cbn [negb orb String.eqb]. destruct (verify (String a t)); reflexivity.
Qed.

Lemma get_current_user_record_run (w : World) (token_data : crud_user.FirebaseTokenData) :
  run (deps.get_current_user_record token_data) w =
  (match first_row (filter (crud_user.has_firebase_uid (crud_user.uid token_data))
                           (users (db w))) with
   | Some r => inr r
   | None => inl (HTTPException 403 "User no longer exists")
   end,
   sent crud_user.sql_user_by_firebase_uid (db w) (saved w) w).
Proof.
  unfold deps.get_current_user_record, crud_user.get_user_by_firebase_uid,
    crud_user.select_user.
  rewrite run_try_except, run_bind, run_try_except, run_query.
  destruct (first_row _); reflexivity.
Qed.

(** X17. A request is signed in by the bare text of a stored external
    identity.  For a user whose stored identity holds no dot, the header
    made of any scheme, a space and that identity resolves
    [get_current_user_id] to a user with this identity -- for every
    verifier, since none is asked -- and nothing is written.  When no user
    has the identity the chain answers 403 "User no longer exists": the
    dependency looks the user up and never creates one. *)
Theorem bare_identity_signs_in (verify : string -> deps.verification) (w : World)
  (scheme firebase_uid : string) :
  str_in " " scheme = false -> str_in "." firebase_uid = false ->
  ((exists user_id, has_identity (db w) firebase_uid user_id) ->
   exists user_id,
     has_identity (db w) firebase_uid user_id /\
     result (run (current_user_id verify (Some (scheme +++ " " +++ firebase_uid))) w)
       = inr user_id) /\
  ((forall user_id, ~ has_identity (db w) firebase_uid user_id) ->
   result (run (current_user_id verify (Some (scheme +++ " " +++ firebase_uid))) w)
     = inl (HTTPException 403 "User no longer exists")) /\
  db (after (run (current_user_id verify (Some (scheme +++ " " +++ firebase_uid))) w))
    = db w.
Proof.
  intros Hs Ht.
  assert (E : run (current_user_id verify (Some (scheme +++ " " +++ firebase_uid))) w
              = (match first_row (filter (crud_user.has_firebase_uid firebase_uid)
                                         (users (db w))) with
                 | Some r => inr (u_id r)
                 | None => inl (HTTPException 403 "User no longer exists")
                 end,
                 sent crud_user.sql_user_by_firebase_uid (db w) (saved w) w)).
  { unfold current_user_id, deps.get_verified_token_data.
    destruct (header_not_empty scheme firebase_uid) as [c [s Eh]].
    rewrite (split_at_space scheme firebase_uid Hs). rewrite Eh, Ht.
    cbn [negb]. rewrite run_bind. cbn [run]. rewrite run_bind.
    rewrite get_current_user_record_run. cbn [crud_user.uid].
    destruct (first_row _); reflexivity. }
  rewrite E. unfold result, after. cbn [fst snd db sent].
  split; [| split; [| reflexivity]].
  - intros [user_id [u [Hin [Hu Hid]]]].
    destruct (filter (crud_user.has_firebase_uid firebase_uid) (users (db w)))
      as [| r rs] eqn:Ef.
    + exfalso.
      assert (H : In u (filter (crud_user.has_firebase_uid firebase_uid) (users (db w)))).
      { apply filter_In. split; [exact Hin|].
        unfold crud_user.has_firebase_uid. rewrite Hu. simpl. apply String.eqb_refl. }
      rewrite Ef in H. destruct H.
    + assert (H : In r (filter (crud_user.has_firebase_uid firebase_uid) (users (db w))))
        by (rewrite Ef; left; reflexivity).
      apply filter_In in H. destruct H as [Hr Hf].
      unfold crud_user.has_firebase_uid, null_or in Hf.
      destruct (u_firebase_uid r) as [x |] eqn:Ex; [| discriminate].
      apply String.eqb_eq in Hf. subst x.
      exists (u_id r). split; [| reflexivity]. exists r. auto.
  - intros Hnone.
    destruct (filter (crud_user.has_firebase_uid firebase_uid) (users (db w)))
      as [| r rs] eqn:Ef; [reflexivity|].
    exfalso.
    assert (H : In r (filter (crud_user.has_firebase_uid firebase_uid) (users (db w))))
      by (rewrite Ef; left; reflexivity).
    apply filter_In in H. destruct H as [Hr Hf].
    unfold crud_user.has_firebase_uid, null_or in Hf.
    destruct (u_firebase_uid r) as [x |] eqn:Ex; [| discriminate].
    apply String.eqb_eq in Hf. subst x.
    apply (Hnone (u_id r)). exists r. auto.
Qed.

Lemma bare_identity_signs_in_witness :
  exists user_id,
    has_identity example_db "fb-alice" user_id /\
    result (run (current_user_id (fun _ => deps.InvalidTokenError "rejected")
                   (Some ("Basic" +++ " " +++ "fb-alice")))
                (fresh_world example_db))
      = inr user_id.
Proof.
  apply (bare_identity_signs_in (fun _ => deps.InvalidTokenError "rejected")
           (fresh_world example_db) "Basic" "fb-alice");
    [reflexivity | reflexivity |].
  exists 1. exists alice. simpl. auto.
Defined.

(* ------------------------------------------------------------------------- *)
(** ** The collaborator endpoints                                             *)
(* ------------------------------------------------------------------------- *)

(** [verify_list_ownership] by cases, for callers. *)
Lemma ownership_checks_closed (w : World) (list_id user_id : Z) :
  (owns (db w) user_id list_id ->
   result (run (deps.verify_list_ownership list_id user_id) w) = inr tt) /\
  (list_exists (db w) list_id /\ ~ owns (db w) user_id list_id ->
   result (run (deps.verify_list_ownership list_id user_id) w)
     = inl (HTTPException 403 "Not authorized for this list") /\
   db (after (run (deps.verify_list_ownership list_id user_id) w)) = db w) /\
  (~ list_exists (db w) list_id ->
   result (run (deps.verify_list_ownership list_id user_id) w)
     = inl (HTTPException 404 "List not found") /\
   db (after (run (deps.verify_list_ownership list_id user_id) w)) = db w).
Proof.
  rewrite verify_list_ownership_run.
  pose proof (owns_iff (db w) user_id list_id) as Ho.
  pose proof (list_exists_iff (db w) list_id) as He.
  unfold result, after.
  destruct (existsb (fun l => (l_id l =? list_id) && (l_owner_id l =? user_id))
                    (lists (db w))) eqn:E1.
  - assert (Hown : owns (db w) user_id list_id) by (apply Ho; reflexivity).
    split; [reflexivity|]. split.
    + intros [_ H]. exfalso. exact (H Hown).
    + intros H. exfalso. apply H. exact (owns_exists _ _ _ Hown).
  - split; [intro H; apply Ho in H; discriminate|].
    destruct (existsb (fun l => l_id l =? list_id) (lists (db w))) eqn:E2; simpl.
    + split; [intros _; split; reflexivity|].
      intro H. exfalso. apply H. apply He. reflexivity.
    + split; [| intros _; split; reflexivity].
      intros [H _]. apply He in H. discriminate.
Qed.

Lemma owner_unique (d : DB) (a b list_id : Z) :
  lists_pk d = true -> owns d a list_id -> owns d b list_id -> a = b.
Proof.
  intros Hpk [l [Hl [Hid Ho]]] [l' [Hl' [Hid' Ho']]].
  assert (l = l') by (apply (same_id_same_row l_id (lists d)); auto; congruence).
  subst l'. congruence.
Qed.

Lemma check_user_exists_run (w : World) (user_id : Z) :
  run (crud_user.check_user_exists user_id) w =
  (inr (existsb (crud_user.has_id user_id) (users (db w))),
   sent crud_user.sql_user_exists (db w) (saved w) w).
Proof.
  unfold crud_user.check_user_exists, crud_user.select_user_exists.
  rewrite run_try_except, run_bind, run_query. cbn. rewrite orb_false_r. reflexivity.
Qed.

(** The removal endpoint once the ownership dependency has passed. *)
Lemma remove_collaborator_by_owner (w : World) (l : ListRow) (user_id : Z) :
  lists_pk (db w) = true -> In l (lists (db w)) ->
  0 < l_id l -> 0 < user_id ->
  result (run (endpoints_collaborators.remove_collaborator (l_id l) user_id (l_owner_id l)) w)
  = (if user_id =? l_owner_id l then
       inl (HTTPException 400 "Cannot remove the list owner as a collaborator.")
     else if existsb (crud_list.is_collaborator_row (l_id l) user_id)
                     (list_collaborators (db w)) then inr 204
     else if existsb (crud_user.has_id user_id) (users (db w)) then
       inl (HTTPException 404 "User is not a collaborator on this list.")
     else inl (HTTPException 404 "Collaborator user not found.")) /\
  list_collaborators
    (db (after (run (endpoints_collaborators.remove_collaborator (l_id l) user_id
                       (l_owner_id l)) w)))
  = (if user_id =? l_owner_id l then list_collaborators (db w)
     else filter (fun lc => negb (crud_list.is_collaborator_row (l_id l) user_id lc))
                 (list_collaborators (db w))).
Proof.
  intros Hpk Hin Hlpos Hupos.
  pose proof (distinct_first l_id (lists (db w)) l Hpk Hin) as Hl.
  assert (Hown : existsb (fun l0 => (l_id l0 =? l_id l) && (l_owner_id l0 =? l_owner_id l))
                         (lists (db w)) = true).
  { apply owns_iff. exists l. auto. }
  unfold endpoints_collaborators.remove_collaborator, result, after.
  rewrite run_bind, verify_list_ownership_run, Hown.
  replace ((0 <? l_id l) && (0 <? user_id)) with true
    by (symmetry; apply andb_true_iff; split; apply Z.ltb_lt; assumption).
  cbn [negb].
  rewrite run_try_except, run_bind, delete_collaborator_run.
  cbn [db sent lists list_collaborators saved].
  rewrite Hl. cbn [map first_row hd_error opt_eqb].
  rewrite (Z.eqb_sym (l_owner_id l) user_id).
  destruct (user_id =? l_owner_id l) eqn:Eo.
  - cbn [negb]. rewrite run_bind, get_list_by_id_run. cbn [db sent lists].
    rewrite Hl. cbn [first_row hd_error]. rewrite (Z.eqb_sym (l_owner_id l) user_id), Eo.
    split; reflexivity.
  - destruct (existsb (crud_list.is_collaborator_row (l_id l) user_id)
                      (list_collaborators (db w))) eqn:Ec; cbn [negb].
    + split; reflexivity.
    + rewrite run_bind, get_list_by_id_run.
      cbn [db sent lists set_list_collaborators].
      rewrite Hl. cbn [first_row hd_error]. rewrite (Z.eqb_sym (l_owner_id l) user_id), Eo.
      rewrite run_bind, check_user_exists_run.
      cbn [db sent users set_list_collaborators].
      destruct (existsb (crud_user.has_id user_id) (users (db w))); split; reflexivity.
Qed.

(** The removal endpoint for the owner, with a path parameter out of its
    bounds. *)
Lemma remove_collaborator_out_of_bounds (w : World) (l : ListRow) (user_id : Z) :
  In l (lists (db w)) ->
  l_id l <= 0 \/ user_id <= 0 ->
  result (run (endpoints_collaborators.remove_collaborator (l_id l) user_id (l_owner_id l)) w)
  = inl RequestValidationError /\
  db (after (run (endpoints_collaborators.remove_collaborator (l_id l) user_id
                    (l_owner_id l)) w)) = db w.
Proof.
  intros Hin Hbad.
  assert (Hown : existsb (fun l0 => (l_id l0 =? l_id l) && (l_owner_id l0 =? l_owner_id l))
                         (lists (db w)) = true).
  { apply owns_iff. exists l. auto. }
  unfold endpoints_collaborators.remove_collaborator, result, after.
  rewrite run_bind, verify_list_ownership_run, Hown.
  replace ((0 <? l_id l) && (0 <? user_id)) with false.
  - split; reflexivity.
  - symmetry. apply andb_false_iff.
    destruct Hbad as [H | H]; [left | right]; apply Z.ltb_ge; exact H.
Qed.

(** X18. What the endpoint that removes a collaborator answers, with
    unique list ids.  To a caller who is not the owner: 404 when the list
    does not exist and 403 when it does, and no membership row is touched.
    To the owner: 422 when the list id or the user id of the path is not
    positive, and nothing is written; for positive ids, 400 for the
    owner's own id; 204 for a collaborator, whose membership rows are then
    gone; 404 "User is not a collaborator on this list." for a user who
    exists and is none; 404 "Collaborator user not found." for an id that
    no user has. *)
Theorem remove_collaborator_answers (w : World) (list_id user_id current_user_id : Z) :
  lists_pk (db w) = true ->
  (~ list_exists (db w) list_id ->
   result (run (endpoints_collaborators.remove_collaborator list_id user_id
                  current_user_id) w)
     = inl (HTTPException 404 "List not found")
   /\ db (after (run (endpoints_collaborators.remove_collaborator list_id user_id
                        current_user_id) w)) = db w) /\
  (list_exists (db w) list_id -> ~ owns (db w) current_user_id list_id ->
   result (run (endpoints_collaborators.remove_collaborator list_id user_id
                  current_user_id) w)
     = inl (HTTPException 403 "Not authorized for this list")
   /\ db (after (run (endpoints_collaborators.remove_collaborator list_id user_id
                        current_user_id) w)) = db w) /\
  (owns (db w) current_user_id list_id ->
   (list_id <= 0 \/ user_id <= 0 ->
    result (run (endpoints_collaborators.remove_collaborator list_id user_id
                   current_user_id) w)
      = inl RequestValidationError
    /\ db (after (run (endpoints_collaborators.remove_collaborator list_id user_id
                         current_user_id) w)) = db w) /\
   (0 < list_id -> 0 < user_id ->
    (user_id = current_user_id ->
     result (run (endpoints_collaborators.remove_collaborator list_id user_id
                    current_user_id) w)
       = inl (HTTPException 400 "Cannot remove the list owner as a collaborator.")
     /\ list_collaborators
          (db (after (run (endpoints_collaborators.remove_collaborator list_id user_id
                             current_user_id) w)))
        = list_collaborators (db w)) /\
    (user_id <> current_user_id -> collaborates (db w) user_id list_id ->
     result (run (endpoints_collaborators.remove_collaborator list_id user_id
                    current_user_id) w) = inr 204
     /\ ~ collaborates
            (db (after (run (endpoints_collaborators.remove_collaborator list_id user_id
                               current_user_id) w)))
            user_id list_id) /\
    (user_id <> current_user_id -> ~ collaborates (db w) user_id list_id ->
     user_exists (db w) user_id ->
     result (run (endpoints_collaborators.remove_collaborator list_id user_id
                    current_user_id) w)
       = inl (HTTPException 404 "User is not a collaborator on this list.")) /\
    (user_id <> current_user_id -> ~ collaborates (db w) user_id list_id ->
     ~ user_exists (db w) user_id ->
     result (run (endpoints_collaborators.remove_collaborator list_id user_id
                    current_user_id) w)
       = inl (HTTPException 404 "Collaborator user not found.")))).
Proof.
  intro Hpk. split; [| split].
  - intro Hno.
    destruct (proj2 (proj2 (ownership_checks_closed w list_id current_user_id))
                Hno) as [H1 H2].
    unfold endpoints_collaborators.remove_collaborator, result, after.
    rewrite run_bind. unfold result, after in H1, H2.
    destruct (run (deps.verify_list_ownership list_id current_user_id) w) as [[e | []] w1];
      simpl in *; [| discriminate].
    inversion H1. subst. split; [reflexivity | exact H2].
  - intros Hex Hno.
    destruct (proj1 (proj2 (ownership_checks_closed w list_id current_user_id))
                (conj Hex Hno)) as [H1 H2].
    unfold endpoints_collaborators.remove_collaborator, result, after.
    rewrite run_bind. unfold result, after in H1, H2.
    destruct (run (deps.verify_list_ownership list_id current_user_id) w) as [[e | []] w1];
      simpl in *; [| discriminate].
    inversion H1. subst. split; [reflexivity | exact H2].
  - intros [l [Hin [Hid Hown]]]. subst list_id current_user_id. split.
    + intro Hbad. apply (remove_collaborator_out_of_bounds w l user_id Hin Hbad).
    + intros Hlpos Hupos.
      destruct (remove_collaborator_by_owner w l user_id Hpk Hin Hlpos Hupos)
        as [Hres Hlc].
      rewrite Hres, Hlc.
      pose proof (collaborates_iff (db w) user_id (l_id l)) as Hc.
      pose proof (user_exists_iff (db w) user_id) as Hu.
      split; [| split; [| split]].
      * intros ->. rewrite Z.eqb_refl. split; reflexivity.
      * intros Hne Hco. apply Z.eqb_neq in Hne. rewrite Hne. rewrite (proj2 Hc Hco).
        split; [reflexivity|].
        intros [c [Hcin [H1 H2]]]. rewrite Hlc, Hne in Hcin.
        apply in_filter_not_row in Hcin. tauto.
      * intros Hne Hnc Hex. apply Z.eqb_neq in Hne. rewrite Hne.
        rewrite (proj2 (not_collaborates_iff _ _ _) Hnc), (proj2 Hu Hex). reflexivity.
      * intros Hne Hnc Hnex. apply Z.eqb_neq in Hne. rewrite Hne.
        rewrite (proj2 (not_collaborates_iff _ _ _) Hnc).
        rewrite (proj2 (is_user_iff _ _) Hnex). reflexivity.
Qed.

Lemma remove_collaborator_answers_witness :
  result (run (endpoints_collaborators.remove_collaborator 10 2 1) (fresh_world shared_db))
    = inr 204.
Proof.
  destruct (remove_collaborator_answers (fresh_world shared_db) 10 2 1 eq_refl)
    as [_ [_ H]].
  assert (Hown : owns (db (fresh_world shared_db)) 1 10) by (exists trip; simpl; auto).
  destruct (H Hown) as [_ H3].
  assert (H10 : 0 < 10) by lia. assert (H2 : 0 < 2) by lia.
  destruct (H3 H10 H2) as [_ [H4 _]].
  apply H4; [discriminate|]. exists (mkCollab 10 2). simpl. auto.
Defined.

(** A dependency that fails ends the request with its error and what it
    left of the store. *)
Lemma failed_dependency {A B} (p : Prog A) (f : A -> Prog B) (w : World) (e : exn) :
  result (run p w) = inl e ->
  run (bind p f) w = (inl e, after (run p w)).
Proof.
  unfold result, after. rewrite run_bind.
  destruct (run p w) as [[e' | a] w1]; simpl; intro H; [| discriminate].
  inversion H. reflexivity.
Qed.

(** [get_list_and_verify_ownership] by cases, for callers. *)
Lemma ownership_record_closed (w : World) (list_id user_id : Z) :
  lists_pk (db w) = true ->
  (list_exists (db w) list_id -> ~ owns (db w) user_id list_id ->
   result (run (deps.get_list_and_verify_ownership list_id user_id) w)
     = inl (HTTPException 403 "Not authorized for this list")) /\
  (~ list_exists (db w) list_id ->
   result (run (deps.get_list_and_verify_ownership list_id user_id) w)
     = inl (HTTPException 404 "List not found")) /\
  (forall l, In l (lists (db w)) -> l_id l = list_id -> l_owner_id l = user_id ->
     result (run (deps.get_list_and_verify_ownership list_id user_id) w) = inr l) /\
  after (run (deps.get_list_and_verify_ownership list_id user_id) w)
    = sent crud_list.sql_list_by_id (db w) (saved w) w.
Proof.
  intro Hpk. rewrite get_list_and_verify_ownership_run. unfold result, after.
  cbn [fst snd].
  split; [| split; [| split; [| reflexivity]]].
  - intros Hex Hno.
    destruct (first_list_row (db w) list_id Hex) as [r [Hr [Hin Hid]]].
    rewrite Hr.
    destruct (l_owner_id r =? user_id) eqn:Eo; [| reflexivity].
    exfalso. apply Hno. exists r. repeat split; auto. lia.
  - intros Hno. destruct (no_list_filter (db w) list_id Hno) as [Hf _].
    rewrite Hf. reflexivity.
  - intros l Hin Hid Hown. subst list_id user_id.
    rewrite (distinct_first l_id (lists (db w)) l Hpk Hin). simpl.
    rewrite Z.eqb_refl. reflexivity.
Qed.

(** X19. Inviting through the endpoint is for the owner only, and for a
    body that passes its model.  With unique list ids: a caller who does
    not own the list is answered 404 when the list does not exist and 403
    when it does -- also a collaborator of the list, and whatever the body
    is -- and nothing is written.  The owner is answered 422, and nothing
    is written, when the text of [email] is no e-mail address or the role
    is given and is neither "viewer" nor "editor".  Otherwise the CRUD
    outcome decides, on the address as the model holds it: 409 when it
    resolves to the owner or to a user who is a collaborator already, 201
    "Collaborator added" otherwise, with the membership row appended. *)
Theorem add_collaborator_endpoint_answers (EmailStr : string -> option string)
  (w : World) (list_id current_user_id : Z)
  (body : endpoints_collaborators.CollaboratorBody) :
  lists_pk (db w) = true ->
  (~ list_exists (db w) list_id ->
   result (run (endpoints_collaborators.add_collaborator EmailStr list_id
                  current_user_id body) w)
     = inl (HTTPException 404 "List not found")
   /\ db (after (run (endpoints_collaborators.add_collaborator EmailStr list_id
                        current_user_id body) w)) = db w) /\
  (list_exists (db w) list_id -> ~ owns (db w) current_user_id list_id ->
   result (run (endpoints_collaborators.add_collaborator EmailStr list_id
                  current_user_id body) w)
     = inl (HTTPException 403 "Not authorized for this list")
   /\ db (after (run (endpoints_collaborators.add_collaborator EmailStr list_id
                        current_user_id body) w)) = db w) /\
  (owns (db w) current_user_id list_id ->
   (EmailStr (endpoints_collaborators.body_email body) = None ->
    result (run (endpoints_collaborators.add_collaborator EmailStr list_id
                   current_user_id body) w)
      = inl RequestValidationError
    /\ db (after (run (endpoints_collaborators.add_collaborator EmailStr list_id
                         current_user_id body) w)) = db w) /\
   (forall r, endpoints_collaborators.body_role body = Some r ->
    r <> "viewer" -> r <> "editor" ->
    result (run (endpoints_collaborators.add_collaborator EmailStr list_id
                   current_user_id body) w)
      = inl RequestValidationError
    /\ db (after (run (endpoints_collaborators.add_collaborator EmailStr list_id
                         current_user_id body) w)) = db w) /\
   (forall email,
    EmailStr (endpoints_collaborators.body_email body) = Some email ->
    endpoints_collaborators.body_role body = None
    \/ endpoints_collaborators.body_role body = Some "viewer"
    \/ endpoints_collaborators.body_role body = Some "editor" ->
    (resolved_user (db w) email = current_user_id ->
     result (run (endpoints_collaborators.add_collaborator EmailStr list_id
                    current_user_id body) w)
       = inl (HTTPException 409 "Owner is already a collaborator.")) /\
    (resolved_user (db w) email <> current_user_id ->
     collaborates (db w) (resolved_user (db w) email) list_id ->
     result (run (endpoints_collaborators.add_collaborator EmailStr list_id
                    current_user_id body) w)
       = inl (HTTPException 409 "User is already a collaborator.")) /\
    (resolved_user (db w) email <> current_user_id ->
     ~ collaborates (db w) (resolved_user (db w) email) list_id ->
     result (run (endpoints_collaborators.add_collaborator EmailStr list_id
                    current_user_id body) w)
       = inr (endpoints_users.mkMessage 201 "Collaborator added")
     /\ list_collaborators
          (db (after (run (endpoints_collaborators.add_collaborator EmailStr list_id
                             current_user_id body) w)))
        = list_collaborators (db w) ++ [mkCollab list_id (resolved_user (db w) email)]))).
Proof.
  intro Hpk.
  destruct (ownership_record_closed w list_id current_user_id Hpk)
    as [Hdenied [Hmissing [Howner Hafter]]].
  split; [| split].
  - intro Hno. unfold endpoints_collaborators.add_collaborator.
    rewrite (failed_dependency _ _ w _ (Hmissing Hno)), Hafter.
    split; reflexivity.
  - intros Hex Hno. unfold endpoints_collaborators.add_collaborator.
    rewrite (failed_dependency _ _ w _ (Hdenied Hex Hno)), Hafter.
    split; reflexivity.
  - intros [l [Hin [Hid Hown]]]. subst list_id current_user_id.
    pose proof (distinct_first l_id (lists (db w)) l Hpk Hin) as Hl.
    set (w0 := sent crud_list.sql_list_by_id (db w) (saved w) w).
    assert (Hbad : endpoints_collaborators.CollaboratorAdd_validate EmailStr body = None ->
              result (run (endpoints_collaborators.add_collaborator EmailStr (l_id l)
                             (l_owner_id l) body) w)
                = inl RequestValidationError
              /\ db (after (run (endpoints_collaborators.add_collaborator EmailStr (l_id l)
                                   (l_owner_id l) body) w)) = db w).
    { intro Hv. unfold endpoints_collaborators.add_collaborator.
      rewrite run_bind, get_list_and_verify_ownership_run, Hl.
      cbn [first_row hd_error]. rewrite Z.eqb_refl. cbn [negb]. rewrite Hv.
      split; reflexivity. }
    assert (Hrun : forall collaborator,
              endpoints_collaborators.CollaboratorAdd_validate EmailStr body
                = Some collaborator ->
              run (endpoints_collaborators.add_collaborator EmailStr (l_id l)
                     (l_owner_id l) body) w
                = run (try_except
                         (crud_list.add_collaborator_to_list (l_id l)
                            (endpoints_collaborators.email collaborator) ;;
                          Ret (endpoints_users.mkMessage 201 "Collaborator added"))
                         (fun exc =>
                            match exc with
                            | CollaboratorAlreadyExistsError _ =>
                                Raise (HTTPException 409 (str_exn exc))
                            | List_DatabaseInteractionError _ =>
                                Raise (HTTPException 500 "Database error")
                            | _ => Raise exc
                            end)) w0).
    { intros collaborator Hv. unfold endpoints_collaborators.add_collaborator.
      rewrite run_bind, get_list_and_verify_ownership_run, Hl.
      cbn [first_row hd_error]. rewrite Z.eqb_refl. cbn [negb]. rewrite Hv.
      reflexivity. }
    split; [| split].
    + intro He. apply Hbad. unfold endpoints_collaborators.CollaboratorAdd_validate.
      rewrite He. reflexivity.
    + intros r Hr Hn1 Hn2. apply Hbad.
      unfold endpoints_collaborators.CollaboratorAdd_validate.
      destruct (EmailStr (endpoints_collaborators.body_email body)); [| reflexivity].
      rewrite Hr. apply String.eqb_neq in Hn1, Hn2. rewrite Hn1, Hn2. reflexivity.
    + intros email He Hrole.
      assert (Hv : exists collaborator,
                endpoints_collaborators.CollaboratorAdd_validate EmailStr body
                  = Some collaborator
                /\ endpoints_collaborators.email collaborator = email).
      { unfold endpoints_collaborators.CollaboratorAdd_validate. rewrite He.
        destruct Hrole as [-> | [-> | ->]]; eexists; split; reflexivity. }
      destruct Hv as [collaborator [Hv Hemail]].
      rewrite (Hrun collaborator Hv), Hemail, run_try_except, run_bind.
      destruct (add_collaborator_state w0 l email Hpk Hin)
        as [w1 [Hc1 [_ [_ [_ [_ Hadd]]]]]].
      change (db w0) with (db w) in Hadd, Hc1. rewrite Hadd.
      pose proof (collaborates_iff (db w) (resolved_user (db w) email) (l_id l)) as Hc.
      unfold result, after.
      split; [| split].
      * intros ->. rewrite Z.eqb_refl. reflexivity.
      * intros Hne Hco.
        rewrite (proj2 (Z.eqb_neq _ _) (not_eq_sym Hne)), (proj2 Hc Hco). reflexivity.
      * intros Hne Hnc.
        rewrite (proj2 (Z.eqb_neq _ _) (not_eq_sym Hne)).
        rewrite (proj2 (not_collaborates_iff _ _ _) Hnc). cbn. auto.
Qed.

Lemma add_collaborator_endpoint_answers_witness :
  result (run (endpoints_collaborators.add_collaborator (fun address => Some address)
                 10 2
                 (endpoints_collaborators.mkCollaboratorBody "bob@example.com" None))
              (fresh_world shared_db))
    = inl (HTTPException 403 "Not authorized for this list").
Proof.
  destruct (add_collaborator_endpoint_answers (fun address => Some address)
              (fresh_world shared_db) 10 2
              (endpoints_collaborators.mkCollaboratorBody "bob@example.com" None)
              eq_refl) as [_ [H _]].
  apply H.
  - exists trip. simpl. auto.
  - intros [l [Hin [Hid Ho]]]. simpl in Hin.
    destruct Hin as [<- | [<- | []]]; discriminate.
Defined.

(* ------------------------------------------------------------------------- *)
(** ** The place endpoints                                                    *)
(* ------------------------------------------------------------------------- *)

(** [get_list_and_verify_access] for a user with access, for callers. *)
Lemma access_record_closed (w : World) (l : ListRow) (user_id : Z) :
  lists_pk (db w) = true -> In l (lists (db w)) ->
  has_access (db w) user_id (l_id l) ->
  run (deps.get_list_and_verify_access (l_id l) user_id) w
  = (inr l, sent crud_list.sql_list_by_id (db w) (saved w)
                 (sent crud_list.sql_access (db w) (saved w) w)).
Proof.
  intros Hpk Hin Hacc. rewrite get_list_and_verify_access_run.
  apply select_access_iff in Hacc.
  rewrite (distinct_first l_id (lists (db w)) l Hpk Hin). cbn [first_row hd_error].
  destruct (fst (crud_list.select_access (l_id l) user_id (db w) 0)) as [e | [z |]];
    try reflexivity.
  exfalso. apply Hacc. reflexivity.
Qed.

(** X20. What a collaborator may do with the places of a list.  For a
    user who has a membership row for the list and is not its owner (list
    ids unique): the endpoint that adds a place answers 403 "Not authorized
    for this list" and writes nothing -- it depends on the ownership check,
    not on the access check --, while the endpoint that deletes a place
    answers 204 for a place of the list, which is then gone, and 404 "Place
    not found in this list" for any other place id. *)
Theorem collaborator_place_rights (w : World) (l : ListRow) (current_user_id : Z) :
  lists_pk (db w) = true -> In l (lists (db w)) ->
  current_user_id <> l_owner_id l -> collaborates (db w) current_user_id (l_id l) ->
  (forall place,
     result (run (endpoints_lists.add_place_to_list (l_id l) current_user_id place) w)
       = inl (HTTPException 403 "Not authorized for this list")
     /\ db (after (run (endpoints_lists.add_place_to_list (l_id l) current_user_id place) w))
        = db w) /\
  (forall place_id, place_in_list (db w) place_id (l_id l) ->
     result (run (endpoints_lists.delete_place_from_list_endpoint (l_id l) place_id
                    current_user_id) w) = inr 204
     /\ ~ place_in_list
            (db (after (run (endpoints_lists.delete_place_from_list_endpoint (l_id l)
                               place_id current_user_id) w)))
            place_id (l_id l)) /\
  (forall place_id, ~ place_in_list (db w) place_id (l_id l) ->
     result (run (endpoints_lists.delete_place_from_list_endpoint (l_id l) place_id
                    current_user_id) w)
       = inl (HTTPException 404 "Place not found in this list")
     /\ places (db (after (run (endpoints_lists.delete_place_from_list_endpoint (l_id l)
                                  place_id current_user_id) w)))
        = places (db w)).
Proof.
  intros Hpk Hin Hne Hco.
  assert (Hex : list_exists (db w) (l_id l)) by (exists l; auto).
  assert (Hacc : has_access (db w) current_user_id (l_id l)) by (right; auto).
  pose proof (not_owns_other (db w) l current_user_id Hpk Hin Hne) as Hno.
  destruct (ownership_record_closed w (l_id l) current_user_id Hpk)
    as [Hdenied [_ [_ Hafter]]].
  pose proof (access_record_closed w l current_user_id Hpk Hin Hacc) as Hdep.
  split; [| split].
  - intro place. unfold endpoints_lists.add_place_to_list.
    rewrite (failed_dependency _ _ w _ (Hdenied Hex Hno)), Hafter.
    split; reflexivity.
  - intros place_id Hp. unfold endpoints_lists.delete_place_from_list_endpoint.
    rewrite run_bind, Hdep, run_try_except, run_bind, delete_place_run.
    cbn [db sent places].
    rewrite (proj2 (is_place_iff (db w) place_id (l_id l)) Hp).
    unfold result, after. cbn. split; [reflexivity|].
    intros [p [Hpin [H1 H2]]]. apply in_filter_not_place in Hpin. tauto.
  - intros place_id Hp. unfold endpoints_lists.delete_place_from_list_endpoint.
    rewrite run_bind, Hdep, run_try_except, run_bind, delete_place_run.
    cbn [db sent places].
    pose proof (not_place_every_row (db w) place_id (l_id l) Hp) as Hrow.
    assert (He : existsb (crud_place.is_place place_id (l_id l)) (places (db w)) = false).
    { destruct (existsb _ _) eqn:E; auto. exfalso. apply Hp. apply is_place_iff. exact E. }
    rewrite He. unfold result, after. cbn. split; [reflexivity|].
    apply filter_all. exact Hrow.
Qed.

Lemma collaborator_place_rights_witness :
  result (run (endpoints_lists.delete_place_from_list_endpoint 10 100 2)
              (fresh_world shared_db)) = inr 204.
Proof.
  destruct (collaborator_place_rights (fresh_world shared_db) trip 2)
    as [_ [H _]].
  - reflexivity.
  - simpl. auto.
  - discriminate.
  - exists (mkCollab 10 2). simpl. auto.
  - apply H. exists cafe. simpl. auto.
Defined.

(* ------------------------------------------------------------------------- *)
(** ** The owner flag of a list response                                      *)
(* ------------------------------------------------------------------------- *)

(** X21. The owner flag that [build_list_detail] derives.  A flag that the
    record brings along wins, and on a row that carries [owner_id] the flag
    says whether the requester is the owner.  The mapping that
    [get_list_details] builds has neither an owner flag nor [owner_id], so
    for it [_compute_is_owner] falls through to [True]: the mapping handed
    to the response model says [is_owner = True] for every requester --
    also for one who does not own the list -- and keeps the collaborators
    as they are. *)
Theorem details_report_every_requester_as_owner :
  (forall details requester_id,
     list_helpers._compute_is_owner (list_helpers.of_list_details details) requester_id
       = true) /\
  (forall details requester_id,
     list_helpers.get "is_owner"
       (list_helpers.build_list_detail_data (list_helpers.of_list_details details)
                                            requester_id)
       = Some (list_helpers.v_bool true)
     /\ list_helpers.get "collaborators"
          (list_helpers.build_list_detail_data (list_helpers.of_list_details details)
                                               requester_id)
        = Some (list_helpers.v_list (crud_list.d_collaborators details))) /\
  (forall (w : World) list_id requester_id, list_exists (db w) list_id ->
     exists details,
       result (run (crud_list.get_list_details list_id) w) = inr (Some details)
       /\ list_helpers._compute_is_owner (list_helpers.of_list_details details)
            requester_id = true) /\
  (forall l requester_id,
     list_helpers._compute_is_owner (list_helpers.of_list_row l) requester_id
       = (requester_id =? l_owner_id l)) /\
  (forall data requester_id flag,
     list_helpers.get "is_owner" data = Some (list_helpers.v_bool flag) ->
     list_helpers._compute_is_owner data requester_id = flag).
Proof.
  split; [reflexivity|]. split; [intros; split; reflexivity|].
  split; [| split].
  - intros w list_id requester_id Hex.
    destruct (first_list_row (db w) list_id Hex) as [r [Hr _]].
    rewrite get_list_details_run. unfold result, list_details. cbn [fst].
    destruct (filter (fun l => l_id l =? list_id) (lists (db w))) as [| l ls];
      [discriminate|].
    eexists. split; reflexivity.
  - reflexivity.
  - intros data requester_id flag H. unfold list_helpers._compute_is_owner.
    rewrite H. reflexivity.
Qed.

(* ------------------------------------------------------------------------- *)
(** ** Creating and deleting lists                                            *)
(* ------------------------------------------------------------------------- *)

Lemma create_list_run (w : World) (list_in : crud_list.ListCreate) (owner_id : Z) :
  user_exists (db w) owner_id -> lists_id_fresh (db w) = true ->
  run (crud_list.create_list list_in owner_id) w =
  (inr (crud_list.returning (created_list (db w) list_in owner_id (clock w))),
   sent crud_list.sql_insert_list
        (set_lists (db w)
           (lists (db w) ++ [created_list (db w) list_in owner_id (clock w)])
           (lists_id_seq (db w) + 1))
        (saved w) w).
Proof.
  intros Hu Hfresh. apply user_exists_iff in Hu. unfold crud_user.has_id in Hu.
  unfold lists_id_fresh in Hfresh. apply negb_true_iff in Hfresh.
  unfold crud_list.create_list, crud_list.insert_list.
  rewrite run_try_except, run_bind, run_db_call. cbn [fst snd].
  rewrite Hfresh, Hu. reflexivity.
Qed.

Lemma delete_list_run (w : World) (list_id : Z) :
  run (crud_list.delete_list list_id) w =
  (inr (existsb (fun l => l_id l =? list_id) (lists (db w))),
   sent crud_list.sql_delete_list
        (snd (crud_list.delete_lists list_id (db w) (clock w))) (saved w) w).
Proof.
  unfold crud_list.delete_list.
  rewrite run_try_except, run_bind, run_db_call.
  unfold crud_list.delete_lists at 1. cbn -[tag_count command_tag crud_list.delete_lists].
  rewrite tag_count_delete, some_deleted. reflexivity.
Qed.

Lemma fresh_list_every (d : DB) :
  lists_id_fresh d = true ->
  forall l, In l (lists d) -> (l_id l =? lists_id_seq d) = false.
Proof.
  intros H l Hin. unfold lists_id_fresh in H. apply negb_true_iff in H.
  destruct (l_id l =? lists_id_seq d) eqn:E; auto.
  assert (existsb (fun l => l_id l =? lists_id_seq d) (lists d) = true)
    by (apply existsb_exists; exists l; auto).
  congruence.
Qed.

Lemma no_emails_for_new_list (d : DB) (ls : list ListRow) (seq : Z) :
  collaborators_fk d = true -> lists_id_fresh d = true ->
  crud_list.collaborator_emails (lists_id_seq d) (set_lists d ls seq) = [].
Proof.
  intros Hfk Hfresh. unfold crud_list.collaborator_emails. cbn [list_collaborators users set_lists].
  rewrite filter_none; [reflexivity|].
  intros [c u] Hin. apply in_inner_join in Hin. destruct Hin as [Hc _].
  unfold collaborators_fk in Hfk. rewrite forallb_forall in Hfk.
  specialize (Hfk c Hc). apply existsb_exists in Hfk. destruct Hfk as [l [Hl Hid]].
  simpl. apply Z.eqb_eq in Hid.
  pose proof (fresh_list_every d Hfresh l Hl) as Hne.
  apply Z.eqb_neq in Hne. apply Z.eqb_neq. congruence.
Qed.

(** X22. Creating a list and reading it back.  For an owner who exists,
    on a store whose list id sequence is ahead of the stored lists and
    whose membership rows all point to stored lists, [create_list] appends
    one row under the next id with the payload's name, description and
    visibility and the given owner, and answers with the id and these
    three fields; [get_list_details] of that id then
    returns these fields with no collaborators, [check_list_ownership]
    passes for the owner, and [delete_list] of the id returns [True] and
    leaves the lists as they were before. *)
Theorem create_then_read_list (w : World) (list_in : crud_list.ListCreate) (owner_id : Z) :
  user_exists (db w) owner_id -> lists_id_fresh (db w) = true ->
  collaborators_fk (db w) = true ->
  result (run (crud_list.create_list list_in owner_id) w)
    = inr (crud_list.mkListRecord (lists_id_seq (db w))
             (Some (crud_list.create_name list_in))
             (crud_list.create_description list_in)
             (Some (crud_list.create_isPrivate list_in))) /\
  lists (db (after (run (crud_list.create_list list_in owner_id) w)))
    = lists (db w) ++ [created_list (db w) list_in owner_id (clock w)] /\
  result (run (crud_list.get_list_details (lists_id_seq (db w)))
              (after (run (crud_list.create_list list_in owner_id) w)))
    = inr (Some (crud_list.mkDetails (lists_id_seq (db w))
                   (Some (crud_list.create_name list_in))
                   (crud_list.create_description list_in)
                   (Some (crud_list.create_isPrivate list_in)) [])) /\
  result (run (crud_list.check_list_ownership (lists_id_seq (db w)) owner_id)
              (after (run (crud_list.create_list list_in owner_id) w)))
    = inr tt /\
  result (run (crud_list.delete_list (lists_id_seq (db w)))
              (after (run (crud_list.create_list list_in owner_id) w)))
    = inr true /\
  lists (db (after (run (crud_list.delete_list (lists_id_seq (db w)))
                        (after (run (crud_list.create_list list_in owner_id) w)))))
    = lists (db w).
Proof.
  intros Hu Hfresh Hfk.
  rewrite (create_list_run w list_in owner_id Hu Hfresh).
  unfold result, after. cbn [fst snd].
  set (row := created_list (db w) list_in owner_id (clock w)).
  pose proof (fresh_list_every (db w) Hfresh) as Hold.
  assert (Hrow : (l_id row =? lists_id_seq (db w)) = true) by apply Z.eqb_refl.
  assert (Hfilter : filter (fun l => l_id l =? lists_id_seq (db w)) (lists (db w) ++ [row])
                    = [row]).
  { rewrite filter_app, (filter_none _ _ Hold). simpl. rewrite Z.eqb_refl. reflexivity. }
  split; [reflexivity|]. split; [reflexivity|]. split; [| split; [| split]].
  - rewrite get_list_details_run. unfold list_details. cbn [fst db sent lists set_lists].
    rewrite Hfilter. rewrite (no_emails_for_new_list (db w) _ _ Hfk Hfresh). reflexivity.
  - rewrite check_list_ownership_run. cbn [db sent lists set_lists].
    rewrite existsb_app. cbn [existsb created_list row l_id l_owner_id].
    unfold row, created_list. cbn [l_id l_owner_id].
    rewrite !Z.eqb_refl. cbn [andb orb]. rewrite orb_true_r. reflexivity.
  - rewrite delete_list_run. cbn [fst db sent lists set_lists].
    rewrite existsb_app. cbn [existsb]. rewrite Hrow, orb_true_r. reflexivity.
  - rewrite delete_list_run. cbn [snd db sent]. unfold crud_list.delete_lists.
    cbn [snd lists set_lists]. rewrite Hfilter. cbn [lists].
    destruct (filter_app_new (fun l => l_id l =? lists_id_seq (db w)) (lists (db w)) row
                Hold Hrow) as [Hf _].
    exact Hf.
Qed.

Lemma create_then_read_list_witness :
  result (run (crud_list.get_list_details 12)
              (after (run (crud_list.create_list
                             (crud_list.mkListCreate "Bars" None false) 2)
                          (fresh_world example_db))))
    = inr (Some (crud_list.mkDetails 12 (Some "Bars") None (Some false) [])).
Proof.
  apply (create_then_read_list (fresh_world example_db)
           (crud_list.mkListCreate "Bars" None false) 2).
  - exists bob. simpl. auto.
  - reflexivity.
  - reflexivity.
Defined.

Lemma in_filter_other {A} (key : A -> Z) (k : Z) (l : list A) (x : A) :
  In x (filter (fun y => negb (key y =? k)) l) <-> In x l /\ key x <> k.
Proof.
  rewrite filter_In. split; intros [H1 H2]; split; auto.
  - apply negb_true_iff in H2. lia.
  - apply negb_true_iff. lia.
Qed.

Lemma fk_after_delete {A} (key : A -> Z) (k : Z) (rows : list A) (ls : list ListRow) :
  forallb (fun r => existsb (fun l => l_id l =? key r) ls) rows = true ->
  forallb (fun r => existsb (fun l => l_id l =? key r)
                            (filter (fun l => negb (l_id l =? k)) ls))
          (filter (fun r => negb (key r =? k)) rows) = true.
Proof.
  intro H. rewrite forallb_forall in *. intros r Hr.
  apply in_filter_other in Hr. destruct Hr as [Hin Hne].
  specialize (H r Hin). apply existsb_exists in H. destruct H as [l [Hl Hid]].
  apply existsb_exists. exists l. split; [| exact Hid].
  apply in_filter_other. split; [exact Hl | lia].
Qed.

(** X23. [delete_list] returns [True] exactly when a list with the id is
    stored, and afterwards none is; the other lists and the users are
    untouched.  With the list go its places and its membership rows -- the
    rows of other lists stay --, so membership rows and places that pointed
    to stored lists before still do.  For an id that no list has, nothing
    is written; deleting a second time returns [False]. *)
Theorem delete_list_cascades (w : World) (list_id : Z) :
  (result (run (crud_list.delete_list list_id) w) = inr true
   <-> list_exists (db w) list_id) /\
  ~ list_exists (db (after (run (crud_list.delete_list list_id) w))) list_id /\
  (forall l, In l (lists (db (after (run (crud_list.delete_list list_id) w))))
             <-> In l (lists (db w)) /\ l_id l <> list_id) /\
  (list_exists (db w) list_id ->
   (forall p, In p (places (db (after (run (crud_list.delete_list list_id) w))))
              <-> In p (places (db w)) /\ p_list_id p <> list_id) /\
   (forall c, In c (list_collaborators (db (after (run (crud_list.delete_list list_id) w))))
              <-> In c (list_collaborators (db w)) /\ lc_list_id c <> list_id)) /\
  (~ list_exists (db w) list_id ->
   db (after (run (crud_list.delete_list list_id) w)) = db w) /\
  users (db (after (run (crud_list.delete_list list_id) w))) = users (db w) /\
  (collaborators_fk (db w) = true ->
   collaborators_fk (db (after (run (crud_list.delete_list list_id) w))) = true) /\
  (places_fk (db w) = true ->
   places_fk (db (after (run (crud_list.delete_list list_id) w))) = true) /\
  result (run (crud_list.delete_list list_id)
              (after (run (crud_list.delete_list list_id) w))) = inr false.
Proof.
  rewrite !delete_list_run. unfold result, after. cbn [fst snd db sent].
  pose proof (list_exists_iff (db w) list_id) as He.
  unfold crud_list.delete_lists. cbn [snd].
  destruct (filter (fun l => l_id l =? list_id) (lists (db w))) as [| l0 ls0] eqn:Ef.
  - assert (Hno : ~ list_exists (db w) list_id).
    { intros [l [Hin Hid]].
      assert (H : In l (filter (fun l => l_id l =? list_id) (lists (db w))))
        by (apply filter_In; split; [exact Hin | lia]).
      rewrite Ef in H. destruct H. }
    destruct (no_list_filter (db w) list_id Hno) as [_ Hx]. rewrite Hx.
    split; [split; [discriminate | intro H; exfalso; exact (Hno H)]|].
    split; [exact Hno|].
    split; [intro l; split; [intro H; split; [exact H|] | tauto]|].
    { intro E. apply Hno. exists l. auto. }
    split; [intro H; exfalso; exact (Hno H)|].
    split; [reflexivity|]. split; [reflexivity|].
    split; [auto|]. split; [auto | reflexivity].
  - assert (Hex : list_exists (db w) list_id).
    { assert (H : In l0 (filter (fun l => l_id l =? list_id) (lists (db w))))
        by (rewrite Ef; left; reflexivity).
      apply filter_In in H. exists l0. split; [apply H | lia]. }
    rewrite (proj2 He Hex).
    assert (Hgone : ~ list_exists
                        (mkDB (schema (db w)) (users (db w))
                           (filter (fun l => negb (l_id l =? list_id)) (lists (db w)))
                           (filter (fun c => negb (lc_list_id c =? list_id))
                                   (list_collaborators (db w)))
                           (filter (fun p => negb (p_list_id p =? list_id)) (places (db w)))
                           (user_follows (db w)) (notifications (db w))
                           (users_id_seq (db w)) (lists_id_seq (db w))
                           (places_id_seq (db w))) list_id).
    { intros [l [Hin Hid]]. cbn in Hin. apply in_filter_other in Hin. tauto. }
    split; [tauto|]. split; [exact Hgone|].
    split; [intro l; cbn; apply in_filter_other|].
    split; [intros _; split; intro x; cbn; apply in_filter_other|].
    split; [intro H; exfalso; exact (H Hex)|].
    split; [reflexivity|].
    split; [| split].
    + intro Hfk. unfold collaborators_fk in *. cbn [lists list_collaborators].
      apply (fk_after_delete lc_list_id). exact Hfk.
    + intro Hfk. unfold places_fk in *. cbn [lists places].
      apply (fk_after_delete p_list_id). exact Hfk.
    + destruct (no_list_filter _ list_id Hgone) as [_ Hx]. rewrite Hx. reflexivity.
Qed.

(* ------------------------------------------------------------------------- *)
(** ** The collaboration helpers                                              *)
(* ------------------------------------------------------------------------- *)

Lemma is_owner_run (w : World) (list_id user_id : Z) :
  result (run (crud_list.is_owner list_id user_id) w)
  = inr (existsb (fun l => (l_id l =? list_id) && (l_owner_id l =? user_id))
                 (lists (db w))).
Proof.
  unfold crud_list.is_owner, crud_list.select_is_owner, result.
  rewrite run_bind, run_query. cbn [run fst]. rewrite first_row_map_const.
  induction (lists (db w)) as [| l ls IH]; [reflexivity|].
  cbn [filter existsb]. destruct ((l_id l =? list_id) && (l_owner_id l =? user_id));
    [reflexivity | exact IH].
Qed.

Lemma filter_existsb {A} (f : A -> bool) (l : list A) :
  existsb f l = match filter f l with [] => false | _ :: _ => true end.
Proof.
  induction l as [| x l IH]; [reflexivity|].
  simpl. destruct (f x); [reflexivity | exact IH].
Qed.

Lemma is_member_run (w : World) (list_id user_id : Z) :
  result (run (crud_list.is_member list_id user_id) w)
  = inr (existsb (fun l => (l_id l =? list_id) && (l_owner_id l =? user_id))
                 (lists (db w))
         || existsb (crud_list.is_collaborator_row list_id user_id)
                    (list_collaborators (db w))).
Proof.
  unfold crud_list.is_member, crud_list.select_is_member, result.
  rewrite run_bind, run_query. cbn [run fst].
  rewrite (filter_existsb _ (lists (db w))), (filter_existsb _ (list_collaborators (db w))).
  destruct (filter _ (lists (db w))); [| reflexivity].
  destruct (filter _ (list_collaborators (db w))); reflexivity.
Qed.

(** X24. The collaboration helpers answer like the permission checks.
    [is_owner] returns [True] exactly when [check_list_ownership] passes,
    that is for the owner.  When every membership row points to a stored
    list, [is_member] returns [True] exactly when [check_list_access]
    passes, that is for the owner and the collaborators.  For everyone else
    the helpers return [False] where the checks raise. *)
Theorem membership_helpers_agree (w : World) (list_id user_id : Z) :
  collaborators_fk (db w) = true ->
  (result (run (crud_list.is_owner list_id user_id) w) = inr true
   <-> owns (db w) user_id list_id) /\
  (result (run (crud_list.is_owner list_id user_id) w) = inr true
   <-> result (run (crud_list.check_list_ownership list_id user_id) w) = inr tt) /\
  (result (run (crud_list.is_owner list_id user_id) w) = inr false
   <-> ~ owns (db w) user_id list_id) /\
  (result (run (crud_list.is_member list_id user_id) w) = inr true
   <-> has_access (db w) user_id list_id) /\
  (result (run (crud_list.is_member list_id user_id) w) = inr true
   <-> result (run (crud_list.check_list_access list_id user_id) w) = inr tt) /\
  (result (run (crud_list.is_member list_id user_id) w) = inr false
   <-> ~ has_access (db w) user_id list_id).
Proof.
  intro Hfk.
  rewrite is_owner_run, is_member_run, check_list_ownership_run, check_list_access_run.
  pose proof (owns_iff (db w) user_id list_id) as Ho.
  pose proof (collaborates_iff (db w) user_id list_id) as Hc.
  pose proof (select_access_iff (db w) list_id user_id) as Ha.
  assert (Hacc : has_access (db w) user_id list_id
                 <-> owns (db w) user_id list_id \/ collaborates (db w) user_id list_id).
  { unfold has_access. split; [tauto|]. intros [H | H]; [left; exact H|].
    right. split; [| exact H]. destruct H as [c [Hin [Hl Hu]]].
    unfold collaborators_fk in Hfk. rewrite forallb_forall in Hfk.
    apply list_exists_iff. rewrite <- Hl. apply Hfk. exact Hin. }
  assert (Hm : existsb (fun l => (l_id l =? list_id) && (l_owner_id l =? user_id))
                       (lists (db w))
               || existsb (crud_list.is_collaborator_row list_id user_id)
                          (list_collaborators (db w)) = true
               <-> has_access (db w) user_id list_id).
  { rewrite orb_true_iff, Ho, Hc. symmetry. exact Hacc. }
  unfold result.
  destruct (existsb (fun l => (l_id l =? list_id) && (l_owner_id l =? user_id))
                    (lists (db w))) eqn:Eo;
    destruct (existsb (crud_list.is_collaborator_row list_id user_id)
                      (list_collaborators (db w))) eqn:Ec;
    cbn [orb fst] in *;
    destruct (fst (crud_list.select_access list_id user_id (db w) 0))
      as [e | [z |]] eqn:Es; cbn [fst];
    repeat split; intros;
    try reflexivity; try discriminate; try tauto;
    try (exfalso; intuition (try discriminate; try congruence); fail);
    try (intuition (try discriminate; try congruence); fail).
Qed.

Lemma membership_helpers_agree_witness :
  result (run (crud_list.is_member 10 2) (fresh_world shared_db)) = inr true.
Proof.
  destruct (membership_helpers_agree (fresh_world shared_db) 10 2 eq_refl)
    as [_ [_ [_ [H _]]]].
  apply H. right. split.
  - exists trip. simpl. auto.
  - exists (mkCollab 10 2). simpl. auto.
Defined.

(* ------------------------------------------------------------------------- *)
(** ** Pages out of range                                                     *)
(* ------------------------------------------------------------------------- *)

Lemma get_places_any_page (w : World) (list_id page page_size : Z) :
  result (run (crud_place.get_places_by_list_id_paginated list_id page page_size) w)
  = if count (crud_place.listed list_id (db w)) =? 0 then inr ([], 0)
    else match limit_offset page_size ((page - 1) * page_size)
                            (crud_place.listed list_id (db w)) with
         | inl _ => inl (Place_DatabaseInteractionError "Database error fetching places.")
         | inr items => inr (items, count (crud_place.listed list_id (db w)))
         end.
Proof.
  unfold crud_place.get_places_by_list_id_paginated, crud_place.select_count_places,
    crud_place.select_places_page, result.
  cbn -[String.append].
  match goal with
  | |- context [count ?l =? 0] =>
      replace (count l) with (count (crud_place.listed list_id (db w)))
        by (unfold count, crud_place.listed;
            repeat rewrite ?length_map, ?order_by_length; reflexivity)
  end.
  destruct (count (crud_place.listed list_id (db w)) =? 0); cbn -[String.append];
    [reflexivity|].
  destruct (limit_offset page_size ((page - 1) * page_size)
                         (crud_place.listed list_id (db w))); reflexivity.
Qed.

(** X25. [get_places_by_list_id_paginated] outside the pages that exist.
    For a list without places every request is answered with no items and
    a total of 0, whatever page and page size are: the page query is not
    sent.  For a list with places, a negative page size or a negative
    offset (a page below 1) makes the store refuse the query and the
    function raise its [DatabaseInteractionError]; a page past the last
    one, and a page size of 0, are answered with no items and the true
    total. *)
Theorem places_pages_out_of_range (w : World) (list_id : Z) :
  (count (crud_place.listed list_id (db w)) = 0 ->
   forall page page_size,
     result (run (crud_place.get_places_by_list_id_paginated list_id page page_size) w)
       = inr ([], 0)
     /\ List.length
          (log (after (run (crud_place.get_places_by_list_id_paginated list_id page
                              page_size) w)))
        = S (List.length (log w))) /\
  (count (crud_place.listed list_id (db w)) <> 0 ->
   forall page page_size, page_size < 0 \/ (page - 1) * page_size < 0 ->
     result (run (crud_place.get_places_by_list_id_paginated list_id page page_size) w)
       = inl (Place_DatabaseInteractionError "Database error fetching places.")) /\
  (count (crud_place.listed list_id (db w)) <> 0 ->
   forall page page_size, 0 <= page_size ->
     count (crud_place.listed list_id (db w)) <= (page - 1) * page_size ->
     result (run (crud_place.get_places_by_list_id_paginated list_id page page_size) w)
       = inr ([], count (crud_place.listed list_id (db w)))) /\
  (count (crud_place.listed list_id (db w)) <> 0 ->
   forall page, 1 <= page ->
     result (run (crud_place.get_places_by_list_id_paginated list_id page 0) w)
       = inr ([], count (crud_place.listed list_id (db w)))) /\
  (forall page page_size,
     db (after (run (crud_place.get_places_by_list_id_paginated list_id page page_size) w))
       = db w).
Proof.
  split; [| split; [| split; [| split]]].
  - intros Hz page page_size. split.
    + rewrite get_places_any_page, Hz. reflexivity.
    + unfold crud_place.get_places_by_list_id_paginated, crud_place.select_count_places,
        after.
      cbn -[String.append].
      replace (count (filter (crud_place.in_list list_id) (places (db w))))
        with (count (crud_place.listed list_id (db w)))
        by (unfold count, crud_place.listed;
            repeat rewrite ?length_map, ?order_by_length; reflexivity).
      rewrite Hz. reflexivity.
  - intros Hnz page page_size H. rewrite get_places_any_page.
    apply Z.eqb_neq in Hnz. rewrite Hnz. unfold limit_offset.
    destruct (page_size <? 0) eqn:E1; [reflexivity|].
    destruct ((page - 1) * page_size <? 0) eqn:E2; [reflexivity|].
    apply Z.ltb_ge in E1. apply Z.ltb_ge in E2. lia.
  - intros Hnz page page_size Hps Hbeyond. rewrite get_places_any_page.
    apply Z.eqb_neq in Hnz. rewrite Hnz. unfold limit_offset.
    destruct (page_size <? 0) eqn:E1; [apply Z.ltb_lt in E1; lia|].
    destruct ((page - 1) * page_size <? 0) eqn:E2.
    { apply Z.ltb_lt in E2. unfold count in Hbeyond. lia. }
    rewrite skipn_all2; [rewrite firstn_nil; reflexivity|].
    unfold count in Hbeyond. lia.
  - intros Hnz page Hp. rewrite get_places_any_page.
    apply Z.eqb_neq in Hnz. rewrite Hnz. unfold limit_offset. cbn [Z.ltb Z.compare].
    replace ((page - 1) * 0) with 0 by lia. reflexivity.
  - intros page page_size.
    unfold crud_place.get_places_by_list_id_paginated, crud_place.select_count_places,
      crud_place.select_places_page, after.
    cbn -[String.append].
    destruct (count _ =? 0); cbn -[String.append]; [reflexivity|].
    destruct (limit_offset _ _ _); reflexivity.
Qed.

(** ** The follow listings and the follow edges *)

Lemma in_page_slice {R} (rows : list R) (page page_size : Z) (x : R) :
  In x (page_slice rows page page_size) -> In x rows.
Proof.
  unfold page_slice. intro H.
  rewrite <- (firstn_skipn (Z.to_nat ((page - 1) * page_size)) rows).
  apply in_or_app. right.
  rewrite <- (firstn_skipn (Z.to_nat page_size)
                (skipn (Z.to_nat ((page - 1) * page_size)) rows)).
  apply in_or_app. left. exact H.
Qed.

Lemma first_page_all {R} (rows : list R) (page_size : Z) :
  count rows <= page_size -> page_slice rows 1 page_size = rows.
Proof.
  unfold page_slice, count. intro H. cbn [Z.sub Z.add Z.opp Z.pos_sub Z.mul Z.to_nat].
  rewrite skipn_0. apply firstn_all2. lia.
Qed.

Lemma items_of_page {R} (p : Prog (list R * Z)) (w : World) (items : list R) (total : Z) :
  result (run p w) = inr (items, total) -> items_of (run p w) = items.
Proof. unfold result, items_of. intros ->. reflexivity. Qed.

Lemma followed_ids_iff (d : DB) (F T : Z) :
  In T (map f_followed_id (filter (crud_user.follows_of F) (user_follows d)))
  <-> follows d F T.
Proof.
  rewrite in_map_iff. unfold follows, crud_user.follows_of. split.
  - intros [f [H1 H2]]. apply filter_In in H2. destruct H2 as [H2 H3].
    exists f. repeat split; auto. lia.
  - intros [f [H1 [H2 H3]]]. exists f. split; auto.
    apply filter_In. split; auto. lia.
Qed.

Lemma follower_ids_iff (d : DB) (F T : Z) :
  In F (map f_follower_id (filter (crud_user.followers_of T) (user_follows d)))
  <-> follows d F T.
Proof.
  rewrite in_map_iff. unfold follows, crud_user.followers_of. split.
  - intros [f [H1 H2]]. apply filter_In in H2. destruct H2 as [H2 H3].
    exists f. repeat split; auto. lia.
  - intros [f [H1 [H2 H3]]]. exists f. split; auto.
    apply filter_In. split; auto. lia.
Qed.

Lemma following_count (scan : list UserRow -> list UserRow) (d : DB) (user_id : Z) :
  scans scan -> users_pk d = true -> follows_fk d = true ->
  count (crud_user.following scan user_id d)
  = count (filter (crud_user.follows_of user_id) (user_follows d)).
Proof.
  intros Hscan Hpk Hfk. unfold count. f_equal.
  rewrite <- (length_map f_followed_id), <- (length_map crud_user.i_id).
  apply Permutation_length, following_ids; assumption.
Qed.

Lemma followers_count (scan : list UserRow -> list UserRow) (d : DB) (user_id : Z) :
  scans scan -> users_pk d = true -> follows_fk d = true ->
  count (crud_user.followers scan user_id d)
  = count (filter (crud_user.followers_of user_id) (user_follows d)).
Proof.
  intros Hscan Hpk Hfk. unfold count. f_equal.
  rewrite <- (length_map f_follower_id),
    <- (length_map (fun r => crud_user.i_id (fst r))).
  apply Permutation_length, followers_ids; assumption.
Qed.

(** X26. The follow listings and the follow edges, with user ids unique
    and every follow edge between stored users, and in whatever order the
    store hands over users that tie.  Every user that a page of
    [get_following F] lists is followed by [F], every user that a page of
    [get_followers T] lists follows [T], and the flag of a listed follower
    says whether [T] follows that user back; the total that comes with a
    page is the number of edges.  A request for page 1 whose page size is
    not below that number lists them all: [T] is then among the users [F]
    follows exactly when the edge from [F] to [T] is stored, and exactly
    then [F] is among the followers of [T]. *)
Theorem follow_listings_mirror_edges (scan : list UserRow -> list UserRow)
  (w : World) (F T page page_size : Z) :
  scans scan -> users_pk (db w) = true -> follows_fk (db w) = true ->
  1 <= page -> 1 <= page_size ->
  (In T (map crud_user.i_id
             (items_of (run (crud_user.get_following scan F page page_size) w)))
   -> follows (db w) F T) /\
  (In F (map (fun r => crud_user.i_id (fst r))
             (items_of (run (crud_user.get_followers scan T page page_size) w)))
   -> follows (db w) F T) /\
  (forall r, In r (items_of (run (crud_user.get_followers scan T page page_size) w)) ->
     (snd r = true <-> follows (db w) T (crud_user.i_id (fst r)))) /\
  (exists items,
     result (run (crud_user.get_following scan F page page_size) w)
       = inr (items, count (filter (crud_user.follows_of F) (user_follows (db w))))) /\
  (exists items,
     result (run (crud_user.get_followers scan T page page_size) w)
       = inr (items, count (filter (crud_user.followers_of T) (user_follows (db w))))) /\
  (count (filter (crud_user.follows_of F) (user_follows (db w))) <= page_size ->
   (In T (map crud_user.i_id
              (items_of (run (crud_user.get_following scan F 1 page_size) w)))
    <-> follows (db w) F T)) /\
  (count (filter (crud_user.followers_of T) (user_follows (db w))) <= page_size ->
   (In F (map (fun r => crud_user.i_id (fst r))
              (items_of (run (crud_user.get_followers scan T 1 page_size) w)))
    <-> follows (db w) F T)).
Proof.
  intros Hscan Hpk Hfk Hp Hs.
  assert (H1 : 1 <= 1) by lia.
  pose proof (get_following_page scan w F page page_size Hscan Hpk Hfk Hp Hs) as Hing.
  pose proof (get_followers_page scan w T page page_size Hscan Hpk Hfk Hp Hs) as Hers.
  pose proof (get_following_page scan w F 1 page_size Hscan Hpk Hfk H1 Hs) as Hing1.
  pose proof (get_followers_page scan w T 1 page_size Hscan Hpk Hfk H1 Hs) as Hers1.
  rewrite (items_of_page _ _ _ _ Hing), (items_of_page _ _ _ _ Hers),
    (items_of_page _ _ _ _ Hing1), (items_of_page _ _ _ _ Hers1).
  rewrite Hing, Hers.
  rewrite (following_count scan (db w) F Hscan Hpk Hfk).
  rewrite (followers_count scan (db w) T Hscan Hpk Hfk).
  repeat match goal with |- _ /\ _ => split end.
  - intro H. apply in_map_iff in H. destruct H as [x [Hx Hin]].
    apply in_page_slice in Hin. apply followed_ids_iff.
    apply (Permutation_in _ (following_ids scan (db w) F Hscan Hpk Hfk)).
    apply in_map_iff. exists x. auto.
  - intro H. apply in_map_iff in H. destruct H as [x [Hx Hin]].
    apply in_page_slice in Hin. apply follower_ids_iff.
    apply (Permutation_in _ (followers_ids scan (db w) T Hscan Hpk Hfk)).
    apply in_map_iff. exists x. auto.
  - intros r Hr. apply in_page_slice in Hr.
    unfold crud_user.followers in Hr. apply in_map_iff in Hr.
    destruct Hr as [u [Hu _]]. subst r. cbn [fst snd crud_user.user_info crud_user.i_id].
    unfold crud_user.is_following. apply follows_iff.
  - eexists. reflexivity.
  - eexists. reflexivity.
  - intro Hall.
    rewrite first_page_all
      by (rewrite (following_count scan (db w) F Hscan Hpk Hfk); exact Hall).
    rewrite <- followed_ids_iff. split; apply Permutation_in.
    + apply following_ids; auto.
    + apply Permutation_sym, following_ids; auto.
  - intro Hall.
    rewrite first_page_all
      by (rewrite (followers_count scan (db w) T Hscan Hpk Hfk); exact Hall).
    rewrite <- follower_ids_iff. split; apply Permutation_in.
    + apply followers_ids; auto.
    + apply Permutation_sym, followers_ids; auto.
Qed.

Lemma follow_listings_mirror_edges_witness :
  In 1 (map crud_user.i_id
            (items_of (run (crud_user.get_following (@rev UserRow) 2 1 5)
                           (mkWorld shared_db 100 None []))))
  <-> follows shared_db 2 1.
Proof.
  assert (Hscan : scans (@rev UserRow))
    by (intro rows; apply Permutation_sym, Permutation_rev).
  assert (H1 : 1 <= 1) by lia. assert (H5 : 1 <= 5) by lia.
  destruct (follow_listings_mirror_edges (@rev UserRow) (mkWorld shared_db 100 None [])
              2 1 1 5 Hscan eq_refl eq_refl H1 H5) as [_ [_ [_ [_ [_ [H _]]]]]].
  apply H. vm_compute. discriminate.
Defined.

(** ** Searching users *)

Lemma like_any_suffix (s : string) : sql_like "%" s = true.
Proof.
  induction s as [| c s IH]; [reflexivity|].
  cbn in *. exact IH.
Qed.

Lemma like_percent_tail (p : string) (c : ascii) (s : string) :
  sql_like (String "%" p) s = true -> sql_like (String "%" p) (String c s) = true.
Proof.
  intro H. cbn [sql_like] in *. cbn [Ascii.eqb Bool.eqb] in *.
  apply orb_true_iff. right. exact H.
Qed.

Lemma like_percent_here (p s : string) :
  sql_like p s = true -> sql_like (String "%" p) s = true.
Proof.
  intro H. cbn [sql_like]. cbn [Ascii.eqb Bool.eqb].
  destruct s; rewrite H; reflexivity.
Qed.

Lemma like_literal_prefix (q b : string) : sql_like (q +++ "%") (q +++ b) = true.
Proof.
  induction q as [| c q IH]; [apply like_any_suffix|].
  cbn [String.append].
  destruct (Ascii.eqb c "%") eqn:E.
  - apply Ascii.eqb_eq in E. subst c.
    apply like_percent_tail, like_percent_here, IH.
  - cbn [sql_like]. rewrite E. rewrite Ascii.eqb_refl, orb_true_r. exact IH.
Qed.

Lemma like_contains (q a b : string) :
  sql_like ("%" +++ q +++ "%") (a +++ q +++ b) = true.
Proof.
  induction a as [| c a IH].
  - cbn [String.append]. apply like_percent_here, like_literal_prefix.
  - cbn [String.append] in *. apply like_percent_tail, IH.
Qed.

(** X27. A user search, for a query of ASCII characters.  No page of it
    lists the caller, and the flag of every user that a page lists says
    whether the caller follows that user.  A request for page 1 whose page
    size is not below the total it reports lists every other user whose
    e-mail address or user name, lowered by the store, contains the
    lowered query (for a query without a backslash, which [LIKE] reads as
    an escape). *)
Theorem search_users_results (w : World) (current_user_id : Z) (query_ : string)
  (page page_size : Z) :
  ascii_only query_ = true -> 1 <= page -> 1 <= page_size ->
  (forall r,
     In r (items_of (run (crud_user.search_users current_user_id query_ page page_size) w)) ->
     crud_user.i_id (fst r) <> current_user_id /\
     (snd r = true <-> follows (db w) current_user_id (crud_user.i_id (fst r)))) /\
  (exists items total_items,
     result (run (crud_user.search_users current_user_id query_ 1 page_size) w)
       = inr (items, total_items) /\
     (total_items <= page_size ->
      forall u a b, str_in "\" query_ = false ->
        In u (users (db w)) -> u_id u <> current_user_id ->
        (lower (u_email u) = a +++ lower query_ +++ b \/
         exists n, u_username u = Some n /\ lower n = a +++ lower query_ +++ b) ->
        In (crud_user.user_info u,
            crud_user.is_following (db w) current_user_id u) items)).
Proof.
  intros _ Hpage Hp.
  assert (H1 : 1 <= 1) by lia.
  pose proof (search_users_page w current_user_id query_ page page_size Hpage Hp) as Hany.
  pose proof (search_users_page w current_user_id query_ 1 page_size H1 Hp) as Hfirst.
  rewrite (items_of_page _ _ _ _ Hany). split.
  - intros r Hr. apply in_page_slice in Hr.
    unfold crud_user.searched in Hr.
    apply in_map_iff in Hr. destruct Hr as [u [Hu Hin]]. subst r.
    cbn [fst snd crud_user.user_info crud_user.i_id].
    apply (Permutation_in _ (order_by_perm _ _)) in Hin.
    apply filter_In in Hin. destruct Hin as [_ Hf].
    unfold crud_user.found_by in Hf. apply andb_true_iff in Hf.
    destruct Hf as [_ Hf]. split.
    + apply negb_true_iff in Hf. lia.
    + unfold crud_user.is_following. apply follows_iff.
  - eexists. eexists. split; [exact Hfirst|].
    intros Hall u a b _ Hin Hne Hm.
    rewrite (first_page_all _ _ Hall).
    unfold crud_user.searched.
    apply (in_map (fun u => (crud_user.user_info u,
                             crud_user.is_following (db w) current_user_id u))).
    apply (Permutation_in _ (Permutation_sym (order_by_perm _ _))).
    apply filter_In. split; [exact Hin|].
    unfold crud_user.found_by. apply andb_true_iff. split.
    + apply orb_true_iff. destruct Hm as [Hm | [n [Hn Hm]]].
      * left. rewrite Hm. apply like_contains.
      * right. rewrite Hn. cbn [null_or]. rewrite Hm. apply like_contains.
    + apply negb_true_iff. lia.
Qed.

Lemma search_users_results_witness :
  exists items total_items,
    result (run (crud_user.search_users 1 "BOB" 1 5) (mkWorld shared_db 100 None []))
      = inr (items, total_items) /\
    (total_items <= 5 ->
     In (crud_user.user_info bob, crud_user.is_following shared_db 1 bob) items).
Proof.
  assert (H1 : 1 <= 1) by lia. assert (H5 : 1 <= 5) by lia.
  destruct (search_users_results (mkWorld shared_db 100 None []) 1 "BOB" 1 5
              eq_refl H1 H5) as [_ [items [total_items [Hres Hall]]]].
  exists items, total_items. split; [exact Hres|].
  intro Hle. apply (Hall Hle bob "" "@example.com").
  - reflexivity.
  - right. left. reflexivity.
  - discriminate.
  - left. reflexivity.
Defined.

(** ** The endpoint that updates a place *)

(** X28. For a user with access to a list (list ids unique), the endpoint
    that updates a place answers 422, and writes nothing, for notes of
    more than 1000 characters; for a payload within that bound and a place
    id that is not in the list it answers 404 and leaves the places as they
    are; with an empty payload and a place of the list (place ids unique)
    it answers the stored place and writes nothing -- unless the stored
    place breaks the bounds of the response model, which is answered 500
    "Internal server error updating place". *)
Theorem update_place_endpoint_answers (w : World) (l : ListRow) (current_user_id : Z) :
  lists_pk (db w) = true -> In l (lists (db w)) ->
  has_access (db w) current_user_id (l_id l) ->
  (forall place_id notes, (1000 < String.length notes)%nat ->
     result (run (endpoints_lists.update_place_in_list (l_id l) place_id
                    current_user_id (crud_place.mkPlaceUpdate (given (Some notes)))) w)
       = inl RequestValidationError /\
     db (after (run (endpoints_lists.update_place_in_list (l_id l) place_id
                       current_user_id (crud_place.mkPlaceUpdate (given (Some notes)))) w))
       = db w) /\
  (forall place_id place_update,
     endpoints_lists.PlaceUpdate_valid place_update = true ->
     ~ place_in_list (db w) place_id (l_id l) ->
     (exists detail,
        result (run (endpoints_lists.update_place_in_list (l_id l) place_id
                       current_user_id place_update) w)
          = inl (HTTPException 404 detail)) /\
     places (db (after (run (endpoints_lists.update_place_in_list (l_id l) place_id
                               current_user_id place_update) w)))
       = places (db w)) /\
  (forall p, places_pk (db w) = true -> In p (places (db w)) -> p_list_id p = l_id l ->
     result (run (endpoints_lists.update_place_in_list (l_id l) (p_id p) current_user_id
                    (crud_place.mkPlaceUpdate unset)) w)
       = (if endpoints_lists.PlaceItem_valid (crud_place.place_item p)
          then inr (crud_place.place_item p)
          else inl (HTTPException 500 "Internal server error updating place")) /\
     db (after (run (endpoints_lists.update_place_in_list (l_id l) (p_id p)
                       current_user_id (crud_place.mkPlaceUpdate unset)) w))
       = db w).
Proof.
  intros Hpk Hin Hacc.
  pose proof (access_record_closed w l current_user_id Hpk Hin Hacc) as Hdep.
  split; [| split].
  - intros place_id notes Hlong.
    unfold endpoints_lists.update_place_in_list.
    rewrite run_bind, Hdep.
    unfold endpoints_lists.PlaceUpdate_valid. cbn [crud_place.upd_notes].
    replace (Nat.leb (String.length notes) 1000) with false
      by (symmetry; apply Nat.leb_gt; exact Hlong).
    split; reflexivity.
  - intros place_id place_update Hvalid Hp.
    unfold endpoints_lists.update_place_in_list.
    rewrite run_bind, Hdep, Hvalid. cbn [negb].
    rewrite run_try_except, run_bind.
    set (w1 := sent crud_list.sql_list_by_id (db w) (saved w)
                    (sent crud_list.sql_access (db w) (saved w) w)).
    destruct (update_place_fields_unmatched w1 place_id (l_id l)
                (crud_place.model_dump place_update) Hp) as [[m Hm] Hpl].
    unfold crud_place.update_place.
    unfold result, after in *.
    destruct (run (crud_place.update_place_fields place_id (l_id l)
                     (crud_place.model_dump place_update)) w1) as [r w2].
    cbn [fst snd] in *. subst r. cbn. split; [exists m; reflexivity | exact Hpl].
  - intros p Hppk Hpin Hpl.
    unfold endpoints_lists.update_place_in_list.
    rewrite run_bind, Hdep.
    unfold endpoints_lists.PlaceUpdate_valid. cbn [crud_place.upd_notes negb].
    rewrite run_try_except, run_bind, update_place_empty_run.
    cbn [db sent]. unfold current_place. rewrite <- Hpl.
    rewrite (place_pk_filter _ _ Hppk Hpin).
    unfold result, after.
    destruct (endpoints_lists.PlaceItem_valid (crud_place.place_item p));
      cbn; split; reflexivity.
Qed.

Lemma update_place_endpoint_answers_witness :
  result (run (endpoints_lists.update_place_in_list 10 100 2
                 (crud_place.mkPlaceUpdate unset)) (fresh_world shared_db))
  = inr (crud_place.place_item cafe).
Proof.
  destruct (update_place_endpoint_answers (fresh_world shared_db) trip 2)
    as [_ [_ H]].
  - reflexivity.
  - simpl. auto.
  - right. split; [exists trip | exists (mkCollab 10 2)]; simpl; auto.
  - destruct (H cafe) as [H1 _];
      [reflexivity | simpl; auto | reflexivity | exact H1].
Defined.
